(** * imx307: mode, control and streaming coordination of the Sony IMX307
      V4L2 sensor driver (src/imx307.c)

    The driver is embedded as state-passing functions over a record that
    holds [struct imx307] together with the part of the platform the driver
    talks to (runtime PM usage count, the I2C bus, the kernel log).  Driver
    functions keep their C names.  The V4L2 control framework, runtime PM
    and [v4l2_find_nearest_size] are kernel code that the driver calls; they
    are embedded after the kernel sources the driver was written against
    (drivers/media/v4l2-core/v4l2-ctrls.c, v4l2-common.c,
    drivers/base/power/runtime.c) and each such definition says so. *)

From Stdlib Require Import String.
From Stdlib Require Import ZArith List Bool Lia.
Import ListNotations.
Open Scope Z_scope.

(** ** Machine integers *)

(** [u32] and [s32] are the values an [unsigned int] / [int] holds after an
    operation whose mathematical result is [x]. *)
Definition u32 (x : Z) : Z := x mod 2 ^ 32.
Definition s32 (x : Z) : Z := (x + 2 ^ 31) mod 2 ^ 32 - 2 ^ 31.
Definition u16 (x : Z) : Z := x mod 2 ^ 16.
Definition u8 (x : Z) : Z := x mod 2 ^ 8.

(** ** Error numbers (include/uapi/asm-generic/errno-base.h) *)
Definition EIO : Z := 5.
Definition EACCES : Z := 13.
Definition EBUSY : Z := 16.
Definition EINVAL : Z := 22.
Definition ERANGE : Z := 34.

(** ** Driver constants (src/imx307.c, lines 25-117) *)
Definition imx307_REG_VALUE_08BIT : Z := 1.
Definition imx307_REG_VALUE_16BIT : Z := 2.
Definition imx307_REG_MODE_SELECT : Z := 0x0100.
Definition imx307_MODE_STANDBY : Z := 0x00.
Definition imx307_MODE_STREAMING : Z := 0x01.
Definition imx307_PIXEL_RATE : Z := 182400000.
Definition imx307_REG_VTS : Z := 0x0160.
Definition imx307_VTS_15FPS : Z := 0x0dc6.
Definition imx307_VTS_30FPS_1080P : Z := 0x06e3.
Definition imx307_VTS_30FPS_BINNED : Z := 0x06e3.
Definition imx307_VTS_30FPS_640x480 : Z := 0x06e3.
Definition imx307_VTS_MAX : Z := 0xffff.
Definition imx307_VBLANK_MIN : Z := 4.
Definition imx307_PPL_DEFAULT : Z := 3448.
Definition imx307_REG_EXPOSURE : Z := 0x015a.
Definition imx307_EXPOSURE_MIN : Z := 4.
Definition imx307_EXPOSURE_STEP : Z := 1.
Definition imx307_EXPOSURE_DEFAULT : Z := 0x640.
Definition imx307_REG_ANALOG_GAIN : Z := 0x0157.
Definition imx307_ANA_GAIN_MIN : Z := 0.
Definition imx307_ANA_GAIN_MAX : Z := 232.
Definition imx307_ANA_GAIN_STEP : Z := 1.
Definition imx307_ANA_GAIN_DEFAULT : Z := 0x0.
Definition imx307_REG_DIGITAL_GAIN : Z := 0x0158.
Definition imx307_DGTL_GAIN_MIN : Z := 0x0100.
Definition imx307_DGTL_GAIN_MAX : Z := 0x0fff.
Definition imx307_DGTL_GAIN_DEFAULT : Z := 0x0100.
Definition imx307_DGTL_GAIN_STEP : Z := 1.
Definition imx307_REG_ORIENTATION : Z := 0x0172.
Definition imx307_REG_TEST_PATTERN : Z := 0x0600.
Definition imx307_TEST_PATTERN_DISABLE : Z := 0.
Definition imx307_TEST_PATTERN_SOLID_COLOR : Z := 1.
Definition imx307_TEST_PATTERN_COLOR_BARS : Z := 2.
Definition imx307_TEST_PATTERN_GREY_COLOR : Z := 3.
Definition imx307_TEST_PATTERN_PN9 : Z := 4.
Definition imx307_REG_TESTP_RED : Z := 0x0602.
Definition imx307_REG_TESTP_GREENR : Z := 0x0604.
Definition imx307_REG_TESTP_BLUE : Z := 0x0606.
Definition imx307_REG_TESTP_GREENB : Z := 0x0608.
Definition imx307_TESTP_COLOUR_MIN : Z := 0.
Definition imx307_TESTP_COLOUR_MAX : Z := 0x03ff.
Definition imx307_TESTP_COLOUR_STEP : Z := 1.
Definition imx307_PIXEL_ARRAY_LEFT : Z := 8.
Definition imx307_PIXEL_ARRAY_TOP : Z := 8.
Definition imx307_PIXEL_ARRAY_WIDTH : Z := 3280.
Definition imx307_PIXEL_ARRAY_HEIGHT : Z := 2464.
Definition imx307_EMBEDDED_LINE_WIDTH : Z := 16384.
Definition imx307_NUM_EMBEDDED_LINES : Z := 1.
Definition imx307_XCLR_MIN_DELAY_US : Z := 6200.
Definition imx307_XCLR_DELAY_RANGE_US : Z := 1000.

(** [enum pad_types] *)
Definition IMAGE_PAD : Z := 0.
Definition METADATA_PAD : Z := 1.
Definition NUM_PADS : Z := 2.

(** ** Media bus codes and V4L2 enumerators the driver names
    (include/uapi/linux/media-bus-format.h, videodev2.h, v4l2-subdev.h) *)
Definition MEDIA_BUS_FMT_SBGGR8_1X8 : Z := 0x3001.
Definition MEDIA_BUS_FMT_SGBRG8_1X8 : Z := 0x3013.
Definition MEDIA_BUS_FMT_SGRBG8_1X8 : Z := 0x3002.
Definition MEDIA_BUS_FMT_SRGGB8_1X8 : Z := 0x3014.
Definition MEDIA_BUS_FMT_SBGGR10_1X10 : Z := 0x3007.
Definition MEDIA_BUS_FMT_SGBRG10_1X10 : Z := 0x300e.
Definition MEDIA_BUS_FMT_SGRBG10_1X10 : Z := 0x300a.
Definition MEDIA_BUS_FMT_SRGGB10_1X10 : Z := 0x300f.
Definition MEDIA_BUS_FMT_SENSOR_DATA : Z := 0x7002.
Definition V4L2_FIELD_NONE : Z := 1.
Definition V4L2_COLORSPACE_SRGB : Z := 8.
Definition V4L2_YCBCR_ENC_601 : Z := 1.
Definition V4L2_QUANTIZATION_FULL_RANGE : Z := 1.
Definition V4L2_XFER_FUNC_SRGB : Z := 2.
Definition V4L2_SUBDEV_FORMAT_TRY : Z := 0.
Definition V4L2_SUBDEV_FORMAT_ACTIVE : Z := 1.

(** ** Register program tables *)

(** [struct imx307_reg]: a 16-bit address and an 8-bit value. *)
Record imx307_reg := R { address : Z; reg_val : Z }.

Definition mode_3280x2464_regs : list imx307_reg :=
  [ R 0x0100 0x00; R 0x30eb 0x0c; R 0x30eb 0x05; R 0x300a 0xff;
    R 0x300b 0xff; R 0x30eb 0x05; R 0x30eb 0x09; R 0x0114 0x01;
    R 0x0128 0x00; R 0x012a 0x18; R 0x012b 0x00; R 0x0164 0x00;
    R 0x0165 0x00; R 0x0166 0x0c; R 0x0167 0xcf; R 0x0168 0x00;
    R 0x0169 0x00; R 0x016a 0x09; R 0x016b 0x9f; R 0x016c 0x0c;
    R 0x016d 0xd0; R 0x016e 0x09; R 0x016f 0xa0; R 0x0170 0x01;
    R 0x0171 0x01; R 0x0174 0x00; R 0x0175 0x00; R 0x0301 0x05;
    R 0x0303 0x01; R 0x0304 0x03; R 0x0305 0x03; R 0x0306 0x00;
    R 0x0307 0x39; R 0x030b 0x01; R 0x030c 0x00; R 0x030d 0x72;
    R 0x0624 0x0c; R 0x0625 0xd0; R 0x0626 0x09; R 0x0627 0xa0;
    R 0x455e 0x00; R 0x471e 0x4b; R 0x4767 0x0f; R 0x4750 0x14;
    R 0x4540 0x00; R 0x47b4 0x14; R 0x4713 0x30; R 0x478b 0x10;
    R 0x478f 0x10; R 0x4793 0x10; R 0x4797 0x0e; R 0x479b 0x0e;
    R 0x0162 0x0d; R 0x0163 0x78 ].

Definition mode_1920_1080_regs : list imx307_reg :=
  [ R 0x0100 0x00; R 0x30eb 0x05; R 0x30eb 0x0c; R 0x300a 0xff;
    R 0x300b 0xff; R 0x30eb 0x05; R 0x30eb 0x09; R 0x0114 0x01;
    R 0x0128 0x00; R 0x012a 0x18; R 0x012b 0x00; R 0x0162 0x0d;
    R 0x0163 0x78; R 0x0164 0x02; R 0x0165 0xa8; R 0x0166 0x0a;
    R 0x0167 0x27; R 0x0168 0x02; R 0x0169 0xb4; R 0x016a 0x06;
    R 0x016b 0xeb; R 0x016c 0x07; R 0x016d 0x80; R 0x016e 0x04;
    R 0x016f 0x38; R 0x0170 0x01; R 0x0171 0x01; R 0x0174 0x00;
    R 0x0175 0x00; R 0x0301 0x05; R 0x0303 0x01; R 0x0304 0x03;
    R 0x0305 0x03; R 0x0306 0x00; R 0x0307 0x39; R 0x030b 0x01;
    R 0x030c 0x00; R 0x030d 0x72; R 0x0624 0x07; R 0x0625 0x80;
    R 0x0626 0x04; R 0x0627 0x38; R 0x455e 0x00; R 0x471e 0x4b;
    R 0x4767 0x0f; R 0x4750 0x14; R 0x4540 0x00; R 0x47b4 0x14;
    R 0x4713 0x30; R 0x478b 0x10; R 0x478f 0x10; R 0x4793 0x10;
    R 0x4797 0x0e; R 0x479b 0x0e; R 0x0162 0x0d; R 0x0163 0x78 ].

Definition mode_1640_1232_regs : list imx307_reg :=
  [ R 0x0100 0x00; R 0x30eb 0x0c; R 0x30eb 0x05; R 0x300a 0xff;
    R 0x300b 0xff; R 0x30eb 0x05; R 0x30eb 0x09; R 0x0114 0x01;
    R 0x0128 0x00; R 0x012a 0x18; R 0x012b 0x00; R 0x0164 0x00;
    R 0x0165 0x00; R 0x0166 0x0c; R 0x0167 0xcf; R 0x0168 0x00;
    R 0x0169 0x00; R 0x016a 0x09; R 0x016b 0x9f; R 0x016c 0x06;
    R 0x016d 0x68; R 0x016e 0x04; R 0x016f 0xd0; R 0x0170 0x01;
    R 0x0171 0x01; R 0x0174 0x01; R 0x0175 0x01; R 0x0301 0x05;
    R 0x0303 0x01; R 0x0304 0x03; R 0x0305 0x03; R 0x0306 0x00;
    R 0x0307 0x39; R 0x030b 0x01; R 0x030c 0x00; R 0x030d 0x72;
    R 0x0624 0x06; R 0x0625 0x68; R 0x0626 0x04; R 0x0627 0xd0;
    R 0x455e 0x00; R 0x471e 0x4b; R 0x4767 0x0f; R 0x4750 0x14;
    R 0x4540 0x00; R 0x47b4 0x14; R 0x4713 0x30; R 0x478b 0x10;
    R 0x478f 0x10; R 0x4793 0x10; R 0x4797 0x0e; R 0x479b 0x0e;
    R 0x0162 0x0d; R 0x0163 0x78 ].

Definition mode_640_480_regs : list imx307_reg :=
  [ R 0x0100 0x00; R 0x30eb 0x05; R 0x30eb 0x0c; R 0x300a 0xff;
    R 0x300b 0xff; R 0x30eb 0x05; R 0x30eb 0x09; R 0x0114 0x01;
    R 0x0128 0x00; R 0x012a 0x18; R 0x012b 0x00; R 0x0162 0x0d;
    R 0x0163 0x78; R 0x0164 0x03; R 0x0165 0xe8; R 0x0166 0x08;
    R 0x0167 0xe7; R 0x0168 0x02; R 0x0169 0xf0; R 0x016a 0x06;
    R 0x016b 0xaf; R 0x016c 0x02; R 0x016d 0x80; R 0x016e 0x01;
    R 0x016f 0xe0; R 0x0170 0x01; R 0x0171 0x01; R 0x0174 0x03;
    R 0x0175 0x03; R 0x0301 0x05; R 0x0303 0x01; R 0x0304 0x03;
    R 0x0305 0x03; R 0x0306 0x00; R 0x0307 0x39; R 0x030b 0x01;
    R 0x030c 0x00; R 0x030d 0x72; R 0x0624 0x06; R 0x0625 0x68;
    R 0x0626 0x04; R 0x0627 0xd0; R 0x455e 0x00; R 0x471e 0x4b;
    R 0x4767 0x0f; R 0x4750 0x14; R 0x4540 0x00; R 0x47b4 0x14;
    R 0x4713 0x30; R 0x478b 0x10; R 0x478f 0x10; R 0x4793 0x10;
    R 0x4797 0x0e; R 0x479b 0x0e ].

Definition raw8_framefmt_regs : list imx307_reg :=
  [ R 0x018c 0x08; R 0x018d 0x08; R 0x0309 0x08 ].

Definition raw10_framefmt_regs : list imx307_reg :=
  [ R 0x018c 0x0a; R 0x018d 0x0a; R 0x0309 0x0a ].

(** ** Mode catalog *)

(** [struct v4l2_rect] *)
Record v4l2_rect := mk_rect { r_left : Z; r_top : Z; r_width : Z; r_height : Z }.

(** [struct imx307_mode]; [reg_list] carries the table itself, its
    [num_of_regs] is the length of that list. *)
Record imx307_mode := mk_mode {
  width : Z;
  height : Z;
  crop : v4l2_rect;
  vts_def : Z;
  reg_list : list imx307_reg
}.

Definition supported_modes : list imx307_mode :=
  [ (* 8MPix 15fps mode *)
    mk_mode 3280 2464
      (mk_rect imx307_PIXEL_ARRAY_LEFT imx307_PIXEL_ARRAY_TOP 3280 2464)
      imx307_VTS_15FPS mode_3280x2464_regs;
    (* 1080P 30fps cropped *)
    mk_mode 1920 1080 (mk_rect 688 700 1920 1080)
      imx307_VTS_30FPS_1080P mode_1920_1080_regs;
    (* 2x2 binned 30fps mode *)
    mk_mode 1640 1232
      (mk_rect imx307_PIXEL_ARRAY_LEFT imx307_PIXEL_ARRAY_TOP 3280 2464)
      imx307_VTS_30FPS_BINNED mode_1640_1232_regs;
    (* 640x480 30fps mode *)
    mk_mode 640 480 (mk_rect 1008 760 1280 960)
      imx307_VTS_30FPS_640x480 mode_640_480_regs ].

(** A [const struct imx307_mode *] into [supported_modes] is the index of
    the entry it points at; [mode_at] dereferences it. *)
Definition mode_at (i : nat) : imx307_mode :=
  nth i supported_modes (mk_mode 0 0 (mk_rect 0 0 0 0) 0 []).

(** ** The supported formats: 4 entries per format, in the order
    no flip, h flip, v flip, h&v flips. *)
Definition codes : list Z :=
  [ MEDIA_BUS_FMT_SRGGB10_1X10; MEDIA_BUS_FMT_SGRBG10_1X10;
    MEDIA_BUS_FMT_SGBRG10_1X10; MEDIA_BUS_FMT_SBGGR10_1X10;
    MEDIA_BUS_FMT_SRGGB8_1X8; MEDIA_BUS_FMT_SGRBG8_1X8;
    MEDIA_BUS_FMT_SGBRG8_1X8; MEDIA_BUS_FMT_SBGGR8_1X8 ].

Definition imx307_test_pattern_menu : list string :=
  [ "Disabled"%string; "Color Bars"%string; "Solid Color"%string;
    "Grey Color Bars"%string; "PN9"%string ].

Definition imx307_test_pattern_val : list Z :=
  [ imx307_TEST_PATTERN_DISABLE; imx307_TEST_PATTERN_COLOR_BARS;
    imx307_TEST_PATTERN_SOLID_COLOR; imx307_TEST_PATTERN_GREY_COLOR;
    imx307_TEST_PATTERN_PN9 ].

(** ** Controls *)

(** The controls [imx307_init_controls] registers, named by their V4L2 ids. *)
Inductive ctrl_id :=
| V4L2_CID_PIXEL_RATE
| V4L2_CID_VBLANK
| V4L2_CID_HBLANK
| V4L2_CID_EXPOSURE
| V4L2_CID_ANALOGUE_GAIN
| V4L2_CID_DIGITAL_GAIN
| V4L2_CID_HFLIP
| V4L2_CID_VFLIP
| V4L2_CID_TEST_PATTERN
| V4L2_CID_TEST_PATTERN_RED
| V4L2_CID_TEST_PATTERN_GREENR
| V4L2_CID_TEST_PATTERN_BLUE
| V4L2_CID_TEST_PATTERN_GREENB.

Definition ctrl_id_eq_dec (a b : ctrl_id) : {a = b} + {a <> b}.
Proof. decide equality. Defined.

(** [enum v4l2_ctrl_type], the four types [v4l2_ctrl_fill] gives the ids
    above. *)
Inductive v4l2_ctrl_type :=
| V4L2_CTRL_TYPE_INTEGER
| V4L2_CTRL_TYPE_BOOLEAN
| V4L2_CTRL_TYPE_MENU
| V4L2_CTRL_TYPE_INTEGER64.

(** Bit numbers of the [V4L2_CTRL_FLAG_*] masks the driver and the
    framework test: GRABBED is 0x0002, READ_ONLY 0x0004, MODIFY_LAYOUT
    0x0400. *)
Definition GRABBED_BIT : Z := 1.
Definition V4L2_CTRL_FLAG_READ_ONLY : Z := 0x0004.
Definition V4L2_CTRL_FLAG_MODIFY_LAYOUT : Z := 0x0400.

(** [struct v4l2_ctrl].  [val] is [ctrl->val], the new value a set
    operation is carrying ([p_new]); [cur_val] is [ctrl->cur.val], the stored
    value ([p_cur]). *)
Record v4l2_ctrl := mk_ctrl {
  ctype : v4l2_ctrl_type;
  minimum : Z;
  maximum : Z;
  step : Z;
  default_value : Z;
  val : Z;
  cur_val : Z;
  flags : Z
}.

Definition is_grabbed (c : v4l2_ctrl) : bool := Z.testbit (flags c) GRABBED_BIT.
Definition is_read_only (c : v4l2_ctrl) : bool :=
  negb (Z.land (flags c) V4L2_CTRL_FLAG_READ_ONLY =? 0).

Definition with_range (c : v4l2_ctrl) (min max stp def : Z) : v4l2_ctrl :=
  mk_ctrl (ctype c) min max stp def (val c) (cur_val c) (flags c).
Definition with_val (c : v4l2_ctrl) (v : Z) : v4l2_ctrl :=
  mk_ctrl (ctype c) (minimum c) (maximum c) (step c) (default_value c)
          v (cur_val c) (flags c).
Definition with_cur_val (c : v4l2_ctrl) (v : Z) : v4l2_ctrl :=
  mk_ctrl (ctype c) (minimum c) (maximum c) (step c) (default_value c)
          (val c) v (flags c).
Definition with_flags (c : v4l2_ctrl) (f : Z) : v4l2_ctrl :=
  mk_ctrl (ctype c) (minimum c) (maximum c) (step c) (default_value c)
          (val c) (cur_val c) f.

(** ** Sensor instance and platform *)

(** [struct v4l2_mbus_framefmt] *)
Record v4l2_mbus_framefmt := mk_framefmt {
  format_width : Z;
  format_height : Z;
  format_code : Z;
  format_field : Z;
  colorspace : Z;
  ycbcr_enc : Z;
  quantization : Z;
  xfer_func : Z
}.

(** Messages the driver writes to the kernel log. *)
Inductive log_msg :=
| LogFailedToWriteReg (reg ret : Z)
| LogFailedToSetMode
| LogFailedToSetFrameFormat (ret : Z)
| LogFailedToSetStream
| LogCtrlNotHandled (id : ctrl_id) (v : Z)
| LogFailedToEnableRegulators
| LogFailedToEnableClock.

(** What the driver does to the world outside [struct imx307], newest
    first. *)
Inductive event :=
| EvI2cSend (buf : list Z) (ret : Z)
| EvLog (m : log_msg)
| EvPmGetSync
| EvPmGetIfInUse (ret : Z)
| EvPmPut
| EvPmPutNoidle
| EvRegulatorEnable (ret : Z)
| EvRegulatorDisable
| EvClkEnable (ret : Z)
| EvClkDisable
| EvResetGpio (v : Z)
| EvUsleepRange (lo hi : Z).

(** [struct imx307] and, below the line, the device it is bound to:
    - [usage_count], [runtime_active]: the runtime-PM usage counter and
      status of [client->dev];
    - [i2c_bus n count]: what the n-th [i2c_master_send] of [count] bytes
      returns (the count on success, a negative errno otherwise);
    - [regulator_bulk_enable_err n], [clk_prepare_enable_err n]: the errno
      with which these fail at the n-th power-up, 0 when they succeed (they
      return 0 or a negative errno);
    - [trace]: everything done so far. *)
Record imx307 := mk_imx307 {
  fmt : v4l2_mbus_framefmt;
  ctrl_handler : ctrl_id -> v4l2_ctrl;
  mode : nat;
  streaming : bool;
  (* ------------------------------------------------------------ *)
  usage_count : Z;
  runtime_active : bool;
  i2c_bus : nat -> Z -> Z;
  i2c_xfers : nat;
  regulator_bulk_enable_err : nat -> nat;
  clk_prepare_enable_err : nat -> nat;
  power_ups : nat;
  trace : list event
}.

Definition with_fmt (s : imx307) (f : v4l2_mbus_framefmt) : imx307 :=
  mk_imx307 f (ctrl_handler s) (mode s) (streaming s) (usage_count s)
    (runtime_active s) (i2c_bus s) (i2c_xfers s) (regulator_bulk_enable_err s)
    (clk_prepare_enable_err s) (power_ups s) (trace s).
Definition with_ctrl_handler (s : imx307) (h : ctrl_id -> v4l2_ctrl) : imx307 :=
  mk_imx307 (fmt s) h (mode s) (streaming s) (usage_count s)
    (runtime_active s) (i2c_bus s) (i2c_xfers s) (regulator_bulk_enable_err s)
    (clk_prepare_enable_err s) (power_ups s) (trace s).
Definition with_mode (s : imx307) (m : nat) : imx307 :=
  mk_imx307 (fmt s) (ctrl_handler s) m (streaming s) (usage_count s)
    (runtime_active s) (i2c_bus s) (i2c_xfers s) (regulator_bulk_enable_err s)
    (clk_prepare_enable_err s) (power_ups s) (trace s).
Definition with_streaming (s : imx307) (b : bool) : imx307 :=
  mk_imx307 (fmt s) (ctrl_handler s) (mode s) b (usage_count s)
    (runtime_active s) (i2c_bus s) (i2c_xfers s) (regulator_bulk_enable_err s)
    (clk_prepare_enable_err s) (power_ups s) (trace s).
Definition with_usage_count (s : imx307) (n : Z) : imx307 :=
  mk_imx307 (fmt s) (ctrl_handler s) (mode s) (streaming s) n
    (runtime_active s) (i2c_bus s) (i2c_xfers s) (regulator_bulk_enable_err s)
    (clk_prepare_enable_err s) (power_ups s) (trace s).
Definition with_runtime_active (s : imx307) (b : bool) : imx307 :=
  mk_imx307 (fmt s) (ctrl_handler s) (mode s) (streaming s) (usage_count s)
    b (i2c_bus s) (i2c_xfers s) (regulator_bulk_enable_err s)
    (clk_prepare_enable_err s) (power_ups s) (trace s).
Definition with_i2c_xfers (s : imx307) (n : nat) : imx307 :=
  mk_imx307 (fmt s) (ctrl_handler s) (mode s) (streaming s) (usage_count s)
    (runtime_active s) (i2c_bus s) n (regulator_bulk_enable_err s)
    (clk_prepare_enable_err s) (power_ups s) (trace s).
Definition with_power_ups (s : imx307) (n : nat) : imx307 :=
  mk_imx307 (fmt s) (ctrl_handler s) (mode s) (streaming s) (usage_count s)
    (runtime_active s) (i2c_bus s) (i2c_xfers s) (regulator_bulk_enable_err s)
    (clk_prepare_enable_err s) n (trace s).
Definition emit (s : imx307) (e : event) : imx307 :=
  mk_imx307 (fmt s) (ctrl_handler s) (mode s) (streaming s) (usage_count s)
    (runtime_active s) (i2c_bus s) (i2c_xfers s) (regulator_bulk_enable_err s)
    (clk_prepare_enable_err s) (power_ups s) (e :: trace s).

(** [imx307->exposure], [imx307->vblank], ... : the control with that id. *)
Definition ctrl (s : imx307) (id : ctrl_id) : v4l2_ctrl := ctrl_handler s id.
Definition put_ctrl (s : imx307) (id : ctrl_id) (c : v4l2_ctrl) : imx307 :=
  with_ctrl_handler s
    (fun j => if ctrl_id_eq_dec j id then c else ctrl_handler s j).

(** [imx307->mode->...] *)
Definition cur_mode (s : imx307) : imx307_mode := mode_at (mode s).

(** ** Platform primitives *)

(** [i2c_master_send(client, buf, count)]: hands [count] bytes to the bus
    and returns what the bus returns. *)
Definition i2c_master_send (s : imx307) (buf : list Z) : Z * imx307 :=
  let ret := i2c_bus s (i2c_xfers s) (Z.of_nat (length buf)) in
  (ret, emit (with_i2c_xfers s (S (i2c_xfers s))) (EvI2cSend buf ret)).

Definition put_unaligned_be16 (v : Z) : list Z :=
  [u8 (Z.shiftr v 8); u8 v].
Definition put_unaligned_be32 (v : Z) : list Z :=
  [u8 (Z.shiftr v 24); u8 (Z.shiftr v 16); u8 (Z.shiftr v 8); u8 v].

(** ** Power/clock management functions (src/imx307.c, 1202-1247) *)
Definition imx307_power_on (s : imx307) : Z * imx307 :=
  let n := power_ups s in
  let s := with_power_ups s (S n) in
  let ret := - Z.of_nat (regulator_bulk_enable_err s n) in
  let s := emit s (EvRegulatorEnable ret) in
  if negb (ret =? 0) then (ret, emit s (EvLog LogFailedToEnableRegulators))
  else
    let ret := - Z.of_nat (clk_prepare_enable_err s n) in
    let s := emit s (EvClkEnable ret) in
    if negb (ret =? 0) then
      (ret, emit (emit s (EvLog LogFailedToEnableClock)) EvRegulatorDisable)
    else
      let s := emit s (EvResetGpio 1) in
      let s := emit s (EvUsleepRange imx307_XCLR_MIN_DELAY_US
                         (imx307_XCLR_MIN_DELAY_US + imx307_XCLR_DELAY_RANGE_US)) in
      (0, s).

Definition imx307_power_off (s : imx307) : Z * imx307 :=
  (0, emit (emit (emit s (EvResetGpio 0)) EvRegulatorDisable) EvClkDisable).

(** ** Runtime PM (kernel: drivers/base/power/runtime.c)

    The driver registers [imx307_power_off] / [imx307_power_on] as its
    runtime suspend / resume callbacks.  Runtime PM is enabled for the whole
    life of a probed instance.  The idle notification that [pm_runtime_put]
    queues when the counter reaches zero is run at once here. *)
Definition pm_runtime_get_sync (s : imx307) : Z * imx307 :=
  let s := emit (with_usage_count s (usage_count s + 1)) EvPmGetSync in
  if runtime_active s then (1, s)
  else
    let '(ret, s) := imx307_power_on s in
    if ret =? 0 then (0, with_runtime_active s true) else (ret, s).

Definition pm_runtime_put_noidle (s : imx307) : imx307 :=
  emit (with_usage_count s (usage_count s - 1)) EvPmPutNoidle.

Definition pm_runtime_put (s : imx307) : imx307 :=
  let s := emit (with_usage_count s (usage_count s - 1)) EvPmPut in
  if (usage_count s =? 0) && runtime_active s then
    with_runtime_active (snd (imx307_power_off s)) false
  else s.

Definition pm_runtime_get_if_in_use (s : imx307) : Z * imx307 :=
  if runtime_active s && (0 <? usage_count s) then
    (1, emit (with_usage_count s (usage_count s + 1)) (EvPmGetIfInUse 1))
  else (0, emit s (EvPmGetIfInUse 0)).

(** ** Register access (src/imx307.c, 613-650) *)

(** Write registers up to 2 at a time *)
Definition imx307_write_reg (s : imx307) (reg len v : Z) : Z * imx307 :=
  if len >? 4 then (- EINVAL, s)
  else
    let buf := put_unaligned_be16 (u16 reg) ++
               put_unaligned_be32 (u32 (Z.shiftl (u32 v) (8 * (4 - len)))) in
    let '(n, s) := i2c_master_send s (firstn (Z.to_nat (len + 2)) buf) in
    if negb (n =? len + 2) then (- EIO, s) else (0, s).

(** Write a list of registers; every caller passes a table with its own
    length, so the table stands for the pair [(regs, len)]. *)
Fixpoint imx307_write_regs (s : imx307) (regs : list imx307_reg) : Z * imx307 :=
  match regs with
  | [] => (0, s)
  | r :: rest =>
      let '(ret, s) := imx307_write_reg s (address r) 1 (reg_val r) in
      if negb (ret =? 0) then
        (ret, emit s (EvLog (LogFailedToWriteReg (address r) ret)))
      else imx307_write_regs s rest
  end.

(** ** V4L2 control framework (kernel: drivers/media/v4l2-core/v4l2-ctrls.c)

    Every control of this driver is a cluster of its own, has one element
    and no [try_ctrl] operation; no control is volatile or
    execute-on-write.  Control events sent to subscribers are not
    recorded. *)

(** [struct v4l2_ctrl_ops], of which the driver fills in [s_ctrl] only. *)
Definition v4l2_ctrl_ops : Type := imx307 -> ctrl_id -> Z * imx307.

Definition check_range (t : v4l2_ctrl_type) (min max stp def : Z) : Z :=
  let int_range :=
    if (stp =? 0) || (min >? max) || (def <? min) || (def >? max)
    then - ERANGE else 0 in
  match t with
  | V4L2_CTRL_TYPE_BOOLEAN =>
      if negb (stp =? 1) || (max >? 1) || (min <? 0) then - ERANGE
      else int_range
  | V4L2_CTRL_TYPE_INTEGER | V4L2_CTRL_TYPE_INTEGER64 => int_range
  | V4L2_CTRL_TYPE_MENU =>
      if (min >? max) || (def <? min) || (def >? max) then - ERANGE
      else if negb (stp =? 0) && negb (Z.land (Z.shiftl 1 def) stp =? 0)
           then - EINVAL else 0
  end.

(** Round towards the closest legal value. *)
Definition ROUND_TO_RANGE (c : v4l2_ctrl) (v : Z) : Z :=
  let v := if (maximum c >=? 0) && (v >=? maximum c - step c / 2)
           then maximum c else v + step c / 2 in
  let v := Z.min (Z.max v (minimum c)) (maximum c) in
  let offset := v - minimum c in
  let offset := step c * (offset / step c) in
  minimum c + offset.

(** [validate_new] / [std_validate]: the return code and the value left in
    [p_new]. *)
Definition validate_new (c : v4l2_ctrl) (v : Z) : Z * Z :=
  match ctype c with
  | V4L2_CTRL_TYPE_INTEGER | V4L2_CTRL_TYPE_INTEGER64 =>
      (0, ROUND_TO_RANGE c v)
  | V4L2_CTRL_TYPE_MENU =>
      if (v <? minimum c) || (v >? maximum c) then (- ERANGE, v)
      else if negb (Z.land (step c) (Z.shiftl 1 v) =? 0) then (- EINVAL, v)
      else (0, v)
  | V4L2_CTRL_TYPE_BOOLEAN => (0, if v =? 0 then 0 else 1)
  end.

Definition cur_to_new (s : imx307) (id : ctrl_id) : imx307 :=
  put_ctrl s id (with_val (ctrl s id) (cur_val (ctrl s id))).
Definition new_to_cur (s : imx307) (id : ctrl_id) : imx307 :=
  put_ctrl s id (with_cur_val (ctrl s id) (val (ctrl s id))).

(** The control is new and is the only member of its cluster. *)
Definition try_or_set_cluster (ops : v4l2_ctrl_ops) (s : imx307)
    (id : ctrl_id) : Z * imx307 :=
  if is_grabbed (ctrl s id) then (- EBUSY, s)
  else if val (ctrl s id) =? cur_val (ctrl s id) then (0, s)
  else
    let '(ret, s) := ops s id in
    if negb (ret =? 0) then (ret, s) else (0, new_to_cur s id).

Definition set_ctrl (ops : v4l2_ctrl_ops) (s : imx307) (id : ctrl_id)
    : Z * imx307 :=
  let '(ret, v) := validate_new (ctrl s id) (val (ctrl s id)) in
  if negb (ret =? 0) then (ret, s)
  else try_or_set_cluster ops (put_ctrl s id (with_val (ctrl s id) v)) id.

Definition __v4l2_ctrl_modify_range (ops : v4l2_ctrl_ops) (s : imx307)
    (id : ctrl_id) (min max stp def : Z) : Z * imx307 :=
  let ret := check_range (ctype (ctrl s id)) min max stp def in
  if negb (ret =? 0) then (ret, s)
  else
    let s := put_ctrl s id (with_range (ctrl s id) min max stp def) in
    let s := cur_to_new s id in
    let '(err, v) := validate_new (ctrl s id) (val (ctrl s id)) in
    let v := if negb (err =? 0) then def else v in
    let s := put_ctrl s id (with_val (ctrl s id) v) in
    if negb (v =? cur_val (ctrl s id)) then set_ctrl ops s id else (ret, s).

(** [ctrl->is_int]: the control holds a single 32-bit value. *)
Definition is_int (c : v4l2_ctrl) : bool :=
  match ctype c with
  | V4L2_CTRL_TYPE_INTEGER64 => false
  | _ => true
  end.

Definition __v4l2_ctrl_s_ctrl (ops : v4l2_ctrl_ops) (s : imx307)
    (id : ctrl_id) (v : Z) : Z * imx307 :=
  if negb (is_int (ctrl s id)) then (- EINVAL, s)
  else set_ctrl ops (put_ctrl s id (with_val (ctrl s id) (s32 v))) id.

Definition __v4l2_ctrl_grab (s : imx307) (id : ctrl_id) (grabbed : bool)
    : imx307 :=
  let c := ctrl s id in
  put_ctrl s id
    (with_flags c (if grabbed then Z.setbit (flags c) GRABBED_BIT
                   else Z.clearbit (flags c) GRABBED_BIT)).

(** [hdl->ctrls], in the order [imx307_init_controls] adds the controls. *)
Definition handler_ctrls : list ctrl_id :=
  [ V4L2_CID_PIXEL_RATE; V4L2_CID_VBLANK; V4L2_CID_HBLANK; V4L2_CID_EXPOSURE;
    V4L2_CID_ANALOGUE_GAIN; V4L2_CID_DIGITAL_GAIN; V4L2_CID_HFLIP;
    V4L2_CID_VFLIP; V4L2_CID_TEST_PATTERN; V4L2_CID_TEST_PATTERN_RED;
    V4L2_CID_TEST_PATTERN_GREENR; V4L2_CID_TEST_PATTERN_BLUE;
    V4L2_CID_TEST_PATTERN_GREENB ].

(** The loop of [__v4l2_ctrl_handler_setup]: read-only controls are
    skipped, the others have [s_ctrl] called on their current value, and
    the first failure ends the loop. *)
Fixpoint handler_setup_loop (ops : v4l2_ctrl_ops) (s : imx307)
    (l : list ctrl_id) : Z * imx307 :=
  match l with
  | [] => (0, s)
  | id :: rest =>
      if is_read_only (ctrl s id) then handler_setup_loop ops s rest
      else
        let '(ret, s) := ops (cur_to_new s id) id in
        if negb (ret =? 0) then (ret, s) else handler_setup_loop ops s rest
  end.

Definition __v4l2_ctrl_handler_setup (ops : v4l2_ctrl_ops) (s : imx307)
    : Z * imx307 :=
  handler_setup_loop ops s handler_ctrls.

(** [v4l2_s_ctrl], the VIDIOC_S_CTRL entry a caller sets a control value
    through. *)
Definition v4l2_s_ctrl (ops : v4l2_ctrl_ops) (s : imx307) (id : ctrl_id)
    (value : Z) : Z * imx307 :=
  if negb (is_int (ctrl s id)) then (- EINVAL, s)
  else if is_read_only (ctrl s id) then (- EACCES, s)
  else set_ctrl ops (put_ctrl s id (with_val (ctrl s id) (s32 value))) id.

(** ** v4l2_find_nearest_size (kernel: drivers/media/v4l2-core/v4l2-common.c)

    [__v4l2_find_nearest_size] walks the array once, keeping the entry
    with the least [error]; an entry replaces the best one unless its error
    is strictly greater, and an error of zero ends the walk. *)
Definition size_error (m : imx307_mode) (w h : Z) : Z :=
  u32 (s32 (Z.abs (s32 (u32 (width m - s32 w))))
       + s32 (Z.abs (s32 (u32 (height m - s32 h))))).

Definition U32_MAX : Z := 2 ^ 32 - 1.

Fixpoint find_nearest_size_loop (array : list imx307_mode) (i : nat)
    (w h min_error : Z) (best : option nat) : option nat :=
  match array with
  | [] => best
  | m :: rest =>
      let error := size_error m w h in
      if error >? min_error then
        find_nearest_size_loop rest (S i) w h min_error best
      else if error =? 0 then Some i
      else find_nearest_size_loop rest (S i) w h error (Some i)
  end.

Definition v4l2_find_nearest_size (array : list imx307_mode) (w h : Z)
    : option nat :=
  find_nearest_size_loop array 0 w h U32_MAX None.

(** ** The driver (src/imx307.c, 652 onwards) *)

(** The loop [for (i = 0; i < ARRAY_SIZE(codes); i++) if (codes[i] == code)
    break;] started at index [i] on the rest [l] of the table: the index of
    the first entry equal to [code], or the index past the end. *)
Fixpoint code_index_from (l : list Z) (code : Z) (i : Z) : Z :=
  match l with
  | [] => i
  | c :: rest => if c =? code then i else code_index_from rest code (i + 1)
  end.

Definition ARRAY_SIZE_codes : Z := Z.of_nat (length codes).

(** [codes[i]] *)
Definition codes_at (i : Z) : Z := nth (Z.to_nat i) codes 0.

(** Get bayer order based on flip setting. *)
Definition imx307_get_format_code (s : imx307) (code : Z) : Z :=
  let i := code_index_from codes code 0 in
  let i := if i >=? ARRAY_SIZE_codes then 0 else i in
  let i := Z.lor (Z.lor (Z.land i (u32 (Z.lnot 3)))
                        (if negb (val (ctrl s V4L2_CID_VFLIP) =? 0) then 2 else 0))
                 (if negb (val (ctrl s V4L2_CID_HFLIP) =? 0) then 1 else 0) in
  codes_at i.

Definition imx307_set_default_format (s : imx307) : imx307 :=
  with_fmt s
    (mk_framefmt (width (mode_at 0)) (height (mode_at 0))
       MEDIA_BUS_FMT_SRGGB10_1X10 V4L2_FIELD_NONE V4L2_COLORSPACE_SRGB
       V4L2_YCBCR_ENC_601 V4L2_QUANTIZATION_FULL_RANGE V4L2_XFER_FUNC_SRGB).

(** [exposure_def = (exposure_max < imx307_EXPOSURE_DEFAULT) ?
    exposure_max : imx307_EXPOSURE_DEFAULT] *)
Definition exposure_def_of (exposure_max : Z) : Z :=
  if exposure_max <? imx307_EXPOSURE_DEFAULT then exposure_max
  else imx307_EXPOSURE_DEFAULT.

(** [v4l2_ctrl_new]: a fresh control holds its default. *)
Definition v4l2_ctrl_new (t : v4l2_ctrl_type) (min max stp def fl : Z)
    : v4l2_ctrl :=
  mk_ctrl t min max stp def def def fl.

(** Initialize control handlers.  The type and the flags of each control
    are those [v4l2_ctrl_fill] gives its id; the read-only controls that
    [v4l2_ctrl_new_fwnode_properties] may add are never handed to the driver
    and are left out. *)
Definition imx307_init_controls (s : imx307) : imx307 :=
  let h := height (cur_mode s) in
  let hblank := s32 (u32 (imx307_PPL_DEFAULT - width (cur_mode s))) in
  let exposure_max := s32 (u32 (vts_def (cur_mode s) - 4)) in
  let exposure_def := exposure_def_of exposure_max in
  with_ctrl_handler s (fun id =>
    match id with
    | V4L2_CID_PIXEL_RATE =>
        v4l2_ctrl_new V4L2_CTRL_TYPE_INTEGER64 imx307_PIXEL_RATE
          imx307_PIXEL_RATE 1 imx307_PIXEL_RATE V4L2_CTRL_FLAG_READ_ONLY
    | V4L2_CID_VBLANK =>
        v4l2_ctrl_new V4L2_CTRL_TYPE_INTEGER imx307_VBLANK_MIN
          (u32 (imx307_VTS_MAX - h)) 1 (u32 (vts_def (cur_mode s) - h)) 0
    | V4L2_CID_HBLANK =>
        v4l2_ctrl_new V4L2_CTRL_TYPE_INTEGER hblank hblank 1 hblank
          (Z.lor 0 V4L2_CTRL_FLAG_READ_ONLY)
    | V4L2_CID_EXPOSURE =>
        v4l2_ctrl_new V4L2_CTRL_TYPE_INTEGER imx307_EXPOSURE_MIN exposure_max
          imx307_EXPOSURE_STEP exposure_def 0
    | V4L2_CID_ANALOGUE_GAIN =>
        v4l2_ctrl_new V4L2_CTRL_TYPE_INTEGER imx307_ANA_GAIN_MIN
          imx307_ANA_GAIN_MAX imx307_ANA_GAIN_STEP imx307_ANA_GAIN_DEFAULT 0
    | V4L2_CID_DIGITAL_GAIN =>
        v4l2_ctrl_new V4L2_CTRL_TYPE_INTEGER imx307_DGTL_GAIN_MIN
          imx307_DGTL_GAIN_MAX imx307_DGTL_GAIN_STEP imx307_DGTL_GAIN_DEFAULT 0
    | V4L2_CID_HFLIP | V4L2_CID_VFLIP =>
        v4l2_ctrl_new V4L2_CTRL_TYPE_BOOLEAN 0 1 1 0
          (Z.lor 0 V4L2_CTRL_FLAG_MODIFY_LAYOUT)
    | V4L2_CID_TEST_PATTERN =>
        v4l2_ctrl_new V4L2_CTRL_TYPE_MENU 0
          (Z.of_nat (List.length imx307_test_pattern_menu) - 1) 0 0 0
    | V4L2_CID_TEST_PATTERN_RED | V4L2_CID_TEST_PATTERN_GREENR
    | V4L2_CID_TEST_PATTERN_BLUE | V4L2_CID_TEST_PATTERN_GREENB =>
        v4l2_ctrl_new V4L2_CTRL_TYPE_INTEGER imx307_TESTP_COLOUR_MIN
          imx307_TESTP_COLOUR_MAX imx307_TESTP_COLOUR_STEP
          imx307_TESTP_COLOUR_MAX 0
    end).

(** The body of [imx307_set_ctrl]; [self] is the [s_ctrl] operation the
    framework calls back when the body changes the exposure range, which in
    the driver is [imx307_set_ctrl] itself. *)
Definition imx307_set_ctrl_body (self : v4l2_ctrl_ops) (s : imx307)
    (id : ctrl_id) : Z * imx307 :=
  let s :=
    match id with
    | V4L2_CID_VBLANK =>
        (* Update max exposure while meeting expected vblanking *)
        let exposure_max :=
          s32 (u32 (height (cur_mode s) + val (ctrl s id) - 4)) in
        let exposure_def := exposure_def_of exposure_max in
        snd (__v4l2_ctrl_modify_range self s V4L2_CID_EXPOSURE
               (minimum (ctrl s V4L2_CID_EXPOSURE)) exposure_max
               (step (ctrl s V4L2_CID_EXPOSURE)) exposure_def)
    | _ => s
    end in
  (* Applying V4L2 control value only happens when power is up for
     streaming *)
  let '(in_use, s) := pm_runtime_get_if_in_use s in
  if in_use =? 0 then (0, s)
  else
    let v := val (ctrl s id) in
    let '(ret, s) :=
      match id with
      | V4L2_CID_ANALOGUE_GAIN =>
          imx307_write_reg s imx307_REG_ANALOG_GAIN imx307_REG_VALUE_08BIT v
      | V4L2_CID_EXPOSURE =>
          imx307_write_reg s imx307_REG_EXPOSURE imx307_REG_VALUE_16BIT v
      | V4L2_CID_DIGITAL_GAIN =>
          imx307_write_reg s imx307_REG_DIGITAL_GAIN imx307_REG_VALUE_16BIT v
      | V4L2_CID_TEST_PATTERN =>
          imx307_write_reg s imx307_REG_TEST_PATTERN imx307_REG_VALUE_16BIT
            (nth (Z.to_nat v) imx307_test_pattern_val 0)
      | V4L2_CID_HFLIP | V4L2_CID_VFLIP =>
          imx307_write_reg s imx307_REG_ORIENTATION 1
            (s32 (Z.lor (val (ctrl s V4L2_CID_HFLIP))
                        (s32 (Z.shiftl (val (ctrl s V4L2_CID_VFLIP)) 1))))
      | V4L2_CID_VBLANK =>
          imx307_write_reg s imx307_REG_VTS imx307_REG_VALUE_16BIT
            (u32 (height (cur_mode s) + v))
      | V4L2_CID_TEST_PATTERN_RED =>
          imx307_write_reg s imx307_REG_TESTP_RED imx307_REG_VALUE_16BIT v
      | V4L2_CID_TEST_PATTERN_GREENR =>
          imx307_write_reg s imx307_REG_TESTP_GREENR imx307_REG_VALUE_16BIT v
      | V4L2_CID_TEST_PATTERN_BLUE =>
          imx307_write_reg s imx307_REG_TESTP_BLUE imx307_REG_VALUE_16BIT v
      | V4L2_CID_TEST_PATTERN_GREENB =>
          imx307_write_reg s imx307_REG_TESTP_GREENB imx307_REG_VALUE_16BIT v
      | V4L2_CID_PIXEL_RATE | V4L2_CID_HBLANK =>
          (- EINVAL, emit s (EvLog (LogCtrlNotHandled id v)))
      end in
    (ret, pm_runtime_put s).

(** The callback nests at most once (a vertical-blank write re-ranges the
    exposure control, whose own write re-ranges nothing), so two unfoldings
    of the body are the function; [imx307_set_ctrl_eq] below is the
    equation [imx307_set_ctrl = imx307_set_ctrl_body imx307_set_ctrl]. *)
Definition imx307_set_ctrl : v4l2_ctrl_ops :=
  imx307_set_ctrl_body (imx307_set_ctrl_body (fun s _ => (0, s))).

(** [const struct v4l2_ctrl_ops imx307_ctrl_ops] *)
Definition imx307_ctrl_ops : v4l2_ctrl_ops := imx307_set_ctrl.

(** [struct v4l2_subdev_format] *)
Record v4l2_subdev_format := mk_subdev_format {
  which : Z;
  pad : Z;
  format : v4l2_mbus_framefmt
}.

Definition with_format (f : v4l2_subdev_format) (m : v4l2_mbus_framefmt)
    : v4l2_subdev_format :=
  mk_subdev_format (which f) (pad f) m.

(** [struct v4l2_subdev_pad_config *cfg]: the try format of each pad. *)
Definition v4l2_subdev_pad_config : Type := Z -> v4l2_mbus_framefmt.

Definition with_try_format (cfg : v4l2_subdev_pad_config) (p : Z)
    (m : v4l2_mbus_framefmt) : v4l2_subdev_pad_config :=
  fun q => if q =? p then m else cfg q.

Definition imx307_reset_colorspace (m : v4l2_mbus_framefmt)
    : v4l2_mbus_framefmt :=
  mk_framefmt (format_width m) (format_height m) (format_code m)
    (format_field m) V4L2_COLORSPACE_SRGB V4L2_YCBCR_ENC_601
    V4L2_QUANTIZATION_FULL_RANGE V4L2_XFER_FUNC_SRGB.

Definition imx307_update_image_pad_format (md : imx307_mode)
    (f : v4l2_subdev_format) : v4l2_subdev_format :=
  let m := format f in
  with_format f
    (imx307_reset_colorspace
       (mk_framefmt (width md) (height md) (format_code m) V4L2_FIELD_NONE
          (colorspace m) (ycbcr_enc m) (quantization m) (xfer_func m))).

Definition imx307_update_metadata_pad_format (f : v4l2_subdev_format)
    : v4l2_subdev_format :=
  let m := format f in
  with_format f
    (mk_framefmt imx307_EMBEDDED_LINE_WIDTH imx307_NUM_EMBEDDED_LINES
       MEDIA_BUS_FMT_SENSOR_DATA V4L2_FIELD_NONE
       (colorspace m) (ycbcr_enc m) (quantization m) (xfer_func m)).

Definition with_format_code (m : v4l2_mbus_framefmt) (c : Z)
    : v4l2_mbus_framefmt :=
  mk_framefmt (format_width m) (format_height m) c (format_field m)
    (colorspace m) (ycbcr_enc m) (quantization m) (xfer_func m).

(** Returns the code, the pad configuration and the caller's format. *)
Definition __imx307_get_pad_format (s : imx307) (cfg : v4l2_subdev_pad_config)
    (f : v4l2_subdev_format)
    : Z * v4l2_subdev_pad_config * v4l2_subdev_format :=
  if pad f >=? NUM_PADS then (- EINVAL, cfg, f)
  else if which f =? V4L2_SUBDEV_FORMAT_TRY then
    let try_fmt := cfg (pad f) in
    (* update the code which could change due to vflip or hflip: *)
    let try_fmt :=
      with_format_code try_fmt
        (if pad f =? IMAGE_PAD
         then imx307_get_format_code s (format_code try_fmt)
         else MEDIA_BUS_FMT_SENSOR_DATA) in
    (0, with_try_format cfg (pad f) try_fmt, with_format f try_fmt)
  else if pad f =? IMAGE_PAD then
    let f := imx307_update_image_pad_format (cur_mode s) f in
    (0, cfg,
     with_format f
       (with_format_code (format f)
          (imx307_get_format_code s (format_code (fmt s)))))
  else (0, cfg, imx307_update_metadata_pad_format f).

Definition imx307_get_pad_format := __imx307_get_pad_format.

(** The branch of [imx307_set_pad_format] taken when the active mode or
    code changes (lines 980-1010), in its four steps: the vertical-blank
    limits and value (983-989), the exposure limits (994-1002), the
    horizontal blank (1008-1010), after the format and the mode are stored
    (980-981). *)

(** Update limits and set FPS to default *)
Definition update_vblank (s : imx307) (md : imx307_mode) : imx307 :=
  let s := snd (__v4l2_ctrl_modify_range imx307_ctrl_ops s V4L2_CID_VBLANK
                  imx307_VBLANK_MIN (u32 (imx307_VTS_MAX - height md)) 1
                  (u32 (vts_def md - height md))) in
  snd (__v4l2_ctrl_s_ctrl imx307_ctrl_ops s V4L2_CID_VBLANK
         (u32 (vts_def md - height md))).

(** Update max exposure while meeting expected vblanking *)
Definition update_exposure (s : imx307) (md : imx307_mode) : imx307 :=
  let exposure_max := s32 (u32 (vts_def md - 4)) in
  let exposure_def := exposure_def_of exposure_max in
  snd (__v4l2_ctrl_modify_range imx307_ctrl_ops s V4L2_CID_EXPOSURE
         (minimum (ctrl s V4L2_CID_EXPOSURE)) exposure_max
         (step (ctrl s V4L2_CID_EXPOSURE)) exposure_def).

(** Currently PPL is fixed to imx307_PPL_DEFAULT, so hblank depends on
    mode->width only, and is not changeble in any way other than changing
    the mode. *)
Definition update_hblank (s : imx307) (md : imx307_mode) : imx307 :=
  let hblank := s32 (u32 (imx307_PPL_DEFAULT - width md)) in
  snd (__v4l2_ctrl_modify_range imx307_ctrl_ops s V4L2_CID_HBLANK
         hblank hblank 1 hblank).

Definition apply_mode_change (s : imx307) (m : nat)
    (f : v4l2_mbus_framefmt) : imx307 :=
  let s := with_fmt s f in
  let s := with_mode s m in
  let s := update_vblank s (mode_at m) in
  let s := update_exposure s (mode_at m) in
  update_hblank s (mode_at m).

(** [imx307_set_pad_format]: the return code, the instance, the pad
    configuration and the caller's format.  [None] is the dereference of a
    NULL mode, which [find_nearest_size_supported] shows never happens. *)
Definition imx307_set_pad_format (s : imx307) (cfg : v4l2_subdev_pad_config)
    (f : v4l2_subdev_format)
    : option (Z * imx307 * v4l2_subdev_pad_config * v4l2_subdev_format) :=
  if pad f >=? NUM_PADS then Some (- EINVAL, s, cfg, f)
  else if pad f =? IMAGE_PAD then
    let i := code_index_from codes (format_code (format f)) 0 in
    let i := if i >=? ARRAY_SIZE_codes then 0 else i in
    (* Bayer order varies with flips *)
    let f := with_format f
               (with_format_code (format f)
                  (imx307_get_format_code s (codes_at i))) in
    match v4l2_find_nearest_size supported_modes
            (format_width (format f)) (format_height (format f)) with
    | None => None
    | Some m =>
        let f := imx307_update_image_pad_format (mode_at m) f in
        if which f =? V4L2_SUBDEV_FORMAT_TRY then
          Some (0, s, with_try_format cfg (pad f) (format f), f)
        else if negb (Nat.eqb (mode s) m) ||
                negb (format_code (fmt s) =? format_code (format f)) then
          Some (0, apply_mode_change s m (format f), cfg, f)
        else Some (0, s, cfg, f)
    end
  else if which f =? V4L2_SUBDEV_FORMAT_TRY then
    Some (0, s, with_try_format cfg (pad f) (format f), f)
  else
    (* Only one embedded data mode is supported *)
    Some (0, s, cfg, imx307_update_metadata_pad_format f).

Definition raw8_codes : list Z :=
  [ MEDIA_BUS_FMT_SRGGB8_1X8; MEDIA_BUS_FMT_SGRBG8_1X8;
    MEDIA_BUS_FMT_SGBRG8_1X8; MEDIA_BUS_FMT_SBGGR8_1X8 ].
Definition raw10_codes : list Z :=
  [ MEDIA_BUS_FMT_SRGGB10_1X10; MEDIA_BUS_FMT_SGRBG10_1X10;
    MEDIA_BUS_FMT_SGBRG10_1X10; MEDIA_BUS_FMT_SBGGR10_1X10 ].

Definition case_of (labels : list Z) (x : Z) : bool :=
  existsb (Z.eqb x) labels.

(** The [switch] of [imx307_set_framefmt] with its two groups of case
    labels; no label matching falls out to [-EINVAL]. *)
Definition imx307_set_framefmt (s : imx307) : Z * imx307 :=
  if case_of raw8_codes (format_code (fmt s)) then
    imx307_write_regs s raw8_framefmt_regs
  else if case_of raw10_codes (format_code (fmt s)) then
    imx307_write_regs s raw10_framefmt_regs
  else (- EINVAL, s).

Definition imx307_start_streaming (s : imx307) : Z * imx307 :=
  let '(ret, s) := pm_runtime_get_sync s in
  if ret <? 0 then (ret, pm_runtime_put_noidle s)
  else
    (* Apply default values of current mode *)
    let '(ret, s) := imx307_write_regs s (reg_list (cur_mode s)) in
    if negb (ret =? 0) then
      (ret, pm_runtime_put (emit s (EvLog LogFailedToSetMode)))
    else
      let '(ret, s) := imx307_set_framefmt s in
      if negb (ret =? 0) then
        (ret, pm_runtime_put (emit s (EvLog (LogFailedToSetFrameFormat ret))))
      else
        (* Apply customized values from user *)
        let '(ret, s) := __v4l2_ctrl_handler_setup imx307_ctrl_ops s in
        if negb (ret =? 0) then (ret, pm_runtime_put s)
        else
          (* set stream on register *)
          let '(ret, s) :=
            imx307_write_reg s imx307_REG_MODE_SELECT imx307_REG_VALUE_08BIT
              imx307_MODE_STREAMING in
          if negb (ret =? 0) then (ret, pm_runtime_put s)
          else
            (* vflip and hflip cannot change during streaming *)
            let s := __v4l2_ctrl_grab s V4L2_CID_VFLIP true in
            let s := __v4l2_ctrl_grab s V4L2_CID_HFLIP true in
            (0, s).

Definition imx307_stop_streaming (s : imx307) : imx307 :=
  (* set stream off register *)
  let '(ret, s) :=
    imx307_write_reg s imx307_REG_MODE_SELECT imx307_REG_VALUE_08BIT
      imx307_MODE_STANDBY in
  let s := if negb (ret =? 0) then emit s (EvLog LogFailedToSetStream) else s in
  let s := __v4l2_ctrl_grab s V4L2_CID_VFLIP false in
  let s := __v4l2_ctrl_grab s V4L2_CID_HFLIP false in
  pm_runtime_put s.

(** [imx307->streaming == enable] compares the flag, promoted to [int],
    with [enable]; [imx307->streaming = enable] stores [enable != 0]. *)
Definition imx307_set_stream (s : imx307) (enable : Z) : Z * imx307 :=
  if Z.b2z (streaming s) =? enable then (0, s)
  else if negb (enable =? 0) then
    (* Apply default & customized values and then start streaming. *)
    let '(ret, s) := imx307_start_streaming s in
    if negb (ret =? 0) then (ret, s)
    else (ret, with_streaming s (negb (enable =? 0)))
  else
    let s := imx307_stop_streaming s in
    (0, with_streaming s (negb (enable =? 0))).

Definition imx307_suspend (s : imx307) : Z * imx307 :=
  if streaming s then (0, imx307_stop_streaming s) else (0, s).

Definition imx307_resume (s : imx307) : Z * imx307 :=
  if streaming s then
    let '(ret, s) := imx307_start_streaming s in
    if negb (ret =? 0) then
      (ret, with_streaming (imx307_stop_streaming s) false)
    else (0, s)
  else (0, s).

(** The instance a successful [imx307_probe] leaves behind: zeroed by
    [devm_kzalloc], default mode [&supported_modes[0]], controls and default
    format initialised, runtime PM enabled and the device idle.  The bus and
    the supplies are whatever the platform provides; the traffic of the probe
    itself is not kept. *)
Definition imx307_probe (bus : nat -> Z -> Z) (regulators clk : nat -> nat)
    : imx307 :=
  let zero := mk_framefmt 0 0 0 0 0 0 0 0 in
  let s := mk_imx307 zero (fun _ => mk_ctrl V4L2_CTRL_TYPE_INTEGER 0 0 0 0 0 0 0)
             0%nat false 0 false bus 0%nat regulators clk 0%nat [] in
  (* Set default mode to max resolution *)
  let s := with_mode s 0%nat in
  let s := imx307_init_controls s in
  (* Initialize default format *)
  imx307_set_default_format s.

(** ** Calls the instance receives after probe *)
Inductive call :=
| Set_pad_format (cfg : v4l2_subdev_pad_config) (f : v4l2_subdev_format)
| S_ctrl (id : ctrl_id) (value : Z)
| Set_stream (enable : Z)
| Suspend
| Resume.

Definition run_call (s : imx307) (c : call) : imx307 :=
  match c with
  | Set_pad_format cfg f =>
      match imx307_set_pad_format s cfg f with
      | Some (_, s', _, _) => s'
      | None => s
      end
  | S_ctrl id value => snd (v4l2_s_ctrl imx307_ctrl_ops s id value)
  | Set_stream enable => snd (imx307_set_stream s enable)
  | Suspend => snd (imx307_suspend s)
  | Resume => snd (imx307_resume s)
  end.

Definition run (s : imx307) (cs : list call) : imx307 :=
  fold_left run_call cs s.

(** A state is reachable when some platform and some sequence of calls
    lead to it from probe. *)
Definition reachable (s : imx307) : Prop :=
  exists bus regulators clk cs, s = run (imx307_probe bus regulators clk) cs.

Definition is_suspend (c : call) : bool :=
  match c with Suspend => true | _ => false end.

(** Reachable without a system suspend on the way. *)
Definition reachable_awake (s : imx307) : Prop :=
  exists bus regulators clk cs,
    forallb (fun c => negb (is_suspend c)) cs = true /\
    s = run (imx307_probe bus regulators clk) cs.

(** ** The resolver as the specification words it

    [first_index_of l x] is the position of the first entry of [l] equal to
    [x]; [base_index] falls back to index 0 for a code that is not in the
    table; [resolve_code] picks the flip variant inside the group of four. *)
Fixpoint first_index_of (l : list Z) (x : Z) : option nat :=
  match l with
  | [] => None
  | y :: rest =>
      if y =? x then Some 0%nat else option_map S (first_index_of rest x)
  end.

Definition base_index (code : Z) : Z :=
  match first_index_of codes code with
  | Some n => Z.of_nat n
  | None => 0
  end.

Definition flip_index (code : Z) (hflip vflip : bool) : Z :=
  Z.lor (Z.lor (Z.land (base_index code) (Z.lnot 3))
               (if vflip then 2 else 0))
        (if hflip then 1 else 0).

Definition resolve_code (code : Z) (hflip vflip : bool) : Z :=
  codes_at (flip_index code hflip vflip).

(** The flip flags as the resolver reads them off the controls. *)
Definition hflip_on (s : imx307) : bool :=
  negb (val (ctrl s V4L2_CID_HFLIP) =? 0).
Definition vflip_on (s : imx307) : bool :=
  negb (val (ctrl s V4L2_CID_VFLIP) =? 0).

(** The first block of [imx307_set_ctrl_body] (lines 732-743), named for
    the proofs: the state in which the write-through that follows it
    starts. *)
Definition set_ctrl_rerange (self : v4l2_ctrl_ops) (s : imx307)
    (id : ctrl_id) : imx307 :=
  match id with
  | V4L2_CID_VBLANK =>
      let exposure_max :=
        s32 (u32 (height (cur_mode s) + val (ctrl s id) - 4)) in
      snd (__v4l2_ctrl_modify_range self s V4L2_CID_EXPOSURE
             (minimum (ctrl s V4L2_CID_EXPOSURE)) exposure_max
             (step (ctrl s V4L2_CID_EXPOSURE)) (exposure_def_of exposure_max))
  | _ => s
  end.

(** The four range fields of a control. *)
Definition range_of (c : v4l2_ctrl) : Z * Z * Z * Z :=
  (minimum c, maximum c, step c, default_value c).

(** ** Relations between the states before and after an operation *)

(** [steady s s']: going from [s] to [s'] changed neither the format, the
    mode, the streaming flag, the power reference, nor the type and flags
    of any control. *)
Record steady (s s' : imx307) : Prop := mk_steady {
  steady_fmt : fmt s' = fmt s;
  steady_mode : mode s' = mode s;
  steady_streaming : streaming s' = streaming s;
  steady_usage : usage_count s' = usage_count s;
  steady_active : runtime_active s' = runtime_active s;
  steady_ctype : forall id, ctype (ctrl s' id) = ctype (ctrl s id);
  steady_flags : forall id, flags (ctrl s' id) = flags (ctrl s id)
}.

(** An operation whose every call is steady. *)
Definition steady_ops (ops : v4l2_ctrl_ops) : Prop :=
  forall s id, steady s (snd (ops s id)).

(** [only_ctrl id s s']: no control other than [id] differs between [s] and
    [s']; [same_ctrls]: none differs at all. *)
Definition only_ctrl (id : ctrl_id) (s s' : imx307) : Prop :=
  forall j, j <> id -> ctrl s' j = ctrl s j.
Definition same_ctrls (s s' : imx307) : Prop :=
  forall j, ctrl s' j = ctrl s j.

(** [keeps_ranges s s']: every control has kept its range, but for the
    maximum and the default of the exposure control. *)
Definition keeps_ranges (s s' : imx307) : Prop :=
  (forall j, j <> V4L2_CID_EXPOSURE ->
             range_of (ctrl s' j) = range_of (ctrl s j)) /\
  minimum (ctrl s' V4L2_CID_EXPOSURE) = minimum (ctrl s V4L2_CID_EXPOSURE) /\
  step (ctrl s' V4L2_CID_EXPOSURE) = step (ctrl s V4L2_CID_EXPOSURE).


(** [same_instance s s']: the driver's own fields are as they were. *)
Definition same_instance (s s' : imx307) : Prop :=
  fmt s' = fmt s /\ mode s' = mode s /\ streaming s' = streaming s /\
  same_ctrls s s'.

(** The three bytes [imx307_write_reg] sends for an 8-bit register. *)
Definition write_reg_buf8 (reg v : Z) : list Z :=
  [u8 (Z.shiftr (u16 reg) 8); u8 (u16 reg);
   u8 (Z.shiftr (u32 (Z.shiftl (u32 v) 24)) 24)].

(** ** Platforms for the worked examples *)

(** A bus on which every transfer goes through, and one whose transfer
    number [k] (counting from 0) fails with -EREMOTEIO. *)
Definition good_bus : nat -> Z -> Z := fun _ count => count.
Definition bus_failing_at (k : nat) : nat -> Z -> Z :=
  fun n count => if Nat.eqb n k then -121 else count.

(** Supplies and a clock that always come up. *)
Definition good_supply : nat -> nat := fun _ => 0%nat.

(** A probed sensor on a sound platform, and one whose bus fails on the
    5th register write. *)
Definition sound_sensor : imx307 := imx307_probe good_bus good_supply good_supply.


(** ** Invariants of a probed instance *)

(** The type and the read-only flag each control is created with. *)
Definition ctype_of (id : ctrl_id) : v4l2_ctrl_type :=
  match id with
  | V4L2_CID_PIXEL_RATE => V4L2_CTRL_TYPE_INTEGER64
  | V4L2_CID_HFLIP | V4L2_CID_VFLIP => V4L2_CTRL_TYPE_BOOLEAN
  | V4L2_CID_TEST_PATTERN => V4L2_CTRL_TYPE_MENU
  | _ => V4L2_CTRL_TYPE_INTEGER
  end.

Definition read_only_id (id : ctrl_id) : bool :=
  match id with
  | V4L2_CID_PIXEL_RATE | V4L2_CID_HBLANK => true
  | _ => false
  end.

(** [quiet s s']: steady, and every range kept but for the exposure
    maximum and default. *)
Definition quiet (s s' : imx307) : Prop := steady s s' /\ keeps_ranges s s'.

(** [tame s s']: the configuration part of [quiet]; the streaming flag, the
    power reference and the grabbed flags may have changed. *)
Definition tame (s s' : imx307) : Prop :=
  fmt s' = fmt s /\ mode s' = mode s /\
  (forall id, ctype (ctrl s' id) = ctype (ctrl s id)) /\
  (forall id, is_read_only (ctrl s' id) = is_read_only (ctrl s id)) /\
  keeps_ranges s s'.

(** What holds of the configuration in every reachable state. *)
Record wf (s : imx307) : Prop := mk_wf {
  wf_mode : (mode s < 4)%nat;
  wf_code : In (format_code (fmt s)) codes;
  wf_ctype : forall id, ctype (ctrl s id) = ctype_of id;
  wf_read_only : forall id, is_read_only (ctrl s id) = read_only_id id;
  wf_exposure_min : minimum (ctrl s V4L2_CID_EXPOSURE) = imx307_EXPOSURE_MIN;
  wf_exposure_step : step (ctrl s V4L2_CID_EXPOSURE) = imx307_EXPOSURE_STEP;
  wf_vblank_min : minimum (ctrl s V4L2_CID_VBLANK) = imx307_VBLANK_MIN;
  wf_vblank_max :
    maximum (ctrl s V4L2_CID_VBLANK) = imx307_VTS_MAX - height (cur_mode s);
  wf_vblank_step : step (ctrl s V4L2_CID_VBLANK) = 1
}.

(** The flips are grabbed exactly while the hardware streams: *)
Definition flips_grabbed (s : imx307) (b : bool) : Prop :=
  is_grabbed (ctrl s V4L2_CID_HFLIP) = b /\
  is_grabbed (ctrl s V4L2_CID_VFLIP) = b.

(** [nearest m w h]: entry [m] of the catalog has the least error for the
    request. *)
Definition nearest (m : nat) (w h : Z) : Prop :=
  (m < 4)%nat /\
  forall j, (j < 4)%nat ->
            size_error (mode_at m) w h <= size_error (mode_at j) w h.

(** The first-listed and the last-listed of the nearest entries. *)
Definition first_nearest (m : nat) (w h : Z) : Prop :=
  nearest m w h /\ forall j, nearest j w h -> (m <= j)%nat.
Definition last_nearest (m : nat) (w h : Z) : Prop :=
  nearest m w h /\ forall j, nearest j w h -> (j <= m)%nat.

(** An active-format request on the image pad, and the active format read
    back.  The fields a request does not name are zero. *)
Definition active_request (code w h : Z) : v4l2_subdev_format :=
  mk_subdev_format V4L2_SUBDEV_FORMAT_ACTIVE IMAGE_PAD
    (mk_framefmt w h code 0 0 0 0 0).

Definition get_current_format (s : imx307) (cfg : v4l2_subdev_pad_config)
    : v4l2_mbus_framefmt :=
  format (snd (imx307_get_pad_format s cfg (active_request 0 0 0))).

(** [keeps_exposure_base]: the minimum and the step of the exposure
    control are as they were; [keeps_range_of id]: so is the whole range of
    control [id]. *)
Definition keeps_exposure_base (s s' : imx307) : Prop :=
  minimum (ctrl s' V4L2_CID_EXPOSURE) = minimum (ctrl s V4L2_CID_EXPOSURE) /\
  step (ctrl s' V4L2_CID_EXPOSURE) = step (ctrl s V4L2_CID_EXPOSURE).
Definition keeps_range_of (id : ctrl_id) (s s' : imx307) : Prop :=
  range_of (ctrl s' id) = range_of (ctrl s id).

(** What a call may do to the streaming flag and the flips: leave both,
    end STREAMING with the flips grabbed, end STOPPED with the flips
    released, or (suspend only) release the flips of a streaming instance
    and leave the flag set. *)
Inductive flip_effect (s s' : imx307) (c : call) : Prop :=
| effect_none :
    streaming s' = streaming s ->
    (forall id, flags (ctrl s' id) = flags (ctrl s id)) ->
    flip_effect s s' c
| effect_started :
    streaming s' = true -> flips_grabbed s' true -> flip_effect s s' c
| effect_stopped :
    streaming s' = false -> flips_grabbed s' false -> flip_effect s s' c
| effect_suspended :
    c = Suspend -> streaming s = true -> streaming s' = true ->
    flips_grabbed s' false -> flip_effect s s' c.

(** A sensor that streams, and the same sensor after a system suspend. *)
Definition streaming_sensor : imx307 := run sound_sensor [Set_stream 1].
Definition suspended_sensor : imx307 := run sound_sensor [Set_stream 1; Suspend].

(** A pad configuration with nothing in it. *)
Definition no_try_formats : v4l2_subdev_pad_config :=
  fun _ => mk_framefmt 0 0 0 0 0 0 0 0.

(** The device is not powered: [pm_runtime_get_if_in_use] returns 0 and
    [imx307_set_ctrl] stores values without writing them through. *)
Definition unpowered (s : imx307) : Prop :=
  runtime_active s && (0 <? usage_count s) = false.

Definition clamp (v lo hi : Z) : Z := Z.min (Z.max v lo) hi.

Definition is_flip (id : ctrl_id) : bool :=
  match id with
  | V4L2_CID_HFLIP | V4L2_CID_VFLIP => true
  | _ => false
  end.

(** ** Pad operations beside get/set format
    (src/imx307.c, 689-723, 814-870, 1049-1098) *)

(** [struct v4l2_subdev_mbus_code_enum], the members the driver touches. *)
Record v4l2_subdev_mbus_code_enum := mk_mbus_code_enum {
  mce_pad : Z;
  mce_index : Z;
  mce_code : Z
}.

Definition imx307_enum_mbus_code (s : imx307)
    (code : v4l2_subdev_mbus_code_enum) : Z * v4l2_subdev_mbus_code_enum :=
  if mce_pad code >=? NUM_PADS then (- EINVAL, code)
  else if mce_pad code =? IMAGE_PAD then
    if mce_index code >=? ARRAY_SIZE_codes / 4 then (- EINVAL, code)
    else
      (0, mk_mbus_code_enum (mce_pad code) (mce_index code)
            (imx307_get_format_code s (codes_at (u32 (mce_index code * 4)))))
  else if mce_index code >? 0 then (- EINVAL, code)
  else
    (0, mk_mbus_code_enum (mce_pad code) (mce_index code)
          MEDIA_BUS_FMT_SENSOR_DATA).

(** [struct v4l2_subdev_frame_size_enum] *)
Record v4l2_subdev_frame_size_enum := mk_frame_size_enum {
  fse_index : Z;
  fse_pad : Z;
  fse_code : Z;
  min_width : Z;
  max_width : Z;
  min_height : Z;
  max_height : Z
}.

Definition with_frame_size (fse : v4l2_subdev_frame_size_enum) (w h : Z)
    : v4l2_subdev_frame_size_enum :=
  mk_frame_size_enum (fse_index fse) (fse_pad fse) (fse_code fse) w w h h.

Definition ARRAY_SIZE_supported_modes : Z :=
  Z.of_nat (List.length supported_modes).

Definition imx307_enum_frame_size (s : imx307)
    (fse : v4l2_subdev_frame_size_enum) : Z * v4l2_subdev_frame_size_enum :=
  if fse_pad fse >=? NUM_PADS then (- EINVAL, fse)
  else if fse_pad fse =? IMAGE_PAD then
    if fse_index fse >=? ARRAY_SIZE_supported_modes then (- EINVAL, fse)
    else if negb (fse_code fse =? imx307_get_format_code s (fse_code fse))
    then (- EINVAL, fse)
    else
      let md := mode_at (Z.to_nat (fse_index fse)) in
      (0, with_frame_size fse (width md) (height md))
  else if negb (fse_code fse =? MEDIA_BUS_FMT_SENSOR_DATA)
          || (fse_index fse >? 0)
  then (- EINVAL, fse)
  else
    (0, with_frame_size fse imx307_EMBEDDED_LINE_WIDTH
          imx307_NUM_EMBEDDED_LINES).

(** Selection targets (include/uapi/linux/v4l2-common.h) and the native
    size of the pixel array (src/imx307.c, 108-109). *)
Definition V4L2_SEL_TGT_CROP : Z := 0x0000.
Definition V4L2_SEL_TGT_CROP_DEFAULT : Z := 0x0001.
Definition V4L2_SEL_TGT_CROP_BOUNDS : Z := 0x0002.
Definition V4L2_SEL_TGT_NATIVE_SIZE : Z := 0x0003.
Definition imx307_NATIVE_WIDTH : Z := 3296.
Definition imx307_NATIVE_HEIGHT : Z := 2480.

(** [struct v4l2_subdev_selection] *)
Record v4l2_subdev_selection := mk_selection {
  sel_which : Z;
  sel_pad : Z;
  sel_target : Z;
  sel_r : v4l2_rect
}.

Definition with_r (sel : v4l2_subdev_selection) (r : v4l2_rect)
    : v4l2_subdev_selection :=
  mk_selection (sel_which sel) (sel_pad sel) (sel_target sel) r.

(** The [try_crop] member of each pad's [struct v4l2_subdev_pad_config],
    kept beside the try formats. *)
Definition v4l2_subdev_try_crops : Type := Z -> v4l2_rect.

(** [v4l2_subdev_get_try_crop] (kernel: include/media/v4l2-subdev.h): a
    pad past the pads of the entity is warned about and read as pad 0. *)
Definition v4l2_subdev_get_try_crop (crops : v4l2_subdev_try_crops)
    (pad : Z) : v4l2_rect :=
  crops (if pad >=? NUM_PADS then 0 else pad).

(** [None] is the NULL that falls out of the [switch]. *)
Definition __imx307_get_pad_crop (s : imx307) (crops : v4l2_subdev_try_crops)
    (pad which : Z) : option v4l2_rect :=
  if which =? V4L2_SUBDEV_FORMAT_TRY then
    Some (v4l2_subdev_get_try_crop crops pad)
  else if which =? V4L2_SUBDEV_FORMAT_ACTIVE then Some (crop (cur_mode s))
  else None.

(** [imx307_get_selection]: the return code and the caller's selection;
    [None] is the dereference of the NULL [__imx307_get_pad_crop] returns
    for a [which] that is neither TRY nor ACTIVE. *)
Definition imx307_get_selection (s : imx307) (crops : v4l2_subdev_try_crops)
    (sel : v4l2_subdev_selection) : option (Z * v4l2_subdev_selection) :=
  if sel_target sel =? V4L2_SEL_TGT_CROP then
    match __imx307_get_pad_crop s crops (sel_pad sel) (sel_which sel) with
    | Some r => Some (0, with_r sel r)
    | None => None
    end
  else if sel_target sel =? V4L2_SEL_TGT_NATIVE_SIZE then
    Some (0, with_r sel (mk_rect 0 0 imx307_NATIVE_WIDTH imx307_NATIVE_HEIGHT))
  else if (sel_target sel =? V4L2_SEL_TGT_CROP_DEFAULT)
          || (sel_target sel =? V4L2_SEL_TGT_CROP_BOUNDS) then
    Some (0, with_r sel
               (mk_rect imx307_PIXEL_ARRAY_LEFT imx307_PIXEL_ARRAY_TOP
                  imx307_PIXEL_ARRAY_WIDTH imx307_PIXEL_ARRAY_HEIGHT))
  else Some (- EINVAL, sel).

(** [imx307_open]: the return code, and the try formats and try crops of
    the file handle ([fh->pad]). *)
Definition imx307_open (s : imx307) (cfg : v4l2_subdev_pad_config)
    (crops : v4l2_subdev_try_crops)
    : Z * v4l2_subdev_pad_config * v4l2_subdev_try_crops :=
  let try_fmt_img := cfg IMAGE_PAD in
  let try_fmt_meta := cfg METADATA_PAD in
  (* Initialize try_fmt for the image pad *)
  let try_fmt_img :=
    mk_framefmt (width (mode_at 0)) (height (mode_at 0))
      (imx307_get_format_code s MEDIA_BUS_FMT_SRGGB10_1X10) V4L2_FIELD_NONE
      (colorspace try_fmt_img) (ycbcr_enc try_fmt_img)
      (quantization try_fmt_img) (xfer_func try_fmt_img) in
  (* Initialize try_fmt for the embedded metadata pad *)
  let try_fmt_meta :=
    mk_framefmt imx307_EMBEDDED_LINE_WIDTH imx307_NUM_EMBEDDED_LINES
      MEDIA_BUS_FMT_SENSOR_DATA V4L2_FIELD_NONE
      (colorspace try_fmt_meta) (ycbcr_enc try_fmt_meta)
      (quantization try_fmt_meta) (xfer_func try_fmt_meta) in
  let cfg :=
    with_try_format (with_try_format cfg IMAGE_PAD try_fmt_img)
      METADATA_PAD try_fmt_meta in
  (* Initialize try_crop rectangle. *)
  let crops : v4l2_subdev_try_crops :=
    fun p =>
      if p =? 0 then
        mk_rect imx307_PIXEL_ARRAY_LEFT imx307_PIXEL_ARRAY_TOP
          imx307_PIXEL_ARRAY_WIDTH imx307_PIXEL_ARRAY_HEIGHT
      else crops p in
  (0, cfg, crops).

(** ** Register read and chip identification
    (src/imx307.c, 580-611, 1296-1318) *)

Definition imx307_REG_CHIP_ID : Z := 0x0000.
Definition imx307_CHIP_ID : Z := 0x0219.

(** What [i2c_transfer] does with the two messages of a register read:
    given the address bytes written and the number of bytes asked for, the
    value it returns (the number of messages carried out, or a negative
    errno) and the bytes it stored in the read buffer. *)
Definition i2c_read_bus : Type := list Z -> Z -> Z * list Z.

Definition get_unaligned_be32 (b : list Z) : Z :=
  Z.lor (Z.lor (Z.lor (Z.shiftl (nth 0 b 0) 24) (Z.shiftl (nth 1 b 0) 16))
               (Z.shiftl (nth 2 b 0) 8))
        (nth 3 b 0).

(** Read registers up to 2 at a time.  [val] is what [*val] held before
    the call; the result is the return code and what [*val] holds after
    it.  The bytes read land in [data_buf[4 - len ..]], the bytes before
    them stay zero. *)
Definition imx307_read_reg (bus : i2c_read_bus) (reg len val : Z) : Z * Z :=
  let addr_buf := [u8 (Z.shiftr (u16 reg) 8); u8 (Z.land (u16 reg) 0xff)] in
  if len >? 4 then (- EINVAL, val)
  else
    let '(ret, data) := bus addr_buf len in
    let data_buf :=
      repeat 0 (Z.to_nat (4 - len)) ++
      firstn (Z.to_nat len) (map u8 data ++ repeat 0 4) in
    if negb (ret =? 2) then (- EIO, val)
    else (0, get_unaligned_be32 data_buf).

(** Messages of the chip identification. *)
Inductive identify_log :=
| LogFailedToReadChipId (expected : Z)
| LogChipIdMismatch (expected got : Z).

(** Verify chip ID *)
Definition imx307_identify_module (bus : i2c_read_bus)
    : Z * list identify_log :=
  let '(ret, val) :=
    imx307_read_reg bus imx307_REG_CHIP_ID imx307_REG_VALUE_16BIT 0 in
  if negb (ret =? 0) then (ret, [LogFailedToReadChipId imx307_CHIP_ID])
  else if negb (val =? imx307_CHIP_ID) then
    (- EIO, [LogChipIdMismatch imx307_CHIP_ID val])
  else (0, []).

(** ** Relations and examples for the pad operations *)

(** Control [j] is as it was. *)
Definition keeps_ctrl (j : ctrl_id) (s s' : imx307) : Prop :=
  ctrl s' j = ctrl s j.

(** The controls a mode change recomputes. *)
Definition mode_ctrl (id : ctrl_id) : bool :=
  match id with
  | V4L2_CID_VBLANK | V4L2_CID_EXPOSURE | V4L2_CID_HBLANK => true
  | _ => false
  end.

(** A request on the image pad. *)
Definition image_request (wh code w h : Z) : v4l2_subdev_format :=
  mk_subdev_format wh IMAGE_PAD (mk_framefmt w h code 0 0 0 0 0).

(** ** Byte order on the wire *)

(** The [n] low-order bytes of [x], most significant first, and the value
    a list of bytes stands for in that order. *)
Fixpoint be_bytes (n : nat) (x : Z) : list Z :=
  match n with
  | O => []
  | S k => (x / 2 ^ (8 * Z.of_nat k)) mod 256 :: be_bytes k x
  end.

Definition be_value (l : list Z) : Z :=
  fold_left (fun acc b => acc * 256 + b) l 0.

(** The buffer of the newest bus transfer in the trace. *)
Definition last_sent (s : imx307) : list Z :=
  match trace s with
  | EvI2cSend buf _ :: _ => buf
  | _ => []
  end.

(** A device that holds the bytes of one register write, [sent], and
    answers a read of as many bytes at the same address with them; any
    other read fails with -EREMOTEIO. *)
Definition echo_device (sent : list Z) : i2c_read_bus :=
  fun addr_buf len =>
    if (list_eq_dec Z.eq_dec addr_buf (firstn 2 sent))
    then if len =? Z.of_nat (List.length sent) - 2
         then (2, skipn 2 sent) else (-121, [])
    else (-121, []).

(** A chip that answers every two-byte read with the bytes [hi], [lo]. *)
Definition chip_answering (hi lo : Z) : i2c_read_bus :=
  fun _ _ => (2, [hi; lo]).

(** ** Power accounting *)

(** How many times the supplies (the clock) are enabled at the end of a
    trace: successful enables less disables.  The trace is newest first. *)
Fixpoint supplies_enabled (t : list event) : Z :=
  match t with
  | [] => 0
  | EvRegulatorEnable ret :: r =>
      (if ret =? 0 then 1 else 0) + supplies_enabled r
  | EvRegulatorDisable :: r => supplies_enabled r - 1
  | _ :: r => supplies_enabled r
  end.

Fixpoint clock_enabled (t : list event) : Z :=
  match t with
  | [] => 0
  | EvClkEnable ret :: r => (if ret =? 0 then 1 else 0) + clock_enabled r
  | EvClkDisable :: r => clock_enabled r - 1
  | _ :: r => clock_enabled r
  end.

(** The level the reset line was last driven to; low before the first
    change. *)
Fixpoint reset_level (t : list event) : Z :=
  match t with
  | [] => 0
  | EvResetGpio v :: _ => v
  | _ :: r => reset_level r
  end.

(** Supplies, clock and reset line are up exactly while the device is
    runtime-active. *)
Definition power_consistent (s : imx307) : Prop :=
  supplies_enabled (trace s) = Z.b2z (runtime_active s) /\
  clock_enabled (trace s) = Z.b2z (runtime_active s) /\
  reset_level (trace s) = Z.b2z (runtime_active s).

Definition keeps_power_consistent (s s' : imx307) : Prop :=
  power_consistent s -> power_consistent s'.

(** The platform oracles are as they were. *)
Definition same_platform (s s' : imx307) : Prop :=
  i2c_bus s' = i2c_bus s /\
  regulator_bulk_enable_err s' = regulator_bulk_enable_err s /\
  clk_prepare_enable_err s' = clk_prepare_enable_err s.

(** Every transfer goes through; supplies and clock always come up. *)
Definition bus_ok (s : imx307) : Prop := forall n c, i2c_bus s n c = c.
Definition supplies_ok (s : imx307) : Prop :=
  forall n, regulator_bulk_enable_err s n = 0%nat /\
            clk_prepare_enable_err s n = 0%nat.

(** Calls as an application makes them: formats, controls, and stream
    on/off with [enable] 0 or 1; no system sleep. *)
Definition orderly_call (c : call) : bool :=
  match c with
  | Suspend | Resume => false
  | Set_stream enable => (enable =? 0) || (enable =? 1)
  | _ => true
  end.

Definition reachable_orderly (s : imx307) : Prop :=
  exists bus regulators clk cs,
    forallb orderly_call cs = true /\
    s = run (imx307_probe bus regulators clk) cs.

(** One power reference is held, and the device is active, exactly while
    the instance streams. *)
Definition powered_while_streaming (s : imx307) : Prop :=
  usage_count s = Z.b2z (streaming s) /\ runtime_active s = streaming s.

(** The trace only grows: what was done stays done. *)
Definition trace_grows (s s' : imx307) : Prop :=
  exists l, trace s' = l ++ trace s.

(** The transfer [imx307_write_regs] makes for one table entry on a bus
    that takes it. *)
Definition table_write (r : imx307_reg) : event :=
  EvI2cSend (write_reg_buf8 (address r) (reg_val r)) 3.

(** The frame-format table [imx307_set_framefmt] picks for a code. *)
Definition framefmt_regs (code : Z) : list imx307_reg :=
  if case_of raw8_codes code then raw8_framefmt_regs
  else raw10_framefmt_regs.

(** ** Control ranges *)

(** The default of every control lies within its limits. *)
Definition range_sane (s : imx307) : Prop :=
  forall id,
    minimum (ctrl s id) <= default_value (ctrl s id) <= maximum (ctrl s id).

Definition keeps_range_sane (s s' : imx307) : Prop :=
  range_sane s -> range_sane s'.

(** The controls that no mode change recomputes have kept their range. *)
Definition keeps_fixed_ranges (s s' : imx307) : Prop :=
  forall id, mode_ctrl id = false ->
             range_of (ctrl s' id) = range_of (ctrl s id).

(** The ranges of the two blanking controls are those of the current
    mode. *)
Definition mode_ranges (s : imx307) : Prop :=
  range_of (ctrl s V4L2_CID_VBLANK) =
    (imx307_VBLANK_MIN, imx307_VTS_MAX - height (cur_mode s), 1,
     vts_def (cur_mode s) - height (cur_mode s)) /\
  range_of (ctrl s V4L2_CID_HBLANK) =
    (imx307_PPL_DEFAULT - width (cur_mode s),
     imx307_PPL_DEFAULT - width (cur_mode s), 1,
     imx307_PPL_DEFAULT - width (cur_mode s)).

(** While the device is not powered an operation sends nothing and leaves
    it unpowered. *)
Definition silent (s s' : imx307) : Prop :=
  unpowered s -> unpowered s' /\ i2c_xfers s' = i2c_xfers s.

(** The register a control value is written to as it is, and the width of
    the write in bytes; [None] for the controls whose callback does more
    (vertical blank, flips, test pattern) or nothing. *)
Definition ctrl_register (id : ctrl_id) : option (Z * Z) :=
  match id with
  | V4L2_CID_ANALOGUE_GAIN =>
      Some (imx307_REG_ANALOG_GAIN, imx307_REG_VALUE_08BIT)
  | V4L2_CID_DIGITAL_GAIN =>
      Some (imx307_REG_DIGITAL_GAIN, imx307_REG_VALUE_16BIT)
  | V4L2_CID_EXPOSURE => Some (imx307_REG_EXPOSURE, imx307_REG_VALUE_16BIT)
  | V4L2_CID_TEST_PATTERN_RED =>
      Some (imx307_REG_TESTP_RED, imx307_REG_VALUE_16BIT)
  | V4L2_CID_TEST_PATTERN_GREENR =>
      Some (imx307_REG_TESTP_GREENR, imx307_REG_VALUE_16BIT)
  | V4L2_CID_TEST_PATTERN_BLUE =>
      Some (imx307_REG_TESTP_BLUE, imx307_REG_VALUE_16BIT)
  | V4L2_CID_TEST_PATTERN_GREENB =>
      Some (imx307_REG_TESTP_GREENB, imx307_REG_VALUE_16BIT)
  | _ => None
  end.

(** The transfer that writes [v] to the register of a control. *)
Definition ctrl_write (reg len v n : Z) : event :=
  EvI2cSend (be_bytes 2 (u16 reg) ++ be_bytes (Z.to_nat len) (u32 v)) n.

(** The bus transfer [e] is a write to register [reg]: its first two
    bytes are the address, most significant byte first. *)
Definition writes_reg (reg : Z) (e : event) : bool :=
  match e with
  | EvI2cSend (a :: b :: _) _ =>
      (a =? u16 reg / 256) && (b =? u16 reg mod 256)
  | _ => false
  end.

(** The newest write to register [reg] in a trace, if there is one. *)
Definition newest_write (reg : Z) (t : list event) : option event :=
  find (writes_reg reg) t.

(** ** Probe and remove (src/imx307.c, 1283-1294, 1347-1645)

    [imx307_probe] as the bus core calls it, with every way it can fail.
    What the firmware description, the clock, regulator, media and async
    frameworks answer is the [platform]; the calls the driver makes on them
    that leave no mark in [struct imx307] are kept in a trace of their
    own.  The functions that the instance model above has in their
    success-only form ([imx307_init_controls], [imx307_probe]) are here in
    full, under the same names, inside the module. *)
Module Probe.

Definition ENOMEM : Z := 12.
Definition imx307_XCLK_FREQ : Z := 24000000.
Definition imx307_DEFAULT_LINK_FREQ : Z := 456000000.

(** regulator supplies *)
Definition imx307_supply_name : list string :=
  [ "VANA"%string; "VDIG"%string; "VDDL"%string ].
Definition imx307_NUM_SUPPLIES : Z :=
  Z.of_nat (List.length imx307_supply_name).

(** The endpoint node of the device and what
    [v4l2_fwnode_endpoint_alloc_parse] makes of it: its return value and
    the members of [struct v4l2_fwnode_endpoint] the driver reads. *)
Record fwnode_endpoint := mk_endpoint {
  alloc_parse : Z;
  num_data_lanes : Z;
  link_frequencies : list Z
}.

Record platform := mk_platform {
  devm_kzalloc : bool;                      (* false: allocation failed *)
  fwnode_graph_get_next_endpoint : option fwnode_endpoint;
  devm_clk_get : Z;                         (* 0, or PTR_ERR of the clock *)
  clk_get_rate : Z;
  devm_regulator_bulk_get : Z;
  i2c_transfer : i2c_read_bus;
  i2c_send : nat -> Z -> Z;
  regulator_bulk_enable : nat -> nat;
  clk_prepare_enable : nat -> nat;
  v4l2_ctrl_handler_init : Z;
  ctrl_hdlr_error : Z;                      (* ctrl_hdlr->error *)
  v4l2_fwnode_device_parse : Z;
  v4l2_ctrl_new_fwnode_properties : Z;
  media_entity_pads_init : Z;
  v4l2_async_register_subdev_sensor_common : Z
}.

Inductive probe_log :=
| LogEndpointNotFound
| LogCouldNotParseEndpoint
| LogOnly2DataLanes
| LogLinkFrequencyNotFound
| LogLinkFrequencyNotSupported (f : Z)
| LogFailedToGetXclk
| LogXclkFrequencyNotSupported (f : Z)
| LogFailedToGetRegulators
| LogIdentify (m : identify_log)
| LogControlInitFailed (ret : Z)
| LogFailedToInitEntityPads (ret : Z)
| LogFailedToRegisterSubdev (ret : Z).

(** Calls on the frameworks, newest first. *)
Inductive probe_event :=
| PeLog (m : probe_log)
| PeEndpointFree
| PeFwnodeHandlePut
| PeRegulatorBulkGet (names : list string)
| PeGpiodGetOptional
| PeUsleepRange (lo hi : Z)
| PeCtrlHandlerFree
| PeMutexInit
| PeMutexDestroy
| PeMediaEntityCleanup
| PeAsyncUnregister
| PePmRuntimeSetActive
| PePmRuntimeEnable
| PePmRuntimeIdle
| PePmRuntimeDisable
| PePmRuntimeSetSuspended.

Record device := mk_device {
  inst : imx307;
  calls : list probe_event
}.

Definition note (d : device) (e : probe_event) : device :=
  mk_device (inst d) (e :: calls d).
Definition with_inst (d : device) (s : imx307) : device :=
  mk_device s (calls d).

Definition imx307_check_hwcfg (pf : platform) (d : device) : Z * device :=
  match fwnode_graph_get_next_endpoint pf with
  | None => (- EINVAL, note d (PeLog LogEndpointNotFound))
  | Some ep =>
      let '(ret, d) :=
        if negb (alloc_parse ep =? 0) then
          (- EINVAL, note d (PeLog LogCouldNotParseEndpoint))
        (* Check the number of MIPI CSI2 data lanes *)
        else if negb (num_data_lanes ep =? 2) then
          (- EINVAL, note d (PeLog LogOnly2DataLanes))
        (* Check the link frequency set in device tree *)
        else if Z.of_nat (List.length (link_frequencies ep)) =? 0 then
          (- EINVAL, note d (PeLog LogLinkFrequencyNotFound))
        else if negb (Z.of_nat (List.length (link_frequencies ep)) =? 1)
                || negb (nth 0 (link_frequencies ep) 0
                         =? imx307_DEFAULT_LINK_FREQ) then
          (- EINVAL,
           note d (PeLog (LogLinkFrequencyNotSupported
                            (nth 0 (link_frequencies ep) 0))))
        else (0, d) in
      (ret, note (note d PeEndpointFree) PeFwnodeHandlePut)
  end.

Definition imx307_get_regulators (pf : platform) (d : device) : Z * device :=
  (devm_regulator_bulk_get pf, note d (PeRegulatorBulkGet imx307_supply_name)).

Definition imx307_free_controls (d : device) : device :=
  note (note d PeCtrlHandlerFree) PeMutexDestroy.

(** Initialize control handlers *)
Definition imx307_init_controls (pf : platform) (d : device) : Z * device :=
  let ret := v4l2_ctrl_handler_init pf in
  if negb (ret =? 0) then (ret, d)
  else
    let d := note d PeMutexInit in
    let created := imx307_init_controls (inst d) in
    if negb (ctrl_hdlr_error pf =? 0) then
      let ret := ctrl_hdlr_error pf in
      (ret, note (note (note d (PeLog (LogControlInitFailed ret)))
                    PeCtrlHandlerFree) PeMutexDestroy)
    else
      let ret := v4l2_fwnode_device_parse pf in
      if negb (ret =? 0) then
        (ret, note (note d PeCtrlHandlerFree) PeMutexDestroy)
      else
        let ret := v4l2_ctrl_new_fwnode_properties pf in
        if negb (ret =? 0) then
          (ret, note (note d PeCtrlHandlerFree) PeMutexDestroy)
        else (0, with_inst d created).

(** Runtime PM at the two ends of the life of the device (kernel:
    drivers/base/power/runtime.c).  [pm_runtime_idle] on a device nobody
    uses runs the runtime-suspend callback, [imx307_power_off], at once. *)
Definition pm_runtime_set_active (d : device) : device :=
  note (with_inst d (with_runtime_active (inst d) true)) PePmRuntimeSetActive.
Definition pm_runtime_enable (d : device) : device :=
  note d PePmRuntimeEnable.
Definition pm_runtime_idle (d : device) : device :=
  let d := note d PePmRuntimeIdle in
  if (usage_count (inst d) =? 0) && runtime_active (inst d) then
    with_inst d
      (with_runtime_active (snd (imx307_power_off (inst d))) false)
  else d.
Definition pm_runtime_disable (d : device) : device :=
  note d PePmRuntimeDisable.
Definition pm_runtime_status_suspended (d : device) : bool :=
  negb (runtime_active (inst d)).
Definition pm_runtime_set_suspended (d : device) : device :=
  note (with_inst d (with_runtime_active (inst d) false))
    PePmRuntimeSetSuspended.

(** [devm_gpiod_get_optional(dev, "reset", GPIOD_OUT_HIGH)]: the line is
    requested as an output that is driven high from the request on (kernel:
    drivers/gpio/gpiolib.c, gpiod_configure_flags); the return value is
    stored unexamined. *)
Definition devm_gpiod_get_optional_out_high (d : device) : device :=
  note (with_inst d (emit (inst d) (EvResetGpio 1))) PeGpiodGetOptional.

(** The label [error_power_off] and the two above it. *)
Definition error_power_off (ret : Z) (d : device) : Z * device :=
  (ret, with_inst d (snd (imx307_power_off (inst d)))).
Definition error_handler_free (ret : Z) (d : device) : Z * device :=
  error_power_off ret (imx307_free_controls d).
Definition error_media_entity (ret : Z) (d : device) : Z * device :=
  error_handler_free ret (note d PeMediaEntityCleanup).

(** [imx307_probe]: the return code and the device as the call leaves it.
    [None] for the device stands for no allocation at all. *)
Definition imx307_probe (pf : platform) : Z * option device :=
  if negb (devm_kzalloc pf) then (- ENOMEM, None)
  else
    let zero := mk_framefmt 0 0 0 0 0 0 0 0 in
    let d :=
      mk_device
        (mk_imx307 zero
           (fun _ => mk_ctrl V4L2_CTRL_TYPE_INTEGER 0 0 0 0 0 0 0)
           0%nat false 0 false (i2c_send pf) 0%nat (regulator_bulk_enable pf)
           (clk_prepare_enable pf) 0%nat [])
        [] in
    (* Check the hardware configuration in device tree *)
    let '(ret, d) := imx307_check_hwcfg pf d in
    if negb (ret =? 0) then (- EINVAL, Some d)
    (* Get system clock (xclk) *)
    else if negb (devm_clk_get pf =? 0) then
      (devm_clk_get pf, Some (note d (PeLog LogFailedToGetXclk)))
    else if negb (u32 (clk_get_rate pf) =? imx307_XCLK_FREQ) then
      (- EINVAL,
       Some (note d (PeLog (LogXclkFrequencyNotSupported
                              (u32 (clk_get_rate pf))))))
    else
      let '(ret, d) := imx307_get_regulators pf d in
      if negb (ret =? 0) then
        (ret, Some (note d (PeLog LogFailedToGetRegulators)))
      else
        (* Request optional enable pin *)
        let d := devm_gpiod_get_optional_out_high d in
        (* The sensor must be powered for imx307_identify_module() to be
           able to read the CHIP_ID register *)
        let '(ret, s) := imx307_power_on (inst d) in
        let d := with_inst d s in
        if negb (ret =? 0) then (ret, Some d)
        else
          let '(ret, logs) := imx307_identify_module (i2c_transfer pf) in
          let d :=
            fold_left (fun d m => note d (PeLog (LogIdentify m))) logs d in
          if negb (ret =? 0) then
            let '(ret, d) := error_power_off ret d in (ret, Some d)
          else
            (* Set default mode to max resolution *)
            let d := with_inst d (with_mode (inst d) 0%nat) in
            (* streaming -> standby, so that the sensor enters LP-11 *)
            let '(ret, s) :=
              imx307_write_reg (inst d) imx307_REG_MODE_SELECT
                imx307_REG_VALUE_08BIT imx307_MODE_STREAMING in
            let d := with_inst d s in
            if ret <? 0 then
              let '(ret, d) := error_power_off ret d in (ret, Some d)
            else
              let d := note d (PeUsleepRange 100 110) in
              (* put sensor back to standby mode *)
              let '(ret, s) :=
                imx307_write_reg (inst d) imx307_REG_MODE_SELECT
                  imx307_REG_VALUE_08BIT imx307_MODE_STANDBY in
              let d := with_inst d s in
              if ret <? 0 then
                let '(ret, d) := error_power_off ret d in (ret, Some d)
              else
                let d := note d (PeUsleepRange 100 110) in
                let '(ret, d) := imx307_init_controls pf d in
                if negb (ret =? 0) then
                  let '(ret, d) := error_power_off ret d in (ret, Some d)
                else
                  (* Initialize default format *)
                  let d :=
                    with_inst d (imx307_set_default_format (inst d)) in
                  let ret := media_entity_pads_init pf in
                  if negb (ret =? 0) then
                    let '(ret, d) :=
                      error_handler_free ret
                        (note d (PeLog (LogFailedToInitEntityPads ret))) in
                    (ret, Some d)
                  else
                    let ret := v4l2_async_register_subdev_sensor_common pf in
                    if ret <? 0 then
                      let '(ret, d) :=
                        error_media_entity ret
                          (note d (PeLog (LogFailedToRegisterSubdev ret))) in
                      (ret, Some d)
                    else
                      (* Enable runtime PM and turn off the device *)
                      let d := pm_runtime_set_active d in
                      let d := pm_runtime_enable d in
                      let d := pm_runtime_idle d in
                      (0, Some d).

Definition imx307_remove (d : device) : Z * device :=
  let d := note d PeAsyncUnregister in
  let d := note d PeMediaEntityCleanup in
  let d := imx307_free_controls d in
  let d := pm_runtime_disable d in
  let d :=
    if negb (pm_runtime_status_suspended d) then
      with_inst d (snd (imx307_power_off (inst d)))
    else d in
  let d := pm_runtime_set_suspended d in
  (0, d).

End Probe.

(** How often an event occurs in a trace of framework calls. *)
Definition probe_event_eqb (a b : Probe.probe_event) : bool :=
  match a, b with
  | Probe.PeEndpointFree, Probe.PeEndpointFree
  | Probe.PeFwnodeHandlePut, Probe.PeFwnodeHandlePut
  | Probe.PeCtrlHandlerFree, Probe.PeCtrlHandlerFree
  | Probe.PeMutexInit, Probe.PeMutexInit
  | Probe.PeMutexDestroy, Probe.PeMutexDestroy
  | Probe.PeMediaEntityCleanup, Probe.PeMediaEntityCleanup
  | Probe.PeAsyncUnregister, Probe.PeAsyncUnregister
  | Probe.PeGpiodGetOptional, Probe.PeGpiodGetOptional => true
  | _, _ => false
  end.

Definition times (e : Probe.probe_event) (t : list Probe.probe_event) : nat :=
  List.length (filter (probe_event_eqb e) t).

(** A platform on which every step of the probe goes through: the endpoint
    has two data lanes and the one supported link frequency, the clock
    runs at 24 MHz, the chip answers 0x0219, and no framework call
    fails. *)
Definition platform_ok (pf : Probe.platform) : Prop :=
  Probe.devm_kzalloc pf = true /\
  (exists ep,
     Probe.fwnode_graph_get_next_endpoint pf = Some ep /\
     Probe.alloc_parse ep = 0 /\ Probe.num_data_lanes ep = 2 /\
     Probe.link_frequencies ep = [Probe.imx307_DEFAULT_LINK_FREQ]) /\
  Probe.devm_clk_get pf = 0 /\
  u32 (Probe.clk_get_rate pf) = Probe.imx307_XCLK_FREQ /\
  Probe.devm_regulator_bulk_get pf = 0 /\
  Probe.regulator_bulk_enable pf 0%nat = 0%nat /\
  Probe.clk_prepare_enable pf 0%nat = 0%nat /\
  fst (Probe.i2c_transfer pf [0; 0] 2) = 2 /\
  u8 (nth 0 (snd (Probe.i2c_transfer pf [0; 0] 2)) 0) = 0x02 /\
  u8 (nth 1 (snd (Probe.i2c_transfer pf [0; 0] 2)) 0) = 0x19 /\
  Probe.i2c_send pf 0%nat 3 = 3 /\ Probe.i2c_send pf 1%nat 3 = 3 /\
  Probe.v4l2_ctrl_handler_init pf = 0 /\
  Probe.ctrl_hdlr_error pf = 0 /\
  Probe.v4l2_fwnode_device_parse pf = 0 /\
  Probe.v4l2_ctrl_new_fwnode_properties pf = 0 /\
  Probe.media_entity_pads_init pf = 0 /\
  0 <= Probe.v4l2_async_register_subdev_sensor_common pf.

(** A sound platform, and the same with a chip that answers another id. *)
Definition sound_platform : Probe.platform :=
  Probe.mk_platform true
    (Some (Probe.mk_endpoint 0 2 [Probe.imx307_DEFAULT_LINK_FREQ]))
    0 24000000 0 (chip_answering 0x02 0x19) good_bus good_supply good_supply
    0 0 0 0 0 0.

Definition wrong_chip_platform : Probe.platform :=
  Probe.mk_platform true
    (Some (Probe.mk_endpoint 0 2 [Probe.imx307_DEFAULT_LINK_FREQ]))
    0 24000000 0 (chip_answering 0x03 0x07) good_bus good_supply good_supply
    0 0 0 0 0 0.

(** A platform whose regulators do not come up, and one whose clock does
    not. *)
Definition dead_supply_platform : Probe.platform :=
  Probe.mk_platform true
    (Some (Probe.mk_endpoint 0 2 [Probe.imx307_DEFAULT_LINK_FREQ]))
    0 24000000 0 (chip_answering 0x02 0x19) good_bus (fun _ => 5%nat)
    good_supply 0 0 0 0 0 0.

Definition dead_clock_platform : Probe.platform :=
  Probe.mk_platform true
    (Some (Probe.mk_endpoint 0 2 [Probe.imx307_DEFAULT_LINK_FREQ]))
    0 24000000 0 (chip_answering 0x02 0x19) good_bus good_supply
    (fun _ => 5%nat) 0 0 0 0 0 0.

(** The first power-up, the one the probe makes, fails. *)
Definition power_up_fails (pf : Probe.platform) : bool :=
  negb (Nat.eqb (Probe.regulator_bulk_enable pf 0%nat) 0
        && Nat.eqb (Probe.clk_prepare_enable pf 0%nat) 0).

(** The probe got as far as requesting the reset line. *)
Definition reset_requested (d : Probe.device) : bool :=
  Nat.ltb 0 (times Probe.PeGpiodGetOptional (Probe.calls d)).

(** What the driver keeps in [struct imx307] and the runtime-PM state of
    the device agree in [s] and [m]; the platform, the bus traffic and the
    power-ups so far may differ. *)
Definition same_driver_state (s m : imx307) : Prop :=
  fmt s = fmt m /\
  (forall id, ctrl s id = ctrl m id) /\
  mode s = mode m /\
  streaming s = streaming m /\
  usage_count s = usage_count m /\
  runtime_active s = runtime_active m.

(** Supplies, clock and reset line are down and nobody holds the device. *)
Definition powered_down (s : imx307) : Prop :=
  supplies_enabled (trace s) = 0 /\
  clock_enabled (trace s) = 0 /\
  reset_level (trace s) = 0 /\
  runtime_active s = false.
(** ** The control replay on the bus *)

(** The registers the control callback writes. *)
Definition control_registers : list Z :=
  [ imx307_REG_VTS; imx307_REG_EXPOSURE; imx307_REG_ANALOG_GAIN;
    imx307_REG_DIGITAL_GAIN; imx307_REG_ORIENTATION; imx307_REG_TEST_PATTERN;
    imx307_REG_TESTP_RED; imx307_REG_TESTP_GREENR; imx307_REG_TESTP_BLUE;
    imx307_REG_TESTP_GREENB ].

(** What a control write leaves in the trace: the probe for a power
    reference, the write to a control register, the put of the
    reference. *)
Definition control_event (e : event) : bool :=
  match e with
  | EvPmGetIfInUse _ | EvPmPut => true
  | EvI2cSend _ _ => existsb (fun reg => writes_reg reg e) control_registers
  | _ => false
  end.

(** The trace has grown by control events only. *)
Definition control_traffic (s s' : imx307) : Prop :=
  exists l, trace s' = l ++ trace s /\ forallb control_event l = true.

(** ** System sleep and the power reference *)

(** [in_suspend cs]: the run [cs] ends between a system suspend and the
    resume that follows it; [suspend_step] carries that through one
    call. *)
Definition suspend_step (b : bool) (c : call) : bool :=
  match c with
  | Suspend => true
  | Resume => false
  | _ => b
  end.

Definition in_suspend (cs : list call) : bool :=
  fold_left suspend_step cs false.

(** Reachable, and not between a system suspend and its resume. *)
Definition reachable_outside_suspend (s : imx307) : Prop :=
  exists bus regulators clk cs,
    in_suspend cs = false /\
    s = run (imx307_probe bus regulators clk) cs.

(** What [imx307_power_off] leaves in the trace, newest first. *)
Definition power_off_events : list event :=
  [EvClkDisable; EvRegulatorDisable; EvResetGpio 0].

(** What [imx307_stop_streaming] adds to the trace, newest first: the
    stream-off transfer, to which the bus answered [n]; the log line when
    the transfer failed; the put of the power reference; and, when that
    was the [last] reference of an active device, the power-down. *)
Definition stop_events (n : Z) (last : bool) : list event :=
  (if last then power_off_events else [])
  ++ EvPmPut
  :: (if n =? 3 then [] else [EvLog LogFailedToSetStream])
  ++ [EvI2cSend (write_reg_buf8 imx307_REG_MODE_SELECT imx307_MODE_STANDBY) n].

(** Supplies, clock and reset line are all on ([1]) or all off ([0]). *)
Definition power_is (s : imx307) (v : Z) : Prop :=
  supplies_enabled (trace s) = v /\
  clock_enabled (trace s) = v /\
  reset_level (trace s) = v.

(** [calm s s']: the power reference is as it was, what holds of the
    supplies still holds, and the trace has only grown. *)
Definition calm (s s' : imx307) : Prop :=
  steady s s' /\ keeps_power_consistent s s' /\ trace_grows s s'.


(** A sensor that streamed, was suspended and resumed. *)
Definition resumed_sensor : imx307 :=
  run sound_sensor [Set_stream 1; Suspend; Resume].

(** A sensor that streamed and was suspended, and whose resume failed: the
    first transfer of the restart, the 71st on the bus, was not taken. *)
Definition resume_failed_sensor : imx307 :=
  run (imx307_probe (bus_failing_at 70) good_supply good_supply)
    [Set_stream 1; Suspend; Resume].



(** A sensor that streams on a bus that will fail its 71st transfer. *)
Definition streaming_before_bus_failure : imx307 :=
  run (imx307_probe (bus_failing_at 70) good_supply good_supply)
    [Set_stream 1].


(** * Properties *)

(** ** Format/Bayer resolver *)

Lemma first_index_of_Some (l : list Z) (x : Z) (n : nat) :
  first_index_of l x = Some n ->
  (n < length l)%nat /\ nth n l 0 = x /\
  forall j, (j < n)%nat -> nth j l 0 <> x.
Proof.
  revert n; induction l as [|y rest IH]; intros n H; simpl in H.
  - discriminate.
  - destruct (Z.eqb_spec y x) as [E|E].
    + inversion H; subst n. simpl. repeat split; [lia | assumption | lia].
    + destruct (first_index_of rest x) as [k|] eqn:K; simpl in H;
        [|discriminate].
      inversion H; subst n. destruct (IH k eq_refl) as (L & N & F).
      simpl. repeat split; [lia | assumption |].
      intros [|j] Hj; [assumption | apply F; lia].
Qed.

Lemma first_index_of_None (l : list Z) (x : Z) :
  first_index_of l x = None <-> ~ In x l.
Proof.
  induction l as [|y rest IH]; simpl.
  - split; [intros _ [] | reflexivity].
  - destruct (Z.eqb_spec y x) as [E|E].
    + split; [discriminate | intros H; exfalso; apply H; now left].
    + destruct (first_index_of rest x) as [k|]; simpl; split; intros H;
        try discriminate.
      * exfalso. destruct IH as [_ IH2].
        assert (Some k = None) as A
            by (apply IH2; intros I; apply H; now right).
        discriminate.
      * intros [I|I]; [contradiction | exact (proj1 IH eq_refl I)].
      * reflexivity.
Qed.

(** The driver's search loop finds the first index, or runs off the end. *)
Lemma code_index_from_first (l : list Z) (x i : Z) :
  code_index_from l x i =
  match first_index_of l x with
  | Some n => i + Z.of_nat n
  | None => i + Z.of_nat (length l)
  end.
Proof.
  revert i; induction l as [|y rest IH]; intros i; simpl.
  - lia.
  - destruct (y =? x); [lia|].
    rewrite IH. destruct (first_index_of rest x); simpl; lia.
Qed.

Lemma code_index_base (code : Z) :
  (if code_index_from codes code 0 >=? ARRAY_SIZE_codes then 0
   else code_index_from codes code 0) = base_index code.
Proof.
  rewrite code_index_from_first. unfold base_index.
  destruct (first_index_of codes code) as [n|] eqn:F.
  - apply first_index_of_Some in F. destruct F as (L & _).
    change (length codes) with 8%nat in L. unfold ARRAY_SIZE_codes.
    change (Z.of_nat (length codes)) with 8.
    destruct (Z.geb_spec (0 + Z.of_nat n) 8); lia.
  - reflexivity.
Qed.

Lemma base_index_range (code : Z) : 0 <= base_index code < 8.
Proof.
  unfold base_index. destruct (first_index_of codes code) as [n|] eqn:F.
  - apply first_index_of_Some in F. destruct F as (L & _).
    change (length codes) with 8%nat in L. lia.
  - lia.
Qed.

Lemma small_index_cases (i : Z) :
  0 <= i < 8 ->
  i = 0 \/ i = 1 \/ i = 2 \/ i = 3 \/ i = 4 \/ i = 5 \/ i = 6 \/ i = 7.
Proof. lia. Qed.

Lemma flip_index_range (code : Z) (h v : bool) :
  0 <= flip_index code h v < 8.
Proof.
  unfold flip_index.
  destruct (small_index_cases _ (base_index_range code))
    as [E|[E|[E|[E|[E|[E|[E|E]]]]]]];
    rewrite E; destruct h, v; vm_compute; split; congruence.
Qed.

Lemma codes_at_member (i : Z) : 0 <= i < 8 -> In (codes_at i) codes.
Proof.
  intros H.
  destruct (small_index_cases _ H) as [E|[E|[E|[E|[E|[E|[E|E]]]]]]];
    subst i; unfold codes_at, codes; simpl; tauto.
Qed.

Lemma get_format_code_resolve (s : imx307) (code : Z) :
  imx307_get_format_code s code = resolve_code code (hflip_on s) (vflip_on s).
Proof.
  unfold imx307_get_format_code, resolve_code, flip_index.
  rewrite code_index_base. fold (hflip_on s). fold (vflip_on s).
  f_equal.
  destruct (small_index_cases _ (base_index_range code))
    as [E|[E|[E|[E|[E|[E|[E|E]]]]]]];
    rewrite E; destruct (hflip_on s), (vflip_on s); reflexivity.
Qed.

Lemma get_format_code_member (s : imx307) (code : Z) :
  In (imx307_get_format_code s code) codes.
Proof.
  rewrite get_format_code_resolve. apply codes_at_member, flip_index_range.
Qed.

(** C2. For every requested code and every flip setting,
    [imx307_get_format_code] returns
    [codes[(base_index & ~3) | (vflip ? 2 : 0) | (hflip ? 1 : 0)]], where
    [base_index] is the index of the first table entry equal to the code, or
    0 for a code that is not in the table; the result is a member of the
    table, and it is the pure function [resolve_code] of the requested code
    and the two flip flags, so two instances with the same flags resolve a
    code alike. *)
Theorem resolve_code_correct (s : imx307) (code : Z) :
  let b := base_index code in
  let i := Z.lor (Z.lor (Z.land b (Z.lnot 3))
                        (if vflip_on s then 2 else 0))
                 (if hflip_on s then 1 else 0) in
  (* what base_index is *)
  ((In code codes /\ codes_at b = code /\
    forall j, 0 <= j < b -> codes_at j <> code)
   \/ (~ In code codes /\ b = 0)) /\
  (* the value returned *)
  imx307_get_format_code s code = codes_at i /\
  In (imx307_get_format_code s code) codes /\
  (* purity *)
  imx307_get_format_code s code = resolve_code code (hflip_on s) (vflip_on s) /\
  (forall s', hflip_on s' = hflip_on s -> vflip_on s' = vflip_on s ->
              imx307_get_format_code s' code = imx307_get_format_code s code).
Proof.
  cbv zeta. repeat split.
  - unfold base_index.
    destruct (first_index_of codes code) as [n|] eqn:F.
    + left. destruct (first_index_of_Some _ _ _ F) as (L & N & B).
      unfold codes_at. rewrite Nat2Z.id. repeat split.
      * rewrite <- N. apply nth_In. exact L.
      * exact N.
      * intros j Hj. apply B. lia.
    + right. split; [now apply first_index_of_None | reflexivity].
  - rewrite get_format_code_resolve. reflexivity.
  - apply get_format_code_member.
  - apply get_format_code_resolve.
  - intros s' Hh Hv. rewrite !get_format_code_resolve, Hh, Hv. reflexivity.
Qed.

(** The four flip variants of a code are pairwise distinct. *)
Lemma resolve_code_variants_distinct (code : Z) (h1 v1 h2 v2 : bool) :
  resolve_code code h1 v1 = resolve_code code h2 v2 -> h1 = h2 /\ v1 = v2.
Proof.
  unfold resolve_code, flip_index.
  destruct (small_index_cases _ (base_index_range code))
    as [E|[E|[E|[E|[E|[E|[E|E]]]]]]];
    rewrite E; destruct h1, v1, h2, v2; vm_compute; intros H;
    try (split; reflexivity); discriminate.
Qed.

(** ** Frame properties of the platform and of the control framework *)

Lemma steady_refl (s : imx307) : steady s s.
Proof. constructor; reflexivity. Qed.

Lemma steady_trans (s1 s2 s3 : imx307) :
  steady s1 s2 -> steady s2 s3 -> steady s1 s3.
Proof.
  intros [A1 A2 A3 A4 A5 A6 A7] [B1 B2 B3 B4 B5 B6 B7].
  constructor; first [congruence | intros id; rewrite ?B6, ?B7; auto].
Qed.

Lemma steady_emit (s : imx307) (e : event) : steady s (emit s e).
Proof. constructor; reflexivity. Qed.

Lemma ctrl_put_same (s : imx307) (id : ctrl_id) (c : v4l2_ctrl) :
  ctrl (put_ctrl s id c) id = c.
Proof.
  unfold ctrl, put_ctrl; simpl.
  destruct (ctrl_id_eq_dec id id); [reflexivity | contradiction].
Qed.

Lemma ctrl_put_other (s : imx307) (id j : ctrl_id) (c : v4l2_ctrl) :
  j <> id -> ctrl (put_ctrl s id c) j = ctrl s j.
Proof.
  intros N. unfold ctrl, put_ctrl; simpl.
  destruct (ctrl_id_eq_dec j id); [contradiction | reflexivity].
Qed.

Lemma steady_put_ctrl (s : imx307) (id : ctrl_id) (c : v4l2_ctrl) :
  ctype c = ctype (ctrl s id) -> flags c = flags (ctrl s id) ->
  steady s (put_ctrl s id c).
Proof.
  intros T F. constructor; try reflexivity; intros j;
    (destruct (ctrl_id_eq_dec j id) as [->|N];
     [rewrite ctrl_put_same; assumption
     | rewrite ctrl_put_other by assumption; reflexivity]).
Qed.

Lemma steady_cur_to_new (s : imx307) (id : ctrl_id) : steady s (cur_to_new s id).
Proof. apply steady_put_ctrl; reflexivity. Qed.

Lemma steady_new_to_cur (s : imx307) (id : ctrl_id) : steady s (new_to_cur s id).
Proof. apply steady_put_ctrl; reflexivity. Qed.

Lemma steady_i2c_master_send (s : imx307) (buf : list Z) :
  steady s (snd (i2c_master_send s buf)).
Proof. constructor; reflexivity. Qed.

Lemma steady_write_reg (s : imx307) (reg len v : Z) :
  steady s (snd (imx307_write_reg s reg len v)).
Proof.
  unfold imx307_write_reg. destruct (len >? 4); [apply steady_refl|].
  destruct (i2c_master_send s _) as [n s1] eqn:E.
  assert (steady s s1) as H
      by (change s1 with (snd (n, s1)); rewrite <- E;
          apply steady_i2c_master_send).
  destruct (negb (n =? len + 2)); exact H.
Qed.

Lemma steady_write_regs (regs : list imx307_reg) (s : imx307) :
  steady s (snd (imx307_write_regs s regs)).
Proof.
  revert s; induction regs as [|r rest IH]; intros s; simpl.
  - apply steady_refl.
  - pose proof (steady_write_reg s (address r) 1 (reg_val r)) as H.
    destruct (imx307_write_reg s (address r) 1 (reg_val r)) as [ret s1].
    simpl in H. destruct (negb (ret =? 0)); simpl.
    + eapply steady_trans; [exact H | apply steady_emit].
    + eapply steady_trans; [exact H | apply IH].
Qed.

Lemma steady_set_framefmt (s : imx307) :
  steady s (snd (imx307_set_framefmt s)).
Proof.
  unfold imx307_set_framefmt.
  destruct (case_of raw8_codes _); [apply steady_write_regs|].
  destruct (case_of raw10_codes _); [apply steady_write_regs|].
  apply steady_refl.
Qed.

Lemma same_ctrls_refl (s : imx307) : same_ctrls s s.
Proof. intros j; reflexivity. Qed.

Lemma same_ctrls_trans (s1 s2 s3 : imx307) :
  same_ctrls s1 s2 -> same_ctrls s2 s3 -> same_ctrls s1 s3.
Proof. intros A B j. now rewrite B, A. Qed.

Lemma only_ctrl_refl (id : ctrl_id) (s : imx307) : only_ctrl id s s.
Proof. intros j _; reflexivity. Qed.

Lemma only_ctrl_trans (id : ctrl_id) (s1 s2 s3 : imx307) :
  only_ctrl id s1 s2 -> only_ctrl id s2 s3 -> only_ctrl id s1 s3.
Proof. intros A B j N. now rewrite B, A. Qed.

Lemma same_ctrls_only (id : ctrl_id) (s s' : imx307) :
  same_ctrls s s' -> only_ctrl id s s'.
Proof. intros A j _. apply A. Qed.

Lemma only_ctrl_put (id : ctrl_id) (s : imx307) (c : v4l2_ctrl) :
  only_ctrl id s (put_ctrl s id c).
Proof. intros j N. now apply ctrl_put_other. Qed.

Lemma keeps_ranges_refl (s : imx307) : keeps_ranges s s.
Proof. repeat split. Qed.

Lemma keeps_ranges_trans (s1 s2 s3 : imx307) :
  keeps_ranges s1 s2 -> keeps_ranges s2 s3 -> keeps_ranges s1 s3.
Proof.
  intros (A1 & A2 & A3) (B1 & B2 & B3). repeat split.
  - intros j N. now rewrite B1, A1.
  - congruence.
  - congruence.
Qed.

Lemma same_ctrls_keeps_ranges (s s' : imx307) :
  same_ctrls s s' -> keeps_ranges s s'.
Proof. intros A. repeat split; intros; now rewrite A. Qed.

Lemma keeps_ranges_put (s : imx307) (id : ctrl_id) (c : v4l2_ctrl) :
  range_of c = range_of (ctrl s id) -> keeps_ranges s (put_ctrl s id c).
Proof.
  intros E.
  assert (minimum c = minimum (ctrl s id) /\ step c = step (ctrl s id))
      as [Em Es] by (unfold range_of in E; inversion E; auto).
  repeat split.
  - intros j N. destruct (ctrl_id_eq_dec j id) as [->|Nj].
    + now rewrite ctrl_put_same.
    + now rewrite ctrl_put_other.
  - destruct (ctrl_id_eq_dec V4L2_CID_EXPOSURE id) as [<-|Nj].
    + now rewrite ctrl_put_same.
    + now rewrite ctrl_put_other.
  - destruct (ctrl_id_eq_dec V4L2_CID_EXPOSURE id) as [<-|Nj].
    + now rewrite ctrl_put_same.
    + now rewrite ctrl_put_other.
Qed.

(** *** The framework preserves what the callback preserves

    [R] is any reflexive and transitive relation between states that
    storing a new or a current value in control [id] respects; if the
    callback on [id] respects it, so do the framework's operations on
    [id]. *)
Section FrameworkFrame.
Variable R : imx307 -> imx307 -> Prop.
Hypothesis R_refl : forall s, R s s.
Hypothesis R_trans : forall s1 s2 s3, R s1 s2 -> R s2 s3 -> R s1 s3.
Variable ops : v4l2_ctrl_ops.
Variable id : ctrl_id.
Hypothesis R_val : forall s v, R s (put_ctrl s id (with_val (ctrl s id) v)).
Hypothesis R_cur :
  forall s v, R s (put_ctrl s id (with_cur_val (ctrl s id) v)).
Hypothesis ops_R : forall s, R s (snd (ops s id)).

Lemma frame_try_or_set_cluster (s : imx307) :
  R s (snd (try_or_set_cluster ops s id)).
Proof.
  unfold try_or_set_cluster.
  destruct (is_grabbed _); [apply R_refl|].
  destruct (_ =? _); [apply R_refl|].
  pose proof (ops_R s) as H.
  destruct (ops s id) as [ret s1]; simpl in H.
  destruct (negb (ret =? 0)); simpl; [exact H|].
  eapply R_trans; [exact H | apply R_cur].
Qed.

Lemma frame_set_ctrl (s : imx307) : R s (snd (set_ctrl ops s id)).
Proof.
  unfold set_ctrl.
  destruct (validate_new _ _) as [ret v].
  destruct (negb (ret =? 0)); [apply R_refl|].
  eapply R_trans; [apply R_val | apply frame_try_or_set_cluster].
Qed.

Lemma frame_modify_range (s : imx307) (min max stp def : Z) :
  R s (put_ctrl s id (with_range (ctrl s id) min max stp def)) ->
  R s (snd (__v4l2_ctrl_modify_range ops s id min max stp def)).
Proof.
  intros H1. unfold __v4l2_ctrl_modify_range.
  destruct (negb (check_range _ _ _ _ _ =? 0)); [apply R_refl|].
  set (s1 := put_ctrl s id _) in *.
  set (s2 := cur_to_new s1 id).
  assert (R s s2) as H2 by (eapply R_trans; [exact H1 | apply R_val]).
  destruct (validate_new (ctrl s2 id) _) as [err v].
  set (v' := if negb (err =? 0) then def else v).
  set (s3 := put_ctrl s2 id _).
  assert (R s s3) as H3 by (eapply R_trans; [exact H2 | apply R_val]).
  destruct (negb (v' =? _)); simpl; [|exact H3].
  eapply R_trans; [exact H3 | apply frame_set_ctrl].
Qed.

Lemma frame_s_ctrl (s : imx307) (v : Z) :
  R s (snd (__v4l2_ctrl_s_ctrl ops s id v)).
Proof.
  unfold __v4l2_ctrl_s_ctrl.
  destruct (negb (is_int _)); [apply R_refl|].
  eapply R_trans; [apply R_val | apply frame_set_ctrl].
Qed.

Lemma frame_v4l2_s_ctrl (s : imx307) (v : Z) :
  R s (snd (v4l2_s_ctrl ops s id v)).
Proof.
  unfold v4l2_s_ctrl.
  destruct (negb (is_int _)); [apply R_refl|].
  destruct (is_read_only _); [apply R_refl|].
  eapply R_trans; [apply R_val | apply frame_set_ctrl].
Qed.
End FrameworkFrame.

Section HandlerSetupFrame.
Variable R : imx307 -> imx307 -> Prop.
Hypothesis R_refl : forall s, R s s.
Hypothesis R_trans : forall s1 s2 s3, R s1 s2 -> R s2 s3 -> R s1 s3.
Variable ops : v4l2_ctrl_ops.
Hypothesis R_val :
  forall s id v, R s (put_ctrl s id (with_val (ctrl s id) v)).
Hypothesis ops_R : forall s id, R s (snd (ops s id)).

Lemma frame_handler_setup_loop (l : list ctrl_id) (s : imx307) :
  R s (snd (handler_setup_loop ops s l)).
Proof.
  revert s; induction l as [|id rest IH]; intros s; simpl.
  - apply R_refl.
  - destruct (is_read_only _); [apply IH|].
    pose proof (ops_R (cur_to_new s id) id) as H.
    destruct (ops (cur_to_new s id) id) as [ret s1]; simpl in H.
    assert (R s s1) as H1 by (eapply R_trans; [apply R_val | exact H]).
    destruct (negb (ret =? 0)); simpl; [exact H1|].
    eapply R_trans; [exact H1 | apply IH].
Qed.
End HandlerSetupFrame.

(** The three instances. *)
Lemma steady_put_val (s : imx307) (id : ctrl_id) (v : Z) :
  steady s (put_ctrl s id (with_val (ctrl s id) v)).
Proof. apply steady_put_ctrl; reflexivity. Qed.

Lemma steady_put_cur (s : imx307) (id : ctrl_id) (v : Z) :
  steady s (put_ctrl s id (with_cur_val (ctrl s id) v)).
Proof. apply steady_put_ctrl; reflexivity. Qed.

Lemma steady_put_range (s : imx307) (id : ctrl_id) (min max stp def : Z) :
  steady s (put_ctrl s id (with_range (ctrl s id) min max stp def)).
Proof. apply steady_put_ctrl; reflexivity. Qed.

Lemma keeps_ranges_put_val (s : imx307) (id : ctrl_id) (v : Z) :
  keeps_ranges s (put_ctrl s id (with_val (ctrl s id) v)).
Proof. apply keeps_ranges_put; reflexivity. Qed.

Lemma keeps_ranges_put_cur (s : imx307) (id : ctrl_id) (v : Z) :
  keeps_ranges s (put_ctrl s id (with_cur_val (ctrl s id) v)).
Proof. apply keeps_ranges_put; reflexivity. Qed.

Lemma steady_modify_range (ops : v4l2_ctrl_ops) (s : imx307) (id : ctrl_id)
    (min max stp def : Z) :
  steady_ops ops ->
  steady s (snd (__v4l2_ctrl_modify_range ops s id min max stp def)).
Proof.
  intros H. apply frame_modify_range;
    auto using steady_refl, steady_put_val, steady_put_cur, steady_put_range.
  apply steady_trans.
Qed.

Lemma only_modify_range (ops : v4l2_ctrl_ops) (s : imx307) (id : ctrl_id)
    (min max stp def : Z) :
  (forall s0, only_ctrl id s0 (snd (ops s0 id))) ->
  only_ctrl id s (snd (__v4l2_ctrl_modify_range ops s id min max stp def)).
Proof.
  intros H. apply frame_modify_range;
    auto using only_ctrl_refl, only_ctrl_put.
  apply only_ctrl_trans.
Qed.

(** ** Frame properties of the driver's control callback *)

Lemma same_ctrls_write_reg (s : imx307) (reg len v : Z) :
  same_ctrls s (snd (imx307_write_reg s reg len v)).
Proof.
  unfold imx307_write_reg. destruct (len >? 4); [apply same_ctrls_refl|].
  unfold i2c_master_send.
  destruct (negb (_ =? len + 2)); intros j; reflexivity.
Qed.

Lemma same_ctrls_write_regs (regs : list imx307_reg) (s : imx307) :
  same_ctrls s (snd (imx307_write_regs s regs)).
Proof.
  revert s; induction regs as [|r rest IH]; intros s; simpl.
  - apply same_ctrls_refl.
  - pose proof (same_ctrls_write_reg s (address r) 1 (reg_val r)) as H.
    destruct (imx307_write_reg s (address r) 1 (reg_val r)) as [ret s1].
    simpl in H. destruct (negb (ret =? 0)); simpl.
    + exact H.
    + eapply same_ctrls_trans; [exact H | apply IH].
Qed.

Lemma same_ctrls_pm_runtime_put (s : imx307) : same_ctrls s (pm_runtime_put s).
Proof.
  unfold pm_runtime_put. simpl.
  destruct (_ && _); intros j; reflexivity.
Qed.

Lemma pm_runtime_get_if_in_use_cases (s : imx307) :
  (runtime_active s && (0 <? usage_count s) = false /\
   pm_runtime_get_if_in_use s = (0, emit s (EvPmGetIfInUse 0))) \/
  (runtime_active s = true /\ 0 < usage_count s /\
   pm_runtime_get_if_in_use s =
     (1, emit (with_usage_count s (usage_count s + 1)) (EvPmGetIfInUse 1))).
Proof.
  unfold pm_runtime_get_if_in_use.
  destruct (runtime_active s) eqn:A; simpl.
  - destruct (Z.ltb_spec 0 (usage_count s)); [right | left]; auto.
  - left; auto.
Qed.

(** A reference taken by [pm_runtime_get_if_in_use] and dropped by
    [pm_runtime_put] leaves the power state as it was. *)
Lemma steady_get_put (s sw : imx307) (e : event) :
  runtime_active s = true -> 0 < usage_count s ->
  steady (emit (with_usage_count s (usage_count s + 1)) e) sw ->
  steady s (pm_runtime_put sw).
Proof.
  intros A U [H1 H2 H3 H4 H5 H6 H7]. simpl in *.
  unfold pm_runtime_put. simpl. rewrite H4.
  replace (usage_count s + 1 - 1) with (usage_count s) by lia.
  destruct (Z.eqb_spec (usage_count s) 0) as [E|E]; [lia|]. simpl.
  constructor; simpl; auto.
Qed.

Lemma steady_set_ctrl_body (self : v4l2_ctrl_ops) :
  steady_ops self -> steady_ops (imx307_set_ctrl_body self).
Proof.
  intros Hself s id. unfold imx307_set_ctrl_body.
  set (s1 := match id with V4L2_CID_VBLANK => _ | _ => s end).
  assert (steady s s1) as H1.
  { subst s1. destruct id; try apply steady_refl.
    apply steady_modify_range. exact Hself. }
  clearbody s1.
  destruct (pm_runtime_get_if_in_use_cases s1) as [[_ E]|(A & U & E)];
    rewrite E; cbv beta iota.
  - change (0 =? 0) with true. cbv beta iota.
    eapply steady_trans; [exact H1 | apply steady_emit].
  - change (1 =? 0) with false. cbv beta iota.
    eapply steady_trans; [exact H1|].
    set (sg := emit (with_usage_count s1 (usage_count s1 + 1))
                 (EvPmGetIfInUse 1)).
    match goal with
    | |- steady _ (snd (let '(ret, s) := ?w in _)) =>
        assert (steady sg (snd w)) as Hw;
        [ destruct id; try apply steady_write_reg; apply steady_emit
        | destruct w as [ret sw] ]
    end.
    simpl in Hw |- *. eapply steady_get_put; eauto.
Qed.

Lemma steady_imx307_set_ctrl : steady_ops imx307_set_ctrl.
Proof.
  unfold imx307_set_ctrl. apply steady_set_ctrl_body, steady_set_ctrl_body.
  intros s id. apply steady_refl.
Qed.

(** What the callback leaves of the controls: the write-through changes no
    control; the vertical-blank block changes the exposure control only. *)
Lemma set_ctrl_body_tail (self : v4l2_ctrl_ops) (s : imx307) (id : ctrl_id) :
  same_ctrls (set_ctrl_rerange self s id)
             (snd (imx307_set_ctrl_body self s id)).
Proof.
  unfold imx307_set_ctrl_body.
  change (match id with
          | V4L2_CID_VBLANK => _
          | _ => s
          end) with (set_ctrl_rerange self s id).
  generalize (set_ctrl_rerange self s id) as s1. intros s1.
  destruct (pm_runtime_get_if_in_use_cases s1) as [[_ E]|(A & U & E)];
    rewrite E; cbv beta iota.
  - change (0 =? 0) with true. cbv beta iota. intros j; reflexivity.
  - change (1 =? 0) with false. cbv beta iota.
    set (sg := emit (with_usage_count s1 (usage_count s1 + 1))
                 (EvPmGetIfInUse 1)).
    match goal with
    | |- same_ctrls _ (snd (let '(ret, s) := ?w in _)) =>
        assert (same_ctrls sg (snd w)) as Hw;
        [ destruct id; try apply same_ctrls_write_reg; intros j; reflexivity
        | destruct w as [ret sw] ]
    end.
    simpl in Hw |- *.
    eapply same_ctrls_trans; [|apply same_ctrls_pm_runtime_put].
    eapply same_ctrls_trans; [|exact Hw]. intros j; reflexivity.
Qed.

Lemma set_ctrl_body_same_ctrls (self : v4l2_ctrl_ops) (s : imx307)
    (id : ctrl_id) :
  id <> V4L2_CID_VBLANK -> same_ctrls s (snd (imx307_set_ctrl_body self s id)).
Proof.
  intros N. pose proof (set_ctrl_body_tail self s id) as H.
  destruct id; try exact H. contradiction.
Qed.

Lemma set_ctrl_body_only_exposure (self : v4l2_ctrl_ops) (s : imx307)
    (id : ctrl_id) :
  (forall s0, only_ctrl V4L2_CID_EXPOSURE s0
                (snd (self s0 V4L2_CID_EXPOSURE))) ->
  only_ctrl V4L2_CID_EXPOSURE s (snd (imx307_set_ctrl_body self s id)).
Proof.
  intros Hself.
  eapply only_ctrl_trans;
    [|apply same_ctrls_only, set_ctrl_body_tail].
  destruct id; try apply only_ctrl_refl.
  apply only_modify_range. exact Hself.
Qed.

Lemma imx307_set_ctrl_same_ctrls (s : imx307) (id : ctrl_id) :
  id <> V4L2_CID_VBLANK -> same_ctrls s (snd (imx307_set_ctrl s id)).
Proof. apply set_ctrl_body_same_ctrls. Qed.

Lemma imx307_set_ctrl_only_exposure (s : imx307) (id : ctrl_id) :
  only_ctrl V4L2_CID_EXPOSURE s (snd (imx307_set_ctrl s id)).
Proof.
  apply set_ctrl_body_only_exposure. intros s0.
  apply same_ctrls_only, set_ctrl_body_same_ctrls. discriminate.
Qed.


(** The callback keeps every range but the exposure maximum and default. *)
Lemma keeps_ranges_set_ctrl_body (self : v4l2_ctrl_ops) (s : imx307)
    (id : ctrl_id) :
  (forall s0, keeps_ranges s0 (snd (self s0 V4L2_CID_EXPOSURE))) ->
  keeps_ranges s (snd (imx307_set_ctrl_body self s id)).
Proof.
  intros Hself.
  eapply keeps_ranges_trans;
    [|apply same_ctrls_keeps_ranges, set_ctrl_body_tail].
  destruct id; try apply keeps_ranges_refl.
  unfold set_ctrl_rerange.
  apply frame_modify_range;
    auto using keeps_ranges_refl, keeps_ranges_put_val, keeps_ranges_put_cur.
  - apply keeps_ranges_trans.
  - split; [|split].
    + intros j N. now rewrite ctrl_put_other.
    + now rewrite ctrl_put_same.
    + now rewrite ctrl_put_same.
Qed.

Lemma keeps_ranges_imx307_set_ctrl (s : imx307) (id : ctrl_id) :
  keeps_ranges s (snd (imx307_set_ctrl s id)).
Proof.
  apply keeps_ranges_set_ctrl_body. intros s0.
  apply same_ctrls_keeps_ranges, set_ctrl_body_same_ctrls. discriminate.
Qed.

(** *** The callback is the fixed point of its body *)

Lemma try_or_set_cluster_ext (f g : v4l2_ctrl_ops) (id : ctrl_id) :
  (forall s, f s id = g s id) ->
  forall s, try_or_set_cluster f s id = try_or_set_cluster g s id.
Proof. intros H s. unfold try_or_set_cluster. now rewrite H. Qed.

Lemma set_ctrl_ext (f g : v4l2_ctrl_ops) (id : ctrl_id) :
  (forall s, f s id = g s id) ->
  forall s, set_ctrl f s id = set_ctrl g s id.
Proof.
  intros H s. unfold set_ctrl.
  destruct (validate_new _ _) as [ret v].
  destruct (negb (ret =? 0)); [reflexivity|].
  now apply try_or_set_cluster_ext.
Qed.

Lemma modify_range_ext (f g : v4l2_ctrl_ops) (id : ctrl_id) :
  (forall s, f s id = g s id) ->
  forall s min max stp def,
    __v4l2_ctrl_modify_range f s id min max stp def =
    __v4l2_ctrl_modify_range g s id min max stp def.
Proof.
  intros H s min max stp def. unfold __v4l2_ctrl_modify_range.
  destruct (negb (check_range _ _ _ _ _ =? 0)); [reflexivity|].
  destruct (validate_new _ _) as [err v].
  destruct (negb (_ =? _)); [|reflexivity].
  now apply set_ctrl_ext.
Qed.

Lemma set_ctrl_body_ext (f g : v4l2_ctrl_ops) :
  (forall s, f s V4L2_CID_EXPOSURE = g s V4L2_CID_EXPOSURE) ->
  forall s id, imx307_set_ctrl_body f s id = imx307_set_ctrl_body g s id.
Proof.
  intros H s id. unfold imx307_set_ctrl_body.
  destruct id; try reflexivity.
  now rewrite (modify_range_ext f g V4L2_CID_EXPOSURE H).
Qed.

(** [imx307_set_ctrl] calls the framework with itself as the callback. *)
Lemma imx307_set_ctrl_eq (s : imx307) (id : ctrl_id) :
  imx307_set_ctrl s id = imx307_set_ctrl_body imx307_set_ctrl s id.
Proof.
  unfold imx307_set_ctrl. apply set_ctrl_body_ext. intros s0. reflexivity.
Qed.

(** ** Flags *)

Lemma read_only_bit (f : Z) :
  (Z.land f V4L2_CTRL_FLAG_READ_ONLY =? 0) = negb (Z.testbit f 2).
Proof.
  assert (Z.land f 4 = if Z.testbit f 2 then 4 else 0) as E.
  { apply Z.bits_inj'. intros n Hn. rewrite Z.land_spec.
    change 4 with (2 ^ 2). rewrite Z.pow2_bits_eqb by lia.
    destruct (Z.eqb_spec 2 n) as [<-|N].
    - rewrite andb_true_r. destruct (Z.testbit f 2).
      + now rewrite Z.pow2_bits_eqb by lia.
      + now rewrite Z.bits_0.
    - rewrite andb_false_r. destruct (Z.testbit f 2).
      + rewrite Z.pow2_bits_eqb by lia.
        symmetry. now apply Z.eqb_neq.
      + now rewrite Z.bits_0. }
  unfold V4L2_CTRL_FLAG_READ_ONLY. change 0x0004 with 4.
  rewrite E. now destruct (Z.testbit f 2).
Qed.

Lemma grab_ctrl_same (s : imx307) (id : ctrl_id) (b : bool) :
  is_grabbed (ctrl (__v4l2_ctrl_grab s id b) id) = b.
Proof.
  unfold __v4l2_ctrl_grab. rewrite ctrl_put_same.
  unfold is_grabbed, GRABBED_BIT, with_flags; cbn [flags]. destruct b.
  - rewrite Z.setbit_eqb by lia. reflexivity.
  - rewrite Z.clearbit_eqb. change (1 =? 1) with true.
    apply andb_false_r.
Qed.

Lemma grab_ctrl_other (s : imx307) (id j : ctrl_id) (b : bool) :
  j <> id -> ctrl (__v4l2_ctrl_grab s id b) j = ctrl s j.
Proof. intros N. unfold __v4l2_ctrl_grab. now apply ctrl_put_other. Qed.

Lemma grab_read_only (s : imx307) (id j : ctrl_id) (b : bool) :
  is_read_only (ctrl (__v4l2_ctrl_grab s id b) j) = is_read_only (ctrl s j).
Proof.
  destruct (ctrl_id_eq_dec j id) as [->|N];
    [|now rewrite grab_ctrl_other].
  unfold __v4l2_ctrl_grab. rewrite ctrl_put_same.
  unfold is_read_only, with_flags; cbn [flags].
  rewrite !read_only_bit. f_equal. f_equal.
  unfold GRABBED_BIT. destruct b.
  - rewrite Z.setbit_neq by lia. reflexivity.
  - rewrite Z.clearbit_neq by lia. reflexivity.
Qed.

Lemma steady_is_grabbed (s s' : imx307) (id : ctrl_id) :
  steady s s' -> is_grabbed (ctrl s' id) = is_grabbed (ctrl s id).
Proof. intros H. unfold is_grabbed. now rewrite (steady_flags _ _ H). Qed.

Lemma steady_is_read_only (s s' : imx307) (id : ctrl_id) :
  steady s s' -> is_read_only (ctrl s' id) = is_read_only (ctrl s id).
Proof. intros H. unfold is_read_only. now rewrite (steady_flags _ _ H). Qed.

(** ** Runtime PM and register writes *)

Lemma pm_runtime_get_sync_spec (s : imx307) :
  same_instance s (snd (pm_runtime_get_sync s)) /\
  usage_count (snd (pm_runtime_get_sync s)) = usage_count s + 1 /\
  (0 <= fst (pm_runtime_get_sync s) ->
   runtime_active (snd (pm_runtime_get_sync s)) = true) /\
  (fst (pm_runtime_get_sync s) < 0 ->
   runtime_active (snd (pm_runtime_get_sync s)) = false).
Proof.
  unfold pm_runtime_get_sync, imx307_power_on, same_instance, same_ctrls.
  cbn [runtime_active emit with_usage_count with_power_ups
       regulator_bulk_enable_err clk_prepare_enable_err power_ups].
  destruct (runtime_active s) eqn:A; cbn.
  - rewrite A. repeat split; auto; lia.
  - destruct (Z.eqb_spec (- Z.of_nat (regulator_bulk_enable_err s (power_ups s))) 0)
      as [E1|E1]; cbn.
    + destruct (Z.eqb_spec (- Z.of_nat (clk_prepare_enable_err s (power_ups s))) 0)
        as [E2|E2]; cbn.
      * repeat split; auto; lia.
      * destruct (Z.eqb_spec (- Z.of_nat (clk_prepare_enable_err s (power_ups s))) 0);
          [contradiction|]. cbn. repeat split; auto; lia.
    + destruct (Z.eqb_spec (- Z.of_nat (regulator_bulk_enable_err s (power_ups s))) 0);
        [contradiction|]. cbn. repeat split; auto; lia.
Qed.

Lemma pm_runtime_put_spec (s : imx307) :
  same_instance s (pm_runtime_put s) /\
  usage_count (pm_runtime_put s) = usage_count s - 1 /\
  (usage_count s = 1 -> runtime_active (pm_runtime_put s) = false) /\
  (usage_count s <> 1 ->
   runtime_active (pm_runtime_put s) = runtime_active s).
Proof.
  unfold pm_runtime_put, same_instance, same_ctrls. cbn.
  destruct (Z.eqb_spec (usage_count s - 1) 0) as [E|E]; cbn.
  - destruct (runtime_active s) eqn:A; cbn; repeat split; auto; lia.
  - repeat split; auto; lia.
Qed.

Lemma write_reg8 (s : imx307) (reg v : Z) :
  imx307_write_reg s reg 1 v =
  (if i2c_bus s (i2c_xfers s) 3 =? 3 then 0 else - EIO,
   emit (with_i2c_xfers s (S (i2c_xfers s)))
        (EvI2cSend (write_reg_buf8 reg v) (i2c_bus s (i2c_xfers s) 3))).
Proof.
  unfold imx307_write_reg, i2c_master_send, write_reg_buf8,
    put_unaligned_be16, put_unaligned_be32.
  change (1 >? 4) with false. change (Z.to_nat (1 + 2)) with 3%nat.
  change (8 * (4 - 1)) with 24. change (1 + 2) with 3.
  cbn [firstn app length]. change (Z.of_nat 3) with 3.
  destruct (i2c_bus s (i2c_xfers s) 3 =? 3); reflexivity.
Qed.


Lemma write_regs_ret (regs : list imx307_reg) (s : imx307) :
  fst (imx307_write_regs s regs) = 0 \/ fst (imx307_write_regs s regs) = - EIO.
Proof.
  revert s; induction regs as [|r rest IH]; intros s; simpl.
  - now left.
  - rewrite write_reg8.
    destruct (i2c_bus s (i2c_xfers s) 3 =? 3); simpl; [apply IH | now right].
Qed.

Lemma steady_handler_setup (s : imx307) :
  steady s (snd (__v4l2_ctrl_handler_setup imx307_ctrl_ops s)).
Proof.
  unfold __v4l2_ctrl_handler_setup.
  apply frame_handler_setup_loop;
    auto using steady_refl, steady_put_val, steady_imx307_set_ctrl.
  apply steady_trans.
Qed.

Lemma same_ctrls_set_framefmt (s : imx307) :
  same_ctrls s (snd (imx307_set_framefmt s)).
Proof.
  unfold imx307_set_framefmt.
  destruct (case_of raw8_codes _); [apply same_ctrls_write_regs|].
  destruct (case_of raw10_codes _); [apply same_ctrls_write_regs|].
  apply same_ctrls_refl.
Qed.

Lemma keeps_ranges_handler_setup (s : imx307) :
  keeps_ranges s (snd (__v4l2_ctrl_handler_setup imx307_ctrl_ops s)).
Proof.
  unfold __v4l2_ctrl_handler_setup.
  apply frame_handler_setup_loop;
    auto using keeps_ranges_refl, keeps_ranges_put_val,
               keeps_ranges_imx307_set_ctrl.
  apply keeps_ranges_trans.
Qed.

Lemma quiet_refl (s : imx307) : quiet s s.
Proof. split; [apply steady_refl | apply keeps_ranges_refl]. Qed.

Lemma quiet_trans (s1 s2 s3 : imx307) :
  quiet s1 s2 -> quiet s2 s3 -> quiet s1 s3.
Proof.
  intros [A1 A2] [B1 B2].
  split; [eapply steady_trans | eapply keeps_ranges_trans]; eauto.
Qed.

Lemma quiet_emit (s : imx307) (e : event) : quiet s (emit s e).
Proof. split; [apply steady_emit | repeat split]. Qed.

Lemma quiet_write_reg (s : imx307) (reg len v : Z) :
  quiet s (snd (imx307_write_reg s reg len v)).
Proof.
  split; [apply steady_write_reg|].
  apply same_ctrls_keeps_ranges, same_ctrls_write_reg.
Qed.

Lemma quiet_write_regs (regs : list imx307_reg) (s : imx307) :
  quiet s (snd (imx307_write_regs s regs)).
Proof.
  split; [apply steady_write_regs|].
  apply same_ctrls_keeps_ranges, same_ctrls_write_regs.
Qed.

Lemma quiet_set_framefmt (s : imx307) : quiet s (snd (imx307_set_framefmt s)).
Proof.
  split; [apply steady_set_framefmt|].
  apply same_ctrls_keeps_ranges, same_ctrls_set_framefmt.
Qed.

Lemma quiet_handler_setup (s : imx307) :
  quiet s (snd (__v4l2_ctrl_handler_setup imx307_ctrl_ops s)).
Proof.
  split; [apply steady_handler_setup | apply keeps_ranges_handler_setup].
Qed.

Lemma quiet_imx307_set_ctrl (s : imx307) (id : ctrl_id) :
  quiet s (snd (imx307_set_ctrl s id)).
Proof.
  split; [apply steady_imx307_set_ctrl | apply keeps_ranges_imx307_set_ctrl].
Qed.

Lemma quiet_v4l2_s_ctrl (s : imx307) (id : ctrl_id) (v : Z) :
  quiet s (snd (v4l2_s_ctrl imx307_ctrl_ops s id v)).
Proof.
  split.
  - apply frame_v4l2_s_ctrl;
      auto using steady_refl, steady_put_val, steady_put_cur.
    + apply steady_trans.
    + intros s0. apply steady_imx307_set_ctrl.
  - apply frame_v4l2_s_ctrl;
      auto using keeps_ranges_refl, keeps_ranges_put_val,
                 keeps_ranges_put_cur.
    + apply keeps_ranges_trans.
    + intros s0. apply keeps_ranges_imx307_set_ctrl.
Qed.

(** ** Streaming state machine *)

(** Once power is acquired, [imx307_start_streaming] runs quiet
    operations up to a state [mid] and then either drops the power
    reference and fails, or grabs both flips and succeeds. *)
Lemma start_streaming_shape (s : imx307) :
  0 <= fst (pm_runtime_get_sync s) ->
  exists mid,
    quiet (snd (pm_runtime_get_sync s)) mid /\
    ((fst (imx307_start_streaming s) <> 0 /\
      snd (imx307_start_streaming s) = pm_runtime_put mid) \/
     imx307_start_streaming s =
       (0, __v4l2_ctrl_grab (__v4l2_ctrl_grab mid V4L2_CID_VFLIP true)
             V4L2_CID_HFLIP true)).
Proof.
  unfold imx307_start_streaming.
  destruct (pm_runtime_get_sync s) as [r0 s0]. simpl. intros P.
  destruct (Z.ltb_spec r0 0) as [L|_]; [lia|].
  pose proof (quiet_write_regs (reg_list (cur_mode s0)) s0) as H1.
  destruct (imx307_write_regs s0 (reg_list (cur_mode s0))) as [r1 s1].
  simpl in H1. destruct (Z.eqb_spec r1 0) as [E1|E1]; simpl.
  2:{ exists (emit s1 (EvLog LogFailedToSetMode)). split.
      - eapply quiet_trans; [exact H1 | apply quiet_emit].
      - left. split; [exact E1 | reflexivity]. }
  pose proof (quiet_set_framefmt s1) as H2.
  destruct (imx307_set_framefmt s1) as [r2 s2].
  simpl in H2. destruct (Z.eqb_spec r2 0) as [E2|E2]; simpl.
  2:{ exists (emit s2 (EvLog (LogFailedToSetFrameFormat r2))). split.
      - eapply quiet_trans; [exact H1|].
        eapply quiet_trans; [exact H2 | apply quiet_emit].
      - left. split; [exact E2 | reflexivity]. }
  pose proof (quiet_handler_setup s2) as H3.
  destruct (__v4l2_ctrl_handler_setup imx307_ctrl_ops s2) as [r3 s3].
  simpl in H3. destruct (Z.eqb_spec r3 0) as [E3|E3]; simpl.
  2:{ exists s3. split.
      - eapply quiet_trans; [exact H1|].
        eapply quiet_trans; [exact H2 | exact H3].
      - left. split; [exact E3 | reflexivity]. }
  pose proof (quiet_write_reg s3 imx307_REG_MODE_SELECT
                imx307_REG_VALUE_08BIT imx307_MODE_STREAMING) as H4.
  destruct (imx307_write_reg s3 imx307_REG_MODE_SELECT
              imx307_REG_VALUE_08BIT imx307_MODE_STREAMING) as [r4 s4].
  simpl in H4.
  assert (quiet s0 s4) as H by
      (eapply quiet_trans; [exact H1|]; eapply quiet_trans; [exact H2|];
       eapply quiet_trans; [exact H3 | exact H4]).
  exists s4. split; [exact H|].
  destruct (Z.eqb_spec r4 0) as [E4|E4]; simpl.
  - right. reflexivity.
  - left. split; [exact E4 | reflexivity].
Qed.

Lemma start_streaming_power_failure (s : imx307) :
  fst (pm_runtime_get_sync s) < 0 ->
  imx307_start_streaming s =
  (fst (pm_runtime_get_sync s),
   pm_runtime_put_noidle (snd (pm_runtime_get_sync s))).
Proof.
  unfold imx307_start_streaming.
  destruct (pm_runtime_get_sync s) as [r0 s0]. simpl. intros P.
  destruct (Z.ltb_spec r0 0) as [_|L]; [reflexivity | lia].
Qed.


Lemma ctrl_with_streaming (s : imx307) (b : bool) (id : ctrl_id) :
  ctrl (with_streaming s b) id = ctrl s id.
Proof. reflexivity. Qed.

(** C6. A request for the state the instance is already in returns
    success and leaves the instance, the device and the trace exactly as
    they were: [Z.b2z] of the flag is 1 while STREAMING and 0 while
    STOPPED. *)
Theorem set_stream_same_state_noop (s : imx307) :
  imx307_set_stream s (Z.b2z (streaming s)) = (0, s).
Proof. unfold imx307_set_stream. now rewrite Z.eqb_refl. Qed.


(** ** Mode catalog: nearest-size selection *)

Lemma size_error_range (m : imx307_mode) (w h : Z) :
  0 <= size_error m w h <= U32_MAX.
Proof.
  unfold size_error, u32, U32_MAX.
  match goal with |- 0 <= ?a mod ?b <= _ =>
    pose proof (Z.mod_pos_bound a b ltac:(lia)) end.
  lia.
Qed.

(** With sizes below 2^30 nothing wraps and the error is the L1 distance. *)
Lemma size_error_plain (m : imx307_mode) (w h : Z) :
  0 <= width m < 2 ^ 30 -> 0 <= height m < 2 ^ 30 ->
  0 <= w < 2 ^ 30 -> 0 <= h < 2 ^ 30 ->
  size_error m w h = Z.abs (width m - w) + Z.abs (height m - h).
Proof.
  intros Hw Hh Hw' Hh'. unfold size_error.
  assert (forall x, - 2 ^ 31 <= x < 2 ^ 31 -> s32 x = x) as S.
  { intros x Hx. unfold s32.
    rewrite Z.mod_small by lia. lia. }
  assert (forall x, - 2 ^ 31 <= x < 2 ^ 31 -> s32 (u32 x) = x) as SU.
  { intros x Hx. unfold s32, u32.
    rewrite Zplus_mod_idemp_l. rewrite Z.mod_small by lia. lia. }
  rewrite (S w), (S h) by lia.
  rewrite !SU by lia. rewrite !S by lia.
  unfold u32. apply Z.mod_small. lia.
Qed.

Lemma mode_at_cases (j : nat) :
  (j < 4)%nat -> j = 0%nat \/ j = 1%nat \/ j = 2%nat \/ j = 3%nat.
Proof. lia. Qed.

Ltac pick_entry m E :=
  exists m; rewrite <- E; split; [reflexivity|]; split;
  [ split; [lia|]; intros j Hj;
    destruct (mode_at_cases j Hj) as [-> | [-> | [-> | ->]]]; lia
  | ].

Ltac order_entries Least E0 E1 E2 E3 :=
  intros j [Hj Hk];
  destruct (Least j _ Hj Hk eq_refl) as (L0 & L1 & L2 & L3);
  destruct (mode_at_cases j Hj) as [-> | [-> | [-> | ->]]];
  rewrite <- ?E0, <- ?E1, <- ?E2, <- ?E3 in *;
  repeat match goal with
         | |- context [?a =? 0] => destruct (Z.eqb_spec a 0)
         end; lia.

(** The walk over the four-entry catalog always ends on an entry: one of
    least error, and among those the last-listed one, unless an entry of
    error zero ended the walk, which then is the first such. *)
Lemma find_nearest_size_supported (w h : Z) :
  exists m,
    v4l2_find_nearest_size supported_modes w h = Some m /\
    nearest m w h /\
    (forall j, nearest j w h ->
               if size_error (mode_at m) w h =? 0 then (m <= j)%nat
               else (j <= m)%nat).
Proof.
  change supported_modes with [mode_at 0; mode_at 1; mode_at 2; mode_at 3].
  unfold v4l2_find_nearest_size, nearest. cbn [find_nearest_size_loop].
  pose proof (size_error_range (mode_at 0) w h) as B0.
  pose proof (size_error_range (mode_at 1) w h) as B1.
  pose proof (size_error_range (mode_at 2) w h) as B2.
  pose proof (size_error_range (mode_at 3) w h) as B3.
  remember (size_error (mode_at 0) w h) as e0 eqn:E0.
  remember (size_error (mode_at 1) w h) as e1 eqn:E1.
  remember (size_error (mode_at 2) w h) as e2 eqn:E2.
  remember (size_error (mode_at 3) w h) as e3 eqn:E3.
  assert (forall j e, (j < 4)%nat ->
            (forall k, (k < 4)%nat -> size_error (mode_at j) w h
                                      <= size_error (mode_at k) w h) ->
            e = size_error (mode_at j) w h ->
            e <= e0 /\ e <= e1 /\ e <= e2 /\ e <= e3) as Least.
  { intros j e Hj Hk ->. subst e0 e1 e2 e3.
    repeat split; apply Hk; lia. }
  unfold U32_MAX in *.
  destruct (Z.gtb_spec e0 (2 ^ 32 - 1)); [lia|].
  destruct (Z.eqb_spec e0 0).
  { pick_entry 0%nat E0. order_entries Least E0 E1 E2 E3. }
  destruct (Z.gtb_spec e1 e0).
  - destruct (Z.gtb_spec e2 e0).
    + destruct (Z.gtb_spec e3 e0).
      * pick_entry 0%nat E0. order_entries Least E0 E1 E2 E3.
      * destruct (Z.eqb_spec e3 0);
          (pick_entry 3%nat E3; order_entries Least E0 E1 E2 E3).
    + destruct (Z.eqb_spec e2 0).
      { pick_entry 2%nat E2. order_entries Least E0 E1 E2 E3. }
      destruct (Z.gtb_spec e3 e2).
      * pick_entry 2%nat E2. order_entries Least E0 E1 E2 E3.
      * destruct (Z.eqb_spec e3 0);
          (pick_entry 3%nat E3; order_entries Least E0 E1 E2 E3).
  - destruct (Z.eqb_spec e1 0).
    { pick_entry 1%nat E1. order_entries Least E0 E1 E2 E3. }
    destruct (Z.gtb_spec e2 e1).
    + destruct (Z.gtb_spec e3 e1).
      * pick_entry 1%nat E1. order_entries Least E0 E1 E2 E3.
      * destruct (Z.eqb_spec e3 0);
          (pick_entry 3%nat E3; order_entries Least E0 E1 E2 E3).
    + destruct (Z.eqb_spec e2 0).
      { pick_entry 2%nat E2. order_entries Least E0 E1 E2 E3. }
      destruct (Z.gtb_spec e3 e2).
      * pick_entry 2%nat E2. order_entries Least E0 E1 E2 E3.
      * destruct (Z.eqb_spec e3 0);
          (pick_entry 3%nat E3; order_entries Least E0 E1 E2 E3).
Qed.

(** ** Invariants *)

Lemma tame_refl (s : imx307) : tame s s.
Proof. repeat split. Qed.

Lemma tame_trans (s1 s2 s3 : imx307) : tame s1 s2 -> tame s2 s3 -> tame s1 s3.
Proof.
  intros (A1 & A2 & A3 & A4 & A5) (B1 & B2 & B3 & B4 & B5).
  split; [congruence|]. split; [congruence|].
  split; [intros id; rewrite B3; apply A3|].
  split; [intros id; rewrite B4; apply A4|].
  eapply keeps_ranges_trans; eauto.
Qed.

Lemma quiet_tame (s s' : imx307) : quiet s s' -> tame s s'.
Proof.
  intros [H K]. split; [apply (steady_fmt _ _ H)|].
  split; [apply (steady_mode _ _ H)|].
  split; [apply (steady_ctype _ _ H)|].
  split; [intros id; now apply steady_is_read_only | exact K].
Qed.

Lemma same_instance_tame (s s' : imx307) : same_instance s s' -> tame s s'.
Proof.
  intros (F & M & _ & C). split; [exact F|]. split; [exact M|].
  split; [intros id; now rewrite C|].
  split; [intros id; now rewrite C | now apply same_ctrls_keeps_ranges].
Qed.

Lemma tame_grab (s : imx307) (id : ctrl_id) (b : bool) :
  tame s (__v4l2_ctrl_grab s id b).
Proof.
  split; [reflexivity|]. split; [reflexivity|].
  split.
  { intros j. destruct (ctrl_id_eq_dec j id) as [->|N].
    - unfold __v4l2_ctrl_grab. now rewrite ctrl_put_same.
    - now rewrite grab_ctrl_other. }
  split; [intros j; apply grab_read_only|].
  unfold __v4l2_ctrl_grab. apply keeps_ranges_put. reflexivity.
Qed.

Lemma tame_with_streaming (s : imx307) (b : bool) : tame s (with_streaming s b).
Proof. repeat split. Qed.

Lemma tame_emit (s : imx307) (e : event) : tame s (emit s e).
Proof. repeat split. Qed.

Lemma tame_pm_runtime_put (s : imx307) : tame s (pm_runtime_put s).
Proof. apply same_instance_tame, pm_runtime_put_spec. Qed.

Lemma tame_pm_runtime_put_noidle (s : imx307) : tame s (pm_runtime_put_noidle s).
Proof. repeat split. Qed.

Lemma tame_pm_runtime_get_sync (s : imx307) :
  tame s (snd (pm_runtime_get_sync s)).
Proof. apply same_instance_tame, pm_runtime_get_sync_spec. Qed.

Lemma wf_tame (s s' : imx307) : wf s -> tame s s' -> wf s'.
Proof.
  intros [W1 W2 W3 W4 W5 W6 W7 W8 W9] (F & M & T & R & K1 & K2 & K3).
  assert (range_of (ctrl s' V4L2_CID_VBLANK) = range_of (ctrl s V4L2_CID_VBLANK))
    as V by (apply K1; discriminate).
  unfold range_of in V. inversion V as [[V1 V2 V3 V4]].
  constructor.
  - now rewrite M.
  - now rewrite F.
  - intros id. now rewrite T.
  - intros id. now rewrite R.
  - now rewrite K2.
  - now rewrite K3.
  - now rewrite V1.
  - unfold cur_mode. now rewrite V2, M.
  - now rewrite V3.
Qed.

(** *** The streaming operations are tame *)

Lemma stop_streaming_eq (s : imx307) :
  let n := i2c_bus s (i2c_xfers s) 3 in
  let s1 := emit (with_i2c_xfers s (S (i2c_xfers s)))
              (EvI2cSend (write_reg_buf8 imx307_REG_MODE_SELECT
                            imx307_MODE_STANDBY) n) in
  let s2 := if n =? 3 then s1 else emit s1 (EvLog LogFailedToSetStream) in
  imx307_stop_streaming s =
  pm_runtime_put
    (__v4l2_ctrl_grab (__v4l2_ctrl_grab s2 V4L2_CID_VFLIP false)
       V4L2_CID_HFLIP false).
Proof.
  intros n s1 s2. unfold imx307_stop_streaming, imx307_REG_VALUE_08BIT.
  rewrite write_reg8. fold n. cbv beta iota zeta. subst s2.
  destruct (n =? 3); reflexivity.
Qed.

Lemma stop_streaming_spec (s : imx307) :
  tame s (imx307_stop_streaming s) /\
  streaming (imx307_stop_streaming s) = streaming s /\
  flips_grabbed (imx307_stop_streaming s) false /\
  usage_count (imx307_stop_streaming s) = usage_count s - 1.
Proof.
  pose proof (stop_streaming_eq s) as E. cbv zeta in E. rewrite E.
  set (n := i2c_bus s (i2c_xfers s) 3).
  set (s1 := emit (with_i2c_xfers s (S (i2c_xfers s))) (EvI2cSend _ n)).
  set (s2 := if n =? 3 then s1 else emit s1 (EvLog LogFailedToSetStream)).
  set (s3 := __v4l2_ctrl_grab s2 V4L2_CID_VFLIP false).
  set (s4 := __v4l2_ctrl_grab s3 V4L2_CID_HFLIP false).
  assert (tame s s2 /\ streaming s2 = streaming s /\
          usage_count s2 = usage_count s) as (T2 & S2 & U2)
      by (subst s2 s1; destruct (n =? 3); repeat split).
  destruct (pm_runtime_put_spec s4) as ((F & M & S & C) & U & _).
  split.
  { eapply tame_trans; [exact T2|].
    eapply tame_trans; [apply tame_grab|].
    eapply tame_trans; [apply tame_grab | apply tame_pm_runtime_put]. }
  split; [rewrite S; exact S2|].
  split.
  { split; rewrite C; subst s4.
    - apply grab_ctrl_same.
    - rewrite grab_ctrl_other by discriminate. subst s3. apply grab_ctrl_same. }
  rewrite U. change (usage_count s4) with (usage_count s2). now rewrite U2.
Qed.

Lemma start_streaming_spec (s : imx307) :
  tame s (snd (imx307_start_streaming s)) /\
  streaming (snd (imx307_start_streaming s)) = streaming s /\
  (fst (imx307_start_streaming s) = 0 ->
   flips_grabbed (snd (imx307_start_streaming s)) true) /\
  (fst (imx307_start_streaming s) <> 0 ->
   forall id, flags (ctrl (snd (imx307_start_streaming s)) id)
              = flags (ctrl s id)).
Proof.
  destruct (pm_runtime_get_sync_spec s) as ((F0 & M0 & S0 & C0) & _).
  pose proof (tame_pm_runtime_get_sync s) as T0.
  destruct (Z.lt_ge_cases (fst (pm_runtime_get_sync s)) 0) as [L|G].
  - rewrite (start_streaming_power_failure s L). cbn [fst snd].
    split; [eapply tame_trans; [exact T0 | apply tame_pm_runtime_put_noidle]|].
    split; [exact S0|].
    split; [intros Z0; lia|].
    intros _ id. change (ctrl (pm_runtime_put_noidle ?x) id) with (ctrl x id).
    now rewrite C0.
  - destruct (start_streaming_shape s G) as (mid & [Hs Hk] & [[N Hp]|Hok]).
    + destruct (pm_runtime_put_spec mid) as ((F1 & M1 & S1 & C1) & _).
      rewrite Hp.
      split.
      { eapply tame_trans; [exact T0|].
        eapply tame_trans; [apply quiet_tame; split; eassumption|].
        apply tame_pm_runtime_put. }
      split; [rewrite S1, (steady_streaming _ _ Hs); exact S0|].
      split; [intros Z0; contradiction|].
      intros _ id. rewrite C1, (steady_flags _ _ Hs), C0. reflexivity.
    + rewrite Hok. cbn [fst snd].
      split.
      { eapply tame_trans; [exact T0|].
        eapply tame_trans; [apply quiet_tame; split; eassumption|].
        eapply tame_trans; apply tame_grab. }
      split.
      { change (streaming mid = streaming s).
        rewrite (steady_streaming _ _ Hs). exact S0. }
      split; [|intros N; contradiction].
      intros _. split.
      * apply grab_ctrl_same.
      * rewrite grab_ctrl_other by discriminate. apply grab_ctrl_same.
Qed.

(** *** Changing the mode *)

Lemma keeps_exposure_base_refl (s : imx307) : keeps_exposure_base s s.
Proof. split; reflexivity. Qed.

Lemma keeps_exposure_base_trans (s1 s2 s3 : imx307) :
  keeps_exposure_base s1 s2 -> keeps_exposure_base s2 s3 ->
  keeps_exposure_base s1 s3.
Proof. intros [A B] [C D]. split; congruence. Qed.

Lemma keeps_exposure_base_put (s : imx307) (id : ctrl_id) (c : v4l2_ctrl) :
  (id = V4L2_CID_EXPOSURE ->
   minimum c = minimum (ctrl s id) /\ step c = step (ctrl s id)) ->
  keeps_exposure_base s (put_ctrl s id c).
Proof.
  intros H. unfold keeps_exposure_base.
  destruct (ctrl_id_eq_dec V4L2_CID_EXPOSURE id) as [<-|N].
  - rewrite ctrl_put_same. now apply H.
  - now rewrite ctrl_put_other.
Qed.

Lemma keeps_ranges_exposure_base (s s' : imx307) :
  keeps_ranges s s' -> keeps_exposure_base s s'.
Proof. intros (_ & A & B). now split. Qed.

Lemma keeps_range_of_refl (id : ctrl_id) (s : imx307) : keeps_range_of id s s.
Proof. reflexivity. Qed.

Lemma keeps_range_of_trans (id : ctrl_id) (s1 s2 s3 : imx307) :
  keeps_range_of id s1 s2 -> keeps_range_of id s2 s3 -> keeps_range_of id s1 s3.
Proof. unfold keeps_range_of. congruence. Qed.

Lemma keeps_range_of_put (id j : ctrl_id) (s : imx307) (c : v4l2_ctrl) :
  (j = id -> range_of c = range_of (ctrl s id)) ->
  keeps_range_of id s (put_ctrl s j c).
Proof.
  intros H. unfold keeps_range_of.
  destruct (ctrl_id_eq_dec id j) as [<-|N].
  - rewrite ctrl_put_same. now apply H.
  - now rewrite ctrl_put_other.
Qed.

Lemma only_ctrl_keeps_range_of (id j : ctrl_id) (s s' : imx307) :
  only_ctrl j s s' -> id <> j -> keeps_range_of id s s'.
Proof. intros O N. unfold keeps_range_of. now rewrite O. Qed.

(** The callback keeps the range of the control it is called on. *)
Lemma imx307_set_ctrl_keeps_own_range (id : ctrl_id) (s : imx307) :
  keeps_range_of id s (snd (imx307_set_ctrl s id)).
Proof.
  destruct (ctrl_id_eq_dec id V4L2_CID_VBLANK) as [->|N].
  - eapply only_ctrl_keeps_range_of;
      [apply imx307_set_ctrl_only_exposure | discriminate].
  - unfold keeps_range_of. now rewrite imx307_set_ctrl_same_ctrls.
Qed.

(** A range that passes [check_range] is the range of the control once
    [__v4l2_ctrl_modify_range] returns. *)
Lemma modify_range_sets_range (s : imx307) (id : ctrl_id)
    (min max stp def : Z) :
  check_range (ctype (ctrl s id)) min max stp def = 0 ->
  range_of (ctrl (snd (__v4l2_ctrl_modify_range imx307_ctrl_ops s id
                         min max stp def)) id) = (min, max, stp, def).
Proof.
  intros Ok. unfold __v4l2_ctrl_modify_range. rewrite Ok.
  change (negb (0 =? 0)) with false. cbv iota.
  set (s1 := put_ctrl s id _).
  assert (range_of (ctrl s1 id) = (min, max, stp, def)) as H1
      by (subst s1; now rewrite ctrl_put_same).
  set (s2 := cur_to_new s1 id).
  assert (range_of (ctrl s2 id) = (min, max, stp, def)) as H2
      by (subst s2; unfold cur_to_new; now rewrite ctrl_put_same).
  destruct (validate_new (ctrl s2 id) _) as [err v].
  set (v' := if negb (err =? 0) then def else v).
  set (s3 := put_ctrl s2 id _).
  assert (range_of (ctrl s3 id) = (min, max, stp, def)) as H3
      by (subst s3; now rewrite ctrl_put_same).
  destruct (negb (v' =? _)); simpl; [|exact H3].
  rewrite <- H3.
  apply (frame_set_ctrl (keeps_range_of id)).
  - apply keeps_range_of_refl.
  - apply keeps_range_of_trans.
  - intros s0 v0. apply keeps_range_of_put. reflexivity.
  - intros s0 v0. apply keeps_range_of_put. reflexivity.
  - apply imx307_set_ctrl_keeps_own_range.
Qed.

Lemma steady_s_ctrl (s : imx307) (id : ctrl_id) (v : Z) :
  steady s (snd (__v4l2_ctrl_s_ctrl imx307_ctrl_ops s id v)).
Proof.
  apply (frame_s_ctrl steady steady_refl steady_trans).
  - intros s0 v0. apply steady_put_val.
  - intros s0 v0. apply steady_put_cur.
  - intros s0. apply steady_imx307_set_ctrl.
Qed.

Lemma steady_update_vblank (s : imx307) (md : imx307_mode) :
  steady s (update_vblank s md).
Proof.
  unfold update_vblank.
  eapply steady_trans; [|apply steady_s_ctrl].
  apply steady_modify_range, steady_imx307_set_ctrl.
Qed.

Lemma steady_update_exposure (s : imx307) (md : imx307_mode) :
  steady s (update_exposure s md).
Proof. apply steady_modify_range, steady_imx307_set_ctrl. Qed.

Lemma steady_update_hblank (s : imx307) (md : imx307_mode) :
  steady s (update_hblank s md).
Proof. apply steady_modify_range, steady_imx307_set_ctrl. Qed.

Lemma steady_apply_mode_change (s : imx307) (m : nat) (f : v4l2_mbus_framefmt) :
  steady (with_mode (with_fmt s f) m) (apply_mode_change s m f).
Proof.
  unfold apply_mode_change.
  set (s0 := with_mode (with_fmt s f) m).
  apply steady_trans with (update_exposure (update_vblank s0 (mode_at m))
                             (mode_at m));
    [|apply steady_update_hblank].
  apply steady_trans with (update_vblank s0 (mode_at m));
    [apply steady_update_vblank | apply steady_update_exposure].
Qed.

Lemma keeps_exposure_base_modify_range (s : imx307) (id : ctrl_id)
    (min max stp def : Z) :
  (id = V4L2_CID_EXPOSURE ->
   min = minimum (ctrl s id) /\ stp = step (ctrl s id)) ->
  keeps_exposure_base s
    (snd (__v4l2_ctrl_modify_range imx307_ctrl_ops s id min max stp def)).
Proof.
  intros H.
  apply (frame_modify_range keeps_exposure_base keeps_exposure_base_refl
           keeps_exposure_base_trans).
  - intros s0 v. apply keeps_exposure_base_put. intros _. now split.
  - intros s0 v. apply keeps_exposure_base_put. intros _. now split.
  - intros s0. apply keeps_ranges_exposure_base, keeps_ranges_imx307_set_ctrl.
  - apply keeps_exposure_base_put. exact H.
Qed.

Lemma keeps_exposure_base_s_ctrl (s : imx307) (id : ctrl_id) (v : Z) :
  keeps_exposure_base s (snd (__v4l2_ctrl_s_ctrl imx307_ctrl_ops s id v)).
Proof.
  apply (frame_s_ctrl keeps_exposure_base keeps_exposure_base_refl
           keeps_exposure_base_trans).
  - intros s0 v0. apply keeps_exposure_base_put. intros _. now split.
  - intros s0 v0. apply keeps_exposure_base_put. intros _. now split.
  - intros s0. apply keeps_ranges_exposure_base, keeps_ranges_imx307_set_ctrl.
Qed.

Lemma keeps_exposure_base_update_vblank (s : imx307) (md : imx307_mode) :
  keeps_exposure_base s (update_vblank s md).
Proof.
  unfold update_vblank.
  eapply keeps_exposure_base_trans; [|apply keeps_exposure_base_s_ctrl].
  apply keeps_exposure_base_modify_range. discriminate.
Qed.

Lemma keeps_exposure_base_update_exposure (s : imx307) (md : imx307_mode) :
  keeps_exposure_base s (update_exposure s md).
Proof.
  apply keeps_exposure_base_modify_range. intros _. now split.
Qed.

Lemma keeps_exposure_base_update_hblank (s : imx307) (md : imx307_mode) :
  keeps_exposure_base s (update_hblank s md).
Proof. apply keeps_exposure_base_modify_range. discriminate. Qed.

Lemma range_of_eq (c : v4l2_ctrl) (a b d e : Z) :
  range_of c = (a, b, d, e) ->
  minimum c = a /\ maximum c = b /\ step c = d /\ default_value c = e.
Proof. unfold range_of. intros H. inversion H. auto. Qed.

Lemma keeps_range_of_s_ctrl (id : ctrl_id) (s : imx307) (v : Z) :
  keeps_range_of id s (snd (__v4l2_ctrl_s_ctrl imx307_ctrl_ops s id v)).
Proof.
  apply (frame_s_ctrl (keeps_range_of id) (keeps_range_of_refl id)
           (keeps_range_of_trans id)).
  - intros s0 v0. apply keeps_range_of_put. reflexivity.
  - intros s0 v0. apply keeps_range_of_put. reflexivity.
  - intros s0. apply imx307_set_ctrl_keeps_own_range.
Qed.

Lemma only_ctrl_modify_range_driver (id : ctrl_id) (s : imx307)
    (min max stp def : Z) :
  id <> V4L2_CID_VBLANK ->
  only_ctrl id s
    (snd (__v4l2_ctrl_modify_range imx307_ctrl_ops s id min max stp def)).
Proof.
  intros N. apply only_modify_range. intros s0.
  apply same_ctrls_only, imx307_set_ctrl_same_ctrls. exact N.
Qed.

Lemma check_range_vblank (m : nat) :
  (m < 4)%nat ->
  check_range V4L2_CTRL_TYPE_INTEGER imx307_VBLANK_MIN
    (u32 (imx307_VTS_MAX - height (mode_at m))) 1
    (u32 (vts_def (mode_at m) - height (mode_at m))) = 0 /\
  u32 (imx307_VTS_MAX - height (mode_at m))
    = imx307_VTS_MAX - height (mode_at m) /\
  u32 (vts_def (mode_at m) - height (mode_at m))
    = vts_def (mode_at m) - height (mode_at m).
Proof.
  intros H. destruct (mode_at_cases m H) as [-> | [-> | [-> | ->]]];
    repeat split; reflexivity.
Qed.

Lemma update_vblank_range (s : imx307) (m : nat) :
  ctype (ctrl s V4L2_CID_VBLANK) = V4L2_CTRL_TYPE_INTEGER ->
  (m < 4)%nat ->
  range_of (ctrl (update_vblank s (mode_at m)) V4L2_CID_VBLANK) =
  (imx307_VBLANK_MIN, imx307_VTS_MAX - height (mode_at m), 1,
   vts_def (mode_at m) - height (mode_at m)).
Proof.
  intros T H. destruct (check_range_vblank m H) as (C & E1 & E2).
  unfold update_vblank. cbv zeta.
  rewrite keeps_range_of_s_ctrl.
  rewrite modify_range_sets_range by (rewrite T; exact C).
  now rewrite E1, E2.
Qed.

Lemma wf_apply_mode_change (s : imx307) (m : nat) (f : v4l2_mbus_framefmt) :
  wf s -> (m < 4)%nat -> In (format_code f) codes ->
  wf (apply_mode_change s m f).
Proof.
  intros [W1 W2 W3 W4 W5 W6 W7 W8 W9] Hm Hc.
  pose proof (steady_apply_mode_change s m f) as St.
  set (s0 := with_mode (with_fmt s f) m) in *.
  set (s1 := update_vblank s0 (mode_at m)).
  set (s2 := update_exposure s1 (mode_at m)).
  assert (apply_mode_change s m f = update_hblank s2 (mode_at m)) as E
      by reflexivity.
  assert (keeps_exposure_base s0 (apply_mode_change s m f)) as Ke.
  { rewrite E.
    apply keeps_exposure_base_trans with s2;
      [|apply keeps_exposure_base_update_hblank].
    apply keeps_exposure_base_trans with s1;
      [apply keeps_exposure_base_update_vblank
      |apply keeps_exposure_base_update_exposure]. }
  assert (range_of (ctrl (apply_mode_change s m f) V4L2_CID_VBLANK) =
          (imx307_VBLANK_MIN, imx307_VTS_MAX - height (mode_at m), 1,
           vts_def (mode_at m) - height (mode_at m))) as Rv.
  { rewrite E. unfold update_hblank. cbv zeta.
    rewrite only_ctrl_modify_range_driver by discriminate.
    subst s2. unfold update_exposure. cbv zeta.
    rewrite only_ctrl_modify_range_driver by discriminate.
    subst s1. apply update_vblank_range; [apply W3 | exact Hm]. }
  destruct (range_of_eq _ _ _ _ _ Rv) as (R1 & R2 & R3 & R4).
  destruct Ke as [Ke1 Ke2].
  constructor.
  - rewrite (steady_mode _ _ St). exact Hm.
  - rewrite (steady_fmt _ _ St). exact Hc.
  - intros id. rewrite (steady_ctype _ _ St). apply W3.
  - intros id. rewrite (steady_is_read_only _ _ _ St). apply W4.
  - rewrite Ke1. exact W5.
  - rewrite Ke2. exact W6.
  - exact R1.
  - unfold cur_mode. rewrite (steady_mode _ _ St). exact R2.
  - exact R3.
Qed.

(** *** Every call keeps the invariants *)

(** [imx307_set_pad_format] never dereferences a NULL mode; it either
    leaves the instance alone or applies a mode change to a catalog entry
    with a code of the table. *)
Lemma set_pad_format_cases (s : imx307) (cfg : v4l2_subdev_pad_config)
    (f : v4l2_subdev_format) :
  (exists ret cfg' f',
      imx307_set_pad_format s cfg f = Some (ret, s, cfg', f')) \/
  (exists m fm cfg' f',
      (m < 4)%nat /\ In (format_code fm) codes /\
      imx307_set_pad_format s cfg f =
        Some (0, apply_mode_change s m fm, cfg', f')).
Proof.
  unfold imx307_set_pad_format.
  destruct (pad f >=? NUM_PADS); [left; eauto|].
  destruct (pad f =? IMAGE_PAD).
  2:{ destruct (which f =? V4L2_SUBDEV_FORMAT_TRY); left; eauto. }
  set (i := if code_index_from codes (format_code (format f)) 0
               >=? ARRAY_SIZE_codes
            then 0 else code_index_from codes (format_code (format f)) 0).
  set (f1 := with_format f _).
  destruct (find_nearest_size_supported (format_width (format f1))
              (format_height (format f1))) as (m & E & [Hm _] & _).
  rewrite E.
  set (f2 := imx307_update_image_pad_format (mode_at m) f1).
  destruct (which f2 =? V4L2_SUBDEV_FORMAT_TRY); [left; eauto|].
  destruct (negb (Nat.eqb (mode s) m) || _); [|left; eauto].
  right. exists m, (format f2), cfg, f2.
  split; [exact Hm|]. split; [|reflexivity].
  subst f2 f1. cbn [format imx307_update_image_pad_format with_format
                    imx307_reset_colorspace format_code with_format_code].
  apply get_format_code_member.
Qed.

Lemma wf_probe (bus : nat -> Z -> Z) (regulators clk : nat -> nat) :
  wf (imx307_probe bus regulators clk).
Proof.
  constructor; try reflexivity.
  - cbn. lia.
  - cbn. auto.
  - intros id. destruct id; reflexivity.
  - intros id. destruct id; reflexivity.
Qed.

Lemma wf_run_call (s : imx307) (c : call) : wf s -> wf (run_call s c).
Proof.
  intros W. destruct c as [cfg f|id v|enable| |]; cbn [run_call].
  - destruct (set_pad_format_cases s cfg f)
      as [(ret & cfg' & f' & E)|(m & fm & cfg' & f' & Hm & Hc & E)];
      rewrite E; [exact W | now apply wf_apply_mode_change].
  - eapply wf_tame; [exact W | apply quiet_tame, quiet_v4l2_s_ctrl].
  - unfold imx307_set_stream.
    destruct (Z.b2z (streaming s) =? enable); [exact W|].
    destruct (negb (enable =? 0)).
    + destruct (start_streaming_spec s) as (T & _).
      destruct (imx307_start_streaming s) as [ret s1]. cbn [snd] in T.
      destruct (negb (ret =? 0)); cbn [snd].
      * eapply wf_tame; eauto.
      * eapply wf_tame; [exact W|].
        eapply tame_trans; [exact T | apply tame_with_streaming].
    + cbn [snd]. destruct (stop_streaming_spec s) as (T & _).
      eapply wf_tame; [exact W|].
      eapply tame_trans; [exact T | apply tame_with_streaming].
  - unfold imx307_suspend. destruct (streaming s); cbn [snd]; [|exact W].
    eapply wf_tame; [exact W | apply stop_streaming_spec].
  - unfold imx307_resume. destruct (streaming s); cbn [snd]; [|exact W].
    destruct (start_streaming_spec s) as (T & _).
    destruct (imx307_start_streaming s) as [ret s1]. cbn [snd] in T.
    destruct (negb (ret =? 0)); cbn [snd].
    + eapply wf_tame; [exact W|].
      eapply tame_trans; [exact T|].
      eapply tame_trans; [apply stop_streaming_spec|].
      apply tame_with_streaming.
    + eapply wf_tame; eauto.
Qed.

Lemma wf_run (cs : list call) (s : imx307) : wf s -> wf (run s cs).
Proof.
  revert s; induction cs as [|c cs IH]; intros s W; [exact W|].
  apply IH, wf_run_call, W.
Qed.

Lemma reachable_wf (s : imx307) : reachable s -> wf s.
Proof.
  intros (bus & reg & clk & cs & ->). apply wf_run, wf_probe.
Qed.

(** What each call does to the flag and the flips. *)
Lemma run_call_flip_effect (s : imx307) (c : call) :
  flip_effect s (run_call s c) c.
Proof.
  destruct c as [cfg f|id v|enable| |]; cbn [run_call].
  - destruct (set_pad_format_cases s cfg f)
      as [(ret & cfg' & f' & E)|(m & fm & cfg' & f' & Hm & Hc & E)];
      rewrite E; [now apply effect_none|].
    pose proof (steady_apply_mode_change s m fm) as St.
    apply effect_none.
    + apply (steady_streaming _ _ St).
    + apply (steady_flags _ _ St).
  - destruct (quiet_v4l2_s_ctrl s id v) as [St _].
    apply effect_none;
      [apply (steady_streaming _ _ St) | apply (steady_flags _ _ St)].
  - unfold imx307_set_stream.
    destruct (Z.b2z (streaming s) =? enable); [now apply effect_none|].
    destruct (negb (enable =? 0)).
    + destruct (start_streaming_spec s) as (_ & S1 & G1 & F1).
      destruct (imx307_start_streaming s) as [ret s1]. cbn [fst snd] in *.
      destruct (Z.eqb_spec ret 0) as [Z0|N0]; cbn [negb snd].
      * apply effect_started; [reflexivity | now apply G1].
      * apply effect_none; [exact S1 | now apply F1].
    + cbn [snd]. destruct (stop_streaming_spec s) as (_ & _ & G & _).
      apply effect_stopped; [reflexivity | exact G].
  - unfold imx307_suspend. destruct (streaming s) eqn:St; cbn [snd];
      [|now apply effect_none].
    destruct (stop_streaming_spec s) as (_ & S1 & G & _).
    apply effect_suspended; auto. now rewrite S1.
  - unfold imx307_resume. destruct (streaming s) eqn:St; cbn [snd];
      [|now apply effect_none].
    destruct (start_streaming_spec s) as (_ & S1 & G1 & _).
    destruct (imx307_start_streaming s) as [ret s1]. cbn [fst snd] in *.
    destruct (Z.eqb_spec ret 0) as [Z0|N0]; cbn [negb snd].
    + apply effect_started; [now rewrite S1 | now apply G1].
    + destruct (stop_streaming_spec s1) as (_ & _ & G & _).
      apply effect_stopped; [reflexivity | exact G].
Qed.

Lemma flips_grabbed_flags (s s' : imx307) (b : bool) :
  (forall id, flags (ctrl s' id) = flags (ctrl s id)) ->
  flips_grabbed s b -> flips_grabbed s' b.
Proof.
  intros F [H V]. unfold flips_grabbed, is_grabbed in *.
  now rewrite !F.
Qed.


(** While STREAMING the flips are grabbed, in every state reached without
    a suspend. *)
Lemma reachable_awake_frozen (s : imx307) :
  reachable_awake s -> streaming s = true -> flips_grabbed s true.
Proof.
  intros (bus & reg & clk & cs & A & ->).
  assert (streaming (imx307_probe bus reg clk) = true ->
          flips_grabbed (imx307_probe bus reg clk) true) as H0
      by (intros St; discriminate St).
  revert H0 A. generalize (imx307_probe bus reg clk) as s.
  induction cs as [|c cs IH]; intros s H A; [exact H|].
  cbn [forallb] in A. apply andb_prop in A. destruct A as [Ac A].
  apply IH; [|exact A]. intros St.
  destruct (run_call_flip_effect s c) as [S F|S G|S G|C _ _ _].
  - eapply flips_grabbed_flags; [exact F|]. apply H. now rewrite <- S.
  - exact G.
  - congruence.
  - subst c. discriminate Ac.
Qed.

Lemma reachable_awake_reachable (s : imx307) :
  reachable_awake s -> reachable s.
Proof. intros (bus & reg & clk & cs & _ & E). exists bus, reg, clk, cs. exact E. Qed.

(** ** The claims on reachable states *)

Lemma reachable_sound_sensor : reachable sound_sensor.
Proof. exists good_bus, good_supply, good_supply, []. reflexivity. Qed.

Lemma reachable_awake_streaming_sensor : reachable_awake streaming_sensor.
Proof.
  exists good_bus, good_supply, good_supply, [Set_stream 1].
  split; reflexivity.
Qed.

(** C10. In every reachable state the active format code is one of the
    eight codes of the table, so [imx307_set_framefmt] takes one of its two
    cases: it is the write of the 8-bit or of the 10-bit register triple,
    and what it returns is what [imx307_write_regs] returns, 0 or -EIO,
    never the -EINVAL of the fall-through. *)
Theorem active_code_in_table (s : imx307) :
  reachable s ->
  In (format_code (fmt s)) codes /\
  (imx307_set_framefmt s = imx307_write_regs s raw8_framefmt_regs \/
   imx307_set_framefmt s = imx307_write_regs s raw10_framefmt_regs) /\
  (fst (imx307_set_framefmt s) = 0 \/ fst (imx307_set_framefmt s) = - EIO) /\
  fst (imx307_set_framefmt s) <> - EINVAL.
Proof.
  intros R. pose proof (wf_code _ (reachable_wf s R)) as C.
  assert (imx307_set_framefmt s = imx307_write_regs s raw8_framefmt_regs \/
          imx307_set_framefmt s = imx307_write_regs s raw10_framefmt_regs)
    as Cases.
  { unfold imx307_set_framefmt.
    destruct C as [C|[C|[C|[C|[C|[C|[C|[C|[]]]]]]]]]; rewrite <- C;
      (left; reflexivity) || (right; reflexivity). }
  split; [exact C|]. split; [exact Cases|].
  assert (fst (imx307_set_framefmt s) = 0 \/
          fst (imx307_set_framefmt s) = - EIO) as Ret
      by (destruct Cases as [-> | ->]; apply write_regs_ret).
  split; [exact Ret|].
  destruct Ret as [-> | ->]; discriminate.
Qed.

Lemma active_code_in_table_witness :
  In (format_code (fmt sound_sensor)) codes /\
  fst (imx307_set_framefmt sound_sensor) <> - EINVAL.
Proof.
  destruct (active_code_in_table sound_sensor reachable_sound_sensor)
    as (C & _ & _ & N).
  split; [exact C | exact N].
Defined.

(** Setting a grabbed control through [v4l2_s_ctrl] fails with -EBUSY and
    stores nothing. *)
Lemma v4l2_s_ctrl_grabbed (s : imx307) (id : ctrl_id) (v : Z) :
  ctype (ctrl s id) = V4L2_CTRL_TYPE_BOOLEAN ->
  is_read_only (ctrl s id) = false ->
  is_grabbed (ctrl s id) = true ->
  fst (v4l2_s_ctrl imx307_ctrl_ops s id v) = - EBUSY /\
  forall j, cur_val (ctrl (snd (v4l2_s_ctrl imx307_ctrl_ops s id v)) j)
            = cur_val (ctrl s j).
Proof.
  intros T RO G. unfold v4l2_s_ctrl, is_int. rewrite T, RO.
  cbn [negb]. cbv iota.
  unfold set_ctrl, validate_new. rewrite ctrl_put_same.
  cbn [ctype with_val]. rewrite T. change (negb (0 =? 0)) with false.
  cbv iota. unfold try_or_set_cluster. rewrite !ctrl_put_same.
  unfold is_grabbed in *. cbn [flags with_val]. rewrite G.
  split; [reflexivity|]. cbn [snd]. intros j.
  destruct (ctrl_id_eq_dec j id) as [->|N].
  - rewrite ctrl_put_same. reflexivity.
  - rewrite !ctrl_put_other by exact N. reflexivity.
Qed.

(** C7 as stated fails: after a suspend taken while streaming, the
    streaming flag is still set (resume needs it) and the flips are
    released. *)
Lemma suspend_releases_flips_of_streaming_instance :
  ~ (forall s, reachable s -> streaming s = true -> flips_grabbed s true).
Proof.
  intros H.
  assert (reachable suspended_sensor) as R
      by (exists good_bus, good_supply, good_supply, [Set_stream 1; Suspend];
          reflexivity).
  assert (streaming suspended_sensor = true) as St
      by (vm_compute; reflexivity).
  destruct (H suspended_sensor R St) as [Gh _].
  assert (is_grabbed (ctrl suspended_sensor V4L2_CID_HFLIP) = false) as N
      by (vm_compute; reflexivity).
  rewrite N in Gh. discriminate Gh.
Qed.

(** ** Vertical blank and exposure *)

Lemma s32_u32_small (x : Z) : 0 <= x < 2 ^ 31 -> s32 (u32 x) = x.
Proof.
  intros H. unfold s32, u32.
  rewrite (Z.mod_small x) by lia. rewrite Z.mod_small by lia. lia.
Qed.

Lemma exposure_def_of_min (x : Z) :
  exposure_def_of x = Z.min x imx307_EXPOSURE_DEFAULT.
Proof.
  unfold exposure_def_of.
  destruct (Z.ltb_spec x imx307_EXPOSURE_DEFAULT); lia.
Qed.

Lemma check_range_exposure (emax : Z) :
  imx307_EXPOSURE_MIN <= emax ->
  check_range V4L2_CTRL_TYPE_INTEGER imx307_EXPOSURE_MIN emax
    imx307_EXPOSURE_STEP (exposure_def_of emax) = 0.
Proof.
  intros H. rewrite exposure_def_of_min.
  unfold check_range, imx307_EXPOSURE_MIN, imx307_EXPOSURE_STEP,
    imx307_EXPOSURE_DEFAULT in *.
  change (1 =? 0) with false. cbn [orb].
  destruct (Z.gtb_spec 4 emax); [lia|].
  destruct (Z.ltb_spec (Z.min emax 0x640) 4); [lia|].
  destruct (Z.gtb_spec (Z.min emax 0x640) emax); [lia|].
  reflexivity.
Qed.

Lemma mode_height_cases (m : nat) :
  (m < 4)%nat -> 480 <= height (mode_at m) <= 2464.
Proof.
  intros H. destruct (mode_at_cases m H) as [-> | [-> | [-> | ->]]];
    cbn; lia.
Qed.

(** The vertical-blank block of the callback, on a state whose exposure
    control is as probe made it. *)
Lemma set_ctrl_vblank_exposure_range (s : imx307) :
  ctype (ctrl s V4L2_CID_EXPOSURE) = V4L2_CTRL_TYPE_INTEGER ->
  minimum (ctrl s V4L2_CID_EXPOSURE) = imx307_EXPOSURE_MIN ->
  step (ctrl s V4L2_CID_EXPOSURE) = imx307_EXPOSURE_STEP ->
  imx307_EXPOSURE_MIN
    <= height (cur_mode s) + val (ctrl s V4L2_CID_VBLANK) - 4 < 2 ^ 31 ->
  range_of (ctrl (snd (imx307_set_ctrl s V4L2_CID_VBLANK)) V4L2_CID_EXPOSURE) =
  (imx307_EXPOSURE_MIN,
   height (cur_mode s) + val (ctrl s V4L2_CID_VBLANK) - 4,
   imx307_EXPOSURE_STEP,
   exposure_def_of (height (cur_mode s) + val (ctrl s V4L2_CID_VBLANK) - 4)).
Proof.
  intros T Mi St B.
  rewrite imx307_set_ctrl_eq, set_ctrl_body_tail.
  unfold set_ctrl_rerange. rewrite Mi, St.
  rewrite s32_u32_small by (unfold imx307_EXPOSURE_MIN in B; lia).
  apply modify_range_sets_range.
  rewrite T. apply check_range_exposure. lia.
Qed.


(** ** Format round trip *)

(** An error of zero: both differences are 0, or both are 2^31 (where the
    absolute values wrap and cancel). *)
Lemma size_error_zero (m : imx307_mode) (w h : Z) :
  size_error m w h = 0 ->
  exists c, (c = 0 \/ c = 2 ^ 31) /\
            (width m - s32 w - c) mod 2 ^ 32 = 0 /\
            (height m - s32 h - c) mod 2 ^ 32 = 0.
Proof.
  unfold size_error, u32, s32.
  change (2 ^ 32) with 4294967296. change (2 ^ 31) with 2147483648.
  intros E.
  set (a := width m - ((w + 2147483648) mod 4294967296 - 2147483648)) in *.
  set (b := height m - ((h + 2147483648) mod 4294967296 - 2147483648)) in *.
  clearbody a b.
  assert ((a mod 4294967296 = 0 /\ b mod 4294967296 = 0) \/
          ((a - 2147483648) mod 4294967296 = 0 /\
           (b - 2147483648) mod 4294967296 = 0)) as [[A B]|[A B]]
      by (Z.to_euclidean_division_equations; lia).
  - exists 0. rewrite !Z.sub_0_r. auto.
  - exists 2147483648. auto.
Qed.

(** No two entries of the catalog have error zero for the same request. *)
Lemma zero_error_unique (j k : nat) (w h : Z) :
  (j < 4)%nat -> (k < 4)%nat ->
  size_error (mode_at j) w h = 0 -> size_error (mode_at k) w h = 0 -> j = k.
Proof.
  intros Hj Hk Ej Ek.
  destruct (size_error_zero _ _ _ Ej) as (c & Hc & Wj & _).
  destruct (size_error_zero _ _ _ Ek) as (d & Hd & Wk & _).
  revert Wj Wk. generalize (s32 w) as sw. intros sw.
  change (2 ^ 32) with 4294967296. change (2 ^ 31) with 2147483648 in *.
  destruct (mode_at_cases j Hj) as [-> | [-> | [-> | ->]]];
    destruct (mode_at_cases k Hk) as [-> | [-> | [-> | ->]]];
    try reflexivity; cbn [mode_at nth supported_modes width];
    intros Wj Wk; exfalso;
    destruct Hc as [-> | ->]; destruct Hd as [-> | ->];
    Z.to_euclidean_division_equations; lia.
Qed.

(** So the entry the walk ends on is the last-listed of the nearest. *)
Lemma find_nearest_size_last (w h : Z) :
  exists m,
    v4l2_find_nearest_size supported_modes w h = Some m /\ last_nearest m w h.
Proof.
  destruct (find_nearest_size_supported w h) as (m & E & N & L).
  exists m. split; [exact E|]. split; [exact N|].
  intros j Nj. specialize (L j Nj).
  destruct (Z.eqb_spec (size_error (mode_at m) w h) 0) as [Z0|_]; [|exact L].
  destruct N as [Hm _]. destruct Nj as [Hj Lj].
  pose proof (Lj m Hm) as Le.
  pose proof (size_error_range (mode_at j) w h) as Rj.
  rewrite (zero_error_unique j m w h Hj Hm) by lia. lia.
Qed.

Lemma exact_size_error (j : nat) :
  (j < 4)%nat ->
  size_error (mode_at j) (width (mode_at j)) (height (mode_at j)) = 0.
Proof.
  intros H. destruct (mode_at_cases j H) as [-> | [-> | [-> | ->]]];
    reflexivity.
Qed.

(** An active request on the image pad: the instance ends in the mode the
    walk found, and the caller's format carries that mode's size. *)
Lemma set_pad_format_active (s : imx307) (cfg : v4l2_subdev_pad_config)
    (code w h : Z) (m : nat) :
  v4l2_find_nearest_size supported_modes w h = Some m ->
  exists s' f',
    imx307_set_pad_format s cfg (active_request code w h)
      = Some (0, s', cfg, f') /\
    mode s' = m /\
    format_width (format f') = width (mode_at m) /\
    format_height (format f') = height (mode_at m).
Proof.
  intros E. unfold imx307_set_pad_format, active_request.
  cbn [pad which format format_width format_height format_code with_format
       with_format_code].
  change (IMAGE_PAD >=? NUM_PADS) with false.
  change (IMAGE_PAD =? IMAGE_PAD) with true. cbv iota.
  rewrite E.
  cbn [imx307_update_image_pad_format with_format which pad format
       imx307_reset_colorspace format_code format_width format_height].
  change (V4L2_SUBDEV_FORMAT_ACTIVE =? V4L2_SUBDEV_FORMAT_TRY) with false.
  cbv iota.
  destruct (Nat.eqb_spec (mode s) m) as [Em|Nm]; cbn [negb orb].
  - destruct (negb _).
    + eexists _, _. split; [reflexivity|].
      split; [|split; reflexivity].
      apply (steady_mode _ _ (steady_apply_mode_change s m _)).
    + eexists _, _. split; [reflexivity|]. split; [exact Em|].
      split; reflexivity.
  - eexists _, _. split; [reflexivity|].
    split; [|split; reflexivity].
    apply (steady_mode _ _ (steady_apply_mode_change s m _)).
Qed.

Lemma get_current_format_size (s : imx307) (cfg : v4l2_subdev_pad_config) :
  format_width (get_current_format s cfg) = width (cur_mode s) /\
  format_height (get_current_format s cfg) = height (cur_mode s).
Proof. split; reflexivity. Qed.

(** C8 (as the code has it). For every request, [imx307_set_pad_format]
    on the active image format succeeds, and the format then read back has
    the width and height of a catalog mode that is nearest to the request
    under the error [size_error] of [v4l2_find_nearest_size] (the L1 distance
    [|W - w| + |H - h|], see [size_error_plain]); among equally near entries
    it is the last-listed one.  The size read back is the requested size
    exactly when the request is the size of a catalog entry. *)
Theorem set_get_format_nearest (s : imx307) (cfg : v4l2_subdev_pad_config)
    (code w h : Z) :
  exists m s' cfg' f',
    imx307_set_pad_format s cfg (active_request code w h)
      = Some (0, s', cfg', f') /\
    last_nearest m w h /\
    format_width (get_current_format s' cfg') = width (mode_at m) /\
    format_height (get_current_format s' cfg') = height (mode_at m) /\
    format_width (format f') = width (mode_at m) /\
    format_height (format f') = height (mode_at m) /\
    ((format_width (get_current_format s' cfg') = w /\
      format_height (get_current_format s' cfg') = h) <->
     exists j, (j < 4)%nat /\ width (mode_at j) = w /\ height (mode_at j) = h).
Proof.
  destruct (find_nearest_size_last w h) as (m & E & N).
  destruct (set_pad_format_active s cfg code w h m E)
    as (s' & f' & Es & Em & Fw & Fh).
  exists m, s', cfg, f'.
  destruct (get_current_format_size s' cfg) as [Gw Gh].
  unfold cur_mode in Gw, Gh. rewrite Em in Gw, Gh.
  split; [exact Es|]. split; [exact N|].
  split; [exact Gw|]. split; [exact Gh|].
  split; [exact Fw|]. split; [exact Fh|].
  rewrite Gw, Gh. split.
  - intros [A B]. exists m. split; [apply N | split; assumption].
  - intros (j & Hj & A & B).
    destruct N as [[Hm Near] _].
    pose proof (exact_size_error j Hj) as Z0. rewrite A, B in Z0.
    pose proof (Near j Hj) as Le. rewrite Z0 in Le.
    pose proof (size_error_range (mode_at m) w h) as Rm.
    assert (m = j) as ->
        by (apply (zero_error_unique m j w h Hm Hj); lia).
    split; assumption.
Qed.

(** C8 as stated fails on the tie-break: 1780x1156 is equally far (216)
    from 1920x1080, listed second, and from 1640x1232, listed third, and
    nearer to these than to the other two; the format read back is
    1640x1232. *)
Lemma tie_goes_to_later_entry :
  ~ (forall s cfg code w h,
       exists m s' cfg' f',
         imx307_set_pad_format s cfg (active_request code w h)
           = Some (0, s', cfg', f') /\
         first_nearest m w h /\
         format_width (get_current_format s' cfg') = width (mode_at m) /\
         format_height (get_current_format s' cfg') = height (mode_at m)).
Proof.
  intros H.
  destruct (H sound_sensor no_try_formats MEDIA_BUS_FMT_SRGGB10_1X10 1780 1156)
    as (m & s' & cfg' & f' & E & [[Hm Near] First] & Gw & _).
  assert (match imx307_set_pad_format sound_sensor no_try_formats
                  (active_request MEDIA_BUS_FMT_SRGGB10_1X10 1780 1156) with
          | Some (_, s1, cfg1, _) =>
              format_width (get_current_format s1 cfg1)
          | None => 0
          end = 1640) as C by (vm_compute; reflexivity).
  rewrite E in C. cbv beta iota in C.
  assert (nearest 1 1780 1156) as N1.
  { split; [lia|]. intros j Hj.
    destruct (mode_at_cases j Hj) as [-> | [-> | [-> | ->]]];
      vm_compute; discriminate. }
  specialize (First 1%nat N1).
  destruct (mode_at_cases m Hm) as [-> | [-> | [-> | ->]]].
  - specialize (Near 1%nat ltac:(lia)). vm_compute in Near. contradiction.
  - rewrite C in Gw. vm_compute in Gw. discriminate Gw.
  - lia.
  - lia.
Qed.

(** ** Storing control values while the device is not powered *)

Lemma round_step1 (c : v4l2_ctrl) (v : Z) :
  step c = 1 -> minimum c <= maximum c ->
  ROUND_TO_RANGE c v = clamp v (minimum c) (maximum c).
Proof.
  intros S Le. unfold ROUND_TO_RANGE, clamp. rewrite S.
  change (1 / 2) with 0. rewrite Z.sub_0_r, Z.add_0_r, Z.div_1_r, Z.mul_1_l.
  destruct (Z.geb_spec (maximum c) 0); destruct (Z.geb_spec v (maximum c));
    cbn [andb]; lia.
Qed.

Lemma steady_unpowered (s s' : imx307) :
  steady s s' -> unpowered s -> unpowered s'.
Proof.
  intros H U. unfold unpowered in *.
  now rewrite (steady_active _ _ H), (steady_usage _ _ H).
Qed.

Lemma steady_set_ctrl_rerange (s : imx307) (id : ctrl_id) :
  steady s (set_ctrl_rerange imx307_set_ctrl s id).
Proof.
  destruct id; try apply steady_refl.
  apply steady_modify_range, steady_imx307_set_ctrl.
Qed.

(** Not powered, the callback returns 0 for every control. *)
Lemma imx307_set_ctrl_unpowered (s : imx307) (id : ctrl_id) :
  unpowered s -> fst (imx307_set_ctrl s id) = 0.
Proof.
  intros U. rewrite imx307_set_ctrl_eq. unfold imx307_set_ctrl_body.
  change (match id with
          | V4L2_CID_VBLANK => _
          | _ => s
          end) with (set_ctrl_rerange imx307_set_ctrl s id).
  pose proof (steady_unpowered _ _ (steady_set_ctrl_rerange s id) U) as U1.
  generalize dependent (set_ctrl_rerange imx307_set_ctrl s id). intros s1 U1.
  destruct (pm_runtime_get_if_in_use_cases s1) as [[_ E]|(A & P & _)].
  - rewrite E. reflexivity.
  - unfold unpowered in U1. rewrite A in U1.
    destruct (Z.ltb_spec 0 (usage_count s1)); [discriminate U1 | lia].
Qed.

Lemma imx307_set_ctrl_own (s : imx307) (id : ctrl_id) :
  ctrl (snd (imx307_set_ctrl s id)) id = ctrl s id.
Proof.
  destruct (ctrl_id_eq_dec id V4L2_CID_VBLANK) as [->|N].
  - apply imx307_set_ctrl_only_exposure. discriminate.
  - now apply imx307_set_ctrl_same_ctrls.
Qed.

(** [set_ctrl] on an integer control of step 1 that is not grabbed, on a
    device that is not powered: the clamped new value becomes the stored
    value. *)
Lemma set_ctrl_commits (s : imx307) (id : ctrl_id) :
  unpowered s ->
  is_grabbed (ctrl s id) = false ->
  ctype (ctrl s id) = V4L2_CTRL_TYPE_INTEGER ->
  step (ctrl s id) = 1 ->
  minimum (ctrl s id) <= maximum (ctrl s id) ->
  fst (set_ctrl imx307_ctrl_ops s id) = 0 /\
  cur_val (ctrl (snd (set_ctrl imx307_ctrl_ops s id)) id)
    = clamp (val (ctrl s id)) (minimum (ctrl s id)) (maximum (ctrl s id)).
Proof.
  intros U G T S Le. unfold set_ctrl, validate_new. rewrite T.
  rewrite round_step1 by assumption.
  change (negb (0 =? 0)) with false. cbv iota.
  set (v := clamp _ _ _).
  set (s1 := put_ctrl s id (with_val (ctrl s id) v)).
  assert (ctrl s1 id = with_val (ctrl s id) v) as C1
      by (subst s1; apply ctrl_put_same).
  unfold try_or_set_cluster. rewrite C1.
  unfold is_grabbed in *. cbn [flags with_val val cur_val]. rewrite G.
  destruct (Z.eqb_spec v (cur_val (ctrl s id))) as [E|N].
  - cbn [fst snd]. rewrite C1. cbn [cur_val with_val]. auto.
  - assert (unpowered s1) as U1 by exact U.
    pose proof (imx307_set_ctrl_unpowered s1 id U1) as R.
    pose proof (imx307_set_ctrl_own s1 id) as O.
    unfold imx307_ctrl_ops.
    destruct (imx307_set_ctrl s1 id) as [ret s2]. cbn [fst snd] in *.
    subst ret. change (negb (0 =? 0)) with false. cbv iota. cbn [fst snd].
    split; [reflexivity|].
    unfold new_to_cur. rewrite ctrl_put_same. cbn [cur_val with_cur_val].
    rewrite O, C1. reflexivity.
Qed.

(** [__v4l2_ctrl_modify_range] in the same conditions: the range is the new
    one and the stored value is the old one clamped into it. *)
Lemma modify_range_commits (s : imx307) (id : ctrl_id) (min max def : Z) :
  unpowered s ->
  is_grabbed (ctrl s id) = false ->
  ctype (ctrl s id) = V4L2_CTRL_TYPE_INTEGER ->
  min <= def <= max ->
  cur_val (ctrl (snd (__v4l2_ctrl_modify_range imx307_ctrl_ops s id
                        min max 1 def)) id)
    = clamp (cur_val (ctrl s id)) min max.
Proof.
  intros U G T Hd. unfold __v4l2_ctrl_modify_range. rewrite T.
  assert (check_range V4L2_CTRL_TYPE_INTEGER min max 1 def = 0) as Ck.
  { unfold check_range. change (1 =? 0) with false. cbn [orb].
    destruct (Z.gtb_spec min max); [lia|].
    destruct (Z.ltb_spec def min); [lia|].
    destruct (Z.gtb_spec def max); [lia|]. reflexivity. }
  rewrite Ck. change (negb (0 =? 0)) with false. cbv iota.
  set (c1 := with_range (ctrl s id) min max 1 def).
  set (s1 := put_ctrl s id c1).
  assert (ctrl s1 id = c1) as C1 by (subst s1; apply ctrl_put_same).
  unfold cur_to_new. rewrite C1.
  set (s2 := put_ctrl s1 id (with_val c1 (cur_val c1))).
  assert (ctrl s2 id = with_val c1 (cur_val c1)) as C2
      by (subst s2; apply ctrl_put_same).
  rewrite C2. unfold validate_new. cbn [ctype with_val with_range val].
  subst c1. cbn [ctype with_range]. rewrite T.
  rewrite round_step1 by (cbn; lia).
  cbn [minimum maximum with_val with_range cur_val].
  change (negb (0 =? 0)) with false. cbv iota.
  set (v := clamp (cur_val (ctrl s id)) min max).
  set (s3 := put_ctrl s2 id _).
  assert (ctrl s3 id =
          with_val (with_val (with_range (ctrl s id) min max 1 def)
                      (cur_val (ctrl s id))) v) as C3
      by (subst s3; apply ctrl_put_same).
  rewrite C3. cbn [cur_val with_val with_range].
  destruct (Z.eqb_spec v (cur_val (ctrl s id))) as [E|N]; cbn [negb snd].
  - rewrite C3. cbn [cur_val with_val with_range]. congruence.
  - destruct (set_ctrl_commits s3 id) as [_ R].
    + exact U.
    + rewrite C3. exact G.
    + rewrite C3. exact T.
    + rewrite C3. reflexivity.
    + rewrite C3. cbn. lia.
    + rewrite R, C3. cbn [val minimum maximum with_val with_range].
      subst v. unfold clamp. lia.
Qed.

Lemma s_ctrl_commits (s : imx307) (id : ctrl_id) (v : Z) :
  unpowered s ->
  is_grabbed (ctrl s id) = false ->
  ctype (ctrl s id) = V4L2_CTRL_TYPE_INTEGER ->
  step (ctrl s id) = 1 ->
  minimum (ctrl s id) <= maximum (ctrl s id) ->
  cur_val (ctrl (snd (__v4l2_ctrl_s_ctrl imx307_ctrl_ops s id v)) id)
    = clamp (s32 v) (minimum (ctrl s id)) (maximum (ctrl s id)).
Proof.
  intros U G T S Le. unfold __v4l2_ctrl_s_ctrl, is_int. rewrite T.
  cbn [negb]. cbv iota.
  set (s1 := put_ctrl s id (with_val (ctrl s id) (s32 v))).
  assert (ctrl s1 id = with_val (ctrl s id) (s32 v)) as C1
      by (subst s1; apply ctrl_put_same).
  destruct (set_ctrl_commits s1 id) as [_ R];
    try (rewrite C1; assumption); [exact U|].
  rewrite R, C1. reflexivity.
Qed.

(** *** Only the flips are ever grabbed *)

Lemma start_streaming_other_flags (s : imx307) (id : ctrl_id) :
  is_flip id = false ->
  flags (ctrl (snd (imx307_start_streaming s)) id) = flags (ctrl s id).
Proof.
  intros NF.
  destruct (pm_runtime_get_sync_spec s) as ((_ & _ & _ & C0) & _).
  destruct (Z.lt_ge_cases (fst (pm_runtime_get_sync s)) 0) as [L|G].
  - rewrite (start_streaming_power_failure s L). cbn [snd].
    change (ctrl (pm_runtime_put_noidle ?x) id) with (ctrl x id).
    now rewrite C0.
  - destruct (start_streaming_shape s G) as (mid & [Hs _] & [[_ Hp]|Hok]).
    + rewrite Hp, same_ctrls_pm_runtime_put, (steady_flags _ _ Hs), C0.
      reflexivity.
    + rewrite Hok. cbn [snd].
      rewrite !grab_ctrl_other by (intros ->; discriminate NF).
      rewrite (steady_flags _ _ Hs), C0. reflexivity.
Qed.

Lemma stop_streaming_other_flags (s : imx307) (id : ctrl_id) :
  is_flip id = false ->
  flags (ctrl (imx307_stop_streaming s) id) = flags (ctrl s id).
Proof.
  intros NF. pose proof (stop_streaming_eq s) as E. cbv zeta in E. rewrite E.
  rewrite same_ctrls_pm_runtime_put.
  rewrite !grab_ctrl_other by (intros ->; discriminate NF).
  destruct (_ =? 3); reflexivity.
Qed.

Lemma run_call_other_flags (s : imx307) (c : call) (id : ctrl_id) :
  is_flip id = false ->
  flags (ctrl (run_call s c) id) = flags (ctrl s id).
Proof.
  intros NF. destruct c as [cfg f|i v|enable| |]; cbn [run_call].
  - destruct (set_pad_format_cases s cfg f)
      as [(ret & cfg' & f' & E)|(m & fm & cfg' & f' & Hm & Hc & E)];
      rewrite E; [reflexivity|].
    apply (steady_flags _ _ (steady_apply_mode_change s m fm)).
  - apply (steady_flags _ _ (proj1 (quiet_v4l2_s_ctrl s i v))).
  - unfold imx307_set_stream.
    destruct (Z.b2z (streaming s) =? enable); [reflexivity|].
    destruct (negb (enable =? 0)).
    + pose proof (start_streaming_other_flags s id NF) as F.
      destruct (imx307_start_streaming s) as [ret s1]. cbn [snd] in *.
      destruct (negb (ret =? 0)); exact F.
    + apply stop_streaming_other_flags, NF.
  - unfold imx307_suspend. destruct (streaming s); cbn [snd]; [|reflexivity].
    apply stop_streaming_other_flags, NF.
  - unfold imx307_resume. destruct (streaming s); cbn [snd]; [|reflexivity].
    pose proof (start_streaming_other_flags s id NF) as F.
    destruct (imx307_start_streaming s) as [ret s1]. cbn [snd] in *.
    destruct (negb (ret =? 0)); cbn [snd]; [|exact F].
    rewrite ctrl_with_streaming, stop_streaming_other_flags by exact NF.
    exact F.
Qed.

Lemma reachable_not_grabbed (s : imx307) (id : ctrl_id) :
  reachable s -> is_flip id = false -> is_grabbed (ctrl s id) = false.
Proof.
  intros (bus & reg & clk & cs & ->) NF.
  assert (is_grabbed (ctrl (imx307_probe bus reg clk) id) = false) as H0
      by (destruct id; reflexivity).
  revert H0. generalize (imx307_probe bus reg clk) as s.
  induction cs as [|c cs IH]; intros s H; [exact H|].
  apply IH. unfold is_grabbed in *.
  now rewrite run_call_other_flags.
Qed.

(** *** The mode change on a device that is not powered *)

Lemma mode_numbers (m : nat) :
  (m < 4)%nat ->
  clamp (s32 (u32 (vts_def (mode_at m) - height (mode_at m))))
        imx307_VBLANK_MIN (imx307_VTS_MAX - height (mode_at m))
    = vts_def (mode_at m) - height (mode_at m) /\
  s32 (u32 (vts_def (mode_at m) - 4)) = vts_def (mode_at m) - 4 /\
  s32 (u32 (imx307_PPL_DEFAULT - width (mode_at m)))
    = imx307_PPL_DEFAULT - width (mode_at m) /\
  imx307_EXPOSURE_MIN <= vts_def (mode_at m) - 4 /\
  imx307_VBLANK_MIN <= imx307_VTS_MAX - height (mode_at m).
Proof.
  intros H. destruct (mode_at_cases m H) as [-> | [-> | [-> | ->]]];
    repeat split; try reflexivity; vm_compute; discriminate.
Qed.

Lemma check_range_point (h : Z) :
  check_range V4L2_CTRL_TYPE_INTEGER h h 1 h = 0.
Proof.
  unfold check_range. change (1 =? 0) with false. cbn [orb].
  destruct (Z.gtb_spec h h); [lia|].
  destruct (Z.ltb_spec h h); [lia|]. reflexivity.
Qed.

(** On a device that is not powered the mode change leaves the control set
    as C1 describes it. *)
Lemma apply_mode_change_unpowered (s : imx307) (m : nat)
    (f : v4l2_mbus_framefmt) :
  wf s -> unpowered s ->
  (forall id, is_flip id = false -> is_grabbed (ctrl s id) = false) ->
  (m < 4)%nat ->
  let M := mode_at m in
  let s' := apply_mode_change s m f in
  range_of (ctrl s' V4L2_CID_VBLANK)
    = (imx307_VBLANK_MIN, imx307_VTS_MAX - height M, 1, vts_def M - height M) /\
  cur_val (ctrl s' V4L2_CID_VBLANK) = vts_def M - height M /\
  maximum (ctrl s' V4L2_CID_EXPOSURE) = vts_def M - 4 /\
  default_value (ctrl s' V4L2_CID_EXPOSURE)
    = Z.min (vts_def M - 4) imx307_EXPOSURE_DEFAULT /\
  range_of (ctrl s' V4L2_CID_HBLANK)
    = (imx307_PPL_DEFAULT - width M, imx307_PPL_DEFAULT - width M, 1,
       imx307_PPL_DEFAULT - width M) /\
  cur_val (ctrl s' V4L2_CID_HBLANK) = imx307_PPL_DEFAULT - width M /\
  is_read_only (ctrl s' V4L2_CID_HBLANK) = true /\
  mode s' = m /\ fmt s' = f.
Proof.
  intros W U NG Hm M s'.
  destruct (mode_numbers m Hm) as (N1 & N2 & N3 & N4 & N5). fold M in N1, N2, N3, N4, N5.
  set (s0 := with_mode (with_fmt s f) m).
  assert (unpowered s0) as U0 by exact U.
  (* vertical blank *)
  set (s1 := snd (__v4l2_ctrl_modify_range imx307_ctrl_ops s0 V4L2_CID_VBLANK
                    imx307_VBLANK_MIN (u32 (imx307_VTS_MAX - height M)) 1
                    (u32 (vts_def M - height M)))).
  assert (steady s0 s1) as St1
      by (apply steady_modify_range, steady_imx307_set_ctrl).
  assert (range_of (ctrl s1 V4L2_CID_VBLANK) =
          (imx307_VBLANK_MIN, imx307_VTS_MAX - height M, 1,
           vts_def M - height M)) as R1.
  { destruct (check_range_vblank m Hm) as (C & E1 & E2). fold M in C, E1, E2.
    subst s1. rewrite modify_range_sets_range.
    - now rewrite E1, E2.
    - change (ctrl s0 V4L2_CID_VBLANK) with (ctrl s V4L2_CID_VBLANK).
      rewrite (wf_ctype _ W). exact C. }
  destruct (range_of_eq _ _ _ _ _ R1) as (R1a & R1b & R1c & _).
  set (sv := update_vblank s0 M).
  assert (sv = snd (__v4l2_ctrl_s_ctrl imx307_ctrl_ops s1 V4L2_CID_VBLANK
                      (u32 (vts_def M - height M)))) as Ev by reflexivity.
  assert (cur_val (ctrl sv V4L2_CID_VBLANK) = vts_def M - height M) as Vv.
  { rewrite Ev, s_ctrl_commits.
    - rewrite R1a, R1b.
      replace (u32 (u32 (vts_def M - height M)))
        with (u32 (vts_def M - height M)); [exact N1|].
      unfold u32. now rewrite Z.mod_mod by lia.
    - exact (steady_unpowered _ _ St1 U0).
    - rewrite (steady_is_grabbed _ _ _ St1). now apply NG.
    - rewrite (steady_ctype _ _ St1). apply (wf_ctype _ W).
    - exact R1c.
    - rewrite R1a, R1b. exact N5. }
  assert (range_of (ctrl sv V4L2_CID_VBLANK) =
          (imx307_VBLANK_MIN, imx307_VTS_MAX - height M, 1,
           vts_def M - height M)) as Rv
      by (rewrite Ev, keeps_range_of_s_ctrl; exact R1).
  assert (steady s0 sv) as Stv by apply steady_update_vblank.
  (* exposure *)
  set (se := update_exposure sv M).
  assert (steady s0 se) as Ste
      by (eapply steady_trans; [exact Stv | apply steady_update_exposure]).
  destruct (keeps_exposure_base_update_vblank s0 M) as [Kmin Kstep].
  fold sv in Kmin, Kstep.
  change (ctrl s0 V4L2_CID_EXPOSURE) with (ctrl s V4L2_CID_EXPOSURE)
    in Kmin, Kstep.
  rewrite (wf_exposure_min _ W) in Kmin. rewrite (wf_exposure_step _ W) in Kstep.
  assert (range_of (ctrl se V4L2_CID_EXPOSURE) =
          (imx307_EXPOSURE_MIN, vts_def M - 4, imx307_EXPOSURE_STEP,
           exposure_def_of (vts_def M - 4))) as Re.
  { subst se. unfold update_exposure. cbv zeta. rewrite Kmin, Kstep, N2.
    apply modify_range_sets_range.
    rewrite (steady_ctype _ _ Stv).
    change (ctrl s0 V4L2_CID_EXPOSURE) with (ctrl s V4L2_CID_EXPOSURE).
    rewrite (wf_ctype _ W). apply check_range_exposure. exact N4. }
  assert (only_ctrl V4L2_CID_EXPOSURE sv se) as Oe
      by (apply only_ctrl_modify_range_driver; discriminate).
  (* horizontal blank *)
  assert (s' = update_hblank se M) as Eh by reflexivity.
  assert (only_ctrl V4L2_CID_HBLANK se s') as Oh
      by (rewrite Eh; apply only_ctrl_modify_range_driver; discriminate).
  assert (steady s0 s') as Sth by apply steady_apply_mode_change.
  assert (ctype (ctrl se V4L2_CID_HBLANK) = V4L2_CTRL_TYPE_INTEGER) as Th.
  { rewrite (steady_ctype _ _ Ste).
    change (ctrl s0 V4L2_CID_HBLANK) with (ctrl s V4L2_CID_HBLANK).
    apply (wf_ctype _ W). }
  assert (range_of (ctrl s' V4L2_CID_HBLANK) =
          (imx307_PPL_DEFAULT - width M, imx307_PPL_DEFAULT - width M, 1,
           imx307_PPL_DEFAULT - width M)) as Rh.
  { rewrite Eh. unfold update_hblank. cbv zeta. rewrite N3.
    apply modify_range_sets_range. rewrite Th. apply check_range_point. }
  assert (cur_val (ctrl s' V4L2_CID_HBLANK) = imx307_PPL_DEFAULT - width M)
    as Vh.
  { rewrite Eh. unfold update_hblank. cbv zeta. rewrite N3.
    rewrite modify_range_commits.
    - unfold clamp. lia.
    - exact (steady_unpowered _ _ Ste U0).
    - rewrite (steady_is_grabbed _ _ _ Ste). now apply NG.
    - exact Th.
    - lia. }
  split; [rewrite Oh, Oe by discriminate; exact Rv|].
  split; [rewrite Oh, Oe by discriminate; exact Vv|].
  destruct (range_of_eq _ _ _ _ _ Re) as (_ & Re2 & _ & Re4).
  split; [rewrite Oh by discriminate; exact Re2|].
  split; [rewrite Oh by discriminate; rewrite Re4; apply exposure_def_of_min|].
  split; [exact Rh|]. split; [exact Vh|].
  split.
  { rewrite (steady_is_read_only _ _ _ Sth).
    change (ctrl s0 V4L2_CID_HBLANK) with (ctrl s V4L2_CID_HBLANK).
    apply (wf_read_only _ W). }
  split; [apply (steady_mode _ _ Sth) | apply (steady_fmt _ _ Sth)].
Qed.

(** The successful behaviour C1 describes holds whenever the device is not
    powered at the time of the call (no stream running, nobody else holding
    the device active): a request that selects another mode returns 0 and
    leaves mode, vertical blank, exposure and horizontal blank as stated. *)
Lemma mode_change_updates_controls_unpowered (s : imx307)
    (cfg : v4l2_subdev_pad_config) (code w h : Z) (m : nat) :
  reachable s -> unpowered s ->
  v4l2_find_nearest_size supported_modes w h = Some m ->
  mode s <> m ->
  let M := mode_at m in
  exists s' f',
    imx307_set_pad_format s cfg (active_request code w h)
      = Some (0, s', cfg, f') /\
    mode s' = m /\
    range_of (ctrl s' V4L2_CID_VBLANK)
      = (imx307_VBLANK_MIN, imx307_VTS_MAX - height M, 1,
         vts_def M - height M) /\
    cur_val (ctrl s' V4L2_CID_VBLANK) = vts_def M - height M /\
    maximum (ctrl s' V4L2_CID_EXPOSURE) = vts_def M - 4 /\
    default_value (ctrl s' V4L2_CID_EXPOSURE)
      = Z.min (vts_def M - 4) imx307_EXPOSURE_DEFAULT /\
    range_of (ctrl s' V4L2_CID_HBLANK)
      = (imx307_PPL_DEFAULT - width M, imx307_PPL_DEFAULT - width M, 1,
         imx307_PPL_DEFAULT - width M) /\
    cur_val (ctrl s' V4L2_CID_HBLANK) = imx307_PPL_DEFAULT - width M /\
    is_read_only (ctrl s' V4L2_CID_HBLANK) = true.
Proof.
  intros Rs U E Nm M.
  assert (m < 4)%nat as Hm.
  { destruct (find_nearest_size_supported w h) as (m' & E' & [Hm' _] & _).
    rewrite E in E'. injection E' as ->. exact Hm'. }
  unfold imx307_set_pad_format, active_request.
  cbn [pad which format format_width format_height format_code with_format
       with_format_code].
  change (IMAGE_PAD >=? NUM_PADS) with false.
  change (IMAGE_PAD =? IMAGE_PAD) with true. cbv iota.
  rewrite E.
  cbn [imx307_update_image_pad_format with_format which pad format
       imx307_reset_colorspace format_code format_width format_height].
  change (V4L2_SUBDEV_FORMAT_ACTIVE =? V4L2_SUBDEV_FORMAT_TRY) with false.
  cbv iota.
  destruct (Nat.eqb_spec (mode s) m) as [Em|_]; [contradiction|].
  cbn [negb orb].
  eexists _, _. split; [reflexivity|].
  match goal with
  | |- context [apply_mode_change s m ?f] =>
      destruct (apply_mode_change_unpowered s m f (reachable_wf s Rs) U
                  (fun id => reachable_not_grabbed s id Rs) Hm)
        as (P1 & P2 & P3 & P4 & P5 & P6 & P7 & P8 & _)
  end.
  repeat (split; [assumption|]). assumption.
Qed.

Lemma unpowered_sound_sensor : unpowered sound_sensor.
Proof. reflexivity. Qed.

(** ** Mode change and the control set *)

(** C1 at a failing input.  The sensor streams in 3280x2464 and a caller
    sets the active format to 1920x1080.  The call succeeds and 1920x1080
    (entry 1) becomes the active mode; vertical blank and exposure are as
    the claim has them, and so is the range of the horizontal blank,
    [1528, 1528]; but its value is still 168, that of the old mode: the
    framework hands the new value to [imx307_set_ctrl], which on a powered
    device has no case for V4L2_CID_HBLANK, logs "not handled" and returns
    -EINVAL, so the value is not stored. *)
Theorem mode_change_while_streaming_leaves_hblank_stale :
  match imx307_set_pad_format streaming_sensor no_try_formats
          (active_request MEDIA_BUS_FMT_SRGGB10_1X10 1920 1080) with
  | Some (ret, s', _, _) =>
      ret = 0 /\ mode s' = 1%nat /\
      range_of (ctrl s' V4L2_CID_VBLANK) = (4, 0xffff - 1080, 1, 0x06e3 - 1080) /\
      cur_val (ctrl s' V4L2_CID_VBLANK) = 0x06e3 - 1080 /\
      maximum (ctrl s' V4L2_CID_EXPOSURE) = 0x06e3 - 4 /\
      default_value (ctrl s' V4L2_CID_EXPOSURE) = 0x640 /\
      minimum (ctrl s' V4L2_CID_HBLANK) = 3448 - 1920 /\
      maximum (ctrl s' V4L2_CID_HBLANK) = 3448 - 1920 /\
      is_read_only (ctrl s' V4L2_CID_HBLANK) = true /\
      cur_val (ctrl s' V4L2_CID_HBLANK) = 3448 - 3280 /\
      cur_val (ctrl s' V4L2_CID_HBLANK) <> 3448 - 1920 /\
      hd_error (tl (trace s'))
        = Some (EvLog (LogCtrlNotHandled V4L2_CID_HBLANK 1528))
  | None => False
  end.
Proof. vm_compute. repeat split; discriminate. Qed.

(** The same request on the same sensor while it is STOPPED stores the
    value. *)
Lemma mode_change_while_stopped_sets_hblank :
  match imx307_set_pad_format sound_sensor no_try_formats
          (active_request MEDIA_BUS_FMT_SRGGB10_1X10 1920 1080) with
  | Some (ret, s', _, _) =>
      ret = 0 /\ mode s' = 1%nat /\
      range_of (ctrl s' V4L2_CID_HBLANK) = (1528, 1528, 1, 1528) /\
      cur_val (ctrl s' V4L2_CID_HBLANK) = 3448 - 1920
  | None => False
  end.
Proof. vm_compute. repeat split. Qed.

(** ** Format enumeration and negotiation *)

(** Resolving a resolved code again, under any flips, is resolving the
    original code: the resolver only looks at the group of four the code
    belongs to. *)
Lemma resolve_code_regroup (c : Z) (h v h' v' : bool) :
  resolve_code (resolve_code c h v) h' v' = resolve_code c h' v'.
Proof.
  unfold resolve_code, flip_index.
  generalize (base_index_range c). generalize (base_index c) as b.
  intros b Hb.
  destruct (small_index_cases b Hb)
    as [-> | [-> | [-> | [-> | [-> | [-> | [-> | ->]]]]]]];
    destruct h, v, h', v'; reflexivity.
Qed.

Lemma resolve_code_fixed (c : Z) (h v : bool) :
  resolve_code (resolve_code c h v) h v = resolve_code c h v.
Proof. apply resolve_code_regroup. Qed.

(** The codes a table position stands for: position [4 * i + 2 * v + h]. *)
Lemma resolve_code_at (i : Z) (h v : bool) :
  0 <= i < 2 ->
  resolve_code (codes_at (4 * i)) h v = codes_at (4 * i + 2 * Z.b2z v + Z.b2z h).
Proof.
  intros Hi. assert (i = 0 \/ i = 1) as [-> | ->] by lia;
    destruct h, v; reflexivity.
Qed.

(** A code is its own resolution exactly when it is one of the two table
    entries with the flip position of [h], [v]. *)
Lemma resolve_code_fixed_iff (c : Z) (h v : bool) :
  c = resolve_code c h v <->
  exists i, 0 <= i < 2 /\ c = codes_at (4 * i + 2 * Z.b2z v + Z.b2z h).
Proof.
  split.
  - intros E. rewrite E. unfold resolve_code, flip_index.
    generalize (base_index_range c). generalize (base_index c) as b.
    intros b Hb.
    destruct (small_index_cases b Hb)
      as [-> | [-> | [-> | [-> | [-> | [-> | [-> | ->]]]]]]];
      destruct h, v;
      first [ exists 0; split; [lia | reflexivity]
            | exists 1; split; [lia | reflexivity] ].
  - intros (i & Hi & ->).
    assert (i = 0 \/ i = 1) as [-> | ->] by lia; destruct h, v; reflexivity.
Qed.

(** The image pad of [imx307_enum_mbus_code]. *)
Lemma enum_mbus_code_image (s : imx307) (i c0 : Z) :
  0 <= i ->
  imx307_enum_mbus_code s (mk_mbus_code_enum IMAGE_PAD i c0) =
  if i <? 2 then
    (0, mk_mbus_code_enum IMAGE_PAD i
          (codes_at (4 * i + 2 * Z.b2z (vflip_on s) + Z.b2z (hflip_on s))))
  else (- EINVAL, mk_mbus_code_enum IMAGE_PAD i c0).
Proof.
  intros Hi. unfold imx307_enum_mbus_code. cbn [mce_pad mce_index].
  change (IMAGE_PAD >=? NUM_PADS) with false.
  change (IMAGE_PAD =? IMAGE_PAD) with true. cbv iota.
  change (ARRAY_SIZE_codes / 4) with 2.
  destruct (Z.geb_spec i 2) as [Gi|Li];
    destruct (Z.ltb_spec i 2); try lia; [reflexivity|].
  rewrite get_format_code_resolve.
  assert (u32 (i * 4) = 4 * i) as ->
      by (unfold u32; rewrite Z.mod_small; lia).
  rewrite resolve_code_at by lia. reflexivity.
Qed.

(** X1.  [imx307_enum_mbus_code] lists two codes on the image pad, the
    10-bit and the 8-bit one, each in the Bayer order of the current flips
    (table position [4 * index + 2 * vflip + hflip]), and one code,
    MEDIA_BUS_FMT_SENSOR_DATA, on the metadata pad; any other index or pad
    is -EINVAL and leaves the caller's structure as it was. *)
Theorem enum_mbus_code_lists_flip_variants (s : imx307) (p i c0 : Z) :
  0 <= p -> 0 <= i ->
  imx307_enum_mbus_code s (mk_mbus_code_enum p i c0) =
  if (p =? IMAGE_PAD) && (i <? 2) then
    (0, mk_mbus_code_enum p i
          (codes_at (4 * i + 2 * Z.b2z (vflip_on s) + Z.b2z (hflip_on s))))
  else if (p =? METADATA_PAD) && (i =? 0) then
    (0, mk_mbus_code_enum p i MEDIA_BUS_FMT_SENSOR_DATA)
  else (- EINVAL, mk_mbus_code_enum p i c0).
Proof.
  intros Hp Hi.
  destruct (Z.eqb_spec p IMAGE_PAD) as [->|N0].
  - rewrite enum_mbus_code_image by exact Hi. cbn [andb].
    destruct (i <? 2); [reflexivity|].
    change (IMAGE_PAD =? METADATA_PAD) with false. reflexivity.
  - unfold imx307_enum_mbus_code. cbn [mce_pad mce_index andb].
    unfold IMAGE_PAD in N0.
    change NUM_PADS with 2. change IMAGE_PAD with 0.
    change METADATA_PAD with 1.
    destruct (Z.geb_spec p 2) as [G|L].
    + destruct (Z.eqb_spec p 1); [lia | reflexivity].
    + destruct (Z.eqb_spec p 0); [lia|].
      destruct (Z.eqb_spec p 1); [|lia]. cbn [andb].
      destruct (Z.gtb_spec i 0); destruct (Z.eqb_spec i 0); try lia;
        reflexivity.
Qed.

Lemma enum_mbus_code_lists_flip_variants_witness :
  imx307_enum_mbus_code sound_sensor (mk_mbus_code_enum 0 1 0) =
    (0, mk_mbus_code_enum 0 1 MEDIA_BUS_FMT_SRGGB8_1X8) /\
  imx307_enum_mbus_code sound_sensor (mk_mbus_code_enum 0 2 0) =
    (- EINVAL, mk_mbus_code_enum 0 2 0).
Proof.
  split.
  - rewrite (enum_mbus_code_lists_flip_variants sound_sensor 0 1 0) by lia.
    reflexivity.
  - rewrite (enum_mbus_code_lists_flip_variants sound_sensor 0 2 0) by lia.
    reflexivity.
Defined.

(** A code is listed when [imx307_enum_mbus_code] returns it for one of its
    two indices; that is, when it is its own resolution. *)
Lemma listed_iff_fixed (s : imx307) (c : Z) :
  (exists i, 0 <= i < 2 /\
     imx307_enum_mbus_code s (mk_mbus_code_enum IMAGE_PAD i 0) =
       (0, mk_mbus_code_enum IMAGE_PAD i c)) <->
  c = imx307_get_format_code s c.
Proof.
  rewrite get_format_code_resolve, resolve_code_fixed_iff.
  split; intros (i & Hi & E); exists i; (split; [exact Hi|]).
  - rewrite enum_mbus_code_image in E by lia.
    destruct (Z.ltb_spec i 2); [|lia]. now inversion E.
  - rewrite enum_mbus_code_image by lia.
    destruct (Z.ltb_spec i 2); [|lia]. now rewrite E.
Qed.

(** The image pad of [imx307_enum_frame_size]. *)
Lemma enum_frame_size_image (s : imx307) (j c w0 w1 h0 h1 : Z) :
  0 <= j ->
  imx307_enum_frame_size s (mk_frame_size_enum j IMAGE_PAD c w0 w1 h0 h1) =
  if (j <? 4) && (c =? imx307_get_format_code s c) then
    (0, mk_frame_size_enum j IMAGE_PAD c
          (width (mode_at (Z.to_nat j))) (width (mode_at (Z.to_nat j)))
          (height (mode_at (Z.to_nat j))) (height (mode_at (Z.to_nat j))))
  else (- EINVAL, mk_frame_size_enum j IMAGE_PAD c w0 w1 h0 h1).
Proof.
  intros Hj. unfold imx307_enum_frame_size.
  cbn [fse_pad fse_index fse_code].
  change (IMAGE_PAD >=? NUM_PADS) with false.
  change (IMAGE_PAD =? IMAGE_PAD) with true. cbv iota.
  change ARRAY_SIZE_supported_modes with 4.
  destruct (Z.geb_spec j 4); destruct (Z.ltb_spec j 4); try lia;
    cbn [andb]; [reflexivity|].
  destruct (c =? imx307_get_format_code s c); reflexivity.
Qed.

(** X2.  On the image pad [imx307_enum_frame_size] accepts a code exactly
    when [imx307_enum_mbus_code] lists it, and then reports the size of
    catalog entry [index] as both minimum and maximum; anything else is
    -EINVAL with the caller's structure untouched. *)
Theorem enum_frame_size_accepts_listed_codes (s : imx307) (j c : Z)
    (w0 w1 h0 h1 : Z) :
  0 <= j ->
  let fse := mk_frame_size_enum j IMAGE_PAD c w0 w1 h0 h1 in
  let listed :=
    exists i, 0 <= i < 2 /\
      imx307_enum_mbus_code s (mk_mbus_code_enum IMAGE_PAD i 0) =
        (0, mk_mbus_code_enum IMAGE_PAD i c) in
  (fst (imx307_enum_frame_size s fse) = 0 <-> j < 4 /\ listed) /\
  (fst (imx307_enum_frame_size s fse) = 0 ->
   snd (imx307_enum_frame_size s fse) =
     mk_frame_size_enum j IMAGE_PAD c
       (width (mode_at (Z.to_nat j))) (width (mode_at (Z.to_nat j)))
       (height (mode_at (Z.to_nat j))) (height (mode_at (Z.to_nat j)))) /\
  (fst (imx307_enum_frame_size s fse) <> 0 ->
   imx307_enum_frame_size s fse = (- EINVAL, fse)).
Proof.
  intros Hj fse listed.
  pose proof (listed_iff_fixed s c) as L. fold listed in L.
  subst fse. rewrite enum_frame_size_image by exact Hj.
  destruct (Z.ltb_spec j 4) as [Lj|Gj]; cbn [andb].
  - destruct (Z.eqb_spec c (imx307_get_format_code s c)) as [E|N];
      cbn [fst snd].
    + split; [|split; [reflexivity | congruence]].
      split; [intros _; split; [lia | now apply L] | reflexivity].
    + split; [|split; [discriminate | reflexivity]].
      split; [discriminate | intros (_ & Hl); now apply L in Hl].
  - cbn [fst snd]. split; [|split; [discriminate | reflexivity]].
    split; [discriminate | intros (? & _); lia].
Qed.

Lemma enum_frame_size_accepts_listed_codes_witness :
  imx307_enum_frame_size sound_sensor
    (mk_frame_size_enum 1 IMAGE_PAD MEDIA_BUS_FMT_SRGGB10_1X10 0 0 0 0) =
    (0, mk_frame_size_enum 1 IMAGE_PAD MEDIA_BUS_FMT_SRGGB10_1X10
          1920 1920 1080 1080) /\
  imx307_enum_frame_size sound_sensor
    (mk_frame_size_enum 1 IMAGE_PAD MEDIA_BUS_FMT_SGRBG10_1X10 0 0 0 0) =
    (- EINVAL,
     mk_frame_size_enum 1 IMAGE_PAD MEDIA_BUS_FMT_SGRBG10_1X10 0 0 0 0).
Proof.
  assert (0 <= 1) as H by lia.
  pose proof (enum_frame_size_accepts_listed_codes sound_sensor 1
                MEDIA_BUS_FMT_SRGGB10_1X10 0 0 0 0 H) as (_ & A & _).
  pose proof (enum_frame_size_accepts_listed_codes sound_sensor 1
                MEDIA_BUS_FMT_SGRBG10_1X10 0 0 0 0 H) as (_ & _ & B).
  split.
  - rewrite (surjective_pairing (imx307_enum_frame_size _ _)).
    rewrite A by reflexivity. reflexivity.
  - apply B. discriminate.
Defined.

(** *** What a mode change leaves alone *)

Lemma keeps_ctrl_refl (j : ctrl_id) (s : imx307) : keeps_ctrl j s s.
Proof. reflexivity. Qed.

Lemma keeps_ctrl_trans (j : ctrl_id) (s1 s2 s3 : imx307) :
  keeps_ctrl j s1 s2 -> keeps_ctrl j s2 s3 -> keeps_ctrl j s1 s3.
Proof. unfold keeps_ctrl. congruence. Qed.

Lemma keeps_ctrl_put (j id : ctrl_id) (s : imx307) (c : v4l2_ctrl) :
  j <> id -> keeps_ctrl j s (put_ctrl s id c).
Proof. intros N. now apply ctrl_put_other. Qed.

Lemma keeps_ctrl_update_vblank (j : ctrl_id) (s : imx307) (md : imx307_mode) :
  mode_ctrl j = false -> keeps_ctrl j s (update_vblank s md).
Proof.
  intros Hj.
  assert (j <> V4L2_CID_VBLANK) as N1 by (intros ->; discriminate).
  assert (j <> V4L2_CID_EXPOSURE) as N2 by (intros ->; discriminate).
  assert (forall s0, keeps_ctrl j s0 (snd (imx307_ctrl_ops s0 V4L2_CID_VBLANK)))
    as Hops by (intros s0; now apply imx307_set_ctrl_only_exposure).
  unfold update_vblank.
  eapply keeps_ctrl_trans;
    [|apply (frame_s_ctrl (keeps_ctrl j));
      auto using keeps_ctrl_refl, keeps_ctrl_put;
      apply keeps_ctrl_trans].
  apply (frame_modify_range (keeps_ctrl j));
    auto using keeps_ctrl_refl, keeps_ctrl_put.
  apply keeps_ctrl_trans.
Qed.

Lemma keeps_ctrl_apply_mode_change (j : ctrl_id) (s : imx307) (m : nat)
    (f : v4l2_mbus_framefmt) :
  mode_ctrl j = false -> keeps_ctrl j s (apply_mode_change s m f).
Proof.
  intros Hj. unfold apply_mode_change.
  assert (j <> V4L2_CID_EXPOSURE) as N2 by (intros ->; discriminate).
  assert (j <> V4L2_CID_HBLANK) as N3 by (intros ->; discriminate).
  set (s0 := with_mode (with_fmt s f) m).
  apply keeps_ctrl_trans with (update_exposure (update_vblank s0 (mode_at m))
                                 (mode_at m)).
  - apply keeps_ctrl_trans with (update_vblank s0 (mode_at m)).
    + apply keeps_ctrl_trans with s0; [reflexivity|].
      now apply keeps_ctrl_update_vblank.
    + unfold update_exposure.
      apply only_ctrl_modify_range_driver; [discriminate | exact N2].
  - unfold update_hblank.
    apply only_ctrl_modify_range_driver; [discriminate | exact N3].
Qed.

(** X3.  A format change never touches a control other than the vertical
    blank, the exposure and the horizontal blank (gains, flips and test
    pattern keep value, range and flags), nor the streaming flag, the power
    reference, or the flags of any control; and [imx307_set_pad_format]
    never dereferences a NULL mode. *)
Theorem set_pad_format_touches_only_mode_controls (s : imx307)
    (cfg : v4l2_subdev_pad_config) (f : v4l2_subdev_format) :
  match imx307_set_pad_format s cfg f with
  | Some (_, s', _, _) =>
      (forall j, mode_ctrl j = false -> ctrl s' j = ctrl s j) /\
      (forall j, flags (ctrl s' j) = flags (ctrl s j)) /\
      streaming s' = streaming s /\
      usage_count s' = usage_count s /\
      runtime_active s' = runtime_active s
  | None => False
  end.
Proof.
  destruct (set_pad_format_cases s cfg f)
    as [(ret & cfg' & f' & E)|(m & fm & cfg' & f' & Hm & Hc & E)]; rewrite E.
  - repeat split.
  - pose proof (steady_apply_mode_change s m fm) as St.
    split; [intros j Hj; now apply keeps_ctrl_apply_mode_change|].
    split; [apply (steady_flags _ _ St)|].
    split; [apply (steady_streaming _ _ St)|].
    split; [apply (steady_usage _ _ St) | apply (steady_active _ _ St)].
Qed.

(** *** Negotiation *)

Lemma find_nearest_size_exact (j : nat) :
  (j < 4)%nat ->
  v4l2_find_nearest_size supported_modes
    (width (mode_at j)) (height (mode_at j)) = Some j.
Proof.
  intros H. destruct (mode_at_cases j H) as [-> | [-> | [-> | ->]]];
    reflexivity.
Qed.

Lemma listed_code_table_entry (i : Z) (h v : bool) :
  0 <= i < 2 ->
  let c := codes_at (4 * i + 2 * Z.b2z v + Z.b2z h) in
  resolve_code (codes_at (base_index c)) h v = c /\
  resolve_code c h v = c /\ In c codes.
Proof.
  intros Hi. assert (i = 0 \/ i = 1) as [-> | ->] by lia;
    destruct h, v; cbv zeta; (split; [reflexivity|]);
    (split; [reflexivity|]); vm_compute; tauto.
Qed.

Lemma hflip_on_keeps (s s' : imx307) :
  keeps_ctrl V4L2_CID_HFLIP s s' -> hflip_on s' = hflip_on s.
Proof. unfold hflip_on, keeps_ctrl. now intros ->. Qed.

Lemma vflip_on_keeps (s s' : imx307) :
  keeps_ctrl V4L2_CID_VFLIP s s' -> vflip_on s' = vflip_on s.
Proof. unfold vflip_on, keeps_ctrl. now intros ->. Qed.

Lemma get_current_format_code (s : imx307) (cfg : v4l2_subdev_pad_config) :
  format_code (get_current_format s cfg) =
  resolve_code (format_code (fmt s)) (hflip_on s) (vflip_on s).
Proof.
  unfold get_current_format, imx307_get_pad_format, __imx307_get_pad_format,
    active_request.
  cbn [pad which format].
  change (IMAGE_PAD >=? NUM_PADS) with false.
  change (V4L2_SUBDEV_FORMAT_ACTIVE =? V4L2_SUBDEV_FORMAT_TRY) with false.
  change (IMAGE_PAD =? IMAGE_PAD) with true. cbv iota.
  cbn [snd format with_format with_format_code format_code].
  apply get_format_code_resolve.
Qed.

(** X4.  Negotiation closes: a code listed by [imx307_enum_mbus_code]
    together with a size listed by [imx307_enum_frame_size] for it is
    accepted by [imx307_set_pad_format] as it stands.  As a try format it
    is stored in the pad configuration and the sensor is untouched; as the
    active format it becomes the current mode, and [imx307_get_pad_format]
    reads the same code and size back. *)
Theorem listed_format_is_set_unchanged (s : imx307)
    (cfg : v4l2_subdev_pad_config) (i j wh : Z) :
  0 <= i < 2 -> 0 <= j < 4 ->
  let c := mce_code (snd (imx307_enum_mbus_code s
                            (mk_mbus_code_enum IMAGE_PAD i 0))) in
  let sz := snd (imx307_enum_frame_size s
                   (mk_frame_size_enum j IMAGE_PAD c 0 0 0 0)) in
  exists s' cfg' f',
    imx307_set_pad_format s cfg
        (image_request wh c (min_width sz) (min_height sz))
      = Some (0, s', cfg', f') /\
    format_code (format f') = c /\
    format_width (format f') = min_width sz /\
    format_height (format f') = min_height sz /\
    max_width sz = min_width sz /\ max_height sz = min_height sz /\
    (wh = V4L2_SUBDEV_FORMAT_TRY ->
     s' = s /\ cfg' IMAGE_PAD = format f') /\
    (wh <> V4L2_SUBDEV_FORMAT_TRY ->
     cfg' = cfg /\ mode s' = Z.to_nat j /\
     format_code (get_current_format s' cfg') = c /\
     format_width (get_current_format s' cfg') = min_width sz /\
     format_height (get_current_format s' cfg') = min_height sz).
Proof.
  intros Hi Hj c sz.
  set (h := hflip_on s). set (v := vflip_on s).
  assert (c = codes_at (4 * i + 2 * Z.b2z v + Z.b2z h)) as Ec.
  { subst c. rewrite enum_mbus_code_image by lia.
    destruct (Z.ltb_spec i 2); [reflexivity | lia]. }
  destruct (listed_code_table_entry i h v Hi) as (T1 & T2 & T3).
  cbv zeta in T1, T2, T3. rewrite <- Ec in T1, T2, T3.
  set (md := mode_at (Z.to_nat j)).
  assert (Z.to_nat j < 4)%nat as Hn by lia.
  assert (sz = mk_frame_size_enum j IMAGE_PAD c (width md) (width md)
                 (height md) (height md)) as Es.
  { subst sz. rewrite enum_frame_size_image by lia.
    destruct (Z.ltb_spec j 4); [|lia]. cbn [andb].
    rewrite get_format_code_resolve. fold h v. rewrite T2, Z.eqb_refl.
    reflexivity. }
  rewrite Es. cbn [min_width min_height max_width max_height].
  unfold imx307_set_pad_format, image_request.
  cbn [pad which format format_width format_height format_code with_format
       with_format_code].
  change (IMAGE_PAD >=? NUM_PADS) with false.
  change (IMAGE_PAD =? IMAGE_PAD) with true. cbv iota.
  rewrite code_index_base, get_format_code_resolve. fold h v. rewrite T1.
  unfold md. rewrite (find_nearest_size_exact _ Hn). fold md.
  cbv beta zeta delta [imx307_update_image_pad_format with_format
                       imx307_reset_colorspace with_format_code].
  cbn [which pad format format_code format_width format_height format_field
       colorspace ycbcr_enc quantization xfer_func].
  destruct (Z.eqb_spec wh V4L2_SUBDEV_FORMAT_TRY) as [Ew|Nw].
  - eexists _, _, _. split; [reflexivity|].
    cbn [format format_code format_width format_height].
    repeat (split; [reflexivity|]).
    split; [intros _|contradiction].
    split; [reflexivity|]. unfold with_try_format.
    now change (IMAGE_PAD =? IMAGE_PAD) with true.
  - destruct (negb (Nat.eqb (mode s) (Z.to_nat j)) ||
              negb (format_code (fmt s) =? c)) eqn:Ch.
    + eexists _, _, _. split; [reflexivity|].
      cbn [format format_code format_width format_height].
      repeat (split; [reflexivity|]).
      split; [contradiction|intros _].
      match goal with
      | |- context [apply_mode_change s ?m ?f] =>
          pose proof (steady_apply_mode_change s m f) as St;
          set (s' := apply_mode_change s m f) in *;
          assert (hflip_on s' = h) as Eh
            by (apply hflip_on_keeps;
                now apply keeps_ctrl_apply_mode_change);
          assert (vflip_on s' = v) as Ev
            by (apply vflip_on_keeps;
                now apply keeps_ctrl_apply_mode_change)
      end.
      assert (mode s' = Z.to_nat j) as Em by apply (steady_mode _ _ St).
      split; [reflexivity|]. split; [exact Em|].
      rewrite get_current_format_code, Eh, Ev, (steady_fmt _ _ St).
      cbn [fmt with_mode with_fmt format_code].
      split; [exact T2|].
      destruct (get_current_format_size s' cfg) as [Gw Gh].
      rewrite Gw, Gh. unfold cur_mode. rewrite Em. split; reflexivity.
    + apply orb_false_elim in Ch. destruct Ch as [Cm Cc].
      apply negb_false_iff in Cm, Cc.
      apply Nat.eqb_eq in Cm. apply Z.eqb_eq in Cc.
      eexists _, _, _. split; [reflexivity|].
      cbn [format format_code format_width format_height].
      repeat (split; [reflexivity|]).
      split; [contradiction|intros _].
      split; [reflexivity|]. split; [exact Cm|].
      rewrite get_current_format_code. fold h v. rewrite Cc.
      split; [exact T2|].
      destruct (get_current_format_size s cfg) as [Gw Gh].
      rewrite Gw, Gh. unfold cur_mode. rewrite Cm. split; reflexivity.
Qed.

Lemma listed_format_is_set_unchanged_witness :
  exists s' cfg' f',
    imx307_set_pad_format sound_sensor no_try_formats
        (image_request V4L2_SUBDEV_FORMAT_ACTIVE MEDIA_BUS_FMT_SRGGB8_1X8
           1920 1080)
      = Some (0, s', cfg', f') /\
    format_code (get_current_format s' cfg') = MEDIA_BUS_FMT_SRGGB8_1X8 /\
    format_width (get_current_format s' cfg') = 1920 /\
    format_height (get_current_format s' cfg') = 1080.
Proof.
  assert (0 <= 1 < 2) as H1 by lia. assert (0 <= 1 < 4) as H2 by lia.
  destruct (listed_format_is_set_unchanged sound_sensor no_try_formats 1 1
              V4L2_SUBDEV_FORMAT_ACTIVE H1 H2)
    as (s' & cfg' & f' & E & _ & _ & _ & _ & _ & _ & A).
  exists s', cfg', f'. split; [exact E|].
  assert (V4L2_SUBDEV_FORMAT_ACTIVE <> V4L2_SUBDEV_FORMAT_TRY) as N
      by discriminate.
  destruct (A N) as (_ & _ & C & Wd & Ht).
  split; [exact C|]. split; [exact Wd | exact Ht].
Defined.

(** X5.  Try formats live in the pad configuration only.  A try set
    returns 0 and leaves the sensor exactly as it was.  On the image pad
    it stores and returns a format with a catalog size and a table code,
    and a following try get reads that same format back, all fields alike,
    without changing what is stored.  On the metadata pad the request is
    stored as it came, whatever its size, and the get reads it back with
    the code forced to MEDIA_BUS_FMT_SENSOR_DATA.  The try format of the
    other pad is not touched. *)
Theorem try_format_round_trip (s : imx307) (cfg : v4l2_subdev_pad_config)
    (m g : v4l2_mbus_framefmt) :
  (exists cfg' f',
     imx307_set_pad_format s cfg
         (mk_subdev_format V4L2_SUBDEV_FORMAT_TRY IMAGE_PAD m)
       = Some (0, s, cfg', f') /\
     cfg' IMAGE_PAD = format f' /\
     (forall q, q <> IMAGE_PAD -> cfg' q = cfg q) /\
     In (format_code (format f')) codes /\
     (exists j, (j < 4)%nat /\
                format_width (format f') = width (mode_at j) /\
                format_height (format f') = height (mode_at j)) /\
     let r := imx307_get_pad_format s cfg'
                (mk_subdev_format V4L2_SUBDEV_FORMAT_TRY IMAGE_PAD g) in
     fst (fst r) = 0 /\ format (snd r) = format f' /\
     forall q, snd (fst r) q = cfg' q) /\
  (exists cfg',
     imx307_set_pad_format s cfg
         (mk_subdev_format V4L2_SUBDEV_FORMAT_TRY METADATA_PAD m)
       = Some (0, s, cfg',
               mk_subdev_format V4L2_SUBDEV_FORMAT_TRY METADATA_PAD m) /\
     cfg' METADATA_PAD = m /\
     (forall q, q <> METADATA_PAD -> cfg' q = cfg q) /\
     let r := imx307_get_pad_format s cfg'
                (mk_subdev_format V4L2_SUBDEV_FORMAT_TRY METADATA_PAD g) in
     fst (fst r) = 0 /\
     format (snd r) = with_format_code m MEDIA_BUS_FMT_SENSOR_DATA).
Proof.
  split.
  - unfold imx307_set_pad_format.
    cbn [pad which format].
    change (IMAGE_PAD >=? NUM_PADS) with false.
    change (IMAGE_PAD =? IMAGE_PAD) with true. cbv iota.
    rewrite code_index_base, get_format_code_resolve.
    cbv beta zeta delta [with_format with_format_code].
    cbn [which pad format format_code format_width format_height].
    destruct (find_nearest_size_supported (format_width m) (format_height m))
      as (j & E & [Hj _] & _).
    rewrite E.
    cbv beta zeta delta [imx307_update_image_pad_format with_format
                         imx307_reset_colorspace].
    cbn [which pad format format_code format_width format_height
         format_field colorspace ycbcr_enc quantization xfer_func].
    change (V4L2_SUBDEV_FORMAT_TRY =? V4L2_SUBDEV_FORMAT_TRY) with true.
    cbv iota.
    eexists _, _. split; [reflexivity|].
    cbn [format format_code format_width format_height].
    split; [unfold with_try_format;
            now change (IMAGE_PAD =? IMAGE_PAD) with true|].
    split.
    { intros q Hq. unfold with_try_format.
      destruct (Z.eqb_spec q IMAGE_PAD); [contradiction | reflexivity]. }
    split; [apply codes_at_member, flip_index_range|].
    split; [exists j; repeat split; exact Hj|].
    unfold imx307_get_pad_format, __imx307_get_pad_format.
    cbn [pad which format].
    change (IMAGE_PAD >=? NUM_PADS) with false.
    change (V4L2_SUBDEV_FORMAT_TRY =? V4L2_SUBDEV_FORMAT_TRY) with true.
    change (IMAGE_PAD =? IMAGE_PAD) with true. cbv iota zeta.
    cbn [fst snd].
    unfold with_try_format at 2 4 6.
    change (IMAGE_PAD =? IMAGE_PAD) with true. cbv iota.
    cbv beta zeta delta [with_format with_format_code].
    cbn [which pad format format_code format_width format_height
         format_field colorspace ycbcr_enc quantization xfer_func].
    rewrite get_format_code_resolve, resolve_code_fixed.
    split; [reflexivity|]. split; [reflexivity|].
    intros q. unfold with_try_format.
    destruct (q =? IMAGE_PAD); reflexivity.
  - unfold imx307_set_pad_format.
    cbn [pad which format].
    change (METADATA_PAD >=? NUM_PADS) with false.
    change (METADATA_PAD =? IMAGE_PAD) with false.
    change (V4L2_SUBDEV_FORMAT_TRY =? V4L2_SUBDEV_FORMAT_TRY) with true.
    cbv iota.
    eexists. split; [reflexivity|].
    split; [unfold with_try_format;
            now change (METADATA_PAD =? METADATA_PAD) with true|].
    split.
    { intros q Hq. unfold with_try_format.
      destruct (Z.eqb_spec q METADATA_PAD); [contradiction | reflexivity]. }
    unfold imx307_get_pad_format, __imx307_get_pad_format.
    cbn [pad which format].
    change (METADATA_PAD >=? NUM_PADS) with false.
    change (V4L2_SUBDEV_FORMAT_TRY =? V4L2_SUBDEV_FORMAT_TRY) with true.
    change (METADATA_PAD =? IMAGE_PAD) with false. cbv iota zeta.
    cbn [fst snd format with_format].
    split; [reflexivity|].
    unfold with_try_format.
    now change (METADATA_PAD =? METADATA_PAD) with true.
Qed.

(** X6.  In every reachable state the active image format that
    [imx307_get_pad_format] reports is one the enumerations list: its code
    is listed by [imx307_enum_mbus_code] for the current flips, and
    [imx307_enum_frame_size] lists its size for that code at the index of
    the current mode. *)
Theorem active_format_is_listed (s : imx307) (cfg : v4l2_subdev_pad_config) :
  reachable s ->
  let a := get_current_format s cfg in
  exists i,
    0 <= i < 2 /\
    imx307_enum_mbus_code s (mk_mbus_code_enum IMAGE_PAD i 0) =
      (0, mk_mbus_code_enum IMAGE_PAD i (format_code a)) /\
    imx307_enum_frame_size s
        (mk_frame_size_enum (Z.of_nat (mode s)) IMAGE_PAD (format_code a)
           0 0 0 0) =
      (0, mk_frame_size_enum (Z.of_nat (mode s)) IMAGE_PAD (format_code a)
            (format_width a) (format_width a)
            (format_height a) (format_height a)).
Proof.
  intros Rs a. pose proof (reachable_wf s Rs) as W.
  pose proof (wf_mode s W) as Hm.
  assert (format_code a = resolve_code (format_code a) (hflip_on s) (vflip_on s))
    as Fx.
  { subst a. rewrite get_current_format_code. symmetry.
    apply resolve_code_fixed. }
  destruct (proj1 (resolve_code_fixed_iff _ _ _) Fx) as (i & Hi & Ei).
  exists i. split; [exact Hi|]. split.
  { rewrite enum_mbus_code_image by lia.
    destruct (Z.ltb_spec i 2); [|lia]. now rewrite <- Ei. }
  rewrite enum_frame_size_image by lia.
  destruct (Z.ltb_spec (Z.of_nat (mode s)) 4); [|lia]. cbn [andb].
  rewrite get_format_code_resolve, <- Fx, Z.eqb_refl, Nat2Z.id.
  destruct (get_current_format_size s cfg) as [Gw Gh]. fold a in Gw, Gh.
  now rewrite Gw, Gh.
Qed.

Lemma active_format_is_listed_witness :
  exists i,
    0 <= i < 2 /\
    imx307_enum_mbus_code streaming_sensor (mk_mbus_code_enum IMAGE_PAD i 0) =
      (0, mk_mbus_code_enum IMAGE_PAD i
            (format_code (get_current_format streaming_sensor
                            no_try_formats))) /\
    imx307_enum_frame_size streaming_sensor
        (mk_frame_size_enum (Z.of_nat (mode streaming_sensor)) IMAGE_PAD
           (format_code (get_current_format streaming_sensor no_try_formats))
           0 0 0 0) =
      (0, mk_frame_size_enum (Z.of_nat (mode streaming_sensor)) IMAGE_PAD
            (format_code (get_current_format streaming_sensor no_try_formats))
            (format_width (get_current_format streaming_sensor no_try_formats))
            (format_width (get_current_format streaming_sensor no_try_formats))
            (format_height (get_current_format streaming_sensor no_try_formats))
            (format_height (get_current_format streaming_sensor
                              no_try_formats))).
Proof.
  exact (active_format_is_listed streaming_sensor no_try_formats
           (reachable_awake_reachable _ reachable_awake_streaming_sensor)).
Defined.

(** *** Selection rectangles *)

Lemma mode_crop_geometry (m : nat) :
  (m < 4)%nat ->
  let r := crop (mode_at m) in
  imx307_PIXEL_ARRAY_LEFT <= r_left r /\
  imx307_PIXEL_ARRAY_TOP <= r_top r /\
  r_left r + r_width r <= imx307_PIXEL_ARRAY_LEFT + imx307_PIXEL_ARRAY_WIDTH /\
  r_top r + r_height r <= imx307_PIXEL_ARRAY_TOP + imx307_PIXEL_ARRAY_HEIGHT /\
  exists k, (k = 1 \/ k = 2) /\
            r_width r = k * width (mode_at m) /\
            r_height r = k * height (mode_at m).
Proof.
  intros H. destruct (mode_at_cases m H) as [-> | [-> | [-> | ->]]];
    cbv zeta; (repeat (split; [vm_compute; discriminate|]));
    first [ exists 1; split; [left; reflexivity | split; reflexivity]
          | exists 2; split; [right; reflexivity | split; reflexivity] ].
Qed.

(** X7.  In every reachable state the active crop rectangle that
    [imx307_get_selection] reports lies inside the crop bounds it reports,
    the bounds (which are also the default crop) lie inside the native
    size it reports, and the crop is the reported active format scaled by
    one factor, 1 or 2, in both directions. *)
Theorem active_crop_within_bounds (s : imx307) (cfg : v4l2_subdev_pad_config)
    (crops : v4l2_subdev_try_crops) (p : Z) (r0 : v4l2_rect) :
  reachable s ->
  let sel t := mk_selection V4L2_SUBDEV_FORMAT_ACTIVE p t r0 in
  exists c b n,
    imx307_get_selection s crops (sel V4L2_SEL_TGT_CROP)
      = Some (0, with_r (sel V4L2_SEL_TGT_CROP) c) /\
    imx307_get_selection s crops (sel V4L2_SEL_TGT_CROP_BOUNDS)
      = Some (0, with_r (sel V4L2_SEL_TGT_CROP_BOUNDS) b) /\
    imx307_get_selection s crops (sel V4L2_SEL_TGT_CROP_DEFAULT)
      = Some (0, with_r (sel V4L2_SEL_TGT_CROP_DEFAULT) b) /\
    imx307_get_selection s crops (sel V4L2_SEL_TGT_NATIVE_SIZE)
      = Some (0, with_r (sel V4L2_SEL_TGT_NATIVE_SIZE) n) /\
    (* crop inside bounds *)
    r_left b <= r_left c /\ r_top b <= r_top c /\
    r_left c + r_width c <= r_left b + r_width b /\
    r_top c + r_height c <= r_top b + r_height b /\
    (* bounds inside the native array *)
    r_left n <= r_left b /\ r_top n <= r_top b /\
    r_left b + r_width b <= r_left n + r_width n /\
    r_top b + r_height b <= r_top n + r_height n /\
    (* the crop is the format, binned by k *)
    exists k, (k = 1 \/ k = 2) /\
      r_width c = k * format_width (get_current_format s cfg) /\
      r_height c = k * format_height (get_current_format s cfg).
Proof.
  intros Rs sel. pose proof (wf_mode s (reachable_wf s Rs)) as Hm.
  destruct (mode_crop_geometry (mode s) Hm) as (G1 & G2 & G3 & G4 & k & Hk & K1 & K2).
  cbv zeta in G1, G2, G3, G4, K1, K2.
  exists (crop (cur_mode s)),
    (mk_rect imx307_PIXEL_ARRAY_LEFT imx307_PIXEL_ARRAY_TOP
       imx307_PIXEL_ARRAY_WIDTH imx307_PIXEL_ARRAY_HEIGHT),
    (mk_rect 0 0 imx307_NATIVE_WIDTH imx307_NATIVE_HEIGHT).
  split; [reflexivity|]. split; [reflexivity|]. split; [reflexivity|].
  split; [reflexivity|].
  cbn [r_left r_top r_width r_height]. unfold cur_mode.
  split; [exact G1|]. split; [exact G2|]. split; [exact G3|].
  split; [exact G4|].
  split; [vm_compute; discriminate|]. split; [vm_compute; discriminate|].
  split; [vm_compute; discriminate|]. split; [vm_compute; discriminate|].
  exists k. split; [exact Hk|].
  destruct (get_current_format_size s cfg) as [Gw Gh].
  rewrite Gw, Gh. split; [exact K1 | exact K2].
Qed.

Lemma active_crop_within_bounds_witness :
  exists c b,
    imx307_get_selection streaming_sensor (fun _ => mk_rect 0 0 0 0)
        (mk_selection V4L2_SUBDEV_FORMAT_ACTIVE 0 V4L2_SEL_TGT_CROP
           (mk_rect 0 0 0 0))
      = Some (0, mk_selection V4L2_SUBDEV_FORMAT_ACTIVE 0 V4L2_SEL_TGT_CROP c) /\
    imx307_get_selection streaming_sensor (fun _ => mk_rect 0 0 0 0)
        (mk_selection V4L2_SUBDEV_FORMAT_ACTIVE 0 V4L2_SEL_TGT_CROP_BOUNDS
           (mk_rect 0 0 0 0))
      = Some (0, mk_selection V4L2_SUBDEV_FORMAT_ACTIVE 0
                   V4L2_SEL_TGT_CROP_BOUNDS b) /\
    r_left b <= r_left c /\
    r_left c + r_width c <= r_left b + r_width b.
Proof.
  destruct (active_crop_within_bounds streaming_sensor no_try_formats
              (fun _ => mk_rect 0 0 0 0) 0 (mk_rect 0 0 0 0)
              (reachable_awake_reachable _ reachable_awake_streaming_sensor))
    as (c & b & n & E1 & E2 & _ & _ & I1 & _ & I3 & _).
  exists c, b. split; [exact E1|]. split; [exact E2|].
  split; [exact I1 | exact I3].
Defined.

(** X8.  [imx307_open] returns 0 and initialises the try state of the file
    handle from the defaults: a try get on the image pad then reads the
    full-resolution size of catalog entry 0 with the 10-bit code in the
    Bayer order of the current flips, a try get on the metadata pad reads
    the embedded-data format, and the try crop of pad 0 is the rectangle
    that the CROP_DEFAULT target reports.  The colorimetry members of the
    try formats and the try crop of pad 1 are left as they were. *)
Theorem open_initialises_try_state (s : imx307)
    (cfg : v4l2_subdev_pad_config) (crops : v4l2_subdev_try_crops)
    (g : v4l2_mbus_framefmt) (r0 : v4l2_rect) :
  let '(ret, cfg', crops') := imx307_open s cfg crops in
  let img := imx307_get_pad_format s cfg'
               (mk_subdev_format V4L2_SUBDEV_FORMAT_TRY IMAGE_PAD g) in
  let meta := imx307_get_pad_format s cfg'
                (mk_subdev_format V4L2_SUBDEV_FORMAT_TRY METADATA_PAD g) in
  ret = 0 /\
  fst (fst img) = 0 /\
  format (snd img) =
    mk_framefmt (width (mode_at 0)) (height (mode_at 0))
      (resolve_code MEDIA_BUS_FMT_SRGGB10_1X10 (hflip_on s) (vflip_on s))
      V4L2_FIELD_NONE
      (colorspace (cfg IMAGE_PAD)) (ycbcr_enc (cfg IMAGE_PAD))
      (quantization (cfg IMAGE_PAD)) (xfer_func (cfg IMAGE_PAD)) /\
  fst (fst meta) = 0 /\
  format (snd meta) =
    mk_framefmt imx307_EMBEDDED_LINE_WIDTH imx307_NUM_EMBEDDED_LINES
      MEDIA_BUS_FMT_SENSOR_DATA V4L2_FIELD_NONE
      (colorspace (cfg METADATA_PAD)) (ycbcr_enc (cfg METADATA_PAD))
      (quantization (cfg METADATA_PAD)) (xfer_func (cfg METADATA_PAD)) /\
  (exists r,
     imx307_get_selection s crops'
         (mk_selection V4L2_SUBDEV_FORMAT_TRY 0 V4L2_SEL_TGT_CROP r0)
       = Some (0, mk_selection V4L2_SUBDEV_FORMAT_TRY 0 V4L2_SEL_TGT_CROP r) /\
     imx307_get_selection s crops'
         (mk_selection V4L2_SUBDEV_FORMAT_TRY 0 V4L2_SEL_TGT_CROP_DEFAULT r0)
       = Some (0, mk_selection V4L2_SUBDEV_FORMAT_TRY 0
                    V4L2_SEL_TGT_CROP_DEFAULT r)) /\
  crops' 1 = crops 1.
Proof.
  unfold imx307_open. cbv zeta.
  split; [reflexivity|].
  unfold imx307_get_pad_format, __imx307_get_pad_format.
  cbn [pad which format].
  change (IMAGE_PAD >=? NUM_PADS) with false.
  change (METADATA_PAD >=? NUM_PADS) with false.
  change (V4L2_SUBDEV_FORMAT_TRY =? V4L2_SUBDEV_FORMAT_TRY) with true.
  change (IMAGE_PAD =? IMAGE_PAD) with true.
  change (METADATA_PAD =? IMAGE_PAD) with false.
  cbv iota zeta. cbn [fst snd format with_format].
  unfold with_try_format.
  change (IMAGE_PAD =? METADATA_PAD) with false.
  change (IMAGE_PAD =? IMAGE_PAD) with true.
  change (METADATA_PAD =? METADATA_PAD) with true. cbv iota.
  unfold with_format_code.
  cbn [format_code format_width format_height format_field colorspace
       ycbcr_enc quantization xfer_func].
  rewrite !get_format_code_resolve, resolve_code_fixed.
  repeat (split; [reflexivity|]).
  split; [|reflexivity].
  eexists. split; reflexivity.
Qed.

(** ** Register access on the wire *)

Lemma lor_shiftl_small (a b n : Z) :
  0 <= n -> 0 <= b < 2 ^ n -> Z.lor (Z.shiftl a n) b = a * 2 ^ n + b.
Proof.
  intros Hn Hb.
  assert (Z.land (Z.shiftl a n) b = 0) as L.
  { apply Z.bits_inj'. intros i Hi. rewrite Z.land_spec, Z.bits_0.
    destruct (Z.lt_ge_cases i n) as [Lt|Ge].
    - now rewrite Z.shiftl_spec_low.
    - replace b with (b mod 2 ^ n) by (apply Z.mod_small; lia).
      rewrite Z.mod_pow2_bits_high by lia. apply andb_false_r. }
  pose proof (Z.add_lor_land (Z.shiftl a n) b) as E.
  rewrite L, Z.add_0_r in E. rewrite E. now rewrite Z.shiftl_mul_pow2.
Qed.

Lemma u8_range (x : Z) : 0 <= u8 x < 256.
Proof. unfold u8. apply Z.mod_pos_bound. reflexivity. Qed.

Lemma get_unaligned_be32_value (b0 b1 b2 b3 : Z) :
  0 <= b0 -> 0 <= b1 < 256 -> 0 <= b2 < 256 -> 0 <= b3 < 256 ->
  get_unaligned_be32 [b0; b1; b2; b3] =
  ((b0 * 256 + b1) * 256 + b2) * 256 + b3.
Proof.
  intros H0 H1 H2 H3. unfold get_unaligned_be32. cbn [nth].
  assert (forall x, Z.shiftl x 24 = Z.shiftl (Z.shiftl x 8) 16) as E1
      by (intros x; rewrite Z.shiftl_shiftl by lia; reflexivity).
  assert (forall x, Z.shiftl x 16 = Z.shiftl (Z.shiftl x 8) 8) as E2
      by (intros x; rewrite Z.shiftl_shiftl by lia; reflexivity).
  rewrite E1, <- Z.shiftl_lor, (lor_shiftl_small b0 b1 8) by lia.
  rewrite E2, <- Z.shiftl_lor, (lor_shiftl_small _ b2 8) by lia.
  rewrite (lor_shiftl_small _ b3 8) by lia.
  change (2 ^ 8) with 256. reflexivity.
Qed.

Lemma be32_byte (V k : Z) (j : Z) :
  0 <= V < 2 ^ 32 ->
  (k = 0 \/ k = 8 \/ k = 16 \/ k = 24 \/ k = 32) ->
  (j = 0 \/ j = 8 \/ j = 16 \/ j = 24) -> k <= j ->
  u8 (Z.shiftr (u32 (Z.shiftl V k)) j) = (V / 2 ^ (j - k)) mod 256.
Proof.
  intros HV Hk Hj Hkj. unfold u8, u32.
  rewrite Z.shiftl_mul_pow2, Z.shiftr_div_pow2 by lia.
  change (2 ^ 8) with 256.
  destruct Hk as [-> | [-> | [-> | [-> | ->]]]];
    destruct Hj as [-> | [-> | [-> | ->]]]; try lia;
    repeat match goal with
           | |- context [2 ^ ?e] =>
               let p := eval vm_compute in (2 ^ e) in change (2 ^ e) with p
           end;
    Z.to_euclidean_division_equations; lia.
Qed.

Lemma u32_range (x : Z) : 0 <= u32 x < 2 ^ 32.
Proof. unfold u32. apply Z.mod_pos_bound. reflexivity. Qed.

Lemma u16_range (x : Z) : 0 <= u16 x < 2 ^ 16.
Proof. unfold u16. apply Z.mod_pos_bound. reflexivity. Qed.

Lemma address_bytes (reg : Z) :
  put_unaligned_be16 (u16 reg) = be_bytes 2 (u16 reg).
Proof.
  unfold put_unaligned_be16, be_bytes, u8.
  pose proof (u16_range reg) as H.
  rewrite Z.shiftr_div_pow2 by lia.
  change (2 ^ (8 * Z.of_nat 1)) with 256.
  change (2 ^ (8 * Z.of_nat 0)) with 1. change (2 ^ 8) with 256.
  rewrite Z.div_1_r. reflexivity.
Qed.

Lemma be32_byte0 (V : Z) :
  0 <= V < 2 ^ 32 -> u8 (u32 (Z.shiftl V 0)) = (V / 1) mod 256.
Proof.
  intros H. rewrite Z.shiftl_0_r, Z.div_1_r. unfold u8, u32.
  rewrite (Z.mod_small V) by lia. reflexivity.
Qed.

(** Evaluate the closed arithmetic a concrete length leaves behind. *)
Ltac eval_closed :=
  repeat match goal with
         | |- context [Z.to_nat ?e] =>
             let p := eval vm_compute in (Z.to_nat e) in
             progress change (Z.to_nat e) with p
         | |- context [8 * (4 - ?e)] =>
             let p := eval vm_compute in (8 * (4 - e)) in
             progress change (8 * (4 - e)) with p
         | |- context [2 ^ ?e] =>
             let p := eval vm_compute in (2 ^ e) in
             progress change (2 ^ e) with p
         | |- context [Z.of_nat ?e] =>
             let p := eval vm_compute in (Z.of_nat e) in
             progress change (Z.of_nat e) with p
         end.

Lemma be_bytes_length (n : nat) (x : Z) : List.length (be_bytes n x) = n.
Proof.
  induction n as [|n IH]; cbn [be_bytes length];
    [reflexivity | now rewrite IH].
Qed.

Lemma be_bytes_fold (n : nat) (x acc : Z) :
  fold_left (fun a b => a * 256 + b) (be_bytes n x) acc =
  acc * 2 ^ (8 * Z.of_nat n) + x mod 2 ^ (8 * Z.of_nat n).
Proof.
  revert acc. induction n as [|n IH]; intros acc.
  - cbn [be_bytes fold_left]. change (2 ^ (8 * Z.of_nat 0)) with 1.
    rewrite Z.mod_1_r. lia.
  - cbn [be_bytes fold_left]. rewrite IH.
    replace (8 * Z.of_nat (S n)) with (8 * Z.of_nat n + 8) by lia.
    rewrite Z.pow_add_r by lia. change (2 ^ 8) with 256.
    set (P := 2 ^ (8 * Z.of_nat n)).
    assert (0 < P) as HP by (apply Z.pow_pos_nonneg; lia).
    rewrite (Z.rem_mul_r x P 256) by lia. lia.
Qed.

Lemma be_value_be_bytes (n : nat) (x : Z) :
  be_value (be_bytes n x) = x mod 2 ^ (8 * Z.of_nat n).
Proof. unfold be_value. rewrite be_bytes_fold. lia. Qed.

(** One transfer of [len + 2] bytes. *)
Lemma write_reg_sends (s : imx307) (reg len v : Z) :
  0 <= len <= 4 ->
  imx307_write_reg s reg len v =
  (if i2c_bus s (i2c_xfers s) (len + 2) =? len + 2 then 0 else - EIO,
   emit (with_i2c_xfers s (S (i2c_xfers s)))
     (EvI2cSend (be_bytes 2 (u16 reg) ++ be_bytes (Z.to_nat len) (u32 v))
        (i2c_bus s (i2c_xfers s) (len + 2)))).
Proof.
  intros Hl. unfold imx307_write_reg.
  destruct (Z.gtb_spec len 4) as [G|L]; [lia|].
  rewrite address_bytes.
  pose proof (u32_range v) as HV.
  assert (len = 0 \/ len = 1 \/ len = 2 \/ len = 3 \/ len = 4)
    as [-> | [-> | [-> | [-> | ->]]]] by lia;
    unfold i2c_master_send, put_unaligned_be32;
    cbv zeta;
    change (0 + 2) with 2; change (1 + 2) with 3; change (2 + 2) with 4;
    change (3 + 2) with 5; change (4 + 2) with 6;
    eval_closed; cbn [firstn app length be_bytes]; eval_closed;
    rewrite ?be32_byte0 by exact HV;
    rewrite ?be32_byte by (try exact HV; lia);
    eval_closed;
    match goal with
    | |- context [i2c_bus s (i2c_xfers s) ?c =? ?c] =>
        destruct (i2c_bus s (i2c_xfers s) c =? c)
    end; reflexivity.
Qed.

(** X9.  What [imx307_write_reg] puts on the bus.  For a length of 0 to 4
    it is one transfer of [len + 2] bytes: the 16-bit register address and
    then the [len] low-order bytes of the value, both most significant byte
    first; higher bytes of the value are dropped, so a value and its
    reduction modulo [2 ^ (8 * len)] are written alike.  The result is 0
    when the bus took all [len + 2] bytes and -EIO otherwise; a length
    above 4 is -EINVAL with nothing sent. *)
Theorem write_reg_wire_format (s : imx307) (reg len v : Z) :
  0 <= len ->
  imx307_write_reg s reg len v =
    (if len >? 4 then (- EINVAL, s)
     else
       let n := i2c_bus s (i2c_xfers s) (len + 2) in
       (if n =? len + 2 then 0 else - EIO,
        emit (with_i2c_xfers s (S (i2c_xfers s)))
          (EvI2cSend
             (be_bytes 2 (u16 reg) ++ be_bytes (Z.to_nat len) (u32 v)) n))) /\
  List.length (be_bytes 2 (u16 reg) ++ be_bytes (Z.to_nat len) (u32 v))
    = Z.to_nat (len + 2) /\
  be_value (be_bytes (Z.to_nat len) (u32 v)) = u32 v mod 2 ^ (8 * len).
Proof.
  intros Hl. split; [|split].
  - destruct (Z.gtb_spec len 4) as [G|L].
    + unfold imx307_write_reg. destruct (Z.gtb_spec len 4); [reflexivity|lia].
    + apply write_reg_sends. lia.
  - rewrite length_app, !be_bytes_length. lia.
  - rewrite be_value_be_bytes, Z2Nat.id by lia. reflexivity.
Qed.

Lemma write_reg_wire_format_witness :
  imx307_write_reg sound_sensor imx307_REG_EXPOSURE imx307_REG_VALUE_16BIT
    0x12345 =
  (0, emit (with_i2c_xfers sound_sensor 1)
        (EvI2cSend [0x01; 0x5a; 0x23; 0x45] 4)).
Proof.
  assert (0 <= imx307_REG_VALUE_16BIT) as H by (unfold imx307_REG_VALUE_16BIT; lia).
  rewrite (proj1 (write_reg_wire_format sound_sensor imx307_REG_EXPOSURE
                    imx307_REG_VALUE_16BIT 0x12345 H)).
  reflexivity.
Defined.

Lemma land_0xff (x : Z) : Z.land x 0xff = x mod 256.
Proof. change 0xff with (Z.ones 8). now rewrite Z.land_ones by lia. Qed.

Lemma last_sent_write_reg (s : imx307) (reg len v : Z) :
  0 <= len <= 4 ->
  last_sent (snd (imx307_write_reg s reg len v)) =
  be_bytes 2 (u16 reg) ++ be_bytes (Z.to_nat len) (u32 v).
Proof.
  intros H. rewrite write_reg_sends by lia. reflexivity.
Qed.

(** X10.  [imx307_read_reg] and [imx307_write_reg] agree on the wire:
    reading [len] bytes (0 to 4) back from a device that returns the bytes
    of the last write at the same 16-bit address yields 0 and the value
    written, reduced to its [len] low-order bytes. *)
Theorem read_reg_reads_back_written_value (s : imx307) (reg len v val0 : Z) :
  0 <= len <= 4 ->
  let sent := last_sent (snd (imx307_write_reg s reg len v)) in
  imx307_read_reg (echo_device sent) reg len val0
    = (0, u32 v mod 2 ^ (8 * len)).
Proof.
  intros H sent. subst sent. rewrite last_sent_write_reg by exact H.
  unfold imx307_read_reg.
  destruct (Z.gtb_spec len 4) as [G|_]; [lia|].
  unfold echo_device.
  assert ([u8 (Z.shiftr (u16 reg) 8); u8 (Z.land (u16 reg) 255)] =
          firstn 2 (be_bytes 2 (u16 reg) ++ be_bytes (Z.to_nat len) (u32 v)))
    as Ea.
  { rewrite land_0xff. unfold u8. rewrite Z.mod_mod by lia.
    rewrite <- address_bytes. reflexivity. }
  destruct (list_eq_dec Z.eq_dec _ _) as [_|N]; [|contradiction].
  pose proof (u32_range v) as HV. set (V := u32 v) in *.
  assert (len = 0 \/ len = 1 \/ len = 2 \/ len = 3 \/ len = 4)
    as [-> | [-> | [-> | [-> | ->]]]] by lia;
    eval_closed; cbn [be_bytes app length skipn]; eval_closed;
    change (2 - 2) with 0; change (3 - 2) with 1; change (4 - 2) with 2;
    change (5 - 2) with 3; change (6 - 2) with 4;
    cbn [Z.eqb Pos.eqb]; cbv iota beta;
    change (4 - 0) with 4; change (4 - 1) with 3; change (4 - 2) with 2;
    change (4 - 3) with 1; change (4 - 4) with 0; eval_closed;
    cbn [repeat map app firstn negb]; cbv iota;
    (rewrite get_unaligned_be32_value
       by (try apply u8_range; try (vm_compute; split; congruence); lia));
    unfold u8; eval_closed; f_equal;
    Z.to_euclidean_division_equations; lia.
Qed.

Lemma read_reg_reads_back_written_value_witness :
  imx307_read_reg
    (echo_device
       (last_sent (snd (imx307_write_reg sound_sensor imx307_REG_EXPOSURE 2
                          0x12345))))
    imx307_REG_EXPOSURE 2 0
  = (0, u32 0x12345 mod 2 ^ (8 * 2)).
Proof.
  assert (0 <= 2 <= 4) as H by lia.
  exact (read_reg_reads_back_written_value sound_sensor imx307_REG_EXPOSURE
           2 0x12345 0 H).
Defined.

(** What [imx307_identify_module] makes of the answer of the bus. *)
Lemma identify_module_eq (bus : i2c_read_bus) :
  let r := bus [0; 0] 2 in
  let hi := u8 (nth 0 (snd r) 0) in
  let lo := u8 (nth 1 (snd r) 0) in
  imx307_identify_module bus =
  if negb (fst r =? 2) then (- EIO, [LogFailedToReadChipId 0x0219])
  else if (hi =? 0x02) && (lo =? 0x19) then (0, [])
  else (- EIO, [LogChipIdMismatch 0x0219 (hi * 256 + lo)]).
Proof.
  cbv zeta. unfold imx307_identify_module, imx307_read_reg.
  change (imx307_REG_VALUE_16BIT >? 4) with false. cbv iota.
  change [u8 (Z.shiftr (u16 imx307_REG_CHIP_ID) 8);
          u8 (Z.land (u16 imx307_REG_CHIP_ID) 255)] with [0; 0].
  change imx307_REG_VALUE_16BIT with 2.
  destruct (bus [0; 0] 2) as [ret data]. cbn [fst snd].
  destruct (negb (ret =? 2)); [reflexivity|].
  change (negb (0 =? 0)) with false. cbv iota.
  assert (firstn (Z.to_nat 2) (map u8 data ++ repeat 0 4) =
          [u8 (nth 0 data 0); u8 (nth 1 data 0)]) as ->
      by (destruct data as [|a [|b rest]]; reflexivity).
  change (repeat 0 (Z.to_nat (4 - 2))) with [0; 0]. cbn [app].
  rewrite get_unaligned_be32_value by (try apply u8_range; lia).
  pose proof (u8_range (nth 0 data 0)) as H0.
  pose proof (u8_range (nth 1 data 0)) as H1.
  set (hi := u8 (nth 0 data 0)) in *. set (lo := u8 (nth 1 data 0)) in *.
  change imx307_CHIP_ID with 537.
  replace (((0 * 256 + 0) * 256 + hi) * 256 + lo) with (hi * 256 + lo) by lia.
  destruct (Z.eqb_spec (hi * 256 + lo) 537) as [E|N];
    destruct (Z.eqb_spec hi 2); destruct (Z.eqb_spec lo 25);
    cbn [negb andb]; try reflexivity; lia.
Qed.

(** X11.  [imx307_identify_module] reads two bytes at register 0x0000 and
    accepts the chip exactly when the transfer carried out both messages
    and the bytes are 0x02, 0x19 (chip id 0x0219).  Everything else is
    -EIO: a transfer that did not complete is logged as a failed read, a
    chip that answers another id as a mismatch together with the id it
    answered. *)
Theorem identify_module_accepts_only_0219 (bus : i2c_read_bus) :
  let r := bus [0; 0] 2 in
  let hi := u8 (nth 0 (snd r) 0) in
  let lo := u8 (nth 1 (snd r) 0) in
  (fst (imx307_identify_module bus) = 0 <->
   fst r = 2 /\ hi = 0x02 /\ lo = 0x19) /\
  (fst (imx307_identify_module bus) = 0 \/
   fst (imx307_identify_module bus) = - EIO) /\
  (fst r <> 2 ->
   imx307_identify_module bus = (- EIO, [LogFailedToReadChipId 0x0219])) /\
  (fst r = 2 -> hi * 256 + lo <> 0x0219 ->
   imx307_identify_module bus =
     (- EIO, [LogChipIdMismatch 0x0219 (hi * 256 + lo)])).
Proof.
  intros r hi lo. pose proof (identify_module_eq bus) as E.
  cbv zeta in E. fold r hi lo in E. rewrite E.
  pose proof (u8_range (nth 0 (snd r) 0)) as H0. fold hi in H0.
  pose proof (u8_range (nth 1 (snd r) 0)) as H1. fold lo in H1.
  destruct (Z.eqb_spec (fst r) 2) as [E2|N2]; cbn [negb].
  - destruct (Z.eqb_spec hi 2) as [Eh|Nh];
      destruct (Z.eqb_spec lo 25) as [El|Nl]; cbn [andb fst].
    + split; [tauto|]. split; [now left|]. split; [tauto|]. intros _ N. lia.
    + split; [split; [discriminate | tauto]|]. split; [now right|].
      split; [tauto | reflexivity].
    + split; [split; [discriminate | tauto]|]. split; [now right|].
      split; [tauto | reflexivity].
    + split; [split; [discriminate | tauto]|]. split; [now right|].
      split; [tauto | reflexivity].
  - cbn [fst]. split; [split; [discriminate | tauto]|]. split; [now right|].
    split; [reflexivity | tauto].
Qed.

(** ** What every operation preserves *)

(** [__v4l2_ctrl_modify_range] stores the new range only after
    [check_range] has accepted it. *)
Section CheckedModifyRange.
Variable R : imx307 -> imx307 -> Prop.
Hypothesis R_refl : forall s, R s s.
Hypothesis R_trans : forall s1 s2 s3, R s1 s2 -> R s2 s3 -> R s1 s3.
Variable ops : v4l2_ctrl_ops.
Variable id : ctrl_id.
Hypothesis R_val : forall s v, R s (put_ctrl s id (with_val (ctrl s id) v)).
Hypothesis R_cur :
  forall s v, R s (put_ctrl s id (with_cur_val (ctrl s id) v)).
Hypothesis ops_R : forall s, R s (snd (ops s id)).

Lemma frame_modify_range_checked (s : imx307) (min max stp def : Z) :
  (check_range (ctype (ctrl s id)) min max stp def = 0 ->
   R s (put_ctrl s id (with_range (ctrl s id) min max stp def))) ->
  R s (snd (__v4l2_ctrl_modify_range ops s id min max stp def)).
Proof.
  intros H1. unfold __v4l2_ctrl_modify_range.
  destruct (Z.eqb_spec (check_range (ctype (ctrl s id)) min max stp def) 0)
    as [E|N]; cbn [negb]; [|apply R_refl].
  specialize (H1 E).
  set (s1 := put_ctrl s id _) in *.
  set (s2 := cur_to_new s1 id).
  assert (R s s2) as H2 by (eapply R_trans; [exact H1 | apply R_val]).
  destruct (validate_new (ctrl s2 id) _) as [err v].
  set (v' := if negb (err =? 0) then def else v).
  set (s3 := put_ctrl s2 id _).
  assert (R s s3) as H3 by (eapply R_trans; [exact H2 | apply R_val]).
  destruct (negb (v' =? _)); cbn [snd]; [|exact H3].
  eapply R_trans; [exact H3 | apply frame_set_ctrl; assumption].
Qed.
End CheckedModifyRange.

(** [R] is a reflexive and transitive relation between states that the
    primitive steps of the driver respect: storing a new value, a current
    value or the flags of a control; storing a range that [check_range]
    accepted, for one of the three controls whose range the driver
    recomputes, with the step and (for the exposure) the minimum the
    driver passes; a bus transfer; a log line; the four runtime-PM calls;
    storing the format and the mode; changing the streaming flag.  Then
    every operation of the driver respects it, and so does every sequence
    of calls. *)
Section DriverFrame.
Variable R : imx307 -> imx307 -> Prop.
Hypothesis R_refl : forall s, R s s.
Hypothesis R_trans : forall s1 s2 s3, R s1 s2 -> R s2 s3 -> R s1 s3.
Hypothesis R_val :
  forall s id v, R s (put_ctrl s id (with_val (ctrl s id) v)).
Hypothesis R_cur :
  forall s id v, R s (put_ctrl s id (with_cur_val (ctrl s id) v)).
Hypothesis R_flags :
  forall s id f, R s (put_ctrl s id (with_flags (ctrl s id) f)).
Hypothesis R_range :
  forall s id min max stp def,
    check_range (ctype (ctrl s id)) min max stp def = 0 ->
    mode_ctrl id = true ->
    stp = 1 \/ stp = step (ctrl s id) ->
    (id = V4L2_CID_EXPOSURE -> min = minimum (ctrl s id)) ->
    R s (put_ctrl s id (with_range (ctrl s id) min max stp def)).
Hypothesis R_send : forall s buf, R s (snd (i2c_master_send s buf)).
Hypothesis R_log : forall s m, R s (emit s (EvLog m)).
Hypothesis R_get_sync : forall s, R s (snd (pm_runtime_get_sync s)).
Hypothesis R_put : forall s, R s (pm_runtime_put s).
Hypothesis R_put_noidle : forall s, R s (pm_runtime_put_noidle s).
Hypothesis R_get_if_in_use :
  forall s, R s (snd (pm_runtime_get_if_in_use s)).
Hypothesis R_fmt_mode : forall s f m, R s (with_mode (with_fmt s f) m).
Hypothesis R_streaming : forall s b, R s (with_streaming s b).

Lemma fr_write_reg (s : imx307) (reg len v : Z) :
  R s (snd (imx307_write_reg s reg len v)).
Proof.
  unfold imx307_write_reg. destruct (len >? 4); [apply R_refl|].
  match goal with
  | |- context [i2c_master_send s ?b] =>
      pose proof (R_send s b) as H; destruct (i2c_master_send s b) as [n s1]
  end.
  cbn [snd] in H. destruct (negb (n =? len + 2)); exact H.
Qed.

Lemma fr_write_regs (regs : list imx307_reg) (s : imx307) :
  R s (snd (imx307_write_regs s regs)).
Proof.
  revert s; induction regs as [|r rest IH]; intros s; cbn [imx307_write_regs].
  - apply R_refl.
  - pose proof (fr_write_reg s (address r) 1 (reg_val r)) as H.
    destruct (imx307_write_reg s (address r) 1 (reg_val r)) as [ret s1].
    cbn [snd] in H. destruct (negb (ret =? 0)); cbn [snd].
    + eapply R_trans; [exact H | apply R_log].
    + eapply R_trans; [exact H | apply IH].
Qed.

Lemma fr_set_framefmt (s : imx307) : R s (snd (imx307_set_framefmt s)).
Proof.
  unfold imx307_set_framefmt.
  destruct (case_of raw8_codes _); [apply fr_write_regs|].
  destruct (case_of raw10_codes _); [apply fr_write_regs|].
  apply R_refl.
Qed.

Lemma fr_modify_range_ops (ops : v4l2_ctrl_ops) (s : imx307) (id : ctrl_id)
    (min max stp def : Z) :
  (forall s0, R s0 (snd (ops s0 id))) ->
  mode_ctrl id = true ->
  stp = 1 \/ stp = step (ctrl s id) ->
  (id = V4L2_CID_EXPOSURE -> min = minimum (ctrl s id)) ->
  R s (snd (__v4l2_ctrl_modify_range ops s id min max stp def)).
Proof.
  intros H M St Mn. apply frame_modify_range_checked; auto.
Qed.

Lemma fr_set_ctrl_body (self : v4l2_ctrl_ops) :
  (forall s id, R s (snd (self s id))) ->
  forall s id, R s (snd (imx307_set_ctrl_body self s id)).
Proof.
  intros Hself s id. unfold imx307_set_ctrl_body.
  set (s1 := match id with V4L2_CID_VBLANK => _ | _ => s end).
  assert (R s s1) as H1.
  { subst s1. destruct id; try apply R_refl.
    apply fr_modify_range_ops; auto. }
  clearbody s1.
  pose proof (R_get_if_in_use s1) as H2.
  destruct (pm_runtime_get_if_in_use s1) as [iu s2]. cbn [snd] in H2.
  assert (R s s2) as H12 by (eapply R_trans; eauto).
  destruct (iu =? 0); [exact H12|].
  cbv zeta.
  match goal with
  | |- R _ (snd (let '(ret, s) := ?w in _)) =>
      assert (R s2 (snd w)) as Hw;
      [ destruct id; try apply fr_write_reg; apply R_log
      | destruct w as [ret s3] ]
  end.
  cbn [snd] in Hw |- *.
  eapply R_trans; [exact H12|]. eapply R_trans; [exact Hw | apply R_put].
Qed.

Lemma fr_imx307_set_ctrl (s : imx307) (id : ctrl_id) :
  R s (snd (imx307_set_ctrl s id)).
Proof.
  unfold imx307_set_ctrl. apply fr_set_ctrl_body.
  apply fr_set_ctrl_body. intros s0 _. apply R_refl.
Qed.

Lemma fr_modify_range (s : imx307) (id : ctrl_id) (min max stp def : Z) :
  mode_ctrl id = true ->
  stp = 1 \/ stp = step (ctrl s id) ->
  (id = V4L2_CID_EXPOSURE -> min = minimum (ctrl s id)) ->
  R s (snd (__v4l2_ctrl_modify_range imx307_ctrl_ops s id min max stp def)).
Proof.
  apply fr_modify_range_ops. intros s0. apply fr_imx307_set_ctrl.
Qed.

Lemma fr_s_ctrl (s : imx307) (id : ctrl_id) (v : Z) :
  R s (snd (__v4l2_ctrl_s_ctrl imx307_ctrl_ops s id v)).
Proof.
  apply frame_s_ctrl; auto. intros s0. apply fr_imx307_set_ctrl.
Qed.

Lemma fr_v4l2_s_ctrl (s : imx307) (id : ctrl_id) (v : Z) :
  R s (snd (v4l2_s_ctrl imx307_ctrl_ops s id v)).
Proof.
  apply frame_v4l2_s_ctrl; auto. intros s0. apply fr_imx307_set_ctrl.
Qed.

Lemma fr_handler_setup (s : imx307) :
  R s (snd (__v4l2_ctrl_handler_setup imx307_ctrl_ops s)).
Proof.
  unfold __v4l2_ctrl_handler_setup.
  apply frame_handler_setup_loop; auto. apply fr_imx307_set_ctrl.
Qed.

Lemma fr_apply_mode_change (s : imx307) (m : nat) (f : v4l2_mbus_framefmt) :
  R s (apply_mode_change s m f).
Proof.
  unfold apply_mode_change, update_hblank, update_exposure, update_vblank.
  cbv zeta.
  eapply R_trans;
    [|apply fr_modify_range; [reflexivity | now left | discriminate]].
  eapply R_trans;
    [|apply fr_modify_range; [reflexivity | now right | reflexivity]].
  eapply R_trans; [|apply fr_s_ctrl].
  eapply R_trans;
    [|apply fr_modify_range; [reflexivity | now left | discriminate]].
  apply R_fmt_mode.
Qed.

Lemma fr_set_pad_format (s : imx307) (cfg : v4l2_subdev_pad_config)
    (f : v4l2_subdev_format) :
  match imx307_set_pad_format s cfg f with
  | Some (_, s', _, _) => R s s'
  | None => True
  end.
Proof.
  destruct (set_pad_format_cases s cfg f)
    as [(ret & cfg' & f' & E)|(m & fm & cfg' & f' & _ & _ & E)]; rewrite E.
  - apply R_refl.
  - apply fr_apply_mode_change.
Qed.

Lemma fr_grab (s : imx307) (id : ctrl_id) (b : bool) :
  R s (__v4l2_ctrl_grab s id b).
Proof. apply R_flags. Qed.

Lemma fr_start_streaming (s : imx307) :
  R s (snd (imx307_start_streaming s)).
Proof.
  unfold imx307_start_streaming.
  pose proof (R_get_sync s) as H0.
  destruct (pm_runtime_get_sync s) as [r0 s0]. cbn [snd] in H0.
  destruct (r0 <? 0);
    [cbn [snd]; eapply R_trans; [exact H0 | apply R_put_noidle]|].
  pose proof (fr_write_regs (reg_list (cur_mode s0)) s0) as H1.
  destruct (imx307_write_regs s0 _) as [r1 s1]. cbn [snd] in H1.
  assert (R s s1) as A1 by (eapply R_trans; eauto).
  destruct (negb (r1 =? 0)).
  { cbn [snd]. eapply R_trans; [exact A1|].
    eapply R_trans; [apply R_log | apply R_put]. }
  pose proof (fr_set_framefmt s1) as H2.
  destruct (imx307_set_framefmt s1) as [r2 s2]. cbn [snd] in H2.
  assert (R s s2) as A2 by (eapply R_trans; eauto).
  destruct (negb (r2 =? 0)).
  { cbn [snd]. eapply R_trans; [exact A2|].
    eapply R_trans; [apply R_log | apply R_put]. }
  pose proof (fr_handler_setup s2) as H3.
  destruct (__v4l2_ctrl_handler_setup imx307_ctrl_ops s2) as [r3 s3].
  cbn [snd] in H3.
  assert (R s s3) as A3 by (eapply R_trans; eauto).
  destruct (negb (r3 =? 0)).
  { cbn [snd]. eapply R_trans; [exact A3 | apply R_put]. }
  pose proof (fr_write_reg s3 imx307_REG_MODE_SELECT imx307_REG_VALUE_08BIT
                imx307_MODE_STREAMING) as H4.
  destruct (imx307_write_reg s3 _ _ _) as [r4 s4]. cbn [snd] in H4.
  assert (R s s4) as A4 by (eapply R_trans; eauto).
  destruct (negb (r4 =? 0)).
  { cbn [snd]. eapply R_trans; [exact A4 | apply R_put]. }
  cbn [snd]. eapply R_trans; [exact A4|].
  eapply R_trans; apply fr_grab.
Qed.

Lemma fr_stop_streaming (s : imx307) : R s (imx307_stop_streaming s).
Proof.
  unfold imx307_stop_streaming.
  pose proof (fr_write_reg s imx307_REG_MODE_SELECT imx307_REG_VALUE_08BIT
                imx307_MODE_STANDBY) as H.
  destruct (imx307_write_reg s _ _ _) as [r s1]. cbn [snd] in H.
  set (s2 := if negb (r =? 0) then _ else s1).
  assert (R s s2) as A2.
  { subst s2. destruct (negb (r =? 0)); [|exact H].
    eapply R_trans; [exact H | apply R_log]. }
  clearbody s2.
  eapply R_trans; [exact A2|].
  eapply R_trans; [|apply R_put].
  eapply R_trans; apply fr_grab.
Qed.

Lemma fr_set_stream (s : imx307) (enable : Z) :
  R s (snd (imx307_set_stream s enable)).
Proof.
  unfold imx307_set_stream.
  destruct (Z.b2z (streaming s) =? enable); [apply R_refl|].
  destruct (negb (enable =? 0)).
  - pose proof (fr_start_streaming s) as H.
    destruct (imx307_start_streaming s) as [ret s1]. cbn [snd] in H.
    destruct (negb (ret =? 0)); cbn [snd]; [exact H|].
    eapply R_trans; [exact H | apply R_streaming].
  - cbn [snd]. eapply R_trans; [apply fr_stop_streaming | apply R_streaming].
Qed.

Lemma fr_suspend (s : imx307) : R s (snd (imx307_suspend s)).
Proof.
  unfold imx307_suspend. destruct (streaming s); cbn [snd];
    [apply fr_stop_streaming | apply R_refl].
Qed.

Lemma fr_resume (s : imx307) : R s (snd (imx307_resume s)).
Proof.
  unfold imx307_resume. destruct (streaming s); [|apply R_refl].
  pose proof (fr_start_streaming s) as H.
  destruct (imx307_start_streaming s) as [ret s1]. cbn [snd] in H.
  destruct (negb (ret =? 0)); cbn [snd]; [|exact H].
  eapply R_trans; [exact H|].
  eapply R_trans; [apply fr_stop_streaming | apply R_streaming].
Qed.

Lemma fr_run_call (s : imx307) (c : call) : R s (run_call s c).
Proof.
  destruct c as [cfg f|id v|enable| |]; cbn [run_call].
  - pose proof (fr_set_pad_format s cfg f) as H.
    destruct (imx307_set_pad_format s cfg f) as [[[[ret s'] cfg'] f']|];
      [exact H | apply R_refl].
  - apply fr_v4l2_s_ctrl.
  - apply fr_set_stream.
  - apply fr_suspend.
  - apply fr_resume.
Qed.

Lemma fr_run (cs : list call) (s : imx307) : R s (run s cs).
Proof.
  revert s. induction cs as [|c cs IH]; intros s; [apply R_refl|].
  change (run s (c :: cs)) with (run (run_call s c) cs).
  eapply R_trans; [apply fr_run_call | apply IH].
Qed.
End DriverFrame.

(** ** Power accounting *)

Lemma same_platform_run (cs : list call) (s : imx307) :
  same_platform s (run s cs).
Proof.
  apply fr_run; clear s cs.
  - intros s. repeat split.
  - intros s1 s2 s3 (A1 & A2 & A3) (B1 & B2 & B3).
    repeat split; congruence.
  - intros s id v. repeat split.
  - intros s id v. repeat split.
  - intros s id f. repeat split.
  - intros s id mn mx stp def _ _ _ _. repeat split.
  - intros s buf. repeat split.
  - intros s m. repeat split.
  - intros s. unfold pm_runtime_get_sync, imx307_power_on. cbv zeta.
    cbn [runtime_active emit with_usage_count].
    destruct (runtime_active s); [repeat split|].
    repeat match goal with
           | |- context [if ?b then _ else _] => destruct b
           end; repeat split.
  - intros s. unfold pm_runtime_put. cbv zeta.
    destruct (_ && _); repeat split.
  - intros s. repeat split.
  - intros s. unfold pm_runtime_get_if_in_use.
    destruct (_ && _); repeat split.
  - intros s f m. repeat split.
  - intros s b. repeat split.
Qed.

Lemma power_consistent_inert (s s' : imx307) :
  runtime_active s' = runtime_active s ->
  supplies_enabled (trace s') = supplies_enabled (trace s) ->
  clock_enabled (trace s') = clock_enabled (trace s) ->
  reset_level (trace s') = reset_level (trace s) ->
  keeps_power_consistent s s'.
Proof. intros A B C D (P1 & P2 & P3). repeat split; congruence. Qed.

Lemma keeps_power_get_sync (s : imx307) :
  keeps_power_consistent s (snd (pm_runtime_get_sync s)).
Proof.
  unfold pm_runtime_get_sync, imx307_power_on. cbv zeta.
  cbn [runtime_active emit with_usage_count power_ups with_power_ups
       regulator_bulk_enable_err clk_prepare_enable_err].
  destruct (runtime_active s) eqn:A;
    [apply power_consistent_inert; reflexivity|].
  set (r := - Z.of_nat (regulator_bulk_enable_err s (power_ups s))).
  set (c := - Z.of_nat (clk_prepare_enable_err s (power_ups s))).
  intros (P1 & P2 & P3). rewrite A in P1, P2, P3. cbn [Z.b2z] in P1, P2, P3.
  unfold power_consistent.
  destruct (Z.eqb_spec r 0) as [Er|Nr]; cbn [negb].
  - destruct (Z.eqb_spec c 0) as [Ec|Nc]; cbn [negb].
    + change (0 =? 0) with true. cbv iota.
      cbn [snd trace with_runtime_active emit with_power_ups
           with_usage_count runtime_active supplies_enabled clock_enabled
           reset_level Z.b2z].
      rewrite Er, Ec. change (0 =? 0) with true. cbv iota.
      repeat split; lia.
    + destruct (Z.eqb_spec c 0) as [|_]; [contradiction|].
      cbn [snd trace emit with_power_ups with_usage_count runtime_active
           supplies_enabled clock_enabled reset_level Z.b2z].
      rewrite Er, A. change (0 =? 0) with true.
      destruct (Z.eqb_spec c 0); [contradiction|].
      cbn [Z.b2z]. repeat split; lia.
  - destruct (Z.eqb_spec r 0) as [|_]; [contradiction|].
    cbn [snd trace emit with_power_ups with_usage_count runtime_active
         supplies_enabled clock_enabled reset_level Z.b2z].
    rewrite A. destruct (Z.eqb_spec r 0); [contradiction|].
    cbn [Z.b2z]. repeat split; lia.
Qed.

Lemma keeps_power_put (s : imx307) :
  keeps_power_consistent s (pm_runtime_put s).
Proof.
  unfold pm_runtime_put, imx307_power_off. cbv zeta.
  cbn [usage_count runtime_active emit with_usage_count snd].
  destruct (_ =? 0); cbn [andb];
    [|apply power_consistent_inert; reflexivity].
  destruct (runtime_active s) eqn:A;
    [|apply power_consistent_inert; reflexivity].
  intros (P1 & P2 & P3). rewrite A in P1, P2, P3. cbn [Z.b2z] in P1, P2, P3.
  unfold power_consistent.
  cbn [trace with_runtime_active emit with_usage_count runtime_active
       supplies_enabled clock_enabled reset_level Z.b2z].
  repeat split; lia.
Qed.

Lemma keeps_power_run (cs : list call) (s : imx307) :
  keeps_power_consistent s (run s cs).
Proof.
  apply fr_run; clear s cs.
  - intros s H; exact H.
  - intros s1 s2 s3 A B H. apply B, A, H.
  - intros s id v. apply power_consistent_inert; reflexivity.
  - intros s id v. apply power_consistent_inert; reflexivity.
  - intros s id f. apply power_consistent_inert; reflexivity.
  - intros s id mn mx stp def _ _ _ _.
    apply power_consistent_inert; reflexivity.
  - intros s buf. apply power_consistent_inert; reflexivity.
  - intros s m. apply power_consistent_inert; reflexivity.
  - apply keeps_power_get_sync.
  - apply keeps_power_put.
  - intros s. apply power_consistent_inert; reflexivity.
  - intros s. unfold pm_runtime_get_if_in_use.
    destruct (_ && _); apply power_consistent_inert; reflexivity.
  - intros s f m. apply power_consistent_inert; reflexivity.
  - intros s b. apply power_consistent_inert; reflexivity.
Qed.

(** X12.  In every state reachable from probe, by any sequence of calls
    and on any platform (failing bus, failing supplies), the regulators and
    the clock are enabled exactly once while the device is runtime-active
    and not at all while it is suspended, and the reset line is high
    exactly while it is active: power is never switched on twice, never
    switched off twice, and never left on behind a failed power-up. *)
Theorem power_follows_runtime_status (s : imx307) :
  reachable s ->
  supplies_enabled (trace s) = Z.b2z (runtime_active s) /\
  clock_enabled (trace s) = Z.b2z (runtime_active s) /\
  reset_level (trace s) = Z.b2z (runtime_active s).
Proof.
  intros (bus & reg & clk & cs & ->).
  apply (keeps_power_run cs). repeat split.
Qed.

Lemma power_follows_runtime_status_witness :
  supplies_enabled (trace suspended_sensor)
    = Z.b2z (runtime_active suspended_sensor) /\
  clock_enabled (trace suspended_sensor)
    = Z.b2z (runtime_active suspended_sensor) /\
  reset_level (trace suspended_sensor)
    = Z.b2z (runtime_active suspended_sensor).
Proof.
  apply (power_follows_runtime_status suspended_sensor).
  exists good_bus, good_supply, good_supply, [Set_stream 1; Suspend].
  reflexivity.
Defined.

Lemma powered_steady (s s' : imx307) :
  steady s s' -> powered_while_streaming s -> powered_while_streaming s'.
Proof.
  intros St [U A]. unfold powered_while_streaming.
  now rewrite (steady_usage _ _ St), (steady_active _ _ St),
    (steady_streaming _ _ St).
Qed.

Lemma powered_start (s : imx307) :
  powered_while_streaming s -> streaming s = false ->
  let r := imx307_start_streaming s in
  streaming (snd r) = false /\
  (fst r <> 0 -> powered_while_streaming (snd r)) /\
  (fst r = 0 -> usage_count (snd r) = 1 /\ runtime_active (snd r) = true).
Proof.
  intros [U A] St r. rewrite St in U, A. cbn [Z.b2z] in U.
  destruct (pm_runtime_get_sync_spec s) as ((I1 & I2 & I3 & I4) & U0 & Pos & Neg).
  destruct (Z.lt_ge_cases (fst (pm_runtime_get_sync s)) 0) as [L|G].
  - subst r. rewrite (start_streaming_power_failure s L). cbn [fst snd].
    unfold powered_while_streaming.
    cbn [streaming pm_runtime_put_noidle emit with_usage_count usage_count
         runtime_active].
    rewrite I3, St, U0, U, (Neg L). cbn [Z.b2z].
    split; [reflexivity|]. split; [intros _; split; [lia | reflexivity]|].
    intros E. lia.
  - destruct (start_streaming_shape s G) as (mid & [Sm _] & Sh).
    assert (usage_count mid = 1) as Um
        by (rewrite (steady_usage _ _ Sm), U0, U; reflexivity).
    assert (runtime_active mid = true) as Am
        by (rewrite (steady_active _ _ Sm); apply (Pos G)).
    assert (streaming mid = false) as Stm
        by (rewrite (steady_streaming _ _ Sm), I3; exact St).
    destruct Sh as [[Nz E]|E]; subst r.
    + rewrite E.
      destruct (pm_runtime_put_spec mid) as ((_ & _ & J3 & _) & V & W1 & _).
      unfold powered_while_streaming. rewrite J3, Stm, V, Um, (W1 Um).
      cbn [Z.b2z]. split; [reflexivity|].
      split; [intros _; split; reflexivity | contradiction].
    + rewrite E. cbn [fst snd].
      split; [exact Stm|]. split; [intros N; now contradiction N|].
      intros _. split; [exact Um | exact Am].
Qed.

Lemma powered_stop (s : imx307) :
  powered_while_streaming s -> streaming s = true ->
  powered_while_streaming (with_streaming (imx307_stop_streaming s) false).
Proof.
  intros [U A] St. rewrite St in U, A. cbn [Z.b2z] in U.
  pose proof (stop_streaming_eq s) as E. cbv zeta in E. rewrite E.
  match goal with
  | |- context [pm_runtime_put ?x] =>
      destruct (pm_runtime_put_spec x) as (_ & V & W1 & _);
      assert (usage_count x = 1) as Ux
          by (destruct (_ =? 3); exact U)
  end.
  unfold powered_while_streaming.
  cbn [streaming with_streaming usage_count runtime_active Z.b2z].
  rewrite V, Ux, (W1 Ux). split; reflexivity.
Qed.

Lemma powered_run_call (s : imx307) (c : call) :
  orderly_call c = true ->
  powered_while_streaming s -> powered_while_streaming (run_call s c).
Proof.
  intros Oc P. destruct c as [cfg f|id v|enable| |]; cbn [run_call];
    try discriminate Oc.
  - destruct (set_pad_format_cases s cfg f)
      as [(ret & cfg' & f' & E)|(m & fm & cfg' & f' & _ & _ & E)];
      rewrite E; [exact P|].
    apply (powered_steady _ _ (steady_apply_mode_change s m fm)).
    exact P.
  - apply (powered_steady s); [|exact P].
    apply (proj1 (quiet_v4l2_s_ctrl s id v)).
  - cbn [orderly_call] in Oc. unfold imx307_set_stream.
    destruct (Z.eqb_spec (Z.b2z (streaming s)) enable) as [E|N]; [exact P|].
    destruct (streaming s) eqn:St; cbn [Z.b2z] in N.
    + (* stop *)
      assert (enable = 0) as -> by
          (apply orb_true_iff in Oc; destruct Oc as [O|O];
           apply Z.eqb_eq in O; [exact O | congruence]).
      change (negb (0 =? 0)) with false. cbv iota. cbn [snd].
      apply powered_stop; [exact P | exact St].
    + (* start *)
      assert (enable = 1) as -> by
          (apply orb_true_iff in Oc; destruct Oc as [O|O];
           apply Z.eqb_eq in O; [congruence | exact O]).
      change (negb (1 =? 0)) with true. cbv iota.
      destruct (powered_start s P St) as (S1 & F1 & F2). cbv zeta in S1, F1, F2.
      destruct (imx307_start_streaming s) as [ret s1]. cbn [fst snd] in *.
      destruct (Z.eqb_spec ret 0) as [Z0|Nz]; cbn [negb snd].
      * destruct (F2 Z0) as [U1 A1]. unfold powered_while_streaming.
        cbn [streaming with_streaming usage_count runtime_active Z.b2z].
        split; assumption.
      * apply F1, Nz.
Qed.

(** X13.  Along any sequence of format, control and stream on/off calls
    (stream with [enable] 0 or 1, no system sleep in between), on any
    platform, the driver holds exactly one runtime-PM reference and the
    device is active while the instance is STREAMING, and it holds none
    and the device is suspended while it is STOPPED; with it the supplies
    and the clock are on exactly while STREAMING.  A failed start, a
    control write or a format change never leaks a reference. *)
Theorem powered_exactly_while_streaming (s : imx307) :
  reachable_orderly s ->
  usage_count s = Z.b2z (streaming s) /\
  runtime_active s = streaming s /\
  supplies_enabled (trace s) = Z.b2z (streaming s) /\
  clock_enabled (trace s) = Z.b2z (streaming s).
Proof.
  intros (bus & reg & clk & cs & Oc & ->).
  assert (powered_while_streaming (run (imx307_probe bus reg clk) cs)) as [U A].
  { assert (powered_while_streaming (imx307_probe bus reg clk)) as P0
        by (split; reflexivity).
    revert Oc P0. generalize (imx307_probe bus reg clk) as s.
    induction cs as [|c cs IH]; intros s Oc P; [exact P|].
    cbn [forallb] in Oc. apply andb_true_iff in Oc. destruct Oc as [O1 O2].
    change (run s (c :: cs)) with (run (run_call s c) cs).
    apply IH; [exact O2|]. now apply powered_run_call. }
  assert (power_consistent (run (imx307_probe bus reg clk) cs))
    as (P1 & P2 & _) by (apply (keeps_power_run cs); repeat split).
  rewrite A in P1, P2. repeat split; assumption.
Qed.

Lemma powered_exactly_while_streaming_witness :
  usage_count streaming_sensor = Z.b2z (streaming streaming_sensor) /\
  runtime_active streaming_sensor = streaming streaming_sensor /\
  supplies_enabled (trace streaming_sensor)
    = Z.b2z (streaming streaming_sensor) /\
  clock_enabled (trace streaming_sensor)
    = Z.b2z (streaming streaming_sensor).
Proof.
  apply (powered_exactly_while_streaming streaming_sensor).
  exists good_bus, good_supply, good_supply, [Set_stream 1].
  split; reflexivity.
Defined.

(** ** Streaming on working hardware *)

Lemma sp_refl (s : imx307) : same_platform s s.
Proof. repeat split. Qed.

Lemma sp_trans (s1 s2 s3 : imx307) :
  same_platform s1 s2 -> same_platform s2 s3 -> same_platform s1 s3.
Proof.
  intros (A1 & A2 & A3) (B1 & B2 & B3). repeat split; congruence.
Qed.

Lemma sp_put_ctrl (s : imx307) (id : ctrl_id) (c : v4l2_ctrl) :
  same_platform s (put_ctrl s id c).
Proof. repeat split. Qed.

Lemma sp_send (s : imx307) (buf : list Z) :
  same_platform s (snd (i2c_master_send s buf)).
Proof. repeat split. Qed.

Lemma sp_log (s : imx307) (m : log_msg) : same_platform s (emit s (EvLog m)).
Proof. repeat split. Qed.

Lemma sp_get_sync (s : imx307) : same_platform s (snd (pm_runtime_get_sync s)).
Proof.
  unfold pm_runtime_get_sync, imx307_power_on. cbv zeta.
  cbn [runtime_active emit with_usage_count].
  destruct (runtime_active s); [repeat split|].
  repeat match goal with
         | |- context [if ?b then _ else _] => destruct b
         end; repeat split.
Qed.

Lemma sp_put (s : imx307) : same_platform s (pm_runtime_put s).
Proof. unfold pm_runtime_put. cbv zeta. destruct (_ && _); repeat split. Qed.

Lemma sp_put_noidle (s : imx307) : same_platform s (pm_runtime_put_noidle s).
Proof. repeat split. Qed.

Lemma sp_get_if_in_use (s : imx307) :
  same_platform s (snd (pm_runtime_get_if_in_use s)).
Proof.
  unfold pm_runtime_get_if_in_use. destruct (_ && _); repeat split.
Qed.

Lemma sp_fmt_mode (s : imx307) (f : v4l2_mbus_framefmt) (m : nat) :
  same_platform s (with_mode (with_fmt s f) m).
Proof. repeat split. Qed.

Lemma sp_streaming (s : imx307) (b : bool) :
  same_platform s (with_streaming s b).
Proof. repeat split. Qed.

Ltac platform_prims :=
  first [ exact sp_refl | exact sp_trans
        | intros; apply sp_put_ctrl | exact sp_send
        | exact sp_log | exact sp_get_sync | exact sp_put
        | exact sp_put_noidle | exact sp_get_if_in_use | exact sp_fmt_mode
        | exact sp_streaming ].

Lemma bus_ok_same_platform (s s' : imx307) :
  same_platform s s' -> bus_ok s -> bus_ok s'.
Proof. intros (A & _) H n c. rewrite A. apply H. Qed.

Lemma supplies_ok_same_platform (s s' : imx307) :
  same_platform s s' -> supplies_ok s -> supplies_ok s'.
Proof. intros (_ & A & B) H n. rewrite A, B. apply H. Qed.

Lemma tg_refl (s : imx307) : trace_grows s s.
Proof. now exists []. Qed.

Lemma tg_trans (s1 s2 s3 : imx307) :
  trace_grows s1 s2 -> trace_grows s2 s3 -> trace_grows s1 s3.
Proof.
  intros (l1 & E1) (l2 & E2). exists (l2 ++ l1).
  now rewrite E2, E1, app_assoc.
Qed.

Lemma tg_emit (s s' : imx307) (e : event) :
  trace s' = trace s -> trace_grows s (emit s' e).
Proof. intros E. exists [e]. cbn [trace emit app]. now rewrite E. Qed.

Lemma tg_same (s s' : imx307) : trace s' = trace s -> trace_grows s s'.
Proof. intros E. exists []. exact E. Qed.

(** The events a state built from [s] by the setters has on top of the
    trace of [s]. *)
Ltac events_above t base :=
  match t with
  | base => constr:(@nil event)
  | ?e :: ?r => let l := events_above r base in constr:(e :: l)
  end.

Ltac trace_grows_by_setters :=
  match goal with
  | |- trace_grows ?s ?s' =>
      let t := eval cbv beta iota zeta
                 delta [trace emit with_usage_count with_power_ups
                        with_runtime_active with_i2c_xfers snd] in (trace s') in
      let b := eval cbv beta iota zeta delta [trace] in (trace s) in
      let l := events_above t b in
      exists l; reflexivity
  end.

Lemma tg_get_sync (s : imx307) : trace_grows s (snd (pm_runtime_get_sync s)).
Proof.
  unfold pm_runtime_get_sync, imx307_power_on. cbv zeta.
  cbn [runtime_active emit with_usage_count].
  destruct (runtime_active s); [trace_grows_by_setters|].
  repeat match goal with
         | |- context [if ?b then _ else _] => destruct b
         end; trace_grows_by_setters.
Qed.

Lemma tg_put (s : imx307) : trace_grows s (pm_runtime_put s).
Proof.
  unfold pm_runtime_put, imx307_power_off. cbv zeta.
  destruct (_ && _); trace_grows_by_setters.
Qed.

Lemma tg_get_if_in_use (s : imx307) :
  trace_grows s (snd (pm_runtime_get_if_in_use s)).
Proof.
  unfold pm_runtime_get_if_in_use. destruct (_ && _); trace_grows_by_setters.
Qed.

Ltac trace_prims :=
  first [ exact tg_refl | exact tg_trans
        | intros; apply tg_same; reflexivity
        | intros; apply tg_emit; reflexivity
        | exact tg_get_sync | exact tg_put | exact tg_get_if_in_use ].

Lemma same_platform_imx307_set_ctrl (s : imx307) (id : ctrl_id) :
  same_platform s (snd (imx307_set_ctrl s id)).
Proof. apply fr_imx307_set_ctrl; platform_prims. Qed.

Lemma same_platform_write_reg (s : imx307) (reg len v : Z) :
  same_platform s (snd (imx307_write_reg s reg len v)).
Proof. apply fr_write_reg; platform_prims. Qed.

Lemma same_platform_write_regs (regs : list imx307_reg) (s : imx307) :
  same_platform s (snd (imx307_write_regs s regs)).
Proof. apply fr_write_regs; platform_prims. Qed.

Lemma same_platform_set_framefmt (s : imx307) :
  same_platform s (snd (imx307_set_framefmt s)).
Proof. apply fr_set_framefmt; platform_prims. Qed.

Lemma same_platform_handler_setup (s : imx307) :
  same_platform s (snd (__v4l2_ctrl_handler_setup imx307_ctrl_ops s)).
Proof. apply fr_handler_setup; platform_prims. Qed.

Lemma trace_grows_handler_setup (s : imx307) :
  trace_grows s (snd (__v4l2_ctrl_handler_setup imx307_ctrl_ops s)).
Proof. apply fr_handler_setup; trace_prims. Qed.

Lemma write_reg_ok (s : imx307) (reg len v : Z) :
  bus_ok s -> 0 <= len <= 4 ->
  imx307_write_reg s reg len v =
  (0, emit (with_i2c_xfers s (S (i2c_xfers s)))
        (EvI2cSend (be_bytes 2 (u16 reg) ++ be_bytes (Z.to_nat len) (u32 v))
           (len + 2))).
Proof.
  intros B H. rewrite write_reg_sends by exact H.
  rewrite (B (i2c_xfers s) (len + 2)), Z.eqb_refl. reflexivity.
Qed.

Lemma write_regs_ok (regs : list imx307_reg) (s : imx307) :
  bus_ok s ->
  fst (imx307_write_regs s regs) = 0 /\
  trace (snd (imx307_write_regs s regs)) =
    rev (map table_write regs) ++ trace s.
Proof.
  revert s. induction regs as [|r rest IH]; intros s B;
    cbn [imx307_write_regs].
  - split; reflexivity.
  - rewrite write_reg8, (B (i2c_xfers s) 3).
    change (3 =? 3) with true. cbv iota.
    change (negb (0 =? 0)) with false. cbv iota.
    match goal with
    | |- context [imx307_write_regs ?s1 rest] =>
        assert (bus_ok s1) as B1 by (intros n c; apply B);
        destruct (IH s1 B1) as [F T]
    end.
    split; [exact F|]. rewrite T. cbn [trace emit map rev].
    now rewrite <- app_assoc.
Qed.

Lemma framefmt_case (code : Z) :
  In code codes ->
  case_of raw8_codes code || case_of raw10_codes code = true.
Proof.
  intros H. cbv [codes In] in H.
  repeat (destruct H as [<- | H]; [reflexivity|]). contradiction.
Qed.

Lemma set_framefmt_ok (s : imx307) :
  bus_ok s -> In (format_code (fmt s)) codes ->
  fst (imx307_set_framefmt s) = 0 /\
  trace (snd (imx307_set_framefmt s)) =
    rev (map table_write (framefmt_regs (format_code (fmt s)))) ++ trace s.
Proof.
  intros B H. pose proof (framefmt_case _ H) as C.
  unfold imx307_set_framefmt, framefmt_regs.
  destruct (case_of raw8_codes _); [now apply write_regs_ok|].
  cbn [orb] in C. rewrite C. now apply write_regs_ok.
Qed.

Lemma set_ctrl_ok (s : imx307) (id : ctrl_id) :
  bus_ok s -> read_only_id id = false -> fst (imx307_set_ctrl s id) = 0.
Proof.
  intros B Ro. rewrite imx307_set_ctrl_eq. unfold imx307_set_ctrl_body.
  set (s1 := match id with V4L2_CID_VBLANK => _ | _ => s end).
  assert (bus_ok s1) as B1.
  { subst s1. destruct id; try exact B.
    eapply bus_ok_same_platform; [|exact B].
    apply (frame_modify_range same_platform); try platform_prims.
    intros s0. apply same_platform_imx307_set_ctrl. }
  clearbody s1.
  destruct (pm_runtime_get_if_in_use_cases s1) as [[_ E]|(A & U & E)];
    rewrite E; cbv beta iota.
  - reflexivity.
  - change (1 =? 0) with false. cbv beta iota zeta.
    set (sg := emit (with_usage_count s1 (usage_count s1 + 1))
                 (EvPmGetIfInUse 1)).
    assert (bus_ok sg) as Bg by (intros n c; apply B1).
    destruct id; try discriminate Ro;
      rewrite write_reg_ok
        by (try exact Bg;
            unfold imx307_REG_VALUE_08BIT, imx307_REG_VALUE_16BIT; lia);
      reflexivity.
Qed.

Lemma handler_setup_loop_ok (l : list ctrl_id) (s : imx307) :
  bus_ok s ->
  (forall id, is_read_only (ctrl s id) = read_only_id id) ->
  fst (handler_setup_loop imx307_ctrl_ops s l) = 0.
Proof.
  revert s. induction l as [|id rest IH]; intros s B Ro;
    cbn [handler_setup_loop]; [reflexivity|].
  rewrite Ro. destruct (read_only_id id) eqn:Rid; [now apply IH|].
  assert (bus_ok (cur_to_new s id)) as Bc by (intros n c; apply B).
  pose proof (set_ctrl_ok (cur_to_new s id) id Bc Rid) as Z0.
  pose proof (same_platform_imx307_set_ctrl (cur_to_new s id) id) as Sp.
  pose proof (steady_imx307_set_ctrl (cur_to_new s id) id) as St.
  unfold imx307_ctrl_ops.
  destruct (imx307_set_ctrl (cur_to_new s id) id) as [ret s1].
  cbn [fst snd] in *. subst ret. change (negb (0 =? 0)) with false. cbv iota.
  apply IH; [now apply (bus_ok_same_platform _ _ Sp)|].
  intros j. rewrite (steady_is_read_only _ _ j St).
  rewrite (steady_is_read_only _ _ j (steady_cur_to_new s id)). apply Ro.
Qed.

Lemma get_sync_ok (s : imx307) :
  supplies_ok s -> 0 <= fst (pm_runtime_get_sync s).
Proof.
  intros H. unfold pm_runtime_get_sync, imx307_power_on. cbv zeta.
  cbn [runtime_active emit with_usage_count power_ups with_power_ups
       regulator_bulk_enable_err clk_prepare_enable_err].
  destruct (runtime_active s); [cbn [fst]; lia|].
  destruct (H (power_ups s)) as [-> ->].
  change (negb (- Z.of_nat 0 =? 0)) with false. cbv iota.
  change (0 =? 0) with true. cbv iota. cbn [fst]. lia.
Qed.

(** *** The control replay writes control registers only *)

Lemma ct_refl (s : imx307) : control_traffic s s.
Proof. exists []. split; reflexivity. Qed.

Lemma ct_trans (s1 s2 s3 : imx307) :
  control_traffic s1 s2 -> control_traffic s2 s3 -> control_traffic s1 s3.
Proof.
  intros (l1 & E1 & F1) (l2 & E2 & F2). exists (l2 ++ l1). split.
  - rewrite E2, E1. apply app_assoc.
  - rewrite forallb_app, F1, F2. reflexivity.
Qed.

Lemma ct_same (s s' : imx307) : trace s' = trace s -> control_traffic s s'.
Proof. intros E. exists []. split; [exact E | reflexivity]. Qed.

Lemma ct_set_ctrl_body (self : v4l2_ctrl_ops) :
  (forall s, control_traffic s (snd (self s V4L2_CID_EXPOSURE))) ->
  forall s id, read_only_id id = false ->
               control_traffic s (snd (imx307_set_ctrl_body self s id)).
Proof.
  intros Hself s id Ro. unfold imx307_set_ctrl_body.
  set (s1 := match id with V4L2_CID_VBLANK => _ | _ => s end).
  assert (control_traffic s s1) as C1.
  { subst s1. destruct id; try apply ct_refl.
    apply (frame_modify_range control_traffic ct_refl ct_trans);
      try (intros; apply ct_same; reflexivity).
    exact Hself. }
  apply (ct_trans _ _ _ C1). clearbody s1. clear C1.
  destruct (pm_runtime_get_if_in_use_cases s1) as [[_ E]|(A & U & E)];
    rewrite E; cbv beta iota.
  - change (0 =? 0) with true. cbv iota. cbn [snd].
    exists [EvPmGetIfInUse 0]. split; reflexivity.
  - change (1 =? 0) with false. cbv beta iota zeta.
    set (sg := emit (with_usage_count s1 (usage_count s1 + 1))
                 (EvPmGetIfInUse 1)).
    assert (forall sw, usage_count sw = usage_count s1 + 1 ->
                       trace (pm_runtime_put sw) = EvPmPut :: trace sw) as Put.
    { intros sw Us. unfold pm_runtime_put. cbv zeta.
      cbn [usage_count emit with_usage_count]. rewrite Us.
      destruct (Z.eqb_spec (usage_count s1 + 1 - 1) 0) as [Z0|_]; [lia|].
      reflexivity. }
    destruct id; try discriminate Ro;
      rewrite write_reg_sends
        by (unfold imx307_REG_VALUE_08BIT, imx307_REG_VALUE_16BIT; lia);
      cbv beta iota; cbn [snd]; unfold control_traffic;
      rewrite Put by reflexivity;
      eexists [EvPmPut; EvI2cSend _ _; EvPmGetIfInUse 1];
      (split; [reflexivity|]); reflexivity.
Qed.

Lemma ct_imx307_set_ctrl (s : imx307) (id : ctrl_id) :
  read_only_id id = false -> control_traffic s (snd (imx307_set_ctrl s id)).
Proof.
  intros Ro. unfold imx307_set_ctrl. apply ct_set_ctrl_body; [|exact Ro].
  intros s0. apply ct_set_ctrl_body; [|reflexivity].
  intros s1. apply ct_refl.
Qed.

Lemma ct_handler_setup_loop (l : list ctrl_id) (s : imx307) :
  (forall id, is_read_only (ctrl s id) = read_only_id id) ->
  control_traffic s (snd (handler_setup_loop imx307_ctrl_ops s l)).
Proof.
  revert s. induction l as [|id rest IH]; intros s Ro;
    cbn [handler_setup_loop]; [apply ct_refl|].
  rewrite Ro. destruct (read_only_id id) eqn:Rid; [now apply IH|].
  pose proof (ct_imx307_set_ctrl (cur_to_new s id) id Rid) as C.
  pose proof (steady_imx307_set_ctrl (cur_to_new s id) id) as St.
  unfold imx307_ctrl_ops.
  destruct (imx307_set_ctrl (cur_to_new s id) id) as [ret s1].
  cbn [fst snd] in *.
  assert (control_traffic s s1) as C1
      by (eapply ct_trans; [apply ct_same; reflexivity | exact C]).
  destruct (negb (ret =? 0)); cbn [snd]; [exact C1|].
  apply (ct_trans _ _ _ C1). apply IH.
  intros j. rewrite (steady_is_read_only _ _ j St).
  rewrite (steady_is_read_only _ _ j (steady_cur_to_new s id)). apply Ro.
Qed.

(** X14.  On working hardware a stopped sensor always starts.  From any
    reachable STOPPED state, on a bus that takes every transfer and with
    supplies that come up, [imx307_set_stream s 1] returns 0 and leaves the
    instance STREAMING, powered, one power reference up and with both
    flips grabbed; format and mode are as they were.  What it has added to
    the trace is, oldest first: the power-up, the register table of the
    current mode, the frame-format table of the current code, the control
    replay, and last the stream-on write.  The control replay consists of
    nothing but probes and puts of the power reference and writes to the
    control registers (frame length, exposure, the gains, orientation,
    test pattern and its colours). *)
Theorem start_succeeds_on_working_hardware (s : imx307) :
  reachable s -> bus_ok s -> supplies_ok s -> streaming s = false ->
  exists s' ctl,
    imx307_set_stream s 1 = (0, s') /\
    streaming s' = true /\ flips_grabbed s' true /\
    runtime_active s' = true /\ usage_count s' = usage_count s + 1 /\
    fmt s' = fmt s /\ mode s' = mode s /\
    trace s' =
      (table_write (R imx307_REG_MODE_SELECT imx307_MODE_STREAMING) :: ctl)
      ++ rev (map table_write (framefmt_regs (format_code (fmt s))))
      ++ rev (map table_write (reg_list (cur_mode s)))
      ++ trace (snd (pm_runtime_get_sync s)) /\
    forallb control_event ctl = true.
Proof.
  intros Rs B Sup St. pose proof (reachable_wf s Rs) as W.
  unfold imx307_set_stream. rewrite St.
  change (Z.b2z false =? 1) with false. change (negb (1 =? 0)) with true.
  cbv iota. unfold imx307_start_streaming.
  pose proof (get_sync_ok s Sup) as G0.
  destruct (pm_runtime_get_sync_spec s) as ((I1 & I2 & I3 & I4) & U0 & Pos & _).
  pose proof (sp_get_sync s) as P0. specialize (Pos G0).
  destruct (pm_runtime_get_sync s) as [r0 s0]. cbn [fst snd] in *.
  destruct (Z.ltb_spec r0 0) as [|_]; [lia|].
  assert (bus_ok s0) as B0 by (apply (bus_ok_same_platform _ _ P0 B)).
  (* the mode table *)
  destruct (write_regs_ok (reg_list (cur_mode s0)) s0 B0) as [F1 T1].
  pose proof (steady_write_regs (reg_list (cur_mode s0)) s0) as S1.
  pose proof (same_platform_write_regs (reg_list (cur_mode s0)) s0) as P1.
  destruct (imx307_write_regs s0 (reg_list (cur_mode s0))) as [r1 s1].
  cbn [fst snd] in *. subst r1. change (negb (0 =? 0)) with false. cbv iota.
  assert (bus_ok s1) as B1 by (apply (bus_ok_same_platform _ _ P1 B0)).
  (* the frame format *)
  assert (In (format_code (fmt s1)) codes) as C1
      by (rewrite (steady_fmt _ _ S1), I1; apply (wf_code _ W)).
  destruct (set_framefmt_ok s1 B1 C1) as [F2 T2].
  pose proof (steady_set_framefmt s1) as S2.
  pose proof (same_platform_set_framefmt s1) as P2.
  destruct (imx307_set_framefmt s1) as [r2 s2].
  cbn [fst snd] in *. subst r2. change (negb (0 =? 0)) with false. cbv iota.
  assert (bus_ok s2) as B2 by (apply (bus_ok_same_platform _ _ P2 B1)).
  (* the controls *)
  assert (forall id, is_read_only (ctrl s2 id) = read_only_id id) as Ro2.
  { intros id. rewrite (steady_is_read_only _ _ id S2).
    rewrite (steady_is_read_only _ _ id S1).
    unfold is_read_only. rewrite I4. apply (wf_read_only _ W). }
  pose proof (handler_setup_loop_ok handler_ctrls s2 B2 Ro2) as F3.
  fold (__v4l2_ctrl_handler_setup imx307_ctrl_ops s2) in F3.
  pose proof (steady_handler_setup s2) as S3.
  pose proof (same_platform_handler_setup s2) as P3.
  destruct (ct_handler_setup_loop handler_ctrls s2 Ro2) as (ctl & T3 & Fc).
  fold (__v4l2_ctrl_handler_setup imx307_ctrl_ops s2) in T3.
  destruct (__v4l2_ctrl_handler_setup imx307_ctrl_ops s2) as [r3 s3].
  cbn [fst snd] in *. subst r3. change (negb (0 =? 0)) with false. cbv iota.
  assert (bus_ok s3) as B3 by (apply (bus_ok_same_platform _ _ P3 B2)).
  (* stream on *)
  rewrite write_reg8, (B3 (i2c_xfers s3) 3).
  change (3 =? 3) with true. cbv iota.
  change (negb (0 =? 0)) with false. cbv iota.
  eexists _, ctl. split; [reflexivity|].
  cbn [streaming with_streaming].
  split; [reflexivity|].
  split.
  { unfold flips_grabbed. rewrite !ctrl_with_streaming.
    split; [apply grab_ctrl_same|].
    rewrite grab_ctrl_other by discriminate. apply grab_ctrl_same. }
  cbn [runtime_active usage_count fmt mode trace with_streaming
       __v4l2_ctrl_grab put_ctrl with_ctrl_handler emit with_i2c_xfers].
  rewrite (steady_active _ _ S3), (steady_active _ _ S2),
    (steady_active _ _ S1), (steady_usage _ _ S3), (steady_usage _ _ S2),
    (steady_usage _ _ S1), (steady_fmt _ _ S3), (steady_fmt _ _ S2),
    (steady_fmt _ _ S1), (steady_mode _ _ S3), (steady_mode _ _ S2),
    (steady_mode _ _ S1).
  split; [exact Pos|]. split; [exact U0|]. split; [exact I1|].
  split; [exact I2|]. split; [|exact Fc].
  rewrite T3, T2, T1, (steady_fmt _ _ S1), I1.
  unfold cur_mode. rewrite I2. reflexivity.
Qed.

Lemma start_succeeds_on_working_hardware_witness :
  exists s' ctl,
    imx307_set_stream sound_sensor 1 = (0, s') /\
    streaming s' = true /\ flips_grabbed s' true /\
    runtime_active s' = true /\
    usage_count s' = usage_count sound_sensor + 1 /\
    fmt s' = fmt sound_sensor /\ mode s' = mode sound_sensor /\
    trace s' =
      (table_write (R imx307_REG_MODE_SELECT imx307_MODE_STREAMING) :: ctl)
      ++ rev (map table_write
                (framefmt_regs (format_code (fmt sound_sensor))))
      ++ rev (map table_write (reg_list (cur_mode sound_sensor)))
      ++ trace (snd (pm_runtime_get_sync sound_sensor)) /\
    forallb control_event ctl = true.
Proof.
  apply (start_succeeds_on_working_hardware sound_sensor
           reachable_sound_sensor).
  - intros n c. reflexivity.
  - intros n. split; reflexivity.
  - reflexivity.
Defined.

(** ** Control ranges *)

Lemma check_range_sane (t : v4l2_ctrl_type) (min max stp def : Z) :
  check_range t min max stp def = 0 -> min <= def <= max.
Proof.
  unfold check_range. intros H.
  destruct (Z.gtb_spec min max); destruct (Z.ltb_spec def min);
    destruct (Z.gtb_spec def max); try lia;
    destruct t;
    repeat match type of H with
           | context [?a =? ?b] => destruct (a =? b)
           | context [?a >? ?b] => destruct (a >? b)
           | context [?a <? ?b] => destruct (a <? b)
           end; cbn [orb andb negb] in H; discriminate H.
Qed.

Lemma range_sane_put (s : imx307) (id : ctrl_id) (c : v4l2_ctrl) :
  minimum c <= default_value c <= maximum c ->
  keeps_range_sane s (put_ctrl s id c).
Proof.
  intros H Hs j. destruct (ctrl_id_eq_dec j id) as [->|N].
  - now rewrite ctrl_put_same.
  - rewrite ctrl_put_other by exact N. apply Hs.
Qed.

Lemma range_sane_inert (s s' : imx307) :
  (forall id, ctrl s' id = ctrl s id) -> keeps_range_sane s s'.
Proof. intros E Hs j. rewrite E. apply Hs. Qed.

Lemma range_sane_run (cs : list call) (s : imx307) :
  keeps_range_sane s (run s cs).
Proof.
  apply fr_run; clear s cs.
  - intros s H; exact H.
  - intros s1 s2 s3 A B H. apply B, A, H.
  - intros s id v Hs. apply range_sane_put; [apply Hs | exact Hs].
  - intros s id v Hs. apply range_sane_put; [apply Hs | exact Hs].
  - intros s id f Hs. apply range_sane_put; [apply Hs | exact Hs].
  - intros s id mn mx stp def C _ _ _. apply range_sane_put.
    cbn [with_range minimum maximum default_value].
    apply (check_range_sane _ _ _ _ _ C).
  - intros s buf. apply range_sane_inert. reflexivity.
  - intros s m. apply range_sane_inert. reflexivity.
  - intros s. apply range_sane_inert.
    destruct (pm_runtime_get_sync_spec s) as ((_ & _ & _ & C) & _). exact C.
  - intros s. apply range_sane_inert, same_ctrls_pm_runtime_put.
  - intros s. apply range_sane_inert. reflexivity.
  - intros s. apply range_sane_inert.
    unfold pm_runtime_get_if_in_use. destruct (_ && _); reflexivity.
  - intros s f m. apply range_sane_inert. reflexivity.
  - intros s b. apply range_sane_inert. reflexivity.
Qed.

Lemma fixed_ranges_put (s : imx307) (id : ctrl_id) (c : v4l2_ctrl) :
  (mode_ctrl id = false -> range_of c = range_of (ctrl s id)) ->
  keeps_fixed_ranges s (put_ctrl s id c).
Proof.
  intros H j Hj. destruct (ctrl_id_eq_dec j id) as [->|N].
  - rewrite ctrl_put_same. now apply H.
  - now rewrite ctrl_put_other.
Qed.

Lemma fixed_ranges_inert (s s' : imx307) :
  (forall id, ctrl s' id = ctrl s id) -> keeps_fixed_ranges s s'.
Proof. intros E j _. now rewrite E. Qed.

Lemma fixed_ranges_run (cs : list call) (s : imx307) :
  keeps_fixed_ranges s (run s cs).
Proof.
  apply fr_run; clear s cs.
  - intros s j _. reflexivity.
  - intros s1 s2 s3 A B j Hj. now rewrite (B j Hj), (A j Hj).
  - intros s id v. apply fixed_ranges_put. reflexivity.
  - intros s id v. apply fixed_ranges_put. reflexivity.
  - intros s id f. apply fixed_ranges_put. reflexivity.
  - intros s id mn mx stp def _ M _ _. apply fixed_ranges_put. congruence.
  - intros s buf. apply fixed_ranges_inert. reflexivity.
  - intros s m. apply fixed_ranges_inert. reflexivity.
  - intros s. apply fixed_ranges_inert.
    destruct (pm_runtime_get_sync_spec s) as ((_ & _ & _ & C) & _). exact C.
  - intros s. apply fixed_ranges_inert, same_ctrls_pm_runtime_put.
  - intros s. apply fixed_ranges_inert. reflexivity.
  - intros s. apply fixed_ranges_inert.
    unfold pm_runtime_get_if_in_use. destruct (_ && _); reflexivity.
  - intros s f m. apply fixed_ranges_inert. reflexivity.
  - intros s b. apply fixed_ranges_inert. reflexivity.
Qed.

Lemma mode_ranges_tame (s s' : imx307) :
  tame s s' -> mode_ranges s -> mode_ranges s'.
Proof.
  intros (_ & M & _ & _ & (K & _)) [V H]. unfold mode_ranges, cur_mode.
  rewrite M, (K V4L2_CID_VBLANK), (K V4L2_CID_HBLANK) by discriminate.
  split; [exact V | exact H].
Qed.

Lemma mode_ranges_apply_mode_change (s : imx307) (m : nat)
    (f : v4l2_mbus_framefmt) :
  wf s -> (m < 4)%nat -> mode_ranges (apply_mode_change s m f).
Proof.
  intros W Hm.
  destruct (mode_numbers m Hm) as (_ & _ & N3 & _ & _).
  pose proof (steady_apply_mode_change s m f) as St.
  unfold mode_ranges, cur_mode. rewrite (steady_mode _ _ St).
  cbn [mode with_mode].
  unfold apply_mode_change. cbv zeta.
  set (s0 := with_mode (with_fmt s f) m).
  set (sv := update_vblank s0 (mode_at m)).
  set (se := update_exposure sv (mode_at m)).
  assert (only_ctrl V4L2_CID_EXPOSURE sv se) as Oe
      by (apply only_ctrl_modify_range_driver; discriminate).
  assert (only_ctrl V4L2_CID_HBLANK se (update_hblank se (mode_at m))) as Oh
      by (apply only_ctrl_modify_range_driver; discriminate).
  split.
  - rewrite Oh, Oe by discriminate.
    apply update_vblank_range; [|exact Hm].
    change (ctrl s0 V4L2_CID_VBLANK) with (ctrl s V4L2_CID_VBLANK).
    apply (wf_ctype _ W).
  - unfold update_hblank. cbv zeta. rewrite N3.
    apply modify_range_sets_range.
    assert (steady s0 se) as Se
        by (eapply steady_trans;
            [apply steady_update_vblank | apply steady_update_exposure]).
    rewrite (steady_ctype _ _ Se).
    change (ctrl s0 V4L2_CID_HBLANK) with (ctrl s V4L2_CID_HBLANK).
    rewrite (wf_ctype _ W). apply check_range_point.
Qed.

Lemma mode_ranges_run_call (s : imx307) (c : call) :
  wf s -> mode_ranges s -> mode_ranges (run_call s c).
Proof.
  intros W P. destruct c as [cfg f|id v|enable| |]; cbn [run_call].
  - destruct (set_pad_format_cases s cfg f)
      as [(ret & cfg' & f' & E)|(m & fm & cfg' & f' & Hm & Hc & E)];
      rewrite E; [exact P | now apply mode_ranges_apply_mode_change].
  - eapply mode_ranges_tame; [apply quiet_tame, quiet_v4l2_s_ctrl | exact P].
  - unfold imx307_set_stream.
    destruct (Z.b2z (streaming s) =? enable); [exact P|].
    destruct (negb (enable =? 0)).
    + destruct (start_streaming_spec s) as (T & _).
      destruct (imx307_start_streaming s) as [ret s1]. cbn [snd] in T.
      destruct (negb (ret =? 0)); cbn [snd].
      * eapply mode_ranges_tame; eauto.
      * eapply mode_ranges_tame; [|exact P].
        eapply tame_trans; [exact T | apply tame_with_streaming].
    + cbn [snd]. destruct (stop_streaming_spec s) as (T & _).
      eapply mode_ranges_tame; [|exact P].
      eapply tame_trans; [exact T | apply tame_with_streaming].
  - unfold imx307_suspend. destruct (streaming s); cbn [snd]; [|exact P].
    eapply mode_ranges_tame; [apply stop_streaming_spec | exact P].
  - unfold imx307_resume. destruct (streaming s); cbn [snd]; [|exact P].
    destruct (start_streaming_spec s) as (T & _).
    destruct (imx307_start_streaming s) as [ret s1]. cbn [snd] in T.
    destruct (negb (ret =? 0)); cbn [snd].
    + eapply mode_ranges_tame; [|exact P].
      eapply tame_trans; [exact T|].
      eapply tame_trans; [apply stop_streaming_spec|].
      apply tame_with_streaming.
    + eapply mode_ranges_tame; eauto.
Qed.

Lemma reachable_mode_ranges (s : imx307) : reachable s -> mode_ranges s.
Proof.
  intros (bus & reg & clk & cs & ->).
  assert (wf (imx307_probe bus reg clk)) as W0 by apply wf_probe.
  assert (mode_ranges (imx307_probe bus reg clk)) as P0
      by (split; reflexivity).
  revert W0 P0. generalize (imx307_probe bus reg clk) as s.
  induction cs as [|c cs IH]; intros s W P; [exact P|].
  change (run s (c :: cs)) with (run (run_call s c) cs).
  apply IH; [now apply wf_run_call | now apply mode_ranges_run_call].
Qed.

Lemma reachable_range_sane (s : imx307) : reachable s -> range_sane s.
Proof.
  intros (bus & reg & clk & cs & ->). apply (range_sane_run cs).
  intros id. destruct id; vm_compute; split; discriminate.
Qed.

Lemma reachable_fixed_ranges (s : imx307) (id : ctrl_id) :
  reachable s -> mode_ctrl id = false ->
  range_of (ctrl s id) = range_of (ctrl (imx307_init_controls s) id).
Proof.
  intros (bus & reg & clk & cs & ->) Hid.
  rewrite (fixed_ranges_run cs _ id Hid).
  destruct id; try discriminate Hid; reflexivity.
Qed.

(** X15.  Control ranges in every reachable state.  Every control other
    than the exposure has exactly the range [imx307_init_controls] would
    give it for the current mode: the gains, flips, test pattern and pixel
    rate keep the range they were created with, and the two blanking
    controls follow the mode (vertical blank [4, 0xffff - height] with
    default vts_def - height, horizontal blank pinned to 3448 - width).
    The exposure keeps minimum 4 and step 1, and the default of every
    control, the exposure included, lies within its limits. *)
Theorem control_ranges_follow_mode (s : imx307) :
  reachable s ->
  (forall id, id <> V4L2_CID_EXPOSURE ->
     range_of (ctrl s id) = range_of (ctrl (imx307_init_controls s) id)) /\
  minimum (ctrl s V4L2_CID_EXPOSURE) = imx307_EXPOSURE_MIN /\
  step (ctrl s V4L2_CID_EXPOSURE) = imx307_EXPOSURE_STEP /\
  (forall id,
     minimum (ctrl s id) <= default_value (ctrl s id) <= maximum (ctrl s id)).
Proof.
  intros Rs. pose proof (reachable_wf s Rs) as W.
  destruct (reachable_mode_ranges s Rs) as [V H].
  pose proof (wf_mode _ W) as Hm.
  destruct (check_range_vblank (mode s) Hm) as (_ & E1 & E2).
  destruct (mode_numbers (mode s) Hm) as (_ & _ & N3 & _ & _).
  split; [|split; [apply (wf_exposure_min _ W)|
                   split; [apply (wf_exposure_step _ W)
                          | apply (reachable_range_sane s Rs)]]].
  intros id Ne.
  destruct (mode_ctrl id) eqn:M;
    [|now apply reachable_fixed_ranges].
  destruct id; try discriminate M; try contradiction.
  - rewrite V. unfold imx307_init_controls, ctrl, range_of, v4l2_ctrl_new.
    cbn [ctrl_handler with_ctrl_handler minimum maximum step default_value].
    unfold cur_mode in *. now rewrite E1, E2.
  - rewrite H. unfold imx307_init_controls, ctrl, range_of, v4l2_ctrl_new.
    cbn [ctrl_handler with_ctrl_handler minimum maximum step default_value].
    unfold cur_mode in *. now rewrite N3.
Qed.

Lemma control_ranges_follow_mode_witness :
  (forall id, id <> V4L2_CID_EXPOSURE ->
     range_of (ctrl streaming_sensor id)
       = range_of (ctrl (imx307_init_controls streaming_sensor) id)) /\
  minimum (ctrl streaming_sensor V4L2_CID_EXPOSURE) = imx307_EXPOSURE_MIN /\
  step (ctrl streaming_sensor V4L2_CID_EXPOSURE) = imx307_EXPOSURE_STEP /\
  (forall id,
     minimum (ctrl streaming_sensor id)
       <= default_value (ctrl streaming_sensor id)
       <= maximum (ctrl streaming_sensor id)).
Proof.
  exact (control_ranges_follow_mode streaming_sensor
           (reachable_awake_reachable _ reachable_awake_streaming_sensor)).
Defined.

(** ** Setting controls while the device is not powered *)

Lemma silent_refl (s : imx307) : silent s s.
Proof. intros U. split; [exact U | reflexivity]. Qed.

Lemma silent_trans (s1 s2 s3 : imx307) :
  silent s1 s2 -> silent s2 s3 -> silent s1 s3.
Proof.
  intros A B U. destruct (A U) as [U2 E2]. destruct (B U2) as [U3 E3].
  split; [exact U3 | congruence].
Qed.

Lemma silent_put (s : imx307) (id : ctrl_id) (c : v4l2_ctrl) :
  silent s (put_ctrl s id c).
Proof. intros U. split; [exact U | reflexivity]. Qed.

Lemma silent_set_ctrl_body (self : v4l2_ctrl_ops) :
  (forall s id, silent s (snd (self s id))) ->
  forall s id, silent s (snd (imx307_set_ctrl_body self s id)).
Proof.
  intros Hself s id. unfold imx307_set_ctrl_body.
  set (s1 := match id with V4L2_CID_VBLANK => _ | _ => s end).
  assert (silent s s1) as H1.
  { subst s1. destruct id; try apply silent_refl.
    apply (frame_modify_range silent);
      auto using silent_refl, silent_put.
    apply silent_trans. }
  clearbody s1. intros U. destruct (H1 U) as [U1 E1].
  unfold pm_runtime_get_if_in_use. unfold unpowered in U1. rewrite U1.
  change (0 =? 0) with true. cbv iota. cbn [snd].
  split; [exact U1 | exact E1].
Qed.

Lemma silent_imx307_set_ctrl (s : imx307) (id : ctrl_id) :
  silent s (snd (imx307_set_ctrl s id)).
Proof.
  unfold imx307_set_ctrl. apply silent_set_ctrl_body.
  apply silent_set_ctrl_body. intros s0 _. apply silent_refl.
Qed.

Lemma silent_v4l2_s_ctrl (s : imx307) (id : ctrl_id) (v : Z) :
  silent s (snd (v4l2_s_ctrl imx307_ctrl_ops s id v)).
Proof.
  apply (frame_v4l2_s_ctrl silent); auto using silent_refl, silent_put.
  - apply silent_trans.
  - intros s0. apply silent_imx307_set_ctrl.
Qed.

Lemma reachable_step1 (s : imx307) (id : ctrl_id) :
  reachable s -> ctype_of id = V4L2_CTRL_TYPE_INTEGER ->
  step (ctrl s id) = 1.
Proof.
  intros Rs T. pose proof (reachable_wf s Rs) as W.
  destruct (mode_ctrl id) eqn:M.
  - destruct id; try discriminate M.
    + apply (wf_vblank_step _ W).
    + destruct (reachable_mode_ranges s Rs) as [_ H].
      now destruct (range_of_eq _ _ _ _ _ H) as (_ & _ & E & _).
    + apply (wf_exposure_step _ W).
  - pose proof (reachable_fixed_ranges s id Rs M) as E.
    destruct id; try discriminate M; try discriminate T;
      unfold range_of in E; now inversion E.
Qed.

Lemma v4l2_s_ctrl_writable (s : imx307) (id : ctrl_id) (v : Z) :
  ctype (ctrl s id) = V4L2_CTRL_TYPE_INTEGER ->
  is_read_only (ctrl s id) = false ->
  v4l2_s_ctrl imx307_ctrl_ops s id v =
  __v4l2_ctrl_s_ctrl imx307_ctrl_ops s id v.
Proof.
  intros T Ro. unfold v4l2_s_ctrl, __v4l2_ctrl_s_ctrl, is_int.
  rewrite T, Ro. reflexivity.
Qed.

Lemma s_ctrl_returns_0 (s : imx307) (id : ctrl_id) (v : Z) :
  unpowered s ->
  is_grabbed (ctrl s id) = false ->
  ctype (ctrl s id) = V4L2_CTRL_TYPE_INTEGER ->
  step (ctrl s id) = 1 ->
  minimum (ctrl s id) <= maximum (ctrl s id) ->
  fst (__v4l2_ctrl_s_ctrl imx307_ctrl_ops s id v) = 0.
Proof.
  intros U G T S1 Mm. unfold __v4l2_ctrl_s_ctrl, is_int. rewrite T.
  cbn [negb]. cbv iota.
  apply set_ctrl_commits; rewrite ?ctrl_put_same; auto.
Qed.

(** X16.  Setting a writable integer control (vertical blank, exposure,
    the gains, the test-pattern colours) while the device is not powered,
    in any reachable state: the call returns 0, nothing is sent on the bus,
    the device stays unpowered, and the control holds the requested value
    clamped into its range (an out-of-range request is not an error); its
    range is untouched.  Except for a vertical-blank write, which re-ranges
    the exposure, no other control changes. *)
Theorem s_ctrl_stores_clamped_value_unpowered (s : imx307) (id : ctrl_id)
    (v : Z) :
  reachable s -> unpowered s ->
  ctype_of id = V4L2_CTRL_TYPE_INTEGER -> read_only_id id = false ->
  let r := v4l2_s_ctrl imx307_ctrl_ops s id v in
  fst r = 0 /\
  cur_val (ctrl (snd r) id) =
    clamp (s32 v) (minimum (ctrl s id)) (maximum (ctrl s id)) /\
  minimum (ctrl s id) <= cur_val (ctrl (snd r) id) <= maximum (ctrl s id) /\
  range_of (ctrl (snd r) id) = range_of (ctrl s id) /\
  i2c_xfers (snd r) = i2c_xfers s /\
  unpowered (snd r) /\
  (id <> V4L2_CID_VBLANK -> forall j, j <> id -> ctrl (snd r) j = ctrl s j).
Proof.
  intros Rs U T Ro r. pose proof (reachable_wf s Rs) as W.
  assert (is_flip id = false) as Nf by (destruct id; try discriminate T; reflexivity).
  pose proof (reachable_not_grabbed s id Rs Nf) as G.
  pose proof (reachable_step1 s id Rs T) as S1.
  destruct (reachable_range_sane s Rs id) as [Lo Hi].
  assert (minimum (ctrl s id) <= maximum (ctrl s id)) as Mm by lia.
  assert (ctype (ctrl s id) = V4L2_CTRL_TYPE_INTEGER) as Tc
      by (rewrite (wf_ctype _ W); exact T).
  assert (is_read_only (ctrl s id) = false) as Rc
      by (rewrite (wf_read_only _ W); exact Ro).
  destruct (silent_v4l2_s_ctrl s id v U) as [U' X'].
  subst r. rewrite v4l2_s_ctrl_writable in * by assumption.
  pose proof (s_ctrl_commits s id v U G Tc S1 Mm) as Cv.
  split; [now apply s_ctrl_returns_0|].
  split; [exact Cv|].
  split; [rewrite Cv; unfold clamp; lia|].
  split; [apply keeps_range_of_s_ctrl|].
  split; [exact X'|]. split; [exact U'|].
  intros Nv j Nj.
  apply (frame_s_ctrl (only_ctrl id));
    auto using only_ctrl_refl, only_ctrl_put.
  - apply only_ctrl_trans.
  - intros s0. apply same_ctrls_only, imx307_set_ctrl_same_ctrls. exact Nv.
Qed.

Lemma s_ctrl_stores_clamped_value_unpowered_witness :
  fst (v4l2_s_ctrl imx307_ctrl_ops sound_sensor V4L2_CID_ANALOGUE_GAIN 1000)
    = 0 /\
  cur_val (ctrl (snd (v4l2_s_ctrl imx307_ctrl_ops sound_sensor
                        V4L2_CID_ANALOGUE_GAIN 1000))
             V4L2_CID_ANALOGUE_GAIN) =
    clamp (s32 1000)
      (minimum (ctrl sound_sensor V4L2_CID_ANALOGUE_GAIN))
      (maximum (ctrl sound_sensor V4L2_CID_ANALOGUE_GAIN)) /\
  i2c_xfers (snd (v4l2_s_ctrl imx307_ctrl_ops sound_sensor
                    V4L2_CID_ANALOGUE_GAIN 1000))
    = i2c_xfers sound_sensor.
Proof.
  assert (unpowered sound_sensor) as U by reflexivity.
  assert (ctype_of V4L2_CID_ANALOGUE_GAIN = V4L2_CTRL_TYPE_INTEGER) as T
      by reflexivity.
  assert (read_only_id V4L2_CID_ANALOGUE_GAIN = false) as Ro by reflexivity.
  pose proof (s_ctrl_stores_clamped_value_unpowered sound_sensor
                V4L2_CID_ANALOGUE_GAIN 1000 reachable_sound_sensor U T Ro)
    as (A & B & _ & _ & C & _).
  split; [exact A|]. split; [exact B | exact C].
Defined.

(** The callback on the vertical blank of a device that is not powered:
    the exposure is re-ranged to the frame length less 4 and its value
    clamped into the new range. *)
Lemma set_ctrl_vblank_unpowered (s : imx307) :
  unpowered s ->
  is_grabbed (ctrl s V4L2_CID_EXPOSURE) = false ->
  ctype (ctrl s V4L2_CID_EXPOSURE) = V4L2_CTRL_TYPE_INTEGER ->
  minimum (ctrl s V4L2_CID_EXPOSURE) = imx307_EXPOSURE_MIN ->
  step (ctrl s V4L2_CID_EXPOSURE) = imx307_EXPOSURE_STEP ->
  let emax := height (cur_mode s) + val (ctrl s V4L2_CID_VBLANK) - 4 in
  imx307_EXPOSURE_MIN <= emax < 2 ^ 31 ->
  let s' := snd (imx307_set_ctrl s V4L2_CID_VBLANK) in
  range_of (ctrl s' V4L2_CID_EXPOSURE) =
    (imx307_EXPOSURE_MIN, emax, imx307_EXPOSURE_STEP,
     Z.min emax imx307_EXPOSURE_DEFAULT) /\
  cur_val (ctrl s' V4L2_CID_EXPOSURE) =
    clamp (cur_val (ctrl s V4L2_CID_EXPOSURE)) imx307_EXPOSURE_MIN emax.
Proof.
  intros U G T Mn Sp emax He s'.
  split.
  - subst s'. rewrite set_ctrl_vblank_exposure_range by assumption.
    fold emax. now rewrite exposure_def_of_min.
  - subst s'. rewrite imx307_set_ctrl_eq.
    rewrite (set_ctrl_body_tail imx307_set_ctrl s V4L2_CID_VBLANK
               V4L2_CID_EXPOSURE).
    unfold set_ctrl_rerange. rewrite Mn, Sp.
    rewrite s32_u32_small by (unfold imx307_EXPOSURE_MIN in He; lia).
    fold emax. change imx307_EXPOSURE_STEP with 1.
    apply (modify_range_commits s V4L2_CID_EXPOSURE); try assumption.
    rewrite exposure_def_of_min.
    unfold imx307_EXPOSURE_MIN, imx307_EXPOSURE_DEFAULT in *. lia.
Qed.

(** X17.  A vertical-blank write on a device that is not powered keeps the
    exposure inside the frame.  In any reachable unpowered state, setting
    the vertical blank to a value that (after clamping into its range)
    differs from the current one stores the clamped value X, makes the
    exposure range [4, height + X - 4] with default
    min(height + X - 4, 0x640), and clamps the exposure value into that
    range, so the exposure never exceeds the frame length less 4; no
    third control changes. *)
Theorem vblank_write_clamps_exposure (s : imx307) (v : Z) :
  reachable s -> unpowered s ->
  let H := height (cur_mode s) in
  let X := clamp (s32 v) imx307_VBLANK_MIN (imx307_VTS_MAX - H) in
  X <> cur_val (ctrl s V4L2_CID_VBLANK) ->
  let s' := snd (v4l2_s_ctrl imx307_ctrl_ops s V4L2_CID_VBLANK v) in
  cur_val (ctrl s' V4L2_CID_VBLANK) = X /\
  range_of (ctrl s' V4L2_CID_EXPOSURE) =
    (imx307_EXPOSURE_MIN, H + X - 4, imx307_EXPOSURE_STEP,
     Z.min (H + X - 4) imx307_EXPOSURE_DEFAULT) /\
  cur_val (ctrl s' V4L2_CID_EXPOSURE) =
    clamp (cur_val (ctrl s V4L2_CID_EXPOSURE)) imx307_EXPOSURE_MIN
      (H + X - 4) /\
  cur_val (ctrl s' V4L2_CID_EXPOSURE) <= H + X - 4 /\
  (forall j, j <> V4L2_CID_VBLANK -> j <> V4L2_CID_EXPOSURE ->
             ctrl s' j = ctrl s j).
Proof.
  intros Rs U H X Nx s'. pose proof (reachable_wf s Rs) as W.
  pose proof (wf_mode _ W) as Hm.
  pose proof (mode_height_cases (mode s) Hm) as Hh. fold (cur_mode s) in Hh.
  fold H in Hh.
  assert (imx307_VBLANK_MIN <= X <= imx307_VTS_MAX - H) as HX
      by (subst X; unfold clamp, imx307_VBLANK_MIN, imx307_VTS_MAX; lia).
  assert (ctype (ctrl s V4L2_CID_VBLANK) = V4L2_CTRL_TYPE_INTEGER) as Tv
      by apply (wf_ctype _ W).
  assert (is_read_only (ctrl s V4L2_CID_VBLANK) = false) as Rv
      by apply (wf_read_only _ W).
  subst s'. rewrite v4l2_s_ctrl_writable by assumption.
  unfold __v4l2_ctrl_s_ctrl, is_int. rewrite Tv. cbn [negb]. cbv iota.
  set (s1 := put_ctrl s V4L2_CID_VBLANK _).
  assert (ctrl s1 V4L2_CID_VBLANK = with_val (ctrl s V4L2_CID_VBLANK) (s32 v))
    as C1 by (subst s1; apply ctrl_put_same).
  unfold set_ctrl, validate_new. rewrite C1.
  cbn [ctype with_val val]. rewrite Tv.
  rewrite round_step1
    by (cbn [step minimum maximum with_val];
        rewrite ?(wf_vblank_step _ W), ?(wf_vblank_min _ W),
          ?(wf_vblank_max _ W); fold H;
        unfold imx307_VBLANK_MIN, imx307_VTS_MAX in *; lia).
  cbn [minimum maximum with_val].
  rewrite (wf_vblank_min _ W), (wf_vblank_max _ W). fold H. fold X.
  change (negb (0 =? 0)) with false. cbv iota.
  set (c2 := with_val (with_val (ctrl s V4L2_CID_VBLANK) (s32 v)) X).
  set (s2 := put_ctrl s1 V4L2_CID_VBLANK c2).
  assert (ctrl s2 V4L2_CID_VBLANK = c2) as C2
      by (subst s2; apply ctrl_put_same).
  assert (forall j, j <> V4L2_CID_VBLANK -> ctrl s2 j = ctrl s j) as O2
      by (intros j Nj; subst s2 s1; now rewrite !ctrl_put_other).
  unfold try_or_set_cluster. rewrite C2.
  pose proof (reachable_not_grabbed s V4L2_CID_VBLANK Rs eq_refl) as Gv.
  unfold is_grabbed in *. subst c2. cbn [flags with_val val cur_val].
  rewrite Gv.
  destruct (Z.eqb_spec X (cur_val (ctrl s V4L2_CID_VBLANK))) as [E|_];
    [contradiction|].
  assert (unpowered s2) as U2 by exact U.
  pose proof (imx307_set_ctrl_unpowered s2 V4L2_CID_VBLANK U2) as R0.
  pose proof (imx307_set_ctrl_own s2 V4L2_CID_VBLANK) as Own.
  assert (imx307_EXPOSURE_MIN
          <= height (cur_mode s2) + val (ctrl s2 V4L2_CID_VBLANK) - 4
          < 2 ^ 31) as He.
  { rewrite C2. cbn [val with_val].
    change (cur_mode s2) with (cur_mode s). fold H.
    unfold imx307_EXPOSURE_MIN, imx307_VBLANK_MIN, imx307_VTS_MAX in *. lia. }
  destruct (set_ctrl_vblank_unpowered s2 U2) as [Re Ce]; try exact He.
  { rewrite O2 by discriminate.
    apply (reachable_not_grabbed s V4L2_CID_EXPOSURE Rs eq_refl). }
  { rewrite O2 by discriminate. apply (wf_ctype _ W). }
  { rewrite O2 by discriminate. apply (wf_exposure_min _ W). }
  { rewrite O2 by discriminate. apply (wf_exposure_step _ W). }
  cbv zeta in Re, Ce. rewrite C2 in Re, Ce. cbn [val with_val] in Re, Ce.
  change (cur_mode s2) with (cur_mode s) in Re, Ce. fold H in Re, Ce.
  rewrite (O2 V4L2_CID_EXPOSURE) in Ce by discriminate.
  pose proof (imx307_set_ctrl_only_exposure s2 V4L2_CID_VBLANK) as Oe.
  unfold imx307_ctrl_ops.
  destruct (imx307_set_ctrl s2 V4L2_CID_VBLANK) as [ret s3].
  cbn [fst snd] in *. subst ret.
  change (negb (0 =? 0)) with false. cbv iota. cbn [snd].
  unfold new_to_cur.
  split; [rewrite ctrl_put_same; cbn [cur_val with_cur_val];
          rewrite Own, C2; reflexivity|].
  rewrite !(ctrl_put_other _ _ V4L2_CID_EXPOSURE) by discriminate.
  split; [exact Re|]. split; [exact Ce|].
  split; [rewrite Ce; unfold clamp; lia|].
  intros j Nv Ne. rewrite ctrl_put_other by exact Nv.
  rewrite (Oe j Ne). now apply O2.
Qed.

Lemma vblank_write_clamps_exposure_witness :
  cur_val (ctrl (snd (v4l2_s_ctrl imx307_ctrl_ops sound_sensor
                        V4L2_CID_VBLANK 100)) V4L2_CID_VBLANK) =
    clamp (s32 100) imx307_VBLANK_MIN
      (imx307_VTS_MAX - height (cur_mode sound_sensor)) /\
  cur_val (ctrl (snd (v4l2_s_ctrl imx307_ctrl_ops sound_sensor
                        V4L2_CID_VBLANK 100)) V4L2_CID_EXPOSURE) <=
    height (cur_mode sound_sensor)
    + clamp (s32 100) imx307_VBLANK_MIN
        (imx307_VTS_MAX - height (cur_mode sound_sensor)) - 4.
Proof.
  assert (unpowered sound_sensor) as U by reflexivity.
  assert (clamp (s32 100) imx307_VBLANK_MIN
            (imx307_VTS_MAX - height (cur_mode sound_sensor))
          <> cur_val (ctrl sound_sensor V4L2_CID_VBLANK)) as N
      by (intros E; vm_compute in E; discriminate E).
  pose proof (vblank_write_clamps_exposure sound_sensor 100
                reachable_sound_sensor U N) as (A & _ & _ & D & _).
  split; [exact A | exact D].
Defined.

(** ** Probe and remove *)

(** One step of the probe, down to the next answer of the platform. *)
Ltac probe_norm1 :=
  cbv beta iota zeta
    delta [Probe.imx307_check_hwcfg Probe.imx307_get_regulators
           Probe.imx307_init_controls Probe.imx307_free_controls
           Probe.error_power_off Probe.error_handler_free
           Probe.error_media_entity Probe.pm_runtime_set_active
           Probe.pm_runtime_enable Probe.pm_runtime_idle
           Probe.devm_gpiod_get_optional_out_high Probe.note
           Probe.with_inst Probe.inst Probe.calls imx307_power_on
           imx307_power_off emit with_power_ups with_i2c_xfers
           with_runtime_active with_mode with_fmt with_ctrl_handler
           imx307_init_controls imx307_set_default_format power_ups
           regulator_bulk_enable_err clk_prepare_enable_err i2c_bus
           i2c_xfers usage_count runtime_active trace fmt ctrl_handler mode
           streaming negb andb orb fst snd fold_left];
  change (0 =? 0) with true;
  change (- EINVAL =? 0) with false;
  change (- EIO =? 0) with false;
  change (- EIO <? 0) with true;
  change (0 <? 0) with false;
  change (- Z.of_nat 0 =? 0) with true;
  repeat match goal with
  | |- context [- Z.of_nat (S ?n) =? 0] =>
      change (- Z.of_nat (S n) =? 0) with false
  end;
  repeat match goal with
  | E : ?c = false |- context [if ?c then _ else _] => rewrite E
  | E : ?c = true |- context [if ?c then _ else _] => rewrite E
  end.

Ltac probe_norm := repeat (progress probe_norm1).

Ltac probe_cases pf ft :=
  unfold Probe.imx307_probe;
  (let Id := fresh "Id" in
   pose proof (identify_module_eq (Probe.i2c_transfer pf)) as Id;
   cbv zeta in Id; rewrite Id; clear Id);
  destruct (Probe.i2c_transfer pf [0; 0] 2) as [tr data] eqn:T;
  destruct (Probe.devm_kzalloc pf) eqn:K; probe_norm; [|ft];
  destruct (Probe.fwnode_graph_get_next_endpoint pf) as [ep|] eqn:Ee;
    probe_norm; [|ft];
  destruct (Probe.alloc_parse ep =? 0) eqn:Ep; probe_norm; [|ft];
  destruct (Probe.num_data_lanes ep =? 2) eqn:El; probe_norm; [|ft];
  destruct (Z.of_nat (List.length (Probe.link_frequencies ep)) =? 0) eqn:Ef0;
    probe_norm; [ft|];
  destruct (Z.of_nat (List.length (Probe.link_frequencies ep)) =? 1) eqn:Ef1;
    probe_norm; [|ft];
  destruct (nth 0 (Probe.link_frequencies ep) 0
            =? Probe.imx307_DEFAULT_LINK_FREQ) eqn:Ef;
    probe_norm; [|ft];
  destruct (Probe.devm_clk_get pf =? 0) eqn:C; probe_norm; [|ft];
  destruct (u32 (Probe.clk_get_rate pf) =? Probe.imx307_XCLK_FREQ) eqn:Rr;
    probe_norm; [|ft];
  destruct (Probe.devm_regulator_bulk_get pf =? 0) eqn:G;
    probe_norm; [|ft];
  destruct (Probe.regulator_bulk_enable pf 0%nat) as [|n] eqn:Re;
    probe_norm; [|ft];
  destruct (Probe.clk_prepare_enable pf 0%nat) as [|n] eqn:Ce;
    probe_norm; [|ft];
  destruct (tr =? 2) eqn:T2; probe_norm; [|ft];
  destruct (u8 (nth 0 data 0) =? 2) eqn:Bh; probe_norm; [|ft];
  destruct (u8 (nth 1 data 0) =? 25) eqn:Bl; probe_norm; [|ft];
  rewrite write_reg_sends by (unfold imx307_REG_VALUE_08BIT; lia);
  change (imx307_REG_VALUE_08BIT + 2) with 3; probe_norm;
  destruct (Probe.i2c_send pf 0%nat 3 =? 3) eqn:S0; probe_norm; [|ft];
  rewrite write_reg_sends by (unfold imx307_REG_VALUE_08BIT; lia);
  change (imx307_REG_VALUE_08BIT + 2) with 3; probe_norm;
  destruct (Probe.i2c_send pf 1%nat 3 =? 3) eqn:S1; probe_norm; [|ft];
  destruct (Probe.v4l2_ctrl_handler_init pf =? 0) eqn:Hi;
    probe_norm; [|ft];
  destruct (Probe.ctrl_hdlr_error pf =? 0) eqn:He; probe_norm; [|ft];
  destruct (Probe.v4l2_fwnode_device_parse pf =? 0) eqn:Fp;
    probe_norm; [|ft];
  destruct (Probe.v4l2_ctrl_new_fwnode_properties pf =? 0) eqn:Np;
    probe_norm; [|ft];
  destruct (Probe.media_entity_pads_init pf =? 0) eqn:Mp;
    probe_norm; [|ft];
  destruct (Probe.v4l2_async_register_subdev_sensor_common pf <? 0) eqn:As;
    probe_norm; [ft|].

(** The tests of the probe as propositions. *)
Ltac probe_facts :=
  repeat match goal with
  | E : (_ =? _) = true |- _ => apply Z.eqb_eq in E
  | E : (_ =? _) = false |- _ => apply Z.eqb_neq in E
  | E : (_ <? _) = true |- _ => apply Z.ltb_lt in E
  | E : (_ <? _) = false |- _ => apply Z.ltb_ge in E
  end.

(** A failed step contradicts [platform_ok]. *)
Ltac probe_not_ok PO :=
  probe_facts;
  destruct PO as (K' & (ep' & Ee' & Ep' & El' & Ef') & C' & Rr' & G' & Re'
                  & Ce' & T' & Bh' & Bl' & S0' & S1' & Hi' & He' & Fp'
                  & Np' & Mp' & As');
  first
    [ congruence
    | lia
    | match goal with
      | T : Probe.i2c_transfer _ _ _ = _ |- _ => rewrite T in T', Bh', Bl'
      end; cbn [fst snd] in T', Bh', Bl'; congruence
    | match goal with
      | Ee : Probe.fwnode_graph_get_next_endpoint _ = Some _ |- _ =>
          rewrite Ee in Ee'; injection Ee' as <-
      end;
      match goal with
      | E : context [Probe.link_frequencies _] |- _ =>
          rewrite Ef' in E; vm_compute in E; congruence
      end ].

(** The tests that went through make up [platform_ok]. *)
Ltac probe_is_ok :=
  probe_facts;
  repeat split; try assumption;
  [ match goal with
    | Ee : Probe.fwnode_graph_get_next_endpoint _ = Some ?ep |- _ =>
        exists ep; repeat split; try assumption;
        destruct (Probe.link_frequencies ep) as [|? [|? ?]];
        cbn [List.length nth] in *; try lia; congruence
    end
  | match goal with T : Probe.i2c_transfer _ _ _ = _ |- _ => rewrite T end;
    assumption .. ].

Lemma probe_returns_0_iff (pf : Probe.platform) :
  fst (Probe.imx307_probe pf) = 0 <-> platform_ok pf.
Proof.
  probe_cases pf
    ltac:(solve [split;
                 [ probe_facts; unfold Probe.ENOMEM, EINVAL, EIO; lia
                 | let PO := fresh "PO" in
                   intros PO; exfalso; probe_not_ok PO ]]).
  split; [intros _; probe_is_ok | reflexivity].
Qed.

(** A probe that goes through: what it has left in the traces. *)
Lemma probe_ok_device (pf : Probe.platform) :
  platform_ok pf ->
  exists d,
    Probe.imx307_probe pf = (0, Some d) /\
    power_consistent (Probe.inst d) /\
    Probe.calls d =
      [ Probe.PePmRuntimeIdle; Probe.PePmRuntimeEnable;
        Probe.PePmRuntimeSetActive; Probe.PeMutexInit;
        Probe.PeUsleepRange 100 110; Probe.PeUsleepRange 100 110;
        Probe.PeGpiodGetOptional;
        Probe.PeRegulatorBulkGet [ "VANA"%string; "VDIG"%string;
                                   "VDDL"%string ];
        Probe.PeFwnodeHandlePut; Probe.PeEndpointFree ].
Proof.
  probe_cases pf
    ltac:(solve [let PO := fresh "PO" in
                 intros PO; exfalso; probe_not_ok PO]).
  intros _. eexists. split; [reflexivity|].
  split; [|reflexivity].
  unfold power_consistent. repeat split; vm_compute; reflexivity.
Qed.

Lemma probe_no_device (pf : Probe.platform) :
  snd (Probe.imx307_probe pf) = None <->
  Probe.imx307_probe pf = (- Probe.ENOMEM, None) /\
  Probe.devm_kzalloc pf = false.
Proof.
  split; [|intros (E & _); rewrite E; reflexivity].
  probe_cases pf ltac:(solve [first [discriminate | split; reflexivity]]).
  discriminate.
Qed.

(** [imx307_remove] switches off what is on. *)
Lemma remove_powers_down (d : Probe.device) :
  power_consistent (Probe.inst d) ->
  powered_down (Probe.inst (snd (Probe.imx307_remove d))) /\
  Probe.calls (snd (Probe.imx307_remove d)) =
    [ Probe.PePmRuntimeSetSuspended; Probe.PePmRuntimeDisable;
      Probe.PeMutexDestroy; Probe.PeCtrlHandlerFree;
      Probe.PeMediaEntityCleanup; Probe.PeAsyncUnregister ]
    ++ Probe.calls d.
Proof.
  intros (P1 & P2 & P3).
  unfold Probe.imx307_remove, Probe.pm_runtime_status_suspended,
    Probe.pm_runtime_disable, Probe.pm_runtime_set_suspended,
    Probe.imx307_free_controls, imx307_power_off, powered_down.
  cbv zeta. cbn [Probe.note Probe.with_inst Probe.inst Probe.calls snd].
  destruct (runtime_active (Probe.inst d)) eqn:A; cbn [negb];
    cbn [Probe.inst Probe.calls Probe.with_inst Probe.note snd emit trace
         with_runtime_active runtime_active supplies_enabled clock_enabled
         reset_level app];
    cbn [Z.b2z] in P1, P2, P3; repeat split; try reflexivity; lia.
Qed.

Lemma sound_platform_ok : platform_ok sound_platform.
Proof.
  unfold platform_ok, sound_platform.
  cbn [Probe.devm_kzalloc Probe.fwnode_graph_get_next_endpoint
       Probe.devm_clk_get Probe.clk_get_rate Probe.devm_regulator_bulk_get
       Probe.i2c_transfer Probe.i2c_send Probe.regulator_bulk_enable
       Probe.clk_prepare_enable Probe.v4l2_ctrl_handler_init
       Probe.ctrl_hdlr_error Probe.v4l2_fwnode_device_parse
       Probe.v4l2_ctrl_new_fwnode_properties Probe.media_entity_pads_init
       Probe.v4l2_async_register_subdev_sensor_common].
  repeat split; try reflexivity; try lia.
  eexists. repeat split.
Qed.

(** X18.  [imx307_probe] returns 0 exactly on a platform where every step
    goes through: the allocation succeeds, the endpoint is found and
    parsed, has two data lanes and the single link frequency 456 MHz, the
    clock is there and runs at 24 MHz, the regulators are found and come
    up with the clock, the chip answers a read of register 0x0000 with
    0x02 0x19, both writes of the mode-select register are taken, the
    control handler is set up without error, the entity pads are
    initialised and the sub-device is registered.  It returns without a
    device only when the allocation failed, and then with -ENOMEM. *)
Theorem probe_succeeds_iff_platform_ok (pf : Probe.platform) :
  (fst (Probe.imx307_probe pf) = 0 <-> platform_ok pf) /\
  (snd (Probe.imx307_probe pf) = None <-> Probe.devm_kzalloc pf = false) /\
  (snd (Probe.imx307_probe pf) = None ->
   fst (Probe.imx307_probe pf) = - Probe.ENOMEM).
Proof.
  split; [apply probe_returns_0_iff|]. split.
  - split.
    + intros N. apply probe_no_device in N. apply N.
    + intros K. unfold Probe.imx307_probe. rewrite K. reflexivity.
  - intros N. apply probe_no_device in N. destruct N as (E & _).
    rewrite E. reflexivity.
Qed.

(** X19.  On a platform where every step goes through, [imx307_probe]
    leaves the instance that the model of the later calls starts from:
    default mode [supported_modes[0]], the controls of
    [imx307_init_controls], the default format, not streaming, usage
    count 0 and runtime-suspended.  On the way it has powered the sensor
    up, written 1 and then 0 to the mode-select register 0x0100, and
    powered it down again.  The calls it has made on the frameworks are
    the ones listed, newest first: the control handler and the mutex are
    in place, nothing is freed. *)
Theorem probe_leaves_instance_model (pf : Probe.platform) :
  platform_ok pf ->
  exists d,
    Probe.imx307_probe pf = (0, Some d) /\
    same_driver_state (Probe.inst d)
      (imx307_probe (Probe.i2c_send pf) (Probe.regulator_bulk_enable pf)
         (Probe.clk_prepare_enable pf)) /\
    same_platform
      (imx307_probe (Probe.i2c_send pf) (Probe.regulator_bulk_enable pf)
         (Probe.clk_prepare_enable pf)) (Probe.inst d) /\
    i2c_xfers (Probe.inst d) = 2%nat /\
    power_ups (Probe.inst d) = 1%nat /\
    trace (Probe.inst d) =
      [ EvClkDisable; EvRegulatorDisable; EvResetGpio 0;
        EvI2cSend [0x01; 0x00; 0x00] 3;
        EvI2cSend [0x01; 0x00; 0x01] 3;
        EvUsleepRange 6200 7200;
        EvResetGpio 1; EvClkEnable 0; EvRegulatorEnable 0;
        EvResetGpio 1 ] /\
    Probe.calls d =
      [ Probe.PePmRuntimeIdle; Probe.PePmRuntimeEnable;
        Probe.PePmRuntimeSetActive; Probe.PeMutexInit;
        Probe.PeUsleepRange 100 110; Probe.PeUsleepRange 100 110;
        Probe.PeGpiodGetOptional;
        Probe.PeRegulatorBulkGet [ "VANA"%string; "VDIG"%string;
                                   "VDDL"%string ];
        Probe.PeFwnodeHandlePut; Probe.PeEndpointFree ].
Proof.
  probe_cases pf
    ltac:(solve [let PO := fresh "PO" in
                 intros PO; exfalso; probe_not_ok PO]).
  intros _. probe_facts. eexists. split; [reflexivity|].
  cbn [Probe.inst Probe.calls i2c_xfers power_ups trace].
  rewrite S0, S1.
  repeat split; reflexivity.
Qed.

Lemma probe_leaves_instance_model_witness :
  platform_ok sound_platform /\
  exists d,
    Probe.imx307_probe sound_platform = (0, Some d) /\
    same_driver_state (Probe.inst d) sound_sensor /\
    trace (Probe.inst d) =
      [ EvClkDisable; EvRegulatorDisable; EvResetGpio 0;
        EvI2cSend [0x01; 0x00; 0x00] 3;
        EvI2cSend [0x01; 0x00; 0x01] 3;
        EvUsleepRange 6200 7200;
        EvResetGpio 1; EvClkEnable 0; EvRegulatorEnable 0;
        EvResetGpio 1 ].
Proof.
  split; [exact sound_platform_ok|].
  destruct (probe_leaves_instance_model sound_platform sound_platform_ok)
    as (d & E & D & _ & _ & _ & T & _).
  exists d. split; [exact E|]. split; [exact D | exact T].
Defined.

(** X20.  However [imx307_probe] ends once the instance is allocated, it
    leaves the supplies off: regulators and clock are disabled as often as
    they were enabled, the device is not runtime-active and nobody holds
    it; the endpoint node is put as often as it was parsed.  The reset
    line is low, with one exception: when the power-up itself fails
    (regulators or clock do not come up) the probe returns that error at
    once and the line stays high, as it was requested in the step before.
    When the probe fails, the control handler is freed and the mutex
    destroyed exactly if they had been set up. *)
Theorem probe_leaves_sensor_powered_down (pf : Probe.platform) (ret : Z)
    (d : Probe.device) :
  Probe.imx307_probe pf = (ret, Some d) ->
  supplies_enabled (trace (Probe.inst d)) = 0 /\
  clock_enabled (trace (Probe.inst d)) = 0 /\
  reset_level (trace (Probe.inst d))
    = (if reset_requested d && power_up_fails pf then 1 else 0) /\
  runtime_active (Probe.inst d) = false /\
  usage_count (Probe.inst d) = 0 /\
  streaming (Probe.inst d) = false /\
  times Probe.PeFwnodeHandlePut (Probe.calls d)
    = times Probe.PeEndpointFree (Probe.calls d) /\
  (ret <> 0 ->
   times Probe.PeCtrlHandlerFree (Probe.calls d)
     = times Probe.PeMutexInit (Probe.calls d) /\
   times Probe.PeMutexDestroy (Probe.calls d)
     = times Probe.PeMutexInit (Probe.calls d)).
Proof.
  revert ret d. unfold power_up_fails, reset_requested.
  probe_cases pf
    ltac:(solve [intros ret d E; first [discriminate E | injection E as <- <-];
                 repeat split; try (intros _); vm_compute; reflexivity]).
  intros ret d E. injection E as <- <-.
  repeat split; try reflexivity; congruence.
Qed.

(** A chip that answers the wrong id is powered down again, reset line
    low; regulators that do not come up leave the reset line high. *)
Lemma probe_leaves_sensor_powered_down_witness :
  (exists d,
     Probe.imx307_probe wrong_chip_platform = (- EIO, Some d) /\
     supplies_enabled (trace (Probe.inst d)) = 0 /\
     clock_enabled (trace (Probe.inst d)) = 0 /\
     reset_level (trace (Probe.inst d)) = 0 /\
     runtime_active (Probe.inst d) = false) /\
  (exists d,
     Probe.imx307_probe dead_supply_platform = (-5, Some d) /\
     supplies_enabled (trace (Probe.inst d)) = 0 /\
     clock_enabled (trace (Probe.inst d)) = 0 /\
     reset_level (trace (Probe.inst d)) = 1 /\
     runtime_active (Probe.inst d) = false).
Proof.
  split.
  - eexists. split; [vm_compute; reflexivity|].
    match goal with
    | |- context [Probe.inst ?d] =>
        assert (Probe.imx307_probe wrong_chip_platform = (- EIO, Some d))
          as E by (vm_compute; reflexivity);
        destruct (probe_leaves_sensor_powered_down wrong_chip_platform
                    (- EIO) d E) as (A & B & C & D & _)
    end.
    repeat split; assumption.
  - eexists. split; [vm_compute; reflexivity|].
    match goal with
    | |- context [Probe.inst ?d] =>
        assert (Probe.imx307_probe dead_supply_platform = (-5, Some d))
          as E by (vm_compute; reflexivity);
        destruct (probe_leaves_sensor_powered_down dead_supply_platform
                    (-5) d E) as (A & B & C & D & _)
    end.
    repeat split; assumption.
Defined.

(** X21.  Probe, any calls, remove: whatever the instance was asked to do
    in between and however that went, after [imx307_remove] the regulators
    and the clock are off, the reset line is low and the device is
    runtime-suspended; the control handler and the mutex of the probe are
    released exactly once, and the sub-device is unregistered. *)
Theorem remove_after_probe_powers_down (pf : Probe.platform)
    (d : Probe.device) (cs : list call) :
  Probe.imx307_probe pf = (0, Some d) ->
  let d' :=
    snd (Probe.imx307_remove (Probe.with_inst d (run (Probe.inst d) cs))) in
  supplies_enabled (trace (Probe.inst d')) = 0 /\
  clock_enabled (trace (Probe.inst d')) = 0 /\
  reset_level (trace (Probe.inst d')) = 0 /\
  runtime_active (Probe.inst d') = false /\
  times Probe.PeCtrlHandlerFree (Probe.calls d') = 1%nat /\
  times Probe.PeMutexDestroy (Probe.calls d') = 1%nat /\
  times Probe.PeMutexInit (Probe.calls d') = 1%nat /\
  times Probe.PeAsyncUnregister (Probe.calls d') = 1%nat /\
  times Probe.PeMediaEntityCleanup (Probe.calls d') = 1%nat.
Proof.
  intros E d'.
  pose proof (proj1 (probe_returns_0_iff pf)) as OK.
  rewrite E in OK. specialize (OK eq_refl).
  destruct (probe_ok_device pf OK) as (d0 & E0 & P & Cd).
  rewrite E in E0. injection E0 as <-.
  apply (keeps_power_run cs) in P.
  destruct (remove_powers_down (Probe.with_inst d (run (Probe.inst d) cs)) P)
    as ((R1 & R2 & R3 & R4) & Rc).
  fold d' in R1, R2, R3, R4, Rc. cbn [Probe.with_inst Probe.calls] in Rc.
  repeat split; try assumption; rewrite Rc, Cd; reflexivity.
Qed.

Lemma remove_after_probe_powers_down_witness :
  exists d,
    Probe.imx307_probe sound_platform = (0, Some d) /\
    streaming (run (Probe.inst d) [Set_stream 1]) = true /\
    supplies_enabled (trace (run (Probe.inst d) [Set_stream 1])) = 1 /\
    supplies_enabled
      (trace (Probe.inst
                (snd (Probe.imx307_remove
                        (Probe.with_inst d
                           (run (Probe.inst d) [Set_stream 1])))))) = 0.
Proof.
  eexists. split; [vm_compute; reflexivity|].
  split; [vm_compute; reflexivity|].
  split; [vm_compute; reflexivity|].
  match goal with
  | |- context [Probe.with_inst ?d _] =>
      assert (Probe.imx307_probe sound_platform = (0, Some d)) as E
        by (vm_compute; reflexivity);
      exact (proj1 (remove_after_probe_powers_down sound_platform d
                      [Set_stream 1] E))
  end.
Defined.

(** ** Control writes on a powered device *)

Lemma ctrl_register_len (id : ctrl_id) (reg len : Z) :
  ctrl_register id = Some (reg, len) -> 0 <= len <= 4.
Proof.
  destruct id; intros E; try discriminate E; injection E as <- <-;
    unfold imx307_REG_VALUE_08BIT, imx307_REG_VALUE_16BIT; lia.
Qed.

(** The callback on a device in use: one write of the new value, with the
    power reference taken and put back around it. *)
Lemma set_ctrl_powered (s : imx307) (id : ctrl_id) (reg len : Z) :
  runtime_active s = true -> 0 < usage_count s ->
  ctrl_register id = Some (reg, len) ->
  let n := i2c_bus s (i2c_xfers s) (len + 2) in
  let r := imx307_set_ctrl s id in
  fst r = (if n =? len + 2 then 0 else - EIO) /\
  trace (snd r) =
    EvPmPut :: ctrl_write reg len (val (ctrl s id)) n
    :: EvPmGetIfInUse 1 :: trace s /\
  i2c_xfers (snd r) = S (i2c_xfers s) /\
  usage_count (snd r) = usage_count s /\
  runtime_active (snd r) = true /\
  same_ctrls s (snd r) /\
  same_platform s (snd r).
Proof.
  intros A U Cr n r. subst n r.
  pose proof (ctrl_register_len id reg len Cr) as Hl.
  assert (id <> V4L2_CID_VBLANK) as Nv by (intros ->; discriminate Cr).
  pose proof (imx307_set_ctrl_same_ctrls s id Nv) as Sc.
  pose proof (same_platform_imx307_set_ctrl s id) as Sp.
  revert Sc Sp.
  rewrite imx307_set_ctrl_eq. unfold imx307_set_ctrl_body.
  assert (match id with
          | V4L2_CID_VBLANK =>
              snd (__v4l2_ctrl_modify_range imx307_set_ctrl s
                     V4L2_CID_EXPOSURE (minimum (ctrl s V4L2_CID_EXPOSURE))
                     (s32 (u32 (height (cur_mode s) + val (ctrl s id) - 4)))
                     (step (ctrl s V4L2_CID_EXPOSURE))
                     (exposure_def_of
                        (s32 (u32 (height (cur_mode s)
                                   + val (ctrl s id) - 4)))))
          | _ => s
          end = s) as -> by (destruct id; try reflexivity; contradiction).
  unfold pm_runtime_get_if_in_use. rewrite A.
  destruct (Z.ltb_spec 0 (usage_count s)) as [_|]; [|lia].
  cbn [andb]. cbv iota. change (1 =? 0) with false. cbv iota zeta.
  set (sg := emit (with_usage_count s (usage_count s + 1)) (EvPmGetIfInUse 1)).
  assert (match id with
          | V4L2_CID_PIXEL_RATE | V4L2_CID_HBLANK =>
              (- EINVAL,
               emit sg (EvLog (LogCtrlNotHandled id (val (ctrl sg id)))))
          | V4L2_CID_VBLANK =>
              imx307_write_reg sg imx307_REG_VTS imx307_REG_VALUE_16BIT
                (u32 (height (cur_mode sg) + val (ctrl sg id)))
          | V4L2_CID_EXPOSURE =>
              imx307_write_reg sg imx307_REG_EXPOSURE imx307_REG_VALUE_16BIT
                (val (ctrl sg id))
          | V4L2_CID_ANALOGUE_GAIN =>
              imx307_write_reg sg imx307_REG_ANALOG_GAIN
                imx307_REG_VALUE_08BIT (val (ctrl sg id))
          | V4L2_CID_DIGITAL_GAIN =>
              imx307_write_reg sg imx307_REG_DIGITAL_GAIN
                imx307_REG_VALUE_16BIT (val (ctrl sg id))
          | V4L2_CID_TEST_PATTERN =>
              imx307_write_reg sg imx307_REG_TEST_PATTERN
                imx307_REG_VALUE_16BIT
                (nth (Z.to_nat (val (ctrl sg id))) imx307_test_pattern_val 0)
          | V4L2_CID_TEST_PATTERN_RED =>
              imx307_write_reg sg imx307_REG_TESTP_RED imx307_REG_VALUE_16BIT
                (val (ctrl sg id))
          | V4L2_CID_TEST_PATTERN_GREENR =>
              imx307_write_reg sg imx307_REG_TESTP_GREENR
                imx307_REG_VALUE_16BIT (val (ctrl sg id))
          | V4L2_CID_TEST_PATTERN_BLUE =>
              imx307_write_reg sg imx307_REG_TESTP_BLUE
                imx307_REG_VALUE_16BIT (val (ctrl sg id))
          | V4L2_CID_TEST_PATTERN_GREENB =>
              imx307_write_reg sg imx307_REG_TESTP_GREENB
                imx307_REG_VALUE_16BIT (val (ctrl sg id))
          | _ =>
              imx307_write_reg sg imx307_REG_ORIENTATION 1
                (s32 (Z.lor (val (ctrl sg V4L2_CID_HFLIP))
                        (s32 (Z.shiftl (val (ctrl sg V4L2_CID_VFLIP)) 1))))
          end = imx307_write_reg sg reg len (val (ctrl s id))) as ->
      by (destruct id; try discriminate Cr; injection Cr as <- <-;
          reflexivity).
  rewrite write_reg_sends by exact Hl.
  unfold pm_runtime_put. cbv zeta.
  cbn [usage_count runtime_active emit with_usage_count with_i2c_xfers sg
       i2c_bus i2c_xfers].
  destruct (Z.eqb_spec (usage_count s + 1 - 1) 0) as [|_]; [lia|].
  cbn [andb]. cbv iota.
  cbn [fst snd trace i2c_xfers usage_count runtime_active emit
       with_usage_count with_i2c_xfers].
  intros Sc Sp.
  repeat split; try assumption; try reflexivity; try lia; apply Sp.
Qed.

(** [set_ctrl] of the framework on a gain, the exposure or a test-pattern
    colour of a device in use. *)
Lemma set_ctrl_powered_commits (s : imx307) (id : ctrl_id) (reg len : Z) :
  runtime_active s = true -> 0 < usage_count s ->
  ctrl_register id = Some (reg, len) ->
  is_grabbed (ctrl s id) = false ->
  ctype (ctrl s id) = V4L2_CTRL_TYPE_INTEGER ->
  step (ctrl s id) = 1 ->
  minimum (ctrl s id) <= maximum (ctrl s id) ->
  let X := clamp (val (ctrl s id)) (minimum (ctrl s id))
             (maximum (ctrl s id)) in
  let n := i2c_bus s (i2c_xfers s) (len + 2) in
  let r := set_ctrl imx307_ctrl_ops s id in
  (X = cur_val (ctrl s id) ->
   fst r = 0 /\ trace (snd r) = trace s /\
   cur_val (ctrl (snd r) id) = cur_val (ctrl s id)) /\
  (X <> cur_val (ctrl s id) ->
   fst r = (if n =? len + 2 then 0 else - EIO) /\
   trace (snd r) =
     EvPmPut :: ctrl_write reg len X n :: EvPmGetIfInUse 1 :: trace s /\
   cur_val (ctrl (snd r) id) =
     (if n =? len + 2 then X else cur_val (ctrl s id))) /\
  usage_count (snd r) = usage_count s /\
  runtime_active (snd r) = true /\
  range_of (ctrl (snd r) id) = range_of (ctrl s id) /\
  only_ctrl id s (snd r) /\
  same_platform s (snd r).
Proof.
  intros A U Cr G Tc S1 Mm X n r. subst r.
  unfold set_ctrl, validate_new. rewrite Tc.
  rewrite round_step1 by assumption. fold X.
  change (negb (0 =? 0)) with false. cbv iota.
  set (s2 := put_ctrl s id (with_val (ctrl s id) X)).
  assert (ctrl s2 id = with_val (ctrl s id) X) as C2
      by (subst s2; apply ctrl_put_same).
  assert (only_ctrl id s s2) as O2 by (subst s2; apply only_ctrl_put).
  unfold try_or_set_cluster. rewrite C2.
  unfold is_grabbed in *. cbn [flags with_val val cur_val]. rewrite G.
  destruct (Z.eqb_spec X (cur_val (ctrl s id))) as [E|N].
  - cbn [fst snd]. rewrite C2. cbn [cur_val with_val].
    split; [intros _; repeat split|]. split; [intros N; contradiction|].
    split; [reflexivity|]. split; [exact A|].
    split; [reflexivity|]. split; [exact O2 | repeat split].
  - assert (runtime_active s2 = true) as A2 by exact A.
    assert (0 < usage_count s2) as U2 by exact U.
    destruct (set_ctrl_powered s2 id reg len A2 U2 Cr)
      as (R0 & R1 & _ & R3 & R4 & R5 & R6).
    rewrite C2 in R1. cbn [val with_val] in R1.
    change (i2c_bus s2 (i2c_xfers s2) (len + 2)) with n in R0, R1.
    change (trace s2) with (trace s) in R1.
    change (usage_count s2) with (usage_count s) in R3.
    pose proof (R5 id) as R5i. rewrite C2 in R5i.
    assert (only_ctrl id s (snd (imx307_set_ctrl s2 id))) as O3
        by (intros j Nj; rewrite (R5 j); apply O2; exact Nj).
    assert (same_platform s (snd (imx307_set_ctrl s2 id))) as P3
        by exact R6.
    unfold imx307_ctrl_ops.
    destruct (imx307_set_ctrl s2 id) as [ret s3]. cbn [fst snd] in *.
    subst ret.
    split; [intros E; contradiction|].
    destruct (n =? len + 2).
    + change (negb (0 =? 0)) with false. cbv iota. cbn [fst snd].
      unfold new_to_cur. rewrite ctrl_put_same.
      cbn [cur_val with_cur_val]. rewrite R5i. cbn [val with_val].
      split; [intros _; repeat split; exact R1|].
      split; [exact R3|]. split; [exact R4|].
      split; [reflexivity|].
      split; [|exact P3].
      intros j Nj. rewrite ctrl_put_other by exact Nj. apply O3, Nj.
    + change (negb (- EIO =? 0)) with true. cbv iota. cbn [fst snd].
      rewrite R5i. cbn [cur_val with_val].
      split; [intros _; repeat split; exact R1|].
      split; [exact R3|]. split; [exact R4|].
      split; [reflexivity|]. split; [exact O3 | exact P3].
Qed.

(** X22.  Setting a gain, the exposure or a test-pattern colour while the
    device is in use (runtime-active with a power reference held, as it is
    while streaming), in any reachable state.  The request is clamped into
    the range of the control.  If the clamped value is the stored one,
    nothing is sent.  Otherwise exactly one transfer goes out, between
    taking and putting a power reference: the register of the control and
    the clamped value, most significant byte first; when the bus takes it
    the call returns 0 and the value is stored, when it does not the call
    returns -EIO and the control keeps its old value.  Either way the power
    reference count and the runtime status are as before. *)
Theorem s_ctrl_writes_through_when_powered (s : imx307) (id : ctrl_id)
    (v reg len : Z) :
  reachable s -> runtime_active s = true -> 0 < usage_count s ->
  ctrl_register id = Some (reg, len) ->
  let X := clamp (s32 v) (minimum (ctrl s id)) (maximum (ctrl s id)) in
  let n := i2c_bus s (i2c_xfers s) (len + 2) in
  let r := v4l2_s_ctrl imx307_ctrl_ops s id v in
  (X = cur_val (ctrl s id) ->
   fst r = 0 /\ trace (snd r) = trace s /\
   cur_val (ctrl (snd r) id) = cur_val (ctrl s id)) /\
  (X <> cur_val (ctrl s id) ->
   fst r = (if n =? len + 2 then 0 else - EIO) /\
   trace (snd r) =
     EvPmPut :: ctrl_write reg len X n :: EvPmGetIfInUse 1 :: trace s /\
   cur_val (ctrl (snd r) id) =
     (if n =? len + 2 then X else cur_val (ctrl s id))) /\
  usage_count (snd r) = usage_count s /\
  runtime_active (snd r) = true.
Proof.
  intros Rs A U Cr X n r. pose proof (reachable_wf s Rs) as W.
  assert (ctype_of id = V4L2_CTRL_TYPE_INTEGER) as T
      by (destruct id; try discriminate Cr; reflexivity).
  assert (read_only_id id = false) as Ro
      by (destruct id; try discriminate Cr; reflexivity).
  assert (is_flip id = false) as Nf
      by (destruct id; try discriminate Cr; reflexivity).
  pose proof (reachable_not_grabbed s id Rs Nf) as G.
  pose proof (reachable_step1 s id Rs T) as S1.
  destruct (reachable_range_sane s Rs id) as [Lo Hi].
  assert (minimum (ctrl s id) <= maximum (ctrl s id)) as Mm by lia.
  assert (ctype (ctrl s id) = V4L2_CTRL_TYPE_INTEGER) as Tc
      by (rewrite (wf_ctype _ W); exact T).
  assert (is_read_only (ctrl s id) = false) as Rc
      by (rewrite (wf_read_only _ W); exact Ro).
  subst r. rewrite v4l2_s_ctrl_writable by assumption.
  unfold __v4l2_ctrl_s_ctrl, is_int. rewrite Tc. cbn [negb]. cbv iota.
  set (s1 := put_ctrl s id (with_val (ctrl s id) (s32 v))).
  assert (ctrl s1 id = with_val (ctrl s id) (s32 v)) as C1
      by (subst s1; apply ctrl_put_same).
  assert (runtime_active s1 = true) as A1 by exact A.
  assert (0 < usage_count s1) as U1 by exact U.
  destruct (set_ctrl_powered_commits s1 id reg len A1 U1 Cr)
    as (P1 & P2 & P3 & P4 & _);
    try (rewrite C1; cbn [ctype step minimum maximum with_val]; assumption).
  cbv zeta in P1, P2. rewrite C1 in P1, P2.
  cbn [val cur_val minimum maximum with_val] in P1, P2.
  fold X in P1, P2.
  change (i2c_bus s1 (i2c_xfers s1) (len + 2)) with n in P2.
  change (trace s1) with (trace s) in P1, P2.
  change (usage_count s1) with (usage_count s) in P3.
  split; [exact P1|]. split; [exact P2|]. split; [exact P3 | exact P4].
Qed.

Lemma s_ctrl_writes_through_when_powered_witness :
  fst (v4l2_s_ctrl imx307_ctrl_ops streaming_sensor V4L2_CID_ANALOGUE_GAIN
         100) = 0 /\
  trace (snd (v4l2_s_ctrl imx307_ctrl_ops streaming_sensor
                V4L2_CID_ANALOGUE_GAIN 100)) =
    EvPmPut :: EvI2cSend [0x01; 0x57; 100] 3 :: EvPmGetIfInUse 1
    :: trace streaming_sensor /\
  cur_val (ctrl (snd (v4l2_s_ctrl imx307_ctrl_ops streaming_sensor
                        V4L2_CID_ANALOGUE_GAIN 100))
             V4L2_CID_ANALOGUE_GAIN) = 100.
Proof.
  assert (reachable streaming_sensor) as R
      by (exists good_bus, good_supply, good_supply, [Set_stream 1];
          reflexivity).
  assert (runtime_active streaming_sensor = true) as A
      by (vm_compute; reflexivity).
  assert (0 < usage_count streaming_sensor) as U
      by (vm_compute; reflexivity).
  assert (ctrl_register V4L2_CID_ANALOGUE_GAIN =
          Some (imx307_REG_ANALOG_GAIN, imx307_REG_VALUE_08BIT)) as Cr
      by reflexivity.
  pose proof (s_ctrl_writes_through_when_powered streaming_sensor
                V4L2_CID_ANALOGUE_GAIN 100 imx307_REG_ANALOG_GAIN
                imx307_REG_VALUE_08BIT R A U Cr) as H.
  cbv zeta in H. destruct H as (_ & H & _).
  assert (clamp (s32 100)
            (minimum (ctrl streaming_sensor V4L2_CID_ANALOGUE_GAIN))
            (maximum (ctrl streaming_sensor V4L2_CID_ANALOGUE_GAIN))
          <> cur_val (ctrl streaming_sensor V4L2_CID_ANALOGUE_GAIN)) as N
      by (vm_compute; discriminate).
  destruct (H N) as (H0 & H1 & H2).
  split; [exact H0|]. split; [exact H1 | exact H2].
Defined.

(** ** Stored control values at stream start *)

Lemma trace_grows_imx307_set_ctrl (s : imx307) (id : ctrl_id) :
  trace_grows s (snd (imx307_set_ctrl s id)).
Proof. apply fr_imx307_set_ctrl; trace_prims. Qed.

Lemma trace_grows_handler_setup_loop (l : list ctrl_id) (s : imx307) :
  trace_grows s (snd (handler_setup_loop imx307_ctrl_ops s l)).
Proof.
  apply frame_handler_setup_loop.
  - exact tg_refl.
  - exact tg_trans.
  - intros; apply tg_same; reflexivity.
  - intros s0 id0. apply trace_grows_imx307_set_ctrl.
Qed.

(** The loop of [__v4l2_ctrl_handler_setup] on a device in use with a
    working bus: the stored value of a gain or test-pattern colour in the
    list is written to its register, and stays the stored value. *)
Lemma handler_setup_loop_replays (id : ctrl_id) (reg len : Z)
    (l : list ctrl_id) :
  ctrl_register id = Some (reg, len) -> id <> V4L2_CID_EXPOSURE ->
  forall s,
    bus_ok s -> runtime_active s = true -> 0 < usage_count s ->
    (forall j, is_read_only (ctrl s j) = read_only_id j) ->
    cur_val (ctrl (snd (handler_setup_loop imx307_ctrl_ops s l)) id)
      = cur_val (ctrl s id) /\
    (In id l ->
     exists ctl,
       trace (snd (handler_setup_loop imx307_ctrl_ops s l)) = ctl ++ trace s /\
       In (ctrl_write reg len (cur_val (ctrl s id)) (len + 2)) ctl).
Proof.
  intros Cr Ne.
  assert (read_only_id id = false) as Rid
      by (destruct id; try discriminate Cr; reflexivity).
  induction l as [|j rest IH]; intros s B A U Ro; cbn [handler_setup_loop].
  - split; [reflexivity | intros []].
  - rewrite Ro. destruct (read_only_id j) eqn:Rj.
    + destruct (IH s B A U Ro) as [I1 I2]. split; [exact I1|].
      intros [->|H]; [congruence | exact (I2 H)].
    + set (sc := cur_to_new s j).
      assert (bus_ok sc) as Bc by (intros n c; apply B).
      assert (runtime_active sc = true) as Ac by exact A.
      assert (0 < usage_count sc) as Uc by exact U.
      pose proof (set_ctrl_ok sc j Bc Rj) as Z0.
      pose proof (same_platform_imx307_set_ctrl sc j) as Sp.
      pose proof (steady_imx307_set_ctrl sc j) as St.
      pose proof (imx307_set_ctrl_only_exposure sc j) as Oe.
      pose proof (trace_grows_imx307_set_ctrl sc j) as Tg.
      pose proof (trace_grows_loop_tail := trace_grows_handler_setup_loop rest).
      assert (j = id ->
              trace (snd (imx307_set_ctrl sc j)) =
                EvPmPut
                :: ctrl_write reg len (cur_val (ctrl s id)) (len + 2)
                :: EvPmGetIfInUse 1 :: trace sc) as Tw.
      { intros ->.
        destruct (set_ctrl_powered sc id reg len Ac Uc Cr)
          as (_ & R1 & _).
        rewrite R1. unfold sc at 1, cur_to_new. rewrite ctrl_put_same.
        cbn [val with_val]. rewrite (Bc (i2c_xfers sc) (len + 2)).
        reflexivity. }
      assert (cur_val (ctrl (snd (imx307_set_ctrl sc j)) id)
              = cur_val (ctrl s id)) as Cv.
      { rewrite (Oe id Ne). unfold sc, cur_to_new.
        destruct (ctrl_id_eq_dec id j) as [<-|N].
        - rewrite ctrl_put_same. reflexivity.
        - rewrite ctrl_put_other by exact N. reflexivity. }
      unfold imx307_ctrl_ops in *.
      destruct (imx307_set_ctrl sc j) as [ret s1]. cbn [fst snd] in *.
      subst ret. change (negb (0 =? 0)) with false. cbv iota.
      assert (bus_ok s1) as B1 by (apply (bus_ok_same_platform _ _ Sp Bc)).
      assert (runtime_active s1 = true) as A1
          by (rewrite (steady_active _ _ St); exact Ac).
      assert (0 < usage_count s1) as U1
          by (rewrite (steady_usage _ _ St); exact Uc).
      assert (forall k, is_read_only (ctrl s1 k) = read_only_id k) as Ro1.
      { intros k. rewrite (steady_is_read_only _ _ k St). unfold sc.
        rewrite (steady_is_read_only _ _ k (steady_cur_to_new s j)).
        apply Ro. }
      destruct (IH s1 B1 A1 U1 Ro1) as [I1 I2]. rewrite Cv in I1, I2.
      split; [exact I1|].
      intros [E|H].
      * destruct (trace_grows_loop_tail s1) as (t & Et).
        exists (t ++ [EvPmPut;
                      ctrl_write reg len (cur_val (ctrl s id)) (len + 2);
                      EvPmGetIfInUse 1]).
        split.
        -- rewrite Et, (Tw E), <- app_assoc. reflexivity.
        -- apply in_or_app. right. right. left. reflexivity.
      * destruct (I2 H) as (t & Et & It). destruct Tg as (t1 & Et1).
        exists (t ++ t1). split.
        -- rewrite Et, Et1, <- app_assoc. reflexivity.
        -- apply in_or_app. now left.
Qed.

(** [imx307_set_stream(1)] on working hardware, up to the control phase:
    [s2] is the state in which [__v4l2_ctrl_handler_setup] is called,
    powered, with the controls as they were and the two register tables
    written. *)
Lemma start_on_working_hardware (s : imx307) :
  reachable s -> bus_ok s -> supplies_ok s -> streaming s = false ->
  0 <= usage_count s ->
  exists s2,
    same_ctrls s s2 /\ bus_ok s2 /\
    runtime_active s2 = true /\ 0 < usage_count s2 /\
    (forall j, is_read_only (ctrl s2 j) = read_only_id j) /\
    trace s2 =
      rev (map table_write (framefmt_regs (format_code (fmt s))))
      ++ rev (map table_write (reg_list (cur_mode s)))
      ++ trace (snd (pm_runtime_get_sync s)) /\
    fst (__v4l2_ctrl_handler_setup imx307_ctrl_ops s2) = 0 /\
    exists s',
      imx307_set_stream s 1 = (0, s') /\
      trace s' =
        table_write (R imx307_REG_MODE_SELECT imx307_MODE_STREAMING)
        :: trace (snd (__v4l2_ctrl_handler_setup imx307_ctrl_ops s2)) /\
      (forall j,
         val (ctrl s' j) =
           val (ctrl (snd (__v4l2_ctrl_handler_setup imx307_ctrl_ops s2)) j) /\
         cur_val (ctrl s' j) =
           cur_val (ctrl (snd (__v4l2_ctrl_handler_setup imx307_ctrl_ops s2))
                      j)).
Proof.
  intros Rs B Sup St Un. pose proof (reachable_wf s Rs) as W.
  unfold imx307_set_stream. rewrite St.
  change (Z.b2z false =? 1) with false. change (negb (1 =? 0)) with true.
  cbv iota. unfold imx307_start_streaming.
  pose proof (get_sync_ok s Sup) as G0.
  destruct (pm_runtime_get_sync_spec s) as ((I1 & I2 & I3 & I4) & U0 & Pos & _).
  pose proof (sp_get_sync s) as P0. specialize (Pos G0).
  destruct (pm_runtime_get_sync s) as [r0 s0]. cbn [fst snd] in *.
  destruct (Z.ltb_spec r0 0) as [|_]; [lia|].
  assert (bus_ok s0) as B0 by (apply (bus_ok_same_platform _ _ P0 B)).
  (* the mode table *)
  destruct (write_regs_ok (reg_list (cur_mode s0)) s0 B0) as [F1 T1].
  pose proof (steady_write_regs (reg_list (cur_mode s0)) s0) as S1.
  pose proof (same_platform_write_regs (reg_list (cur_mode s0)) s0) as P1.
  pose proof (same_ctrls_write_regs (reg_list (cur_mode s0)) s0) as K1.
  destruct (imx307_write_regs s0 (reg_list (cur_mode s0))) as [r1 s1].
  cbn [fst snd] in *. subst r1. change (negb (0 =? 0)) with false. cbv iota.
  assert (bus_ok s1) as B1 by (apply (bus_ok_same_platform _ _ P1 B0)).
  (* the frame format *)
  assert (In (format_code (fmt s1)) codes) as C1
      by (rewrite (steady_fmt _ _ S1), I1; apply (wf_code _ W)).
  destruct (set_framefmt_ok s1 B1 C1) as [F2 T2].
  pose proof (steady_set_framefmt s1) as S2.
  pose proof (same_platform_set_framefmt s1) as P2.
  pose proof (same_ctrls_set_framefmt s1) as K2.
  destruct (imx307_set_framefmt s1) as [r2 s2].
  cbn [fst snd] in *. subst r2. change (negb (0 =? 0)) with false. cbv iota.
  assert (bus_ok s2) as B2 by (apply (bus_ok_same_platform _ _ P2 B1)).
  (* the controls *)
  assert (forall j, is_read_only (ctrl s2 j) = read_only_id j) as Ro2.
  { intros j. rewrite (steady_is_read_only _ _ j S2).
    rewrite (steady_is_read_only _ _ j S1).
    unfold is_read_only. rewrite I4. apply (wf_read_only _ W). }
  assert (runtime_active s2 = true) as A2
      by (rewrite (steady_active _ _ S2), (steady_active _ _ S1); exact Pos).
  assert (0 < usage_count s2) as U2
      by (rewrite (steady_usage _ _ S2), (steady_usage _ _ S1); lia).
  pose proof (handler_setup_loop_ok handler_ctrls s2 B2 Ro2) as F3.
  fold (__v4l2_ctrl_handler_setup imx307_ctrl_ops s2) in F3.
  pose proof (same_platform_handler_setup s2) as P3.
  exists s2.
  split; [intros j; rewrite K2, K1; apply I4|].
  split; [exact B2|]. split; [exact A2|]. split; [exact U2|].
  split; [exact Ro2|].
  split.
  { rewrite T2, T1, (steady_fmt _ _ S1), I1.
    unfold cur_mode. rewrite I2. reflexivity. }
  split; [exact F3|].
  destruct (__v4l2_ctrl_handler_setup imx307_ctrl_ops s2) as [r3 s3].
  cbn [fst snd] in *. subst r3. change (negb (0 =? 0)) with false. cbv iota.
  assert (bus_ok s3) as B3 by (apply (bus_ok_same_platform _ _ P3 B2)).
  (* stream on *)
  rewrite write_reg8, (B3 (i2c_xfers s3) 3).
  change (3 =? 3) with true. cbv iota.
  change (negb (0 =? 0)) with false. cbv iota.
  eexists. split; [reflexivity|].
  split; [reflexivity|].
  intros j. rewrite ctrl_with_streaming. unfold __v4l2_ctrl_grab.
  destruct (ctrl_id_eq_dec j V4L2_CID_HFLIP) as [->|Nh].
  - rewrite ctrl_put_same. rewrite ctrl_put_other by discriminate.
    cbn [val cur_val with_flags]. split; reflexivity.
  - rewrite ctrl_put_other by exact Nh.
    destruct (ctrl_id_eq_dec j V4L2_CID_VFLIP) as [->|Nv].
    + rewrite ctrl_put_same. cbn [val cur_val with_flags]. split; reflexivity.
    + rewrite ctrl_put_other by exact Nv. split; reflexivity.
Qed.

(** X23.  A gain or a test-pattern colour stored while the sensor was
    stopped reaches the sensor at the next start.  From any reachable
    STOPPED state with no power reference missing, on hardware whose bus
    takes every transfer and whose supplies come up,
    [imx307_set_stream(1)] returns 0, and among the transfers it makes
    after the mode and frame-format tables and before the stream-on write
    is the write of the stored value of the control to the register of
    the control; the stored value itself is unchanged. *)
Theorem stored_values_are_written_at_start (s : imx307) (id : ctrl_id)
    (reg len : Z) :
  reachable s -> bus_ok s -> supplies_ok s -> streaming s = false ->
  0 <= usage_count s ->
  ctrl_register id = Some (reg, len) -> id <> V4L2_CID_EXPOSURE ->
  exists s' ctl,
    imx307_set_stream s 1 = (0, s') /\
    trace s' =
      (table_write (R imx307_REG_MODE_SELECT imx307_MODE_STREAMING) :: ctl)
      ++ rev (map table_write (framefmt_regs (format_code (fmt s))))
      ++ rev (map table_write (reg_list (cur_mode s)))
      ++ trace (snd (pm_runtime_get_sync s)) /\
    In (ctrl_write reg len (cur_val (ctrl s id)) (len + 2)) ctl /\
    cur_val (ctrl s' id) = cur_val (ctrl s id).
Proof.
  intros Rs B Sup St Un Cr Ne.
  destruct (start_on_working_hardware s Rs B Sup St Un)
    as (s2 & K & B2 & A2 & U2 & Ro2 & T2 & _ & s' & E & T' & V').
  destruct (handler_setup_loop_replays id reg len handler_ctrls Cr Ne s2
              B2 A2 U2 Ro2) as [V3 W3].
  assert (In id handler_ctrls) as Hin
      by (destruct id; try discriminate Cr; cbn; tauto).
  destruct (W3 Hin) as (ctl & T3 & Ic). rewrite (K id) in V3, Ic.
  fold (__v4l2_ctrl_handler_setup imx307_ctrl_ops s2) in V3, T3.
  exists s', ctl. split; [exact E|].
  split; [rewrite T', T3, T2; reflexivity|].
  split; [exact Ic|].
  rewrite (proj2 (V' id)). exact V3.
Qed.

Lemma stored_values_are_written_at_start_witness :
  cur_val (ctrl (run sound_sensor [S_ctrl V4L2_CID_ANALOGUE_GAIN 100])
             V4L2_CID_ANALOGUE_GAIN) = 100 /\
  exists s' ctl,
    imx307_set_stream (run sound_sensor [S_ctrl V4L2_CID_ANALOGUE_GAIN 100])
      1 = (0, s') /\
    trace s' =
      (table_write (R imx307_REG_MODE_SELECT imx307_MODE_STREAMING) :: ctl)
      ++ rev (map table_write
                (framefmt_regs (format_code (fmt sound_sensor))))
      ++ rev (map table_write (reg_list (cur_mode sound_sensor)))
      ++ trace (snd (pm_runtime_get_sync
                       (run sound_sensor
                          [S_ctrl V4L2_CID_ANALOGUE_GAIN 100]))) /\
    In (EvI2cSend [0x01; 0x57; 100] 3) ctl.
Proof.
  split; [reflexivity|].
  assert (reachable (run sound_sensor [S_ctrl V4L2_CID_ANALOGUE_GAIN 100]))
    as Rs
      by (exists good_bus, good_supply, good_supply,
            [S_ctrl V4L2_CID_ANALOGUE_GAIN 100]; reflexivity).
  assert (bus_ok (run sound_sensor [S_ctrl V4L2_CID_ANALOGUE_GAIN 100]))
    as B by (intros n c; reflexivity).
  assert (supplies_ok (run sound_sensor [S_ctrl V4L2_CID_ANALOGUE_GAIN 100]))
    as Sup by (intros n; split; reflexivity).
  assert (streaming (run sound_sensor [S_ctrl V4L2_CID_ANALOGUE_GAIN 100])
          = false) as St by reflexivity.
  assert (0 <= usage_count
                 (run sound_sensor [S_ctrl V4L2_CID_ANALOGUE_GAIN 100]))
    as Un by (vm_compute; discriminate).
  assert (ctrl_register V4L2_CID_ANALOGUE_GAIN =
          Some (imx307_REG_ANALOG_GAIN, imx307_REG_VALUE_08BIT)) as Cr
      by reflexivity.
  assert (V4L2_CID_ANALOGUE_GAIN <> V4L2_CID_EXPOSURE) as Ne by discriminate.
  destruct (stored_values_are_written_at_start _ V4L2_CID_ANALOGUE_GAIN
              imx307_REG_ANALOG_GAIN imx307_REG_VALUE_08BIT
              Rs B Sup St Un Cr Ne) as (s' & ctl & E & T & I & _).
  exists s', ctl. split; [exact E|]. split; [exact T | exact I].
Defined.

(** ** A vertical-blank write on a device in use *)

Lemma u32_u32 (x : Z) : u32 (u32 x) = u32 x.
Proof. unfold u32. apply Z.mod_mod. lia. Qed.

(** [__v4l2_ctrl_modify_range] on the exposure of a device in use with a
    working bus: the value is clamped into the new range, and written to
    the sensor when that changed it. *)
Lemma modify_range_exposure_powered (s : imx307) (emax : Z) :
  runtime_active s = true -> 0 < usage_count s -> bus_ok s ->
  is_grabbed (ctrl s V4L2_CID_EXPOSURE) = false ->
  ctype (ctrl s V4L2_CID_EXPOSURE) = V4L2_CTRL_TYPE_INTEGER ->
  imx307_EXPOSURE_MIN <= emax ->
  let E := cur_val (ctrl s V4L2_CID_EXPOSURE) in
  let E' := clamp E imx307_EXPOSURE_MIN emax in
  let r := __v4l2_ctrl_modify_range imx307_ctrl_ops s V4L2_CID_EXPOSURE
             imx307_EXPOSURE_MIN emax 1 (exposure_def_of emax) in
  trace (snd r) =
    (if E' =? E then []
     else [EvPmPut; ctrl_write imx307_REG_EXPOSURE 2 E' 4; EvPmGetIfInUse 1])
    ++ trace s /\
  cur_val (ctrl (snd r) V4L2_CID_EXPOSURE) = E' /\
  usage_count (snd r) = usage_count s /\
  runtime_active (snd r) = true /\
  only_ctrl V4L2_CID_EXPOSURE s (snd r) /\
  same_platform s (snd r).
Proof.
  intros A U B G T He E E' r. subst r.
  unfold __v4l2_ctrl_modify_range. rewrite T.
  pose proof (check_range_exposure emax He) as Ck.
  change imx307_EXPOSURE_STEP with 1 in Ck. rewrite Ck.
  change (negb (0 =? 0)) with false. cbv iota.
  set (def := exposure_def_of emax).
  set (c1 := with_range (ctrl s V4L2_CID_EXPOSURE) imx307_EXPOSURE_MIN emax 1
               def).
  set (s1 := put_ctrl s V4L2_CID_EXPOSURE c1).
  assert (ctrl s1 V4L2_CID_EXPOSURE = c1) as C1
      by (subst s1; apply ctrl_put_same).
  unfold cur_to_new. rewrite C1.
  set (s2 := put_ctrl s1 V4L2_CID_EXPOSURE (with_val c1 (cur_val c1))).
  assert (ctrl s2 V4L2_CID_EXPOSURE = with_val c1 (cur_val c1)) as C2
      by (subst s2; apply ctrl_put_same).
  rewrite C2. unfold validate_new. cbn [ctype with_val with_range val].
  subst c1. cbn [ctype with_range]. rewrite T.
  rewrite round_step1 by (cbn; lia).
  cbn [minimum maximum with_val with_range cur_val]. fold E. fold E'.
  change (negb (0 =? 0)) with false. cbv iota.
  set (s3 := put_ctrl s2 V4L2_CID_EXPOSURE _).
  assert (ctrl s3 V4L2_CID_EXPOSURE =
          with_val (with_val (with_range (ctrl s V4L2_CID_EXPOSURE)
                                imx307_EXPOSURE_MIN emax 1 def) E) E') as C3
      by (subst s3; apply ctrl_put_same).
  assert (only_ctrl V4L2_CID_EXPOSURE s s3) as O3.
  { intros j Nj. subst s3 s2 s1. now rewrite !ctrl_put_other. }
  rewrite C3. cbn [cur_val with_val with_range]. fold E.
  destruct (Z.eqb_spec E' E) as [Eq|N]; cbn [negb snd].
  - rewrite C3. cbn [cur_val with_val with_range]. fold E.
    split; [reflexivity|]. split; [congruence|].
    split; [reflexivity|]. split; [exact A|].
    split; [exact O3 | repeat split].
  - assert (runtime_active s3 = true) as A3 by exact A.
    assert (0 < usage_count s3) as U3 by exact U.
    assert (clamp E' imx307_EXPOSURE_MIN emax = E') as Cc
        by (subst E'; unfold clamp; lia).
    destruct (set_ctrl_powered_commits s3 V4L2_CID_EXPOSURE
                imx307_REG_EXPOSURE imx307_REG_VALUE_16BIT A3 U3 eq_refl)
      as (_ & R & Ru & Ra & _ & Ro & Rp);
      try (rewrite C3; cbn; solve [assumption | reflexivity | lia]).
    cbv zeta in R. rewrite C3 in R.
    cbn [val cur_val minimum maximum with_val with_range] in R.
    rewrite Cc in R. fold E in R. specialize (R N).
    destruct R as (_ & Rt & Rv).
    change (i2c_bus s3 (i2c_xfers s3) (imx307_REG_VALUE_16BIT + 2))
      with (i2c_bus s (i2c_xfers s) 4) in Rt, Rv.
    rewrite (B (i2c_xfers s) 4) in Rt, Rv.
    change (4 =? imx307_REG_VALUE_16BIT + 2) with true in Rv.
    cbv iota in Rv.
    split; [exact Rt|]. split; [exact Rv|].
    split; [exact Ru|]. split; [exact Ra|].
    split; [|exact Rp].
    intros j Nj. rewrite (Ro j Nj). apply O3, Nj.
Qed.

(** The callback on the vertical blank of a device in use with a working
    bus: the exposure is re-ranged (and rewritten when that changed its
    value), then the frame length goes to the sensor. *)
Lemma set_ctrl_vblank_powered (s : imx307) :
  runtime_active s = true -> 0 < usage_count s -> bus_ok s ->
  is_grabbed (ctrl s V4L2_CID_EXPOSURE) = false ->
  ctype (ctrl s V4L2_CID_EXPOSURE) = V4L2_CTRL_TYPE_INTEGER ->
  minimum (ctrl s V4L2_CID_EXPOSURE) = imx307_EXPOSURE_MIN ->
  step (ctrl s V4L2_CID_EXPOSURE) = imx307_EXPOSURE_STEP ->
  let H := height (cur_mode s) in
  let X := val (ctrl s V4L2_CID_VBLANK) in
  imx307_EXPOSURE_MIN <= H + X - 4 < 2 ^ 31 ->
  let E := cur_val (ctrl s V4L2_CID_EXPOSURE) in
  let E' := clamp E imx307_EXPOSURE_MIN (H + X - 4) in
  let r := imx307_set_ctrl s V4L2_CID_VBLANK in
  fst r = 0 /\
  trace (snd r) =
    [EvPmPut; ctrl_write imx307_REG_VTS 2 (H + X) 4; EvPmGetIfInUse 1]
    ++ (if E' =? E then []
        else [EvPmPut; ctrl_write imx307_REG_EXPOSURE 2 E' 4;
              EvPmGetIfInUse 1])
    ++ trace s /\
  cur_val (ctrl (snd r) V4L2_CID_EXPOSURE) = E' /\
  usage_count (snd r) = usage_count s /\
  runtime_active (snd r) = true /\
  only_ctrl V4L2_CID_EXPOSURE s (snd r).
Proof.
  intros A U B G T Mn Sp H X He E E' r. subst r.
  rewrite imx307_set_ctrl_eq. unfold imx307_set_ctrl_body.
  rewrite Mn, Sp. fold H. fold X.
  rewrite s32_u32_small by (unfold imx307_EXPOSURE_MIN in He; lia).
  destruct (modify_range_exposure_powered s (H + X - 4) A U B G T
              (proj1 He)) as (Rt & Rv & Ru & Ra & Ro & Rp).
  pose proof (steady_modify_range imx307_ctrl_ops s V4L2_CID_EXPOSURE
                imx307_EXPOSURE_MIN (H + X - 4) 1
                (exposure_def_of (H + X - 4)) steady_imx307_set_ctrl) as St.
  fold E in Rt, Rv. fold E' in Rt, Rv.
  unfold imx307_ctrl_ops in Rt, Rv, Ru, Ra, Ro, Rp, St.
  change imx307_EXPOSURE_STEP with 1.
  destruct (__v4l2_ctrl_modify_range imx307_set_ctrl s V4L2_CID_EXPOSURE
              imx307_EXPOSURE_MIN (H + X - 4) 1
              (exposure_def_of (H + X - 4))) as [rr s1].
  cbn [fst snd] in *.
  assert (bus_ok s1) as B1 by (apply (bus_ok_same_platform _ _ Rp B)).
  unfold pm_runtime_get_if_in_use. rewrite Ra.
  destruct (Z.ltb_spec 0 (usage_count s1)) as [_|]; [|lia].
  cbn [andb]. cbv iota. change (1 =? 0) with false. cbv iota zeta.
  set (sg := emit (with_usage_count s1 (usage_count s1 + 1))
               (EvPmGetIfInUse 1)).
  rewrite write_reg_sends by (unfold imx307_REG_VALUE_16BIT; lia).
  change (i2c_bus sg (i2c_xfers sg) (imx307_REG_VALUE_16BIT + 2))
    with (i2c_bus s1 (i2c_xfers s1) 4).
  rewrite (B1 (i2c_xfers s1) 4). change (4 =? imx307_REG_VALUE_16BIT + 2)
    with true. cbv iota.
  change (ctrl sg V4L2_CID_VBLANK) with (ctrl s1 V4L2_CID_VBLANK).
  change (cur_mode sg) with (cur_mode s1).
  rewrite (Ro V4L2_CID_VBLANK) by discriminate. fold X.
  unfold cur_mode. rewrite (steady_mode _ _ St). fold (cur_mode s). fold H.
  unfold pm_runtime_put. cbv zeta. subst sg.
  cbn [usage_count runtime_active emit with_usage_count with_i2c_xfers].
  destruct (Z.eqb_spec (usage_count s1 + 1 - 1) 0) as [|_]; [lia|].
  cbn [andb]. cbv iota.
  cbn [fst snd trace usage_count runtime_active emit with_usage_count
       with_i2c_xfers].
  split; [reflexivity|].
  split.
  { rewrite Rt. unfold ctrl_write. rewrite u32_u32. reflexivity. }
  split; [exact Rv|]. split; [lia|]. split; [exact Ra | exact Ro].
Qed.

(** X24.  A vertical-blank write on a streaming sensor keeps the exposure
    inside the frame on the sensor too.  In any reachable state in which
    the device is in use and the bus takes every transfer, setting the
    vertical blank to a value that (after clamping into its range)
    differs from the stored one returns 0 and stores the clamped value X.
    If the stored exposure exceeds the new frame length less 4 it is
    clamped and written to the exposure register first; then the frame
    length, height + X, is written to the VTS register.  Nothing else is
    sent, and the power reference is as before. *)
Theorem vblank_write_when_powered (s : imx307) (v : Z) :
  reachable s -> runtime_active s = true -> 0 < usage_count s -> bus_ok s ->
  let H := height (cur_mode s) in
  let X := clamp (s32 v) imx307_VBLANK_MIN (imx307_VTS_MAX - H) in
  X <> cur_val (ctrl s V4L2_CID_VBLANK) ->
  let E := cur_val (ctrl s V4L2_CID_EXPOSURE) in
  let E' := clamp E imx307_EXPOSURE_MIN (H + X - 4) in
  let r := v4l2_s_ctrl imx307_ctrl_ops s V4L2_CID_VBLANK v in
  fst r = 0 /\
  cur_val (ctrl (snd r) V4L2_CID_VBLANK) = X /\
  cur_val (ctrl (snd r) V4L2_CID_EXPOSURE) = E' /\
  E' <= H + X - 4 /\
  trace (snd r) =
    [EvPmPut; ctrl_write imx307_REG_VTS 2 (H + X) 4; EvPmGetIfInUse 1]
    ++ (if E' =? E then []
        else [EvPmPut; ctrl_write imx307_REG_EXPOSURE 2 E' 4;
              EvPmGetIfInUse 1])
    ++ trace s /\
  usage_count (snd r) = usage_count s /\
  runtime_active (snd r) = true.
Proof.
  intros Rs A U B H X Nx E E' r. pose proof (reachable_wf s Rs) as W.
  pose proof (wf_mode _ W) as Hm.
  pose proof (mode_height_cases (mode s) Hm) as Hh. fold (cur_mode s) in Hh.
  fold H in Hh.
  assert (imx307_VBLANK_MIN <= X <= imx307_VTS_MAX - H) as HX
      by (subst X; unfold clamp, imx307_VBLANK_MIN, imx307_VTS_MAX; lia).
  assert (ctype (ctrl s V4L2_CID_VBLANK) = V4L2_CTRL_TYPE_INTEGER) as Tv
      by apply (wf_ctype _ W).
  assert (is_read_only (ctrl s V4L2_CID_VBLANK) = false) as Rv
      by apply (wf_read_only _ W).
  subst r. rewrite v4l2_s_ctrl_writable by assumption.
  unfold __v4l2_ctrl_s_ctrl, is_int. rewrite Tv. cbn [negb]. cbv iota.
  set (s1 := put_ctrl s V4L2_CID_VBLANK _).
  assert (ctrl s1 V4L2_CID_VBLANK = with_val (ctrl s V4L2_CID_VBLANK) (s32 v))
    as C1 by (subst s1; apply ctrl_put_same).
  unfold set_ctrl, validate_new. rewrite C1.
  cbn [ctype with_val val]. rewrite Tv.
  rewrite round_step1
    by (cbn [step minimum maximum with_val];
        rewrite ?(wf_vblank_step _ W), ?(wf_vblank_min _ W),
          ?(wf_vblank_max _ W); fold H;
        unfold imx307_VBLANK_MIN, imx307_VTS_MAX in *; lia).
  cbn [minimum maximum with_val].
  rewrite (wf_vblank_min _ W), (wf_vblank_max _ W). fold H. fold X.
  change (negb (0 =? 0)) with false. cbv iota.
  set (c2 := with_val (with_val (ctrl s V4L2_CID_VBLANK) (s32 v)) X).
  set (s2 := put_ctrl s1 V4L2_CID_VBLANK c2).
  assert (ctrl s2 V4L2_CID_VBLANK = c2) as C2
      by (subst s2; apply ctrl_put_same).
  assert (forall j, j <> V4L2_CID_VBLANK -> ctrl s2 j = ctrl s j) as O2
      by (intros j Nj; subst s2 s1; now rewrite !ctrl_put_other).
  unfold try_or_set_cluster. rewrite C2.
  pose proof (reachable_not_grabbed s V4L2_CID_VBLANK Rs eq_refl) as Gv.
  unfold is_grabbed in *. subst c2. cbn [flags with_val val cur_val].
  rewrite Gv.
  destruct (Z.eqb_spec X (cur_val (ctrl s V4L2_CID_VBLANK))) as [Eq|_];
    [contradiction|].
  assert (runtime_active s2 = true) as A2 by exact A.
  assert (0 < usage_count s2) as U2 by exact U.
  assert (bus_ok s2) as B2 by (intros n c; apply B).
  assert (imx307_EXPOSURE_MIN
          <= height (cur_mode s2) + val (ctrl s2 V4L2_CID_VBLANK) - 4
          < 2 ^ 31) as He.
  { rewrite C2. cbn [val with_val].
    change (cur_mode s2) with (cur_mode s). fold H.
    unfold imx307_EXPOSURE_MIN, imx307_VBLANK_MIN, imx307_VTS_MAX in *. lia. }
  destruct (set_ctrl_vblank_powered s2 A2 U2 B2)
    as (R0 & Rt & Re & Ru & Ra & Ro); try exact He.
  { rewrite O2 by discriminate. fold (is_grabbed (ctrl s V4L2_CID_EXPOSURE)).
    apply (reachable_not_grabbed s V4L2_CID_EXPOSURE Rs eq_refl). }
  { rewrite O2 by discriminate. apply (wf_ctype _ W). }
  { rewrite O2 by discriminate. apply (wf_exposure_min _ W). }
  { rewrite O2 by discriminate. apply (wf_exposure_step _ W). }
  rewrite C2 in Rt, Re. cbn [val with_val] in Rt, Re.
  change (cur_mode s2) with (cur_mode s) in Rt, Re. fold H in Rt, Re.
  rewrite (O2 V4L2_CID_EXPOSURE) in Rt, Re by discriminate.
  fold E in Rt, Re. fold E' in Rt, Re.
  change (trace s2) with (trace s) in Rt.
  change (usage_count s2) with (usage_count s) in Ru.
  pose proof (Ro V4L2_CID_VBLANK) as Own. rewrite C2 in Own.
  unfold imx307_ctrl_ops.
  destruct (imx307_set_ctrl s2 V4L2_CID_VBLANK) as [ret s3].
  cbn [fst snd] in *. subst ret.
  change (negb (0 =? 0)) with false. cbv iota. cbn [fst snd].
  unfold new_to_cur.
  split; [reflexivity|].
  split; [rewrite ctrl_put_same; cbn [cur_val with_cur_val];
          rewrite Own by discriminate; reflexivity|].
  rewrite !(ctrl_put_other _ _ V4L2_CID_EXPOSURE) by discriminate.
  split; [exact Re|].
  split; [subst E'; unfold clamp, imx307_EXPOSURE_MIN, imx307_VBLANK_MIN in *;
          lia|].
  split; [exact Rt|]. split; [exact Ru | exact Ra].
Qed.

Lemma vblank_write_when_powered_witness :
  fst (v4l2_s_ctrl imx307_ctrl_ops streaming_sensor V4L2_CID_VBLANK 100) = 0 /\
  cur_val (ctrl (snd (v4l2_s_ctrl imx307_ctrl_ops streaming_sensor
                        V4L2_CID_VBLANK 100)) V4L2_CID_VBLANK) =
    clamp (s32 100) imx307_VBLANK_MIN
      (imx307_VTS_MAX - height (cur_mode streaming_sensor)) /\
  trace (snd (v4l2_s_ctrl imx307_ctrl_ops streaming_sensor V4L2_CID_VBLANK
                100)) =
    [EvPmPut;
     ctrl_write imx307_REG_VTS 2
       (height (cur_mode streaming_sensor)
        + clamp (s32 100) imx307_VBLANK_MIN
            (imx307_VTS_MAX - height (cur_mode streaming_sensor))) 4;
     EvPmGetIfInUse 1]
    ++ (if clamp (cur_val (ctrl streaming_sensor V4L2_CID_EXPOSURE))
             imx307_EXPOSURE_MIN
             (height (cur_mode streaming_sensor)
              + clamp (s32 100) imx307_VBLANK_MIN
                  (imx307_VTS_MAX - height (cur_mode streaming_sensor)) - 4)
           =? cur_val (ctrl streaming_sensor V4L2_CID_EXPOSURE)
        then []
        else [EvPmPut;
              ctrl_write imx307_REG_EXPOSURE 2
                (clamp (cur_val (ctrl streaming_sensor V4L2_CID_EXPOSURE))
                   imx307_EXPOSURE_MIN
                   (height (cur_mode streaming_sensor)
                    + clamp (s32 100) imx307_VBLANK_MIN
                        (imx307_VTS_MAX
                         - height (cur_mode streaming_sensor)) - 4)) 4;
              EvPmGetIfInUse 1])
    ++ trace streaming_sensor.
Proof.
  assert (reachable streaming_sensor) as R
      by (exists good_bus, good_supply, good_supply, [Set_stream 1];
          reflexivity).
  assert (runtime_active streaming_sensor = true) as A
      by (vm_compute; reflexivity).
  assert (0 < usage_count streaming_sensor) as U
      by (vm_compute; reflexivity).
  assert (bus_ok streaming_sensor) as B by (intros n c; reflexivity).
  assert (clamp (s32 100) imx307_VBLANK_MIN
            (imx307_VTS_MAX - height (cur_mode streaming_sensor))
          <> cur_val (ctrl streaming_sensor V4L2_CID_VBLANK)) as N
      by (vm_compute; discriminate).
  pose proof (vblank_write_when_powered streaming_sensor 100 R A U B N)
    as (H0 & H1 & _ & _ & Ht & _).
  split; [exact H0|]. split; [exact H1 | exact Ht].
Defined.

(** ** The flips at stream start *)

(** The callback on a flip of a device in use: one write of both flips to
    the orientation register. *)
Lemma set_ctrl_flip_powered (s : imx307) (id : ctrl_id) :
  runtime_active s = true -> 0 < usage_count s -> is_flip id = true ->
  let n := i2c_bus s (i2c_xfers s) 3 in
  let o := s32 (Z.lor (val (ctrl s V4L2_CID_HFLIP))
                  (s32 (Z.shiftl (val (ctrl s V4L2_CID_VFLIP)) 1))) in
  let r := imx307_set_ctrl s id in
  fst r = (if n =? 3 then 0 else - EIO) /\
  trace (snd r) =
    EvPmPut :: ctrl_write imx307_REG_ORIENTATION 1 o n
    :: EvPmGetIfInUse 1 :: trace s /\
  usage_count (snd r) = usage_count s /\
  runtime_active (snd r) = true /\
  same_ctrls s (snd r) /\
  same_platform s (snd r).
Proof.
  intros A U F n o r. subst n o r.
  assert (id <> V4L2_CID_VBLANK) as Nv by (intros ->; discriminate F).
  pose proof (imx307_set_ctrl_same_ctrls s id Nv) as Sc.
  pose proof (same_platform_imx307_set_ctrl s id) as Sp.
  revert Sc Sp.
  rewrite imx307_set_ctrl_eq. unfold imx307_set_ctrl_body.
  unfold pm_runtime_get_if_in_use.
  destruct id; try discriminate F; rewrite A;
    (destruct (Z.ltb_spec 0 (usage_count s)) as [_|]; [|lia]);
    cbn [andb]; cbv iota; change (1 =? 0) with false; cbv iota zeta;
    rewrite write_reg_sends by lia; change (1 + 2) with 3;
    unfold pm_runtime_put; cbv zeta;
    cbn [usage_count runtime_active emit with_usage_count with_i2c_xfers
         i2c_bus i2c_xfers];
    (destruct (Z.eqb_spec (usage_count s + 1 - 1) 0) as [|_]; [lia|]);
    cbn [andb]; cbv iota;
    cbn [fst snd trace i2c_xfers usage_count runtime_active emit
         with_usage_count with_i2c_xfers];
    intros Sc Sp;
    repeat split; try assumption; try reflexivity; try lia; apply Sp.
Qed.

Lemma handler_setup_loop_app (ops : v4l2_ctrl_ops) (l1 l2 : list ctrl_id)
    (s : imx307) :
  handler_setup_loop ops s (l1 ++ l2) =
  let '(ret, s1) := handler_setup_loop ops s l1 in
  if negb (ret =? 0) then (ret, s1) else handler_setup_loop ops s1 l2.
Proof.
  revert s. induction l1 as [|j rest IH]; intros s;
    cbn [app handler_setup_loop].
  - reflexivity.
  - destruct (is_read_only (ctrl s j)); [apply IH|].
    destruct (ops (cur_to_new s j) j) as [ret s1].
    destruct (negb (ret =? 0)) eqn:E; [|apply IH].
    rewrite E. reflexivity.
Qed.

Lemma steady_handler_setup_loop (l : list ctrl_id) (s : imx307) :
  steady s (snd (handler_setup_loop imx307_ctrl_ops s l)).
Proof.
  apply frame_handler_setup_loop.
  - exact steady_refl.
  - exact steady_trans.
  - exact steady_put_val.
  - exact steady_imx307_set_ctrl.
Qed.

Lemma same_platform_handler_setup_loop (l : list ctrl_id) (s : imx307) :
  same_platform s (snd (handler_setup_loop imx307_ctrl_ops s l)).
Proof.
  apply frame_handler_setup_loop.
  - exact sp_refl.
  - exact sp_trans.
  - intros; apply sp_put_ctrl.
  - exact same_platform_imx307_set_ctrl.
Qed.

(** A control that is not in the list, other than the exposure, comes out
    of the loop as it went in. *)
Lemma handler_setup_loop_keeps_ctrl (j : ctrl_id) (l : list ctrl_id)
    (s : imx307) :
  ~ In j l -> j <> V4L2_CID_EXPOSURE ->
  ctrl (snd (handler_setup_loop imx307_ctrl_ops s l)) j = ctrl s j.
Proof.
  intros Nin Ne. revert s.
  induction l as [|k rest IH]; intros s; cbn [handler_setup_loop];
    [reflexivity|].
  assert (j <> k) as Nk by (intros ->; apply Nin; now left).
  assert (~ In j rest) as Nr by (intros H; apply Nin; now right).
  destruct (is_read_only (ctrl s k)); [now apply IH|].
  pose proof (imx307_set_ctrl_only_exposure (cur_to_new s k) k j Ne) as O.
  unfold imx307_ctrl_ops.
  destruct (imx307_set_ctrl (cur_to_new s k) k) as [ret s1].
  cbn [snd] in O.
  assert (ctrl s1 j = ctrl s j) as E
      by (rewrite O; unfold cur_to_new; now apply ctrl_put_other).
  destruct (negb (ret =? 0)); cbn [snd]; [exact E|].
  rewrite (IH Nr). exact E.
Qed.

(** One turn of the loop on a flip. *)
Lemma handler_setup_step_flip (s : imx307) (id : ctrl_id) :
  is_flip id = true ->
  bus_ok s -> runtime_active s = true -> 0 < usage_count s ->
  (forall j, is_read_only (ctrl s j) = read_only_id j) ->
  let sc := cur_to_new s id in
  let o := s32 (Z.lor (val (ctrl sc V4L2_CID_HFLIP))
                  (s32 (Z.shiftl (val (ctrl sc V4L2_CID_VFLIP)) 1))) in
  let r := handler_setup_loop imx307_ctrl_ops s [id] in
  fst r = 0 /\
  trace (snd r) =
    [EvPmPut; ctrl_write imx307_REG_ORIENTATION 1 o 3; EvPmGetIfInUse 1]
    ++ trace s /\
  same_ctrls sc (snd r) /\
  bus_ok (snd r) /\ runtime_active (snd r) = true /\
  0 < usage_count (snd r) /\
  (forall j, is_read_only (ctrl (snd r) j) = read_only_id j).
Proof.
  intros F B A U Ro sc o r. subst r. cbn [handler_setup_loop].
  rewrite Ro.
  assert (read_only_id id = false) as -> by (destruct id; now try discriminate F).
  fold sc.
  assert (bus_ok sc) as Bc by (intros n c; apply B).
  assert (runtime_active sc = true) as Ac by exact A.
  assert (0 < usage_count sc) as Uc by exact U.
  destruct (set_ctrl_flip_powered sc id Ac Uc F)
    as (R0 & R1 & R2 & R3 & R4 & R5).
  pose proof (steady_imx307_set_ctrl sc id) as St.
  rewrite (Bc (i2c_xfers sc) 3) in R0, R1.
  change (3 =? 3) with true in R0. cbv iota in R0.
  fold o in R1. change (trace sc) with (trace s) in R1.
  change (usage_count sc) with (usage_count s) in R2.
  unfold imx307_ctrl_ops.
  destruct (imx307_set_ctrl sc id) as [ret s1]. cbn [fst snd] in *.
  subst ret. change (negb (0 =? 0)) with false. cbv iota. cbn [fst snd].
  split; [reflexivity|]. split; [exact R1|]. split; [exact R4|].
  split; [apply (bus_ok_same_platform _ _ R5 Bc)|].
  split; [exact R3|]. split; [lia|].
  intros j. rewrite (steady_is_read_only _ _ j St). unfold sc.
  rewrite (steady_is_read_only _ _ j (steady_cur_to_new s id)). apply Ro.
Qed.

(** *** No later write to the orientation register *)

Lemma not_orientation_write (id : ctrl_id) (reg len0 len v n : Z) :
  ctrl_register id = Some (reg, len0) ->
  writes_reg imx307_REG_ORIENTATION (ctrl_write reg len v n) = false.
Proof.
  destruct id; intros E; try discriminate E; injection E as <- <-;
    reflexivity.
Qed.

Lemma newest_write_app (reg : Z) (t1 t2 : list event) :
  newest_write reg t1 = None ->
  newest_write reg (t1 ++ t2) = newest_write reg t2.
Proof.
  unfold newest_write. induction t1 as [|e t IH]; cbn [find app];
    [reflexivity|].
  destruct (writes_reg reg e); [discriminate | exact IH].
Qed.

(** The callback on the test pattern of a device in use. *)
Lemma set_ctrl_test_pattern_powered (s : imx307) :
  runtime_active s = true -> 0 < usage_count s ->
  let n := i2c_bus s (i2c_xfers s) 4 in
  let r := imx307_set_ctrl s V4L2_CID_TEST_PATTERN in
  fst r = (if n =? 4 then 0 else - EIO) /\
  trace (snd r) =
    EvPmPut
    :: ctrl_write imx307_REG_TEST_PATTERN 2
         (nth (Z.to_nat (val (ctrl s V4L2_CID_TEST_PATTERN)))
            imx307_test_pattern_val 0) n
    :: EvPmGetIfInUse 1 :: trace s.
Proof.
  intros A U n r. subst n r.
  rewrite imx307_set_ctrl_eq. unfold imx307_set_ctrl_body.
  unfold pm_runtime_get_if_in_use. rewrite A.
  destruct (Z.ltb_spec 0 (usage_count s)) as [_|]; [|lia].
  cbn [andb]. cbv iota. change (1 =? 0) with false. cbv iota zeta.
  rewrite write_reg_sends by (unfold imx307_REG_VALUE_16BIT; lia).
  change (imx307_REG_VALUE_16BIT + 2) with 4.
  unfold pm_runtime_put. cbv zeta.
  cbn [usage_count runtime_active emit with_usage_count with_i2c_xfers
       i2c_bus i2c_xfers].
  destruct (Z.eqb_spec (usage_count s + 1 - 1) 0) as [|_]; [lia|].
  cbn [andb]. cbv iota.
  cbn [fst snd trace i2c_xfers usage_count runtime_active emit
       with_usage_count with_i2c_xfers].
  split; reflexivity.
Qed.

(** The loop over controls other than the vertical blank and the flips, on
    a device in use with a working bus, writes nothing to the orientation
    register. *)
Lemma handler_setup_loop_no_orientation (l : list ctrl_id) :
  (forall id, In id l -> is_flip id = false /\ id <> V4L2_CID_VBLANK) ->
  forall s,
    bus_ok s -> runtime_active s = true -> 0 < usage_count s ->
    (forall j, is_read_only (ctrl s j) = read_only_id j) ->
    exists t,
      trace (snd (handler_setup_loop imx307_ctrl_ops s l)) = t ++ trace s /\
      newest_write imx307_REG_ORIENTATION t = None.
Proof.
  induction l as [|id rest IH]; intros Hl s B A U Ro;
    cbn [handler_setup_loop].
  - exists []. split; reflexivity.
  - assert (forall j, In j rest ->
                      is_flip j = false /\ j <> V4L2_CID_VBLANK) as Hr
        by (intros j Hj; apply Hl; now right).
    destruct (Hl id (or_introl eq_refl)) as [Nf Nv].
    rewrite Ro. destruct (read_only_id id) eqn:Rid; [now apply IH|].
    set (sc := cur_to_new s id).
    assert (bus_ok sc) as Bc by (intros n c; apply B).
    assert (runtime_active sc = true) as Ac by exact A.
    assert (0 < usage_count sc) as Uc by exact U.
    pose proof (set_ctrl_ok sc id Bc Rid) as Z0.
    pose proof (same_platform_imx307_set_ctrl sc id) as Sp.
    pose proof (steady_imx307_set_ctrl sc id) as St.
    assert (exists e,
              trace (snd (imx307_set_ctrl sc id)) =
                [EvPmPut; e; EvPmGetIfInUse 1] ++ trace s /\
              writes_reg imx307_REG_ORIENTATION e = false) as (e & Te & We).
    { destruct (ctrl_register id) as [[reg len]|] eqn:Cr.
      - destruct (set_ctrl_powered sc id reg len Ac Uc Cr) as (_ & R1 & _).
        eexists. split; [exact R1|].
        apply (not_orientation_write id reg len _ _ _ Cr).
      - destruct id; try discriminate Cr; try discriminate Rid;
          try discriminate Nf; try contradiction.
        destruct (set_ctrl_test_pattern_powered sc Ac Uc) as (_ & R1).
        eexists. split; [exact R1 | reflexivity]. }
    unfold imx307_ctrl_ops in *.
    destruct (imx307_set_ctrl sc id) as [ret s1]. cbn [fst snd] in *.
    subst ret. change (negb (0 =? 0)) with false. cbv iota.
    assert (bus_ok s1) as B1 by (apply (bus_ok_same_platform _ _ Sp Bc)).
    assert (runtime_active s1 = true) as A1
        by (rewrite (steady_active _ _ St); exact Ac).
    assert (0 < usage_count s1) as U1
        by (rewrite (steady_usage _ _ St); exact Uc).
    assert (forall k, is_read_only (ctrl s1 k) = read_only_id k) as Ro1.
    { intros k. rewrite (steady_is_read_only _ _ k St). unfold sc.
      rewrite (steady_is_read_only _ _ k (steady_cur_to_new s id)).
      apply Ro. }
    destruct (IH Hr s1 B1 A1 U1 Ro1) as (t & Et & Nt).
    exists (t ++ [EvPmPut; e; EvPmGetIfInUse 1]). split.
    + rewrite Et, Te, <- app_assoc. reflexivity.
    + rewrite newest_write_app by exact Nt.
      unfold newest_write. cbn [find writes_reg]. rewrite We. reflexivity.
Qed.

(** [__v4l2_ctrl_handler_setup] on a device in use with a working bus:
    the last write to the orientation register carries the stored flips,
    and the new value of either flip is left equal to the stored one. *)
Lemma handler_setup_programs_flips (s : imx307) :
  bus_ok s -> runtime_active s = true -> 0 < usage_count s ->
  (forall j, is_read_only (ctrl s j) = read_only_id j) ->
  let h := cur_val (ctrl s V4L2_CID_HFLIP) in
  let v := cur_val (ctrl s V4L2_CID_VFLIP) in
  let o := s32 (Z.lor h (s32 (Z.shiftl v 1))) in
  let s3 := snd (__v4l2_ctrl_handler_setup imx307_ctrl_ops s) in
  (exists ctl,
     trace s3 = ctl ++ trace s /\
     newest_write imx307_REG_ORIENTATION ctl =
       Some (ctrl_write imx307_REG_ORIENTATION 1 o 3)) /\
  val (ctrl s3 V4L2_CID_HFLIP) = h /\ val (ctrl s3 V4L2_CID_VFLIP) = v /\
  cur_val (ctrl s3 V4L2_CID_HFLIP) = h /\
  cur_val (ctrl s3 V4L2_CID_VFLIP) = v.
Proof.
  intros B A U Ro h v o s3. subst s3. unfold __v4l2_ctrl_handler_setup.
  set (l1 := [V4L2_CID_PIXEL_RATE; V4L2_CID_VBLANK; V4L2_CID_HBLANK;
              V4L2_CID_EXPOSURE; V4L2_CID_ANALOGUE_GAIN;
              V4L2_CID_DIGITAL_GAIN]).
  set (l2 := [V4L2_CID_TEST_PATTERN; V4L2_CID_TEST_PATTERN_RED;
              V4L2_CID_TEST_PATTERN_GREENR; V4L2_CID_TEST_PATTERN_BLUE;
              V4L2_CID_TEST_PATTERN_GREENB]).
  change handler_ctrls
    with (l1 ++ [V4L2_CID_HFLIP] ++ [V4L2_CID_VFLIP] ++ l2).
  (* the controls before the flips *)
  rewrite handler_setup_loop_app.
  pose proof (handler_setup_loop_ok l1 s B Ro) as F1.
  pose proof (steady_handler_setup_loop l1 s) as St1.
  pose proof (same_platform_handler_setup_loop l1 s) as Sp1.
  pose proof (trace_grows_handler_setup_loop l1 s) as (tA & TA).
  assert (ctrl (snd (handler_setup_loop imx307_ctrl_ops s l1))
            V4L2_CID_HFLIP = ctrl s V4L2_CID_HFLIP) as Kh.
  { apply handler_setup_loop_keeps_ctrl; [|discriminate].
    subst l1. cbn [In]. intros H.
    repeat (destruct H as [H|H]; [discriminate H|]). exact H. }
  assert (ctrl (snd (handler_setup_loop imx307_ctrl_ops s l1))
            V4L2_CID_VFLIP = ctrl s V4L2_CID_VFLIP) as Kv.
  { apply handler_setup_loop_keeps_ctrl; [|discriminate].
    subst l1. cbn [In]. intros H.
    repeat (destruct H as [H|H]; [discriminate H|]). exact H. }
  destruct (handler_setup_loop imx307_ctrl_ops s l1) as [r sA].
  cbn [fst snd] in *. subst r. change (negb (0 =? 0)) with false. cbv iota.
  assert (bus_ok sA) as BA by (apply (bus_ok_same_platform _ _ Sp1 B)).
  assert (runtime_active sA = true) as AA
      by (rewrite (steady_active _ _ St1); exact A).
  assert (0 < usage_count sA) as UA
      by (rewrite (steady_usage _ _ St1); exact U).
  assert (forall j, is_read_only (ctrl sA j) = read_only_id j) as RoA
      by (intros j; rewrite (steady_is_read_only _ _ j St1); apply Ro).
  (* the horizontal flip *)
  rewrite handler_setup_loop_app.
  destruct (handler_setup_step_flip sA V4L2_CID_HFLIP eq_refl BA AA UA RoA)
    as (FB & TB & KB & BB & AB & UB & RoB).
  destruct (handler_setup_loop imx307_ctrl_ops sA [V4L2_CID_HFLIP])
    as [r sB].
  cbn [fst snd] in *. subst r. change (negb (0 =? 0)) with false. cbv iota.
  assert (ctrl sB V4L2_CID_HFLIP =
          with_val (ctrl s V4L2_CID_HFLIP) h) as ChB.
  { rewrite KB. unfold cur_to_new. rewrite ctrl_put_same, Kh. reflexivity. }
  assert (ctrl sB V4L2_CID_VFLIP = ctrl s V4L2_CID_VFLIP) as CvB.
  { rewrite KB. unfold cur_to_new. rewrite ctrl_put_other by discriminate.
    exact Kv. }
  (* the vertical flip *)
  rewrite handler_setup_loop_app.
  destruct (handler_setup_step_flip sB V4L2_CID_VFLIP eq_refl BB AB UB RoB)
    as (FC & TC & KC & BC & AC & UC & RoC).
  assert (ctrl (cur_to_new sB V4L2_CID_VFLIP) V4L2_CID_HFLIP =
          with_val (ctrl s V4L2_CID_HFLIP) h) as ChC.
  { unfold cur_to_new. rewrite ctrl_put_other by discriminate. exact ChB. }
  assert (ctrl (cur_to_new sB V4L2_CID_VFLIP) V4L2_CID_VFLIP =
          with_val (ctrl s V4L2_CID_VFLIP) v) as CvC.
  { unfold cur_to_new. rewrite ctrl_put_same, CvB. reflexivity. }
  rewrite ChC, CvC in TC. cbn [val with_val] in TC. fold o in TC.
  destruct (handler_setup_loop imx307_ctrl_ops sB [V4L2_CID_VFLIP])
    as [r sC].
  cbn [fst snd] in *. subst r. change (negb (0 =? 0)) with false. cbv iota.
  (* the controls after the flips *)
  destruct (handler_setup_loop_no_orientation l2) with (s := sC)
    as (tD & TD & ND); try assumption.
  { subst l2. cbn [In]. intros id H.
    repeat (destruct H as [<-|H]; [split; [reflexivity | discriminate]|]).
    contradiction. }
  assert (ctrl (snd (handler_setup_loop imx307_ctrl_ops sC l2))
            V4L2_CID_HFLIP = ctrl sC V4L2_CID_HFLIP) as Kh2.
  { apply handler_setup_loop_keeps_ctrl; [|discriminate].
    subst l2. cbn [In]. intros H.
    repeat (destruct H as [H|H]; [discriminate H|]). exact H. }
  assert (ctrl (snd (handler_setup_loop imx307_ctrl_ops sC l2))
            V4L2_CID_VFLIP = ctrl sC V4L2_CID_VFLIP) as Kv2.
  { apply handler_setup_loop_keeps_ctrl; [|discriminate].
    subst l2. cbn [In]. intros H.
    repeat (destruct H as [H|H]; [discriminate H|]). exact H. }
  rewrite Kh2, Kv2, !KC, ChC, CvC. cbn [val cur_val with_val].
  split; [|repeat split; reflexivity].
  exists (tD ++ [EvPmPut; ctrl_write imx307_REG_ORIENTATION 1 o 3;
                 EvPmGetIfInUse 1]
             ++ [EvPmPut;
                 ctrl_write imx307_REG_ORIENTATION 1
                   (s32 (Z.lor (val (ctrl (cur_to_new sA V4L2_CID_HFLIP)
                                       V4L2_CID_HFLIP))
                           (s32 (Z.shiftl
                                   (val (ctrl (cur_to_new sA V4L2_CID_HFLIP)
                                           V4L2_CID_VFLIP)) 1)))) 3;
                 EvPmGetIfInUse 1]
             ++ tA).
  split.
  - rewrite TD, TC, TB, TA. rewrite <- !app_assoc. reflexivity.
  - rewrite newest_write_app by exact ND.
    unfold newest_write. cbn [app find writes_reg].
    change (writes_reg imx307_REG_ORIENTATION
              (ctrl_write imx307_REG_ORIENTATION 1 o 3)) with true.
    reflexivity.
Qed.


Lemma newest_write_app_found (reg : Z) (t1 t2 : list event) (e : event) :
  newest_write reg t1 = Some e -> newest_write reg (t1 ++ t2) = Some e.
Proof.
  unfold newest_write. induction t1 as [|a t IH]; cbn [find app];
    [discriminate|].
  destruct (writes_reg reg a); [trivial | exact IH].
Qed.

(** X25.  After a start the sensor is flipped as the driver says it is.
    From any reachable STOPPED state with no power reference missing, on
    working hardware, [imx307_set_stream(1)] returns 0 and the last write
    to the orientation register 0x0172 in its traffic carries the stored
    flips, [hflip | vflip << 1]; and the flips from which
    [imx307_get_format_code] computes the Bayer order it reports are those
    same stored flips, whatever was requested and refused before. *)
Theorem flips_are_programmed_at_start (s : imx307) :
  reachable s -> bus_ok s -> supplies_ok s -> streaming s = false ->
  0 <= usage_count s ->
  let h := cur_val (ctrl s V4L2_CID_HFLIP) in
  let v := cur_val (ctrl s V4L2_CID_VFLIP) in
  exists s',
    imx307_set_stream s 1 = (0, s') /\
    newest_write imx307_REG_ORIENTATION (trace s') =
      Some (ctrl_write imx307_REG_ORIENTATION 1
              (s32 (Z.lor h (s32 (Z.shiftl v 1)))) 3) /\
    hflip_on s' = negb (h =? 0) /\ vflip_on s' = negb (v =? 0) /\
    cur_val (ctrl s' V4L2_CID_HFLIP) = h /\
    cur_val (ctrl s' V4L2_CID_VFLIP) = v.
Proof.
  intros Rs B Sup St Un h v.
  destruct (start_on_working_hardware s Rs B Sup St Un)
    as (s2 & K & B2 & A2 & U2 & Ro2 & T2 & _ & s' & E & T' & V').
  destruct (handler_setup_programs_flips s2 B2 A2 U2 Ro2)
    as ((ctl & Tc & Nc) & Vh & Vv & Ch & Cv).
  rewrite (K V4L2_CID_HFLIP), (K V4L2_CID_VFLIP) in Nc.
  rewrite (K V4L2_CID_HFLIP) in Vh, Ch. rewrite (K V4L2_CID_VFLIP) in Vv, Cv.
  fold h v in Nc, Vh, Vv, Ch, Cv.
  exists s'. split; [exact E|].
  split.
  { rewrite T', Tc. unfold newest_write. cbn [find].
    change (writes_reg imx307_REG_ORIENTATION
              (table_write (R imx307_REG_MODE_SELECT imx307_MODE_STREAMING)))
      with false. cbv iota.
    apply newest_write_app_found. exact Nc. }
  unfold hflip_on, vflip_on.
  rewrite (proj1 (V' V4L2_CID_HFLIP)), (proj1 (V' V4L2_CID_VFLIP)).
  rewrite (proj2 (V' V4L2_CID_HFLIP)), (proj2 (V' V4L2_CID_VFLIP)).
  rewrite Vh, Vv, Ch, Cv. repeat split; reflexivity.
Qed.

Lemma flips_are_programmed_at_start_witness :
  cur_val (ctrl (run sound_sensor [S_ctrl V4L2_CID_HFLIP 1]) V4L2_CID_HFLIP)
    = 1 /\
  exists s',
    imx307_set_stream (run sound_sensor [S_ctrl V4L2_CID_HFLIP 1]) 1
      = (0, s') /\
    newest_write imx307_REG_ORIENTATION (trace s') =
      Some (EvI2cSend [0x01; 0x72; 0x01] 3) /\
    hflip_on s' = true /\ vflip_on s' = false.
Proof.
  split; [reflexivity|].
  assert (reachable (run sound_sensor [S_ctrl V4L2_CID_HFLIP 1])) as Rs
      by (exists good_bus, good_supply, good_supply,
            [S_ctrl V4L2_CID_HFLIP 1]; reflexivity).
  assert (bus_ok (run sound_sensor [S_ctrl V4L2_CID_HFLIP 1])) as B
      by (intros n c; reflexivity).
  assert (supplies_ok (run sound_sensor [S_ctrl V4L2_CID_HFLIP 1])) as Sup
      by (intros n; split; reflexivity).
  assert (streaming (run sound_sensor [S_ctrl V4L2_CID_HFLIP 1]) = false)
    as St by reflexivity.
  assert (0 <= usage_count (run sound_sensor [S_ctrl V4L2_CID_HFLIP 1]))
    as Un by (vm_compute; discriminate).
  destruct (flips_are_programmed_at_start _ Rs B Sup St Un)
    as (s' & E & N & Hh & Hv & _).
  exists s'. split; [exact E|]. split; [exact N|].
  split; [exact Hh | exact Hv].
Defined.
(** ** Streaming, power and system sleep *)

(** A conjunction of closed equations, each settled by evaluation. *)
Ltac by_computation :=
  repeat match goal with |- _ /\ _ => split end;
  vm_compute; reflexivity.

Lemma power_is_of_consistent (s : imx307) :
  power_consistent s -> power_is s (Z.b2z (runtime_active s)).
Proof. intros H. exact H. Qed.

Lemma reachable_power_consistent (s : imx307) :
  reachable s -> power_consistent s.
Proof.
  intros (bus & reg & clk & cs & ->).
  apply (keeps_power_run cs). repeat split.
Qed.

Lemma reachable_run (s : imx307) (cs : list call) :
  reachable s -> reachable (run s cs).
Proof.
  intros (bus & reg & clk & cs0 & ->).
  exists bus, reg, clk, (cs0 ++ cs). unfold run. now rewrite fold_left_app.
Qed.


(** The trace of [pm_runtime_put]. *)
Lemma pm_runtime_put_trace (s : imx307) :
  trace (pm_runtime_put s) =
  (if (usage_count s =? 1) && runtime_active s then power_off_events else [])
  ++ EvPmPut :: trace s /\
  runtime_active (pm_runtime_put s) =
    runtime_active s && negb (usage_count s =? 1).
Proof.
  unfold pm_runtime_put, imx307_power_off, power_off_events. cbv zeta.
  cbn [usage_count runtime_active emit with_usage_count snd].
  destruct (Z.eqb_spec (usage_count s - 1) 0) as [E|N];
    destruct (Z.eqb_spec (usage_count s) 1) as [E1|N1]; try lia;
    destruct (runtime_active s) eqn:A; cbn [andb negb app];
    cbn [trace runtime_active with_runtime_active emit with_usage_count];
    rewrite ?A; split; reflexivity.
Qed.

(** [imx307_stop_streaming], from any state: what it adds to the trace and
    what it does to the power reference. *)
Lemma stop_streaming_effect (s : imx307) :
  trace (imx307_stop_streaming s) =
    stop_events (i2c_bus s (i2c_xfers s) 3)
      ((usage_count s =? 1) && runtime_active s) ++ trace s /\
  runtime_active (imx307_stop_streaming s) =
    runtime_active s && negb (usage_count s =? 1) /\
  i2c_xfers (imx307_stop_streaming s) = S (i2c_xfers s).
Proof.
  pose proof (stop_streaming_eq s) as E. cbv zeta in E. rewrite E.
  set (n := i2c_bus s (i2c_xfers s) 3).
  set (s1 := emit (with_i2c_xfers s (S (i2c_xfers s))) (EvI2cSend _ n)).
  set (s2 := if n =? 3 then s1 else emit s1 (EvLog LogFailedToSetStream)).
  set (s4 := __v4l2_ctrl_grab (__v4l2_ctrl_grab s2 V4L2_CID_VFLIP false)
               V4L2_CID_HFLIP false).
  destruct (pm_runtime_put_trace s4) as [T A].
  assert (usage_count s4 = usage_count s /\
          runtime_active s4 = runtime_active s /\
          i2c_xfers s4 = S (i2c_xfers s) /\
          trace s4 = (if n =? 3 then [] else [EvLog LogFailedToSetStream])
                     ++ EvI2cSend (write_reg_buf8 imx307_REG_MODE_SELECT
                                     imx307_MODE_STANDBY) n :: trace s)
    as (U4 & A4 & X4 & T4)
      by (subst s4 s2 s1; destruct (n =? 3); repeat split).
  rewrite U4, A4, T4 in T. rewrite U4, A4 in A.
  split; [|split; [exact A|]].
  - rewrite T. unfold stop_events.
    rewrite <- !app_assoc. cbn [app]. rewrite <- !app_assoc. reflexivity.
  - unfold pm_runtime_put. cbv zeta.
    match goal with |- context [if ?c then _ else _] => destruct c end;
      exact X4.
Qed.

(** *** Power through the steps of start() *)

Lemma kp_refl (s : imx307) : keeps_power_consistent s s.
Proof. intros H; exact H. Qed.

Lemma kp_trans (s1 s2 s3 : imx307) :
  keeps_power_consistent s1 s2 -> keeps_power_consistent s2 s3 ->
  keeps_power_consistent s1 s3.
Proof. intros A B H. apply B, A, H. Qed.

Lemma kp_send (s : imx307) (buf : list Z) :
  keeps_power_consistent s (snd (i2c_master_send s buf)).
Proof. apply power_consistent_inert; reflexivity. Qed.

Lemma kp_log (s : imx307) (m : log_msg) :
  keeps_power_consistent s (emit s (EvLog m)).
Proof. apply power_consistent_inert; reflexivity. Qed.

Lemma kp_put_ctrl (s : imx307) (id : ctrl_id) (c : v4l2_ctrl) :
  keeps_power_consistent s (put_ctrl s id c).
Proof. apply power_consistent_inert; reflexivity. Qed.

Lemma kp_get_if_in_use (s : imx307) :
  keeps_power_consistent s (snd (pm_runtime_get_if_in_use s)).
Proof.
  unfold pm_runtime_get_if_in_use.
  destruct (_ && _); apply power_consistent_inert; reflexivity.
Qed.

Lemma kp_write_regs (regs : list imx307_reg) (s : imx307) :
  keeps_power_consistent s (snd (imx307_write_regs s regs)).
Proof.
  apply fr_write_regs; auto using kp_refl, kp_send, kp_log.
  apply kp_trans.
Qed.

Lemma kp_set_framefmt (s : imx307) :
  keeps_power_consistent s (snd (imx307_set_framefmt s)).
Proof.
  apply fr_set_framefmt; auto using kp_refl, kp_send, kp_log.
  apply kp_trans.
Qed.

Lemma kp_handler_setup (s : imx307) :
  keeps_power_consistent s (snd (__v4l2_ctrl_handler_setup imx307_ctrl_ops s)).
Proof.
  apply fr_handler_setup;
    auto using kp_refl, kp_send, kp_log, kp_put_ctrl, kp_get_if_in_use,
               keeps_power_put.
  apply kp_trans.
Qed.

Lemma kp_write_reg (s : imx307) (reg len v : Z) :
  keeps_power_consistent s (snd (imx307_write_reg s reg len v)).
Proof. apply fr_write_reg; auto using kp_refl, kp_send. Qed.

Lemma calm_trans (s1 s2 s3 : imx307) : calm s1 s2 -> calm s2 s3 -> calm s1 s3.
Proof.
  intros (A1 & B1 & C1) (A2 & B2 & C2).
  split; [eapply steady_trans; eassumption|].
  split; [eapply kp_trans | eapply tg_trans]; eassumption.
Qed.

Lemma calm_log (s : imx307) (m : log_msg) : calm s (emit s (EvLog m)).
Proof.
  split; [apply steady_emit|].
  split; [apply kp_log | apply tg_emit; reflexivity].
Qed.

Lemma calm_write_regs (regs : list imx307_reg) (s : imx307) :
  calm s (snd (imx307_write_regs s regs)).
Proof.
  split; [apply steady_write_regs|].
  split; [apply kp_write_regs | apply fr_write_regs; trace_prims].
Qed.

Lemma calm_set_framefmt (s : imx307) : calm s (snd (imx307_set_framefmt s)).
Proof.
  split; [apply steady_set_framefmt|].
  split; [apply kp_set_framefmt | apply fr_set_framefmt; trace_prims].
Qed.

Lemma calm_handler_setup (s : imx307) :
  calm s (snd (__v4l2_ctrl_handler_setup imx307_ctrl_ops s)).
Proof.
  split; [apply steady_handler_setup|].
  split; [apply kp_handler_setup | apply trace_grows_handler_setup].
Qed.

Lemma calm_write_reg (s : imx307) (reg len v : Z) :
  calm s (snd (imx307_write_reg s reg len v)).
Proof.
  split; [apply steady_write_reg|].
  split; [apply kp_write_reg | apply fr_write_reg; trace_prims].
Qed.

(** Once power is acquired, [imx307_start_streaming] goes through calm
    steps to a state [mid] that still holds the reference, and then either
    drops it and fails, or has just written stream-on, grabs both flips and
    succeeds. *)
Lemma start_streaming_mid (s : imx307) :
  0 <= fst (pm_runtime_get_sync s) ->
  exists mid,
    calm (snd (pm_runtime_get_sync s)) mid /\
    ((fst (imx307_start_streaming s) <> 0 /\
      snd (imx307_start_streaming s) = pm_runtime_put mid) \/
     (imx307_start_streaming s =
        (0, __v4l2_ctrl_grab (__v4l2_ctrl_grab mid V4L2_CID_VFLIP true)
              V4L2_CID_HFLIP true) /\
      hd_error (trace mid) =
        Some (EvI2cSend (write_reg_buf8 imx307_REG_MODE_SELECT
                           imx307_MODE_STREAMING) 3))).
Proof.
  unfold imx307_start_streaming.
  destruct (pm_runtime_get_sync s) as [r0 s0]. cbn [fst snd]. intros P.
  destruct (Z.ltb_spec r0 0) as [L|_]; [lia|].
  pose proof (calm_write_regs (reg_list (cur_mode s0)) s0) as H1.
  destruct (imx307_write_regs s0 (reg_list (cur_mode s0))) as [r1 s1].
  cbn [snd] in H1. destruct (Z.eqb_spec r1 0) as [E1|E1]; cbn [negb fst snd].
  2:{ exists (emit s1 (EvLog LogFailedToSetMode)). split.
      - eapply calm_trans; [exact H1 | apply calm_log].
      - left. split; [exact E1 | reflexivity]. }
  pose proof (calm_set_framefmt s1) as H2.
  destruct (imx307_set_framefmt s1) as [r2 s2].
  cbn [snd] in H2. destruct (Z.eqb_spec r2 0) as [E2|E2]; cbn [negb fst snd].
  2:{ exists (emit s2 (EvLog (LogFailedToSetFrameFormat r2))). split.
      - eapply calm_trans; [exact H1|].
        eapply calm_trans; [exact H2 | apply calm_log].
      - left. split; [exact E2 | reflexivity]. }
  pose proof (calm_handler_setup s2) as H3.
  destruct (__v4l2_ctrl_handler_setup imx307_ctrl_ops s2) as [r3 s3].
  cbn [snd] in H3. destruct (Z.eqb_spec r3 0) as [E3|E3]; cbn [negb fst snd].
  2:{ exists s3. split.
      - eapply calm_trans; [exact H1|]. eapply calm_trans; [exact H2|].
        exact H3.
      - left. split; [exact E3 | reflexivity]. }
  pose proof (calm_write_reg s3 imx307_REG_MODE_SELECT
                imx307_REG_VALUE_08BIT imx307_MODE_STREAMING) as H4.
  unfold imx307_REG_VALUE_08BIT in *. rewrite write_reg8 in *.
  cbn [snd] in H4.
  set (n := i2c_bus s3 (i2c_xfers s3) 3) in *.
  set (s4 := emit (with_i2c_xfers s3 (S (i2c_xfers s3))) (EvI2cSend _ n))
    in *.
  assert (calm s0 s4) as H
      by (eapply calm_trans; [exact H1|]; eapply calm_trans; [exact H2|];
          eapply calm_trans; [exact H3 | exact H4]).
  exists s4. split; [exact H|].
  destruct (Z.eqb_spec n 3) as [E4|E4].
  - right. change (negb (0 =? 0)) with false. cbv iota.
    split; [reflexivity|]. subst s4. cbn [trace emit hd_error].
    now rewrite E4.
  - left. change (negb (- EIO =? 0)) with true. cbv iota. cbn [fst snd].
    split; [discriminate | reflexivity].
Qed.

Lemma start_streaming_failure_mid (s : imx307) :
  0 <= fst (pm_runtime_get_sync s) ->
  fst (imx307_start_streaming s) <> 0 ->
  exists mid,
    snd (imx307_start_streaming s) = pm_runtime_put mid /\
    calm (snd (pm_runtime_get_sync s)) mid.
Proof.
  intros P N.
  destruct (start_streaming_mid s P) as (mid & C & [[_ Hp]|[Hok _]]).
  - exists mid. split; assumption.
  - rewrite Hok in N. cbn [fst] in N. contradiction.
Qed.








(** *** Suspend and resume *)

(** [pm_runtime_get_sync] notes itself first. *)
Lemma get_sync_begins (s : imx307) :
  exists l, trace (snd (pm_runtime_get_sync s)) = l ++ EvPmGetSync :: trace s.
Proof.
  unfold pm_runtime_get_sync, imx307_power_on. cbv zeta.
  cbn [runtime_active emit with_usage_count].
  destruct (runtime_active s); [exists []; reflexivity|].
  repeat match goal with
         | |- context [if ?b then _ else _] => destruct b
         end;
    cbn [snd trace emit with_runtime_active with_power_ups with_usage_count];
    match goal with
    | |- exists l, ?t = _ =>
        let l := events_above t (EvPmGetSync :: trace s) in
        exists l; reflexivity
    end.
Qed.

(** start() begins with taking the power reference, however it ends. *)
Lemma start_streaming_begins (s : imx307) :
  exists l,
    trace (snd (imx307_start_streaming s)) = l ++ EvPmGetSync :: trace s.
Proof.
  destruct (get_sync_begins s) as (l0 & T0).
  destruct (Z.lt_ge_cases (fst (pm_runtime_get_sync s)) 0) as [L|G].
  - rewrite (start_streaming_power_failure s L). cbn [snd].
    exists (EvPmPutNoidle :: l0). unfold pm_runtime_put_noidle.
    cbn [trace emit with_usage_count]. rewrite T0. reflexivity.
  - destruct (start_streaming_mid s G)
      as (mid & (_ & _ & (l1 & T1)) & [[_ Hp]|[Hok _]]).
    + destruct (tg_put mid) as (l2 & T2). rewrite Hp.
      exists (l2 ++ l1 ++ l0). rewrite T2, T1, T0, <- !app_assoc.
      reflexivity.
    + rewrite Hok. cbn [snd]. exists (l1 ++ l0).
      change (trace (__v4l2_ctrl_grab (__v4l2_ctrl_grab mid V4L2_CID_VFLIP true)
                       V4L2_CID_HFLIP true)) with (trace mid).
      rewrite T1, T0, <- app_assoc. reflexivity.
Qed.

(** A failed start leaves the usage count where it was. *)
Lemma start_streaming_failed_usage (s : imx307) :
  fst (imx307_start_streaming s) <> 0 ->
  usage_count (snd (imx307_start_streaming s)) = usage_count s.
Proof.
  intros N.
  destruct (pm_runtime_get_sync_spec s) as (_ & U0 & _).
  destruct (Z.lt_ge_cases (fst (pm_runtime_get_sync s)) 0) as [L|G].
  - rewrite (start_streaming_power_failure s L). cbn [snd].
    unfold pm_runtime_put_noidle. cbn [usage_count emit with_usage_count].
    lia.
  - destruct (start_streaming_failure_mid s G N) as (mid & Hp & Hs & _).
    destruct (pm_runtime_put_spec mid) as (_ & U1 & _).
    rewrite Hp, U1, (steady_usage _ _ Hs). lia.
Qed.

(** A start that succeeds holds one reference more on an active device,
    keeps the streaming flag, has both flips grabbed and has written
    stream-on last. *)
Lemma start_streaming_success (s : imx307) :
  fst (imx307_start_streaming s) = 0 ->
  usage_count (snd (imx307_start_streaming s)) = usage_count s + 1 /\
  runtime_active (snd (imx307_start_streaming s)) = true /\
  hd_error (trace (snd (imx307_start_streaming s))) =
    Some (EvI2cSend (write_reg_buf8 imx307_REG_MODE_SELECT
                       imx307_MODE_STREAMING) 3).
Proof.
  intros Z0.
  destruct (Z.lt_ge_cases (fst (pm_runtime_get_sync s)) 0) as [L|G].
  { rewrite (start_streaming_power_failure s L) in Z0. cbn [fst] in Z0. lia. }
  destruct (pm_runtime_get_sync_spec s) as (_ & U0 & A0 & _).
  specialize (A0 G).
  destruct (start_streaming_mid s G) as (mid & (Hs & _) & [[N _]|[Hok Hd]]);
    [contradiction|].
  rewrite Hok. cbn [snd].
  change (usage_count (__v4l2_ctrl_grab (__v4l2_ctrl_grab mid V4L2_CID_VFLIP true)
                         V4L2_CID_HFLIP true)) with (usage_count mid).
  change (runtime_active
            (__v4l2_ctrl_grab (__v4l2_ctrl_grab mid V4L2_CID_VFLIP true)
               V4L2_CID_HFLIP true)) with (runtime_active mid).
  change (trace (__v4l2_ctrl_grab (__v4l2_ctrl_grab mid V4L2_CID_VFLIP true)
                   V4L2_CID_HFLIP true)) with (trace mid).
  rewrite (steady_usage _ _ Hs), (steady_active _ _ Hs).
  split; [exact U0|]. split; [exact A0 | exact Hd].
Qed.

(** On working hardware start() succeeds, whatever the streaming flag. *)
Lemma start_streaming_ok (s : imx307) :
  In (format_code (fmt s)) codes ->
  (forall id, is_read_only (ctrl s id) = read_only_id id) ->
  bus_ok s -> supplies_ok s ->
  fst (imx307_start_streaming s) = 0.
Proof.
  intros Cd Ro B Sup. unfold imx307_start_streaming.
  pose proof (get_sync_ok s Sup) as G0.
  destruct (pm_runtime_get_sync_spec s) as ((I1 & I2 & I3 & I4) & _).
  pose proof (sp_get_sync s) as P0.
  destruct (pm_runtime_get_sync s) as [r0 s0]. cbn [fst snd] in *.
  destruct (Z.ltb_spec r0 0) as [|_]; [lia|].
  assert (bus_ok s0) as B0 by (apply (bus_ok_same_platform _ _ P0 B)).
  destruct (write_regs_ok (reg_list (cur_mode s0)) s0 B0) as [F1 _].
  pose proof (steady_write_regs (reg_list (cur_mode s0)) s0) as S1.
  pose proof (same_platform_write_regs (reg_list (cur_mode s0)) s0) as P1.
  destruct (imx307_write_regs s0 (reg_list (cur_mode s0))) as [r1 s1].
  cbn [fst snd] in *. subst r1. change (negb (0 =? 0)) with false. cbv iota.
  assert (bus_ok s1) as B1 by (apply (bus_ok_same_platform _ _ P1 B0)).
  assert (In (format_code (fmt s1)) codes) as C1
      by (rewrite (steady_fmt _ _ S1), I1; exact Cd).
  destruct (set_framefmt_ok s1 B1 C1) as [F2 _].
  pose proof (steady_set_framefmt s1) as S2.
  pose proof (same_platform_set_framefmt s1) as P2.
  destruct (imx307_set_framefmt s1) as [r2 s2].
  cbn [fst snd] in *. subst r2. change (negb (0 =? 0)) with false. cbv iota.
  assert (bus_ok s2) as B2 by (apply (bus_ok_same_platform _ _ P2 B1)).
  assert (forall id, is_read_only (ctrl s2 id) = read_only_id id) as Ro2.
  { intros id. rewrite (steady_is_read_only _ _ id S2).
    rewrite (steady_is_read_only _ _ id S1).
    unfold is_read_only. rewrite I4. apply Ro. }
  pose proof (handler_setup_loop_ok handler_ctrls s2 B2 Ro2) as F3.
  fold (__v4l2_ctrl_handler_setup imx307_ctrl_ops s2) in F3.
  pose proof (same_platform_handler_setup s2) as P3.
  destruct (__v4l2_ctrl_handler_setup imx307_ctrl_ops s2) as [r3 s3].
  cbn [fst snd] in *. subst r3. change (negb (0 =? 0)) with false. cbv iota.
  assert (bus_ok s3) as B3 by (apply (bus_ok_same_platform _ _ P3 B2)).
  unfold imx307_REG_VALUE_08BIT.
  rewrite write_reg8, (B3 (i2c_xfers s3) 3).
  reflexivity.
Qed.

(** C9.  Suspend while STREAMING runs the stop sequence exactly as
    [imx307_set_stream s 0] runs it for a caller (stream-off write, flips
    released, power reference put), except that it leaves the streaming
    flag set.  Because the flag is still set, the resume that follows
    runs start() again, which begins by taking the power reference, and
    returns what start() returns; on working hardware that is 0.  When the
    restart succeeds the instance streams again: flips grabbed, powered,
    the usage count back at its value before the suspend, stream-on
    written last.  When it fails, resume runs the stop sequence on the
    state the failed start left, clears the flag and returns the failure;
    that stop sequence puts a reference that the failed start had already
    put, so the usage count ends two below its value before the suspend.
    While STOPPED, suspend and resume change nothing. *)
Theorem suspend_resume_streaming (s : imx307) :
  reachable s ->
  let su := imx307_suspend s in
  let re := imx307_resume (snd su) in
  if streaming s then
    fst su = 0 /\
    with_streaming (snd su) false = snd (imx307_set_stream s 0) /\
    streaming (snd su) = true /\
    flips_grabbed (snd su) false /\
    usage_count (snd su) = usage_count s - 1 /\
    trace (snd su) =
      stop_events (i2c_bus s (i2c_xfers s) 3)
        ((usage_count s =? 1) && runtime_active s) ++ trace s /\
    fst re = fst (imx307_start_streaming (snd su)) /\
    (exists l, trace (snd re) = l ++ EvPmGetSync :: trace (snd su)) /\
    (bus_ok s -> supplies_ok s -> fst re = 0) /\
    (fst re = 0 ->
     streaming (snd re) = true /\
     flips_grabbed (snd re) true /\
     usage_count (snd re) = usage_count s /\
     runtime_active (snd re) = true /\
     power_is (snd re) 1 /\
     hd_error (trace (snd re)) =
       Some (EvI2cSend (write_reg_buf8 imx307_REG_MODE_SELECT
                          imx307_MODE_STREAMING) 3)) /\
    (fst re <> 0 ->
     streaming (snd re) = false /\
     flips_grabbed (snd re) false /\
     usage_count (snd re) = usage_count s - 2 /\
     exists sf,
       imx307_start_streaming (snd su) = (fst re, sf) /\
       usage_count sf = usage_count s - 1 /\
       trace (snd re) =
         stop_events (i2c_bus sf (i2c_xfers sf) 3)
           ((usage_count sf =? 1) && runtime_active sf) ++ trace sf)
  else
    su = (0, s) /\ imx307_resume s = (0, s).
Proof.
  intros Rs su re.
  destruct (streaming s) eqn:St.
  2:{ subst su. unfold imx307_suspend, imx307_resume. rewrite St.
      split; reflexivity. }
  assert (su = (0, imx307_stop_streaming s)) as Esu
      by (subst su; unfold imx307_suspend; now rewrite St).
  destruct (stop_streaming_spec s) as (_ & S1 & G1 & U1).
  destruct (stop_streaming_effect s) as (T1 & _ & _).
  set (s1 := imx307_stop_streaming s) in *.
  assert (streaming s1 = true) as St1 by (rewrite S1; exact St).
  assert (reachable s1) as R1.
  { replace s1 with (run s [Suspend]); [now apply reachable_run|].
    unfold run. cbn [fold_left run_call]. fold su. now rewrite Esu. }
  assert (reachable (snd re)) as R2.
  { replace (snd re) with (run s1 [Resume]); [now apply reachable_run|].
    unfold run. cbn [fold_left run_call]. subst re. now rewrite Esu. }
  assert (re = (if negb (fst (imx307_start_streaming s1) =? 0)
                then (fst (imx307_start_streaming s1),
                      with_streaming
                        (imx307_stop_streaming
                           (snd (imx307_start_streaming s1))) false)
                else (0, snd (imx307_start_streaming s1)))) as Ere.
  { subst re. rewrite Esu. cbn [snd]. unfold imx307_resume. rewrite St1.
    destruct (imx307_start_streaming s1) as [r sf]. reflexivity. }
  rewrite Esu. cbn [fst snd]. clearbody re. clear Esu su.
  split; [reflexivity|].
  split.
  { unfold imx307_set_stream. rewrite St.
    change (Z.b2z true =? 0) with false. change (negb (0 =? 0)) with false.
    reflexivity. }
  split; [exact St1|]. split; [exact G1|]. split; [exact U1|].
  split; [exact T1|].
  destruct (start_streaming_spec s1) as (_ & S2 & G2 & _).
  pose proof (start_streaming_begins s1) as Bg.
  destruct (Z.eqb_spec (fst (imx307_start_streaming s1)) 0) as [Z0|N0];
    cbn [negb] in Ere; subst re; cbn [fst snd] in *.
  - destruct (start_streaming_success s1 Z0) as (U2 & A2 & Hd).
    pose proof (power_is_of_consistent _ (reachable_power_consistent _ R2))
      as Pw. rewrite A2 in Pw.
    split; [symmetry; exact Z0|]. split; [exact Bg|].
    split; [reflexivity|].
    split; [|intros N; contradiction].
    intros _. split; [rewrite S2; exact St1|]. split; [exact (G2 Z0)|].
    split; [rewrite U2, U1; lia|]. split; [exact A2|].
    split; [exact Pw | exact Hd].
  - pose proof (start_streaming_failed_usage s1 N0) as U2.
    set (sf := snd (imx307_start_streaming s1)) in *.
    destruct (stop_streaming_spec sf) as (_ & _ & G3 & U3).
    destruct (stop_streaming_effect sf) as (T3 & _ & _).
    split; [reflexivity|].
    split.
    { destruct Bg as (l & Tl).
      change (trace (with_streaming (imx307_stop_streaming sf) false))
        with (trace (imx307_stop_streaming sf)).
      rewrite T3, Tl. eexists. rewrite app_assoc. reflexivity. }
    split.
    { intros B Sup. exfalso. apply N0.
      pose proof (reachable_wf s1 R1) as W.
      pose proof (same_platform_run [Suspend] s) as Sp.
      assert (run s [Suspend] = s1) as Er
          by (unfold run; cbn [fold_left run_call]; unfold imx307_suspend;
              now rewrite St).
      rewrite Er in Sp.
      apply start_streaming_ok.
      - apply (wf_code _ W).
      - apply (wf_read_only _ W).
      - apply (bus_ok_same_platform _ _ Sp B).
      - apply (supplies_ok_same_platform _ _ Sp Sup). }
    split; [intros Z0; contradiction|].
    intros _. split; [reflexivity|]. split; [exact G3|].
    split.
    { change (usage_count (with_streaming (imx307_stop_streaming sf) false))
        with (usage_count (imx307_stop_streaming sf)).
      rewrite U3, U2, U1. lia. }
    exists sf. split; [subst sf; apply surjective_pairing|].
    split; [rewrite U2; exact U1 | exact T3].
Qed.

(** A streaming sensor on sound hardware comes back from a suspend
    streaming, powered and with the flips grabbed.  One whose bus fails
    the first transfer of the restart comes back STOPPED, with the error
    and with a usage count of -1. *)
Lemma suspend_resume_streaming_witness :
  (streaming streaming_sensor = true /\
   power_is (snd (imx307_suspend streaming_sensor)) 0 /\
   fst (imx307_resume (snd (imx307_suspend streaming_sensor))) = 0 /\
   streaming (snd (imx307_resume (snd (imx307_suspend streaming_sensor))))
     = true /\
   flips_grabbed
     (snd (imx307_resume (snd (imx307_suspend streaming_sensor)))) true /\
   usage_count (snd (imx307_resume (snd (imx307_suspend streaming_sensor))))
     = usage_count streaming_sensor /\
   power_is (snd (imx307_resume (snd (imx307_suspend streaming_sensor)))) 1) /\
  (streaming streaming_before_bus_failure = true /\
   usage_count streaming_before_bus_failure = 1 /\
   fst (imx307_resume (snd (imx307_suspend streaming_before_bus_failure)))
     = - EIO /\
   streaming
     (snd (imx307_resume (snd (imx307_suspend streaming_before_bus_failure))))
     = false /\
   flips_grabbed
     (snd (imx307_resume (snd (imx307_suspend streaming_before_bus_failure))))
     false /\
   usage_count
     (snd (imx307_resume (snd (imx307_suspend streaming_before_bus_failure))))
     = -1).
Proof.
  split.
  - assert (reachable streaming_sensor) as Rs
        by (exists good_bus, good_supply, good_supply, [Set_stream 1];
            reflexivity).
    assert (bus_ok streaming_sensor) as B by (intros n c; reflexivity).
    assert (supplies_ok streaming_sensor) as Sup
        by (intros n; split; reflexivity).
    pose proof (suspend_resume_streaming streaming_sensor Rs) as H.
    cbv zeta in H.
    change (streaming streaming_sensor) with true in H. cbv iota in H.
    destruct H as (_ & _ & _ & _ & _ & _ & _ & _ & Ok & Good & _).
    destruct (Good (Ok B Sup)) as (S & G & U & _ & Pw & _).
    split; [reflexivity|].
    split; [unfold power_is; by_computation|].
    split; [exact (Ok B Sup)|]. split; [exact S|]. split; [exact G|].
    split; [exact U | exact Pw].
  - assert (reachable streaming_before_bus_failure) as Rs
        by (exists (bus_failing_at 70), good_supply, good_supply,
              [Set_stream 1]; reflexivity).
    assert (usage_count streaming_before_bus_failure = 1) as One
        by (vm_compute; reflexivity).
    assert (fst (imx307_resume
                   (snd (imx307_suspend streaming_before_bus_failure)))
            = - EIO) as Er by (vm_compute; reflexivity).
    pose proof (suspend_resume_streaming streaming_before_bus_failure Rs)
      as H.
    cbv zeta in H.
    change (streaming streaming_before_bus_failure) with true in H.
    cbv iota in H.
    destruct H as (_ & _ & _ & _ & _ & _ & _ & _ & _ & _ & Bad).
    destruct Bad as (S & G & U & _); [rewrite Er; discriminate|].
    rewrite One in U.
    split; [reflexivity|]. split; [exact One|]. split; [exact Er|].
    split; [exact S|]. split; [exact G | exact U].
Defined.

(** *** The flips outside a system suspend *)

(** Whatever the state before it, resume leaves the flips grabbed if it
    leaves the instance STREAMING. *)
Lemma resume_restores_flips (s : imx307) :
  streaming (snd (imx307_resume s)) = true ->
  flips_grabbed (snd (imx307_resume s)) true.
Proof.
  unfold imx307_resume. destruct (streaming s) eqn:St; cbn [snd];
    [|intros E; rewrite St in E; discriminate E].
  destruct (start_streaming_spec s) as (_ & _ & G1 & _).
  destruct (imx307_start_streaming s) as [ret s1]. cbn [fst snd] in *.
  destruct (Z.eqb_spec ret 0) as [Z0|N0]; cbn [negb snd].
  - intros _. now apply G1.
  - intros E. discriminate E.
Qed.

Lemma outside_suspend_frozen (cs : list call) (s : imx307) (b : bool) :
  (b = false -> streaming s = true -> flips_grabbed s true) ->
  fold_left suspend_step cs b = false ->
  streaming (run s cs) = true -> flips_grabbed (run s cs) true.
Proof.
  revert s b. induction cs as [|c cs IH]; intros s b H A; cbn [fold_left] in A.
  - exact (H A).
  - apply (IH (run_call s c) (suspend_step b c)); [|exact A].
    intros B St.
    destruct c as [cfg f|id v|enable| |]; cbn [suspend_step] in B;
      try discriminate B.
    + destruct (run_call_flip_effect s (Set_pad_format cfg f))
        as [S F|S G|S G|C _ _ _]; try congruence.
      eapply flips_grabbed_flags; [exact F|]. apply (H B). now rewrite <- S.
    + destruct (run_call_flip_effect s (S_ctrl id v))
        as [S F|S G|S G|C _ _ _]; try congruence.
      eapply flips_grabbed_flags; [exact F|]. apply (H B). now rewrite <- S.
    + destruct (run_call_flip_effect s (Set_stream enable))
        as [S F|S G|S G|C _ _ _]; try congruence.
      eapply flips_grabbed_flags; [exact F|]. apply (H B). now rewrite <- S.
    + cbn [run_call] in *. now apply resume_restores_flips.
Qed.

Lemma reachable_outside_suspend_reachable (s : imx307) :
  reachable_outside_suspend s -> reachable s.
Proof.
  intros (bus & reg & clk & cs & _ & E). exists bus, reg, clk, cs. exact E.
Qed.

Lemma reachable_outside_suspend_resumed_sensor :
  reachable_outside_suspend resumed_sensor.
Proof.
  exists good_bus, good_supply, good_supply, [Set_stream 1; Suspend; Resume].
  split; reflexivity.
Qed.

(** C7 (as the code has it).  In every reachable state that is not
    between a system suspend and the resume that follows it, STREAMING
    implies that hflip and vflip are both grabbed, and there any attempt
    to set either through [v4l2_s_ctrl] returns -EBUSY and leaves the
    stored value of every control alone.  This holds after every
    completed suspend and resume, whatever was called in between.  A
    successful start() leaves both flips grabbed and stop() leaves both
    released, from any state. *)
Theorem flips_frozen_while_streaming (s : imx307) :
  reachable_outside_suspend s -> streaming s = true ->
  flips_grabbed s true /\
  (forall id v,
     id = V4L2_CID_HFLIP \/ id = V4L2_CID_VFLIP ->
     fst (v4l2_s_ctrl imx307_ctrl_ops s id v) = - EBUSY /\
     forall j, cur_val (ctrl (snd (v4l2_s_ctrl imx307_ctrl_ops s id v)) j)
               = cur_val (ctrl s j)) /\
  (forall s0, fst (imx307_start_streaming s0) = 0 ->
              flips_grabbed (snd (imx307_start_streaming s0)) true) /\
  (forall s0, flips_grabbed (imx307_stop_streaming s0) false).
Proof.
  intros R St.
  pose proof (reachable_wf s (reachable_outside_suspend_reachable s R)) as W.
  destruct R as (bus & reg & clk & cs & A & ->).
  assert (flips_grabbed (run (imx307_probe bus reg clk) cs) true) as [Gh Gv].
  { apply (outside_suspend_frozen cs _ false); [|exact A | exact St].
    intros _ S0. discriminate S0. }
  split; [split; assumption|].
  split.
  { intros id v [-> | ->]; apply v4l2_s_ctrl_grabbed; auto;
      try (rewrite (wf_ctype _ W); reflexivity);
      rewrite (wf_read_only _ W); reflexivity. }
  split.
  - intros s0. apply start_streaming_spec.
  - intros s0. apply stop_streaming_spec.
Qed.

(** A sensor that streamed, was suspended and resumed streams with its
    flips grabbed; [streaming_sensor], which was never suspended, too. *)
Lemma flips_frozen_while_streaming_witness :
  streaming resumed_sensor = true /\
  flips_grabbed resumed_sensor true /\
  fst (v4l2_s_ctrl imx307_ctrl_ops resumed_sensor V4L2_CID_HFLIP 1)
    = - EBUSY.
Proof.
  assert (streaming resumed_sensor = true) as St
      by (vm_compute; reflexivity).
  destruct (flips_frozen_while_streaming resumed_sensor
              reachable_outside_suspend_resumed_sensor St) as (G & B & _).
  split; [exact St|]. split; [exact G|].
  exact (proj1 (B V4L2_CID_HFLIP 1 (or_introl eq_refl))).
Defined.

(** *** Vertical blank and exposure through [v4l2_s_ctrl] *)



